(** * Spatial referencing of a structured model grid (flopy/utils/reference.py)

    A shallow embedding of [SpatialReference] and of the constructor of
    [SpatialReferenceUnstructured], over the real numbers: numpy's float
    arrays become lists of [R], so every statement below is about exact real
    arithmetic and says nothing about rounding. *)

From Stdlib Require Import String Ascii ZArith Bool Reals Lra Lia List.
Import ListNotations.

Local Open Scope string_scope.
Local Open Scope list_scope.
Local Open Scope R_scope.

(** ** Exceptions and results *)

Inductive exn : Type :=
| TypeError (msg : string)
| ValueError (msg : string)
| AttributeError (attr : string)
| AssertionError
| KeyError
| IndexError
| IOError
| OutOfModel.
(** [OutOfModel] is not a Python exception: it marks an input on which the
    embedding does not follow numpy or the interpreter (broadcasting of
    arrays of different shapes, a value whose dynamic type has no typed
    field to go to). No statement below is about such an input. *)

Inductive result (A : Type) : Type :=
| Ok (a : A)
| Raise (e : exn).
Arguments Ok {A} a.
Arguments Raise {A} e.

Definition rbind {A B} (r : result A) (f : A -> result B) : result B :=
  match r with
  | Ok a => f a
  | Raise e => Raise e
  end.

(** ** numpy arrays

    An array is its shape and its data in C (row-major) order; a numpy
    scalar is the array of shape [[]]. *)

Record ndarray : Type := mk_nd { shape : list nat; data : list R }.

Definition size_of (sh : list nat) : nat := fold_right Nat.mul 1%nat sh.

Definition wf_nd (a : ndarray) : Prop :=
  length (data a) = size_of (shape a).

Definition scalar (v : R) : ndarray := mk_nd [] [v].

Fixpoint eqb_shape (s t : list nat) : bool :=
  match s, t with
  | [], [] => true
  | n :: s', m :: t' => Nat.eqb n m && eqb_shape s' t'
  | _, _ => false
  end.

Definition map2 {A B C} (f : A -> B -> C) (l : list A) (m : list B) : list C :=
  map (fun p => f (fst p) (snd p)) (combine l m).

(** [a op v] and [v op a] for an array [a] and a Python float [v]. *)
Definition nd_map (f : R -> R) (a : ndarray) : ndarray :=
  mk_nd (shape a) (map f (data a)).

(** [a op b] for two arrays of one shape. *)
Definition nd_zip (f : R -> R -> R) (a b : ndarray) : result ndarray :=
  if eqb_shape (shape a) (shape b)
  then Ok (mk_nd (shape a) (map2 f (data a) (data b)))
  else Raise OutOfModel.

(** ** The rotation primitive (a static method) *)

Definition rotate (x y : ndarray) (theta : R) (xorigin yorigin : R)
  : result (ndarray * ndarray) :=
  let theta := theta * PI / 180 in
  let dx := nd_map (fun v => v - xorigin) x in
  let dy := nd_map (fun v => v - yorigin) y in
  rbind (nd_zip Rminus
           (nd_map (fun v => xorigin + v) (nd_map (fun v => cos theta * v) dx))
           (nd_map (fun v => sin theta * v) dy)) (fun xrot =>
  rbind (nd_zip Rplus
           (nd_map (fun v => yorigin + v) (nd_map (fun v => sin theta * v) dx))
           (nd_map (fun v => cos theta * v) dy)) (fun yrot =>
  Ok (xrot, yrot))).

(** The same computation on one point. *)
Definition rotate_x (x y theta xo yo : R) : R :=
  xo + cos (theta * PI / 180) * (x - xo) - sin (theta * PI / 180) * (y - yo).

Definition rotate_y (x y theta xo yo : R) : R :=
  yo + sin (theta * PI / 180) * (x - xo) + cos (theta * PI / 180) * (y - yo).

(** ** Spacing vectors: edges and centers in model space *)

(** [np.add.reduce] and [np.add.accumulate] on a one-dimensional array. *)
Definition add_reduce (l : list R) : R := fold_left Rplus l 0.

Fixpoint accumulate_from (acc : R) (l : list R) : list R :=
  match l with
  | [] => []
  | v :: t => (acc + v) :: accumulate_from (acc + v) t
  end.

Definition add_accumulate (l : list R) : list R :=
  match l with
  | [] => []
  | v :: t => v :: accumulate_from v t
  end.

(** ** Python values and the frame object *)

Inductive pyval : Type :=
| PNone
| PBool (b : bool)
| PInt (z : Z)
| PFloat (r : R)
| PStr (s : string)
| PSeq (l : list R)
| PStrs (l : list string)
| PNd (a : ndarray)
| PVerts (v : list (list (R * R)))
| PIverts (l : list (list Z)).

(** The attributes of an instance. The corners, [rotation] and [origin_loc]
    start from the class attributes ([None], [0.], ['ul']); the other fields
    are written by [__init__] before anything reads them. [__dict__] holds
    every attribute the class does not name. *)
Record SpatialReference : Type := mkSR {
  delr : list R;
  delc : list R;
  lenuni : Z;
  _proj4_str : option string;
  _epsg : option Z;
  supported_units : list string;
  _units : option string;
  _length_multiplier : option R;
  xul : option R;
  yul : option R;
  xll : option R;
  yll : option R;
  rotation : R;
  origin_loc : string;
  _xgrid : option ndarray;
  _ygrid : option ndarray;
  _ycentergrid : option ndarray;
  _xcentergrid : option ndarray;
  _vertices : option (list (list (R * R)));
  __dict__ : list (string * pyval)
}.

Definition fresh : SpatialReference :=
  mkSR [] [] 0%Z None None [] None None None None None None 0 "ul"
       None None None None None [].

Definition lenuni_values : list (string * Z) :=
  [("undefined", 0%Z); ("feet", 1%Z); ("meters", 2%Z); ("centimeters", 3%Z)].

Definition lenuni_text : list (Z * string) :=
  map (fun kv => (snd kv, fst kv)) lenuni_values.

(** The names the class binds to a [property]; none has a setter. *)
Definition properties : list string :=
  ["proj4_str"; "epsg"; "units"; "length_multiplier"; "model_length_units";
   "bounds"; "nrow"; "ncol"; "attribute_dict"; "theta"; "xedge"; "yedge";
   "xgrid"; "ygrid"; "xcenter"; "ycenter"; "ycentergrid"; "xcentergrid";
   "vertices"].

Definition get_xcenter_array (s : SpatialReference) : list R :=
  map2 Rminus (add_accumulate (delr s)) (map (fun v => 0.5 * v) (delr s)).

Definition get_ycenter_array (s : SpatialReference) : list R :=
  let Ly := add_reduce (delc s) in
  map (fun v => Ly - v)
      (map2 Rminus (add_accumulate (delc s)) (map (fun v => 0.5 * v) (delc s))).

Definition get_xedge_array (s : SpatialReference) : list R :=
  [0] ++ add_accumulate (delr s).

Definition get_yedge_array (s : SpatialReference) : list R :=
  let length_y := add_reduce (delc s) in
  [length_y] ++ map (fun v => length_y - v) (add_accumulate (delc s)).

Definition xedge := get_xedge_array.
Definition yedge := get_yedge_array.
Definition xcenter := get_xcenter_array.
Definition ycenter := get_ycenter_array.

Definition nrow (s : SpatialReference) : nat := length (delc s).
Definition ncol (s : SpatialReference) : nat := length (delr s).

Definition theta (s : SpatialReference) : R := - rotation s * PI / 180.

(** ** Writing one attribute of the instance dictionary *)

Definition set_delr v s := mkSR v (delc s) (lenuni s) (_proj4_str s) (_epsg s) (supported_units s) (_units s) (_length_multiplier s) (xul s) (yul s) (xll s) (yll s) (rotation s) (origin_loc s) (_xgrid s) (_ygrid s) (_ycentergrid s) (_xcentergrid s) (_vertices s) (__dict__ s).
Definition set_delc v s := mkSR (delr s) v (lenuni s) (_proj4_str s) (_epsg s) (supported_units s) (_units s) (_length_multiplier s) (xul s) (yul s) (xll s) (yll s) (rotation s) (origin_loc s) (_xgrid s) (_ygrid s) (_ycentergrid s) (_xcentergrid s) (_vertices s) (__dict__ s).
Definition set_lenuni v s := mkSR (delr s) (delc s) v (_proj4_str s) (_epsg s) (supported_units s) (_units s) (_length_multiplier s) (xul s) (yul s) (xll s) (yll s) (rotation s) (origin_loc s) (_xgrid s) (_ygrid s) (_ycentergrid s) (_xcentergrid s) (_vertices s) (__dict__ s).
Definition set__proj4_str v s := mkSR (delr s) (delc s) (lenuni s) v (_epsg s) (supported_units s) (_units s) (_length_multiplier s) (xul s) (yul s) (xll s) (yll s) (rotation s) (origin_loc s) (_xgrid s) (_ygrid s) (_ycentergrid s) (_xcentergrid s) (_vertices s) (__dict__ s).
Definition set__epsg v s := mkSR (delr s) (delc s) (lenuni s) (_proj4_str s) v (supported_units s) (_units s) (_length_multiplier s) (xul s) (yul s) (xll s) (yll s) (rotation s) (origin_loc s) (_xgrid s) (_ygrid s) (_ycentergrid s) (_xcentergrid s) (_vertices s) (__dict__ s).
Definition set_supported_units v s := mkSR (delr s) (delc s) (lenuni s) (_proj4_str s) (_epsg s) v (_units s) (_length_multiplier s) (xul s) (yul s) (xll s) (yll s) (rotation s) (origin_loc s) (_xgrid s) (_ygrid s) (_ycentergrid s) (_xcentergrid s) (_vertices s) (__dict__ s).
Definition set__units v s := mkSR (delr s) (delc s) (lenuni s) (_proj4_str s) (_epsg s) (supported_units s) v (_length_multiplier s) (xul s) (yul s) (xll s) (yll s) (rotation s) (origin_loc s) (_xgrid s) (_ygrid s) (_ycentergrid s) (_xcentergrid s) (_vertices s) (__dict__ s).
Definition set__length_multiplier v s := mkSR (delr s) (delc s) (lenuni s) (_proj4_str s) (_epsg s) (supported_units s) (_units s) v (xul s) (yul s) (xll s) (yll s) (rotation s) (origin_loc s) (_xgrid s) (_ygrid s) (_ycentergrid s) (_xcentergrid s) (_vertices s) (__dict__ s).
Definition set_xul v s := mkSR (delr s) (delc s) (lenuni s) (_proj4_str s) (_epsg s) (supported_units s) (_units s) (_length_multiplier s) v (yul s) (xll s) (yll s) (rotation s) (origin_loc s) (_xgrid s) (_ygrid s) (_ycentergrid s) (_xcentergrid s) (_vertices s) (__dict__ s).
Definition set_yul v s := mkSR (delr s) (delc s) (lenuni s) (_proj4_str s) (_epsg s) (supported_units s) (_units s) (_length_multiplier s) (xul s) v (xll s) (yll s) (rotation s) (origin_loc s) (_xgrid s) (_ygrid s) (_ycentergrid s) (_xcentergrid s) (_vertices s) (__dict__ s).
Definition set_xll v s := mkSR (delr s) (delc s) (lenuni s) (_proj4_str s) (_epsg s) (supported_units s) (_units s) (_length_multiplier s) (xul s) (yul s) v (yll s) (rotation s) (origin_loc s) (_xgrid s) (_ygrid s) (_ycentergrid s) (_xcentergrid s) (_vertices s) (__dict__ s).
Definition set_yll v s := mkSR (delr s) (delc s) (lenuni s) (_proj4_str s) (_epsg s) (supported_units s) (_units s) (_length_multiplier s) (xul s) (yul s) (xll s) v (rotation s) (origin_loc s) (_xgrid s) (_ygrid s) (_ycentergrid s) (_xcentergrid s) (_vertices s) (__dict__ s).
Definition set_rotation v s := mkSR (delr s) (delc s) (lenuni s) (_proj4_str s) (_epsg s) (supported_units s) (_units s) (_length_multiplier s) (xul s) (yul s) (xll s) (yll s) v (origin_loc s) (_xgrid s) (_ygrid s) (_ycentergrid s) (_xcentergrid s) (_vertices s) (__dict__ s).
Definition set_origin_loc v s := mkSR (delr s) (delc s) (lenuni s) (_proj4_str s) (_epsg s) (supported_units s) (_units s) (_length_multiplier s) (xul s) (yul s) (xll s) (yll s) (rotation s) v (_xgrid s) (_ygrid s) (_ycentergrid s) (_xcentergrid s) (_vertices s) (__dict__ s).
Definition set__xgrid v s := mkSR (delr s) (delc s) (lenuni s) (_proj4_str s) (_epsg s) (supported_units s) (_units s) (_length_multiplier s) (xul s) (yul s) (xll s) (yll s) (rotation s) (origin_loc s) v (_ygrid s) (_ycentergrid s) (_xcentergrid s) (_vertices s) (__dict__ s).
Definition set__ygrid v s := mkSR (delr s) (delc s) (lenuni s) (_proj4_str s) (_epsg s) (supported_units s) (_units s) (_length_multiplier s) (xul s) (yul s) (xll s) (yll s) (rotation s) (origin_loc s) (_xgrid s) v (_ycentergrid s) (_xcentergrid s) (_vertices s) (__dict__ s).
Definition set__ycentergrid v s := mkSR (delr s) (delc s) (lenuni s) (_proj4_str s) (_epsg s) (supported_units s) (_units s) (_length_multiplier s) (xul s) (yul s) (xll s) (yll s) (rotation s) (origin_loc s) (_xgrid s) (_ygrid s) v (_xcentergrid s) (_vertices s) (__dict__ s).
Definition set__xcentergrid v s := mkSR (delr s) (delc s) (lenuni s) (_proj4_str s) (_epsg s) (supported_units s) (_units s) (_length_multiplier s) (xul s) (yul s) (xll s) (yll s) (rotation s) (origin_loc s) (_xgrid s) (_ygrid s) (_ycentergrid s) v (_vertices s) (__dict__ s).
Definition set__vertices v s := mkSR (delr s) (delc s) (lenuni s) (_proj4_str s) (_epsg s) (supported_units s) (_units s) (_length_multiplier s) (xul s) (yul s) (xll s) (yll s) (rotation s) (origin_loc s) (_xgrid s) (_ygrid s) (_ycentergrid s) (_xcentergrid s) v (__dict__ s).
Definition set___dict__ v s := mkSR (delr s) (delc s) (lenuni s) (_proj4_str s) (_epsg s) (supported_units s) (_units s) (_length_multiplier s) (xul s) (yul s) (xll s) (yll s) (rotation s) (origin_loc s) (_xgrid s) (_ygrid s) (_ycentergrid s) (_xcentergrid s) (_vertices s) v.

Definition opt_float (v : pyval) : result (option R) :=
  match v with
  | PNone => Ok None
  | PFloat r => Ok (Some r)
  | PInt z => Ok (Some (IZR z))
  | _ => Raise OutOfModel
  end.

Definition opt_str (v : pyval) : result (option string) :=
  match v with
  | PNone => Ok None
  | PStr s => Ok (Some s)
  | _ => Raise OutOfModel
  end.

Definition opt_nd (v : pyval) : result (option ndarray) :=
  match v with
  | PNone => Ok None
  | PNd a => Ok (Some a)
  | _ => Raise OutOfModel
  end.

Definition rmap {A B} (f : A -> B) (r : result A) : result B :=
  rbind r (fun a => Ok (f a)).

(** The write of [key] into the instance dictionary; a value of a dynamic
    type the typed field cannot hold is outside the model. *)
Definition store (key : string) (value : pyval) (s : SpatialReference)
  : result SpatialReference :=
  if String.eqb key "delr" then
    match value with PSeq l => Ok (set_delr l s) | _ => Raise OutOfModel end
  else if String.eqb key "delc" then
    match value with PSeq l => Ok (set_delc l s) | _ => Raise OutOfModel end
  else if String.eqb key "lenuni" then
    match value with PInt z => Ok (set_lenuni z s) | _ => Raise OutOfModel end
  else if String.eqb key "_proj4_str" then
    rmap (fun v => set__proj4_str v s) (opt_str value)
  else if String.eqb key "_epsg" then
    match value with
    | PNone => Ok (set__epsg None s)
    | PInt z => Ok (set__epsg (Some z) s)
    | _ => Raise OutOfModel
    end
  else if String.eqb key "supported_units" then
    match value with PStrs l => Ok (set_supported_units l s) | _ => Raise OutOfModel end
  else if String.eqb key "_units" then
    rmap (fun v => set__units v s) (opt_str value)
  else if String.eqb key "_length_multiplier" then
    rmap (fun v => set__length_multiplier v s) (opt_float value)
  else if String.eqb key "xul" then rmap (fun v => set_xul v s) (opt_float value)
  else if String.eqb key "yul" then rmap (fun v => set_yul v s) (opt_float value)
  else if String.eqb key "xll" then rmap (fun v => set_xll v s) (opt_float value)
  else if String.eqb key "yll" then rmap (fun v => set_yll v s) (opt_float value)
  else if String.eqb key "rotation" then
    match value with
    | PFloat r => Ok (set_rotation r s)
    | PInt z => Ok (set_rotation (IZR z) s)
    | _ => Raise OutOfModel
    end
  else if String.eqb key "origin_loc" then
    match value with PStr l => Ok (set_origin_loc l s) | _ => Raise OutOfModel end
  else if String.eqb key "_xgrid" then rmap (fun v => set__xgrid v s) (opt_nd value)
  else if String.eqb key "_ygrid" then rmap (fun v => set__ygrid v s) (opt_nd value)
  else if String.eqb key "_ycentergrid" then
    rmap (fun v => set__ycentergrid v s) (opt_nd value)
  else if String.eqb key "_xcentergrid" then
    rmap (fun v => set__xcentergrid v s) (opt_nd value)
  else if String.eqb key "_vertices" then
    match value with
    | PNone => Ok (set__vertices None s)
    | PVerts v => Ok (set__vertices (Some v) s)
    | _ => Raise OutOfModel
    end
  else
    Ok (set___dict__
          ((key, value) ::
           filter (fun kv => negb (String.eqb (fst kv) key)) (__dict__ s)) s).

(** ** The monad of methods

    A method reads and writes the instance, may raise, and may print or warn.
    A raised exception keeps the writes made before it. *)

Inductive event : Type :=
| Print (msg : string)
| Warn (msg : string).

Definition M (A : Type) : Type :=
  SpatialReference -> result A * SpatialReference * list event.

Definition ret {A} (a : A) : M A := fun s => (Ok a, s, []).

Definition bind {A B} (m : M A) (f : A -> M B) : M B :=
  fun s =>
    match m s with
    | (Ok a, s1, l1) =>
        match f a s1 with
        | (r, s2, l2) => (r, s2, l1 ++ l2)
        end
    | (Raise e, s1, l1) => (Raise e, s1, l1)
    end.

Definition raise {A} (e : exn) : M A := fun s => (Raise e, s, []).

Definition get : M SpatialReference := fun s => (Ok s, s, []).

Definition emit (e : event) : M unit := fun s => (Ok tt, s, [e]).

Definition lift {A} (r : result A) : M A := fun s => (r, s, []).

(** [try: m except: handler]. *)
Definition try_except {A} (m : M A) (handler : M A) : M A :=
  fun s =>
    match m s with
    | (Ok a, s1, l1) => (Ok a, s1, l1)
    | (Raise _, s1, l1) =>
        match handler s1 with
        | (r, s2, l2) => (r, s2, l1 ++ l2)
        end
    end.

Declare Scope py_scope.
Delimit Scope py_scope with py.
Notation "x <- c1 ;; c2" := (bind c1 (fun x => c2))
  (at level 61, c1 at next level, right associativity) : py_scope.
Notation "c1 ;; c2" := (bind c1 (fun _ => c2))
  (at level 61, right associativity) : py_scope.
Local Open Scope py_scope.

(** ** Builtins *)

(** [int(r)] for a float: truncation toward zero. *)
Definition trunc (r : R) : Z :=
  if Rle_dec 0 r then Int_part r else (- Int_part (- r))%Z.

(** [float(value)]; the conversion of a numeric string is not modelled. *)
Definition py_float (value : pyval) : result R :=
  match value with
  | PFloat r => Ok r
  | PInt z => Ok (IZR z)
  | PBool b => Ok (if b then 1 else 0)
  | PStr _ => Raise OutOfModel
  | _ => Raise (TypeError "float() argument must be a string or a number")
  end.

(** [int(value)]; the conversion of a numeric string is not modelled. *)
Definition py_int (value : pyval) : result Z :=
  match value with
  | PInt z => Ok z
  | PFloat r => Ok (trunc r)
  | PBool b => Ok (if b then 1%Z else 0%Z)
  | PStr _ => Raise OutOfModel
  | _ => Raise (TypeError "int() argument must be a string or a number")
  end.

(** [np.atleast_1d(np.array(value))] for a number or a sequence of numbers. *)
Definition atleast_1d (value : pyval) : result (list R) :=
  match value with
  | PSeq l => Ok l
  | PFloat r => Ok [r]
  | PInt z => Ok [IZR z]
  | _ => Raise OutOfModel
  end.

(** [str.lower], [str.upper] and [needle in hay] on ASCII text. *)
Definition lower_ascii (c : ascii) : ascii :=
  let n := nat_of_ascii c in
  if (65 <=? n)%nat && (n <=? 90)%nat then ascii_of_nat (n + 32) else c.

Definition upper_ascii (c : ascii) : ascii :=
  let n := nat_of_ascii c in
  if (97 <=? n)%nat && (n <=? 122)%nat then ascii_of_nat (n - 32) else c.

Fixpoint str_map (f : ascii -> ascii) (s : string) : string :=
  match s with
  | EmptyString => EmptyString
  | String c t => String (f c) (str_map f t)
  end.

Definition lower : string -> string := str_map lower_ascii.
Definition upper : string -> string := str_map upper_ascii.

Fixpoint contains (needle hay : string) : bool :=
  String.prefix needle hay ||
  match hay with
  | EmptyString => false
  | String _ t => contains needle t
  end.

Definition of_opt_float (o : option R) : pyval :=
  match o with Some r => PFloat r | None => PNone end.

Definition of_opt_str (o : option string) : pyval :=
  match o with Some r => PStr r | None => PNone end.

Definition of_opt_int (o : option Z) : pyval :=
  match o with Some r => PInt r | None => PNone end.

(** An operand of float arithmetic: [None] raises [TypeError]. *)
Definition as_float (o : option R) : M R :=
  match o with
  | Some r => ret r
  | None => raise (TypeError "unsupported operand type(s): NoneType")
  end.

(** ** Attribute assignment

    [object.__setattr__]: a name bound to a property without a setter cannot
    be assigned; any other name goes to the instance dictionary. *)
Definition object_setattr (key : string) (value : pyval) : M unit :=
  fun s =>
    if existsb (String.eqb key) properties
    then (Raise (AttributeError key), s, [])
    else match store key value s with
         | Ok s' => (Ok tt, s', [])
         | Raise e => (Raise e, s, [])
         end.

(** [self._xgrid = None] and the like: [__setattr__] sends each of these
    keys to its last branch, a plain [object.__setattr__] with no reset. *)
Definition _reset : M unit :=
  object_setattr "_xgrid" PNone ;;
  object_setattr "_ygrid" PNone ;;
  object_setattr "_ycentergrid" PNone ;;
  object_setattr "_xcentergrid" PNone ;;
  object_setattr "_vertices" PNone ;;
  ret tt.

(** The branches of [__setattr__] for [xul], [yul], [xll] and [yll], with
    the reset that ends them; [set_origin] assigns the corners through it. *)
Definition setattr_corner (key : string) (value : pyval) : M unit :=
  v <- lift (py_float value) ;;
  object_setattr key (PFloat v) ;;
  _reset.

Definition rotation_warning : string :=
  "rotation arg has recently changed. It was previously treated as positive clockwise. It now is positive counterclockwise.".

(** [a == b] on floats. *)
Definition Reqb (a b : R) : bool := if Req_dec_T a b then true else false.

(** ** Collaborators and a frame for the examples

    A registry that cannot be reached, a [pyproj] that is not installed, and
    a CRS text without a readable code; and the frame of the grid with two
    rows and two columns of size 10, anchored at the upper-left corner
    (0, 20), with an explicit multiplier of 1. *)
Definition no_registry (code : option Z) : result (option string) := Raise IOError.

Definition no_pyproj (crs : string) : result string := Raise IOError.

Definition no_code (crs : string) : result Z := Raise IndexError.

Definition square_grid (rot : R) : SpatialReference :=
  mkSR [10; 10] [10; 10] 2%Z None None ["feet"; "meters"] None (Some 1)
       (Some 0) (Some 20) (Some 0) (Some 0) rot "ul"
       None None None None None [].

(** ** The unstructured subclass: its constructor *)

Module Unstructured.

Section Registry.

Variable getproj4 : option Z -> result (option string).

(** The override: [super(SpatialReference, self).__setattr__(key, value)]. *)
Definition __setattr__ (key : string) (value : pyval) : M unit :=
  object_setattr key value.

(** [self.name] for an attribute kept in the instance dictionary. *)
Definition getattr (name : string) : M pyval :=
  fun s =>
    match find (fun kv => String.eqb (fst kv) name) (__dict__ s) with
    | Some kv => (Ok (snd kv), s, [])
    | None => (Raise (AttributeError name), s, [])
    end.

Definition assert (b : bool) : M unit :=
  if b then fun s => (Ok tt, s, []) else fun s => (Raise AssertionError, s, []).

(** [a.shape[0]] and [a[0]]. *)
Definition shape0 (v : pyval) : M R :=
  fun s =>
    match v with
    | PNd a =>
        match shape a with
        | n :: _ => (Ok (INR n), s, [])
        | [] => (Raise IndexError, s, [])
        end
    | _ => (Raise (AttributeError "shape"), s, [])
    end.

Definition item0 (v : pyval) : M R :=
  fun s =>
    match v with
    | PSeq (n :: _) => (Ok n, s, [])
    | PSeq [] => (Raise IndexError, s, [])
    | _ => (Raise (TypeError "object is not subscriptable"), s, [])
    end.

Definition seq_of (v : pyval) : list R :=
  match v with PSeq l => l | _ => [] end.

Definition of_str (o : option string) : pyval :=
  match o with Some p => PStr p | None => PNone end.

Definition __init__ (xc yc verts : ndarray) (iverts : list (list Z))
    (ncpl : list Z) (layered : bool) (lenuni : Z) (proj4_str : option string)
    (epsg : option Z) (units : option string) (length_multiplier : R)
  : M unit :=
  __setattr__ "xc" (PNd xc) ;;
  __setattr__ "yc" (PNd yc) ;;
  __setattr__ "verts" (PNd verts) ;;
  __setattr__ "iverts" (PIverts iverts) ;;
  __setattr__ "ncpl" (PSeq (map IZR ncpl)) ;;
  __setattr__ "layered" (PBool layered) ;;
  __setattr__ "lenuni" (PInt lenuni) ;;
  __setattr__ "_proj4_str" (of_str proj4_str) ;;
  __setattr__ "epsg" (match epsg with Some c => PInt c | None => PNone end) ;;
  match epsg with
  | Some _ =>
      p <- lift (getproj4 epsg) ;;
      __setattr__ "_proj4_str" (of_str p)
  | None => ret tt
  end ;;
  __setattr__ "supported_units" (PStrs ["feet"; "meters"]) ;;
  __setattr__ "_units" (of_str units) ;;
  __setattr__ "length_multiplier" (PFloat length_multiplier) ;;
  __setattr__ "xul" (PFloat 0) ;;
  __setattr__ "yul" (PFloat 0) ;;
  __setattr__ "rotation" (PFloat 0) ;;
  l <- getattr "layered" ;;
  match l with
  | PBool true =>
      assert (forallb (fun n => Reqb n (INR (length iverts))) (map IZR ncpl)) ;;
      a <- getattr "xc" ;; n <- shape0 a ;;
      c <- getattr "ncpl" ;; m <- item0 c ;;
      assert (Reqb n m) ;;
      a <- getattr "yc" ;; n <- shape0 a ;;
      c <- getattr "ncpl" ;; m <- item0 c ;;
      assert (Reqb n m)
  | _ =>
      assert (Reqb (INR (length iverts)) (add_reduce (map IZR ncpl))) ;;
      a <- getattr "xc" ;; n <- shape0 a ;;
      c <- getattr "ncpl" ;;
      assert (Reqb n (add_reduce (seq_of c))) ;;
      a <- getattr "yc" ;; n <- shape0 a ;;
      c <- getattr "ncpl" ;;
      assert (Reqb n (add_reduce (seq_of c)))
  end.

End Registry.

End Unstructured.

Section Frame.

(** What the file delegates: the registry lookup [getproj4] (its body is not
    part of the source), [pyproj.Proj(...).srs], and the text handling
    [int(tmp[0].split(':')[1])] inside the [proj4_str] getter. *)
Variable getproj4 : option Z -> result (option string).
Variable pyproj_srs : string -> result string.
Variable epsg_of_proj4 : string -> result Z.

(** The [proj4_str] getter, which also writes [_epsg]. *)
Definition proj4_str : M (option string) :=
  s <- get ;;
  match _proj4_str s with
  | Some p =>
      if contains "epsg" (lower p) then
        let proj4_str := if negb (contains "init" (lower p))
                         then ("+init=" ++ p)%string else p in
        code <- lift (epsg_of_proj4 p) ;;
        object_setattr "_epsg" (PInt code) ;;
        ret (Some proj4_str)
      else ret (Some p)
  | None => ret None
  end.

Definition epsg : M (option Z) := s <- get ;; ret (_epsg s).

Definition str_method (o : option string) (name : string) : M string :=
  match o with
  | Some p => ret p
  | None => raise (AttributeError name)
  end.

Definition _parse_units_from_proj4 : M (option string) :=
  try_except
    (p <- proj4_str ;;
     p <- str_method p "upper" ;;
     proj_str <-
       (if contains "EPSG" (upper p) then
          q <- proj4_str ;;
          q <- str_method q "Proj" ;;
          lift (pyproj_srs q)
        else
          q <- proj4_str ;;
          str_method q "__contains__") ;;
     if contains "units=m" proj_str then ret (Some "meters")
     else if contains "units=ft" proj_str
             || contains "units=us-ft" proj_str
             || contains "to_meters:0.3048" proj_str then ret (Some "feet")
     else ret None)
    (ret None).

Definition units : M string :=
  s <- get ;;
  u <- match _units s with
       | Some u => ret (Some (lower u))
       | None => _parse_units_from_proj4
       end ;;
  let u := match u with Some u => u | None => "meters" end in
  s <- get ;;
  if existsb (String.eqb u) (supported_units s) then ret u
  else raise AssertionError.

Definition model_length_units : M string :=
  s <- get ;;
  match find (fun kv => Z.eqb (fst kv) (lenuni s)) lenuni_text with
  | Some kv => ret (snd kv)
  | None => raise KeyError
  end.

Definition length_multiplier : M (option R) :=
  s <- get ;;
  match _length_multiplier s with
  | Some lm => ret (Some lm)
  | None =>
      mlu <- model_length_units ;;
      if String.eqb mlu "feet" then
        u <- units ;;
        if String.eqb u "meters" then ret (Some 0.3048)
        else u <- units ;;
             if String.eqb u "feet" then ret (Some 1) else ret None
      else
      mlu <- model_length_units ;;
      if String.eqb mlu "meters" then
        u <- units ;;
        if String.eqb u "feet" then ret (Some (1 / 0.3048))
        else u <- units ;;
             if String.eqb u "meters" then ret (Some 1) else ret None
      else
      mlu <- model_length_units ;;
      if String.eqb mlu "centimeters" then
        u <- units ;;
        if String.eqb u "meters" then ret (Some (1 / 100))
        else u <- units ;;
             if String.eqb u "feet" then ret (Some (1 / 30.48)) else ret None
      else ret (Some 1)
  end.

(** [self.length_multiplier] as a factor of a product of floats. *)
Definition length_multiplier_operand : M R :=
  lm <- length_multiplier ;; as_float lm.

Definition or_zero (o : option R) : R :=
  match o with Some v => v | None => 0 end.

Definition set_origin (xul' yul' xll' yll' : option R) : M unit :=
  s <- get ;;
  (if String.eqb (origin_loc s) "ll" then
     setattr_corner "xll" (PFloat (or_zero xll')) ;;
     setattr_corner "yll" (PFloat (or_zero yll')) ;;
     s <- get ;;
     x0 <- as_float (xll s) ;;
     lm <- length_multiplier_operand ;;
     setattr_corner "xul" (PFloat (x0 + sin (theta s) * nth 0 (yedge s) 0 * lm)) ;;
     s <- get ;;
     y0 <- as_float (yll s) ;;
     lm <- length_multiplier_operand ;;
     setattr_corner "yul" (PFloat (y0 + cos (theta s) * nth 0 (yedge s) 0 * lm))
   else ret tt) ;;
  s <- get ;;
  (if String.eqb (origin_loc s) "ul" then
     setattr_corner "xul" (PFloat (or_zero xul')) ;;
     setattr_corner "yul" (PFloat (or_zero yul')) ;;
     s <- get ;;
     x0 <- as_float (xul s) ;;
     lm <- length_multiplier_operand ;;
     setattr_corner "xll" (PFloat (x0 - sin (theta s) * nth 0 (yedge s) 0 * lm)) ;;
     s <- get ;;
     y0 <- as_float (yul s) ;;
     lm <- length_multiplier_operand ;;
     setattr_corner "yll" (PFloat (y0 - cos (theta s) * nth 0 (yedge s) 0 * lm))
   else ret tt) ;;
  _reset.

Definition transform (x y : ndarray) : M (ndarray * ndarray) :=
  s <- get ;;
  set_origin (xul s) (yul s) (xll s) (yll s) ;;
  lm <- length_multiplier_operand ;;
  let x := nd_map (fun v => v * lm) x in
  lm <- length_multiplier_operand ;;
  let y := nd_map (fun v => v * lm) y in
  s <- get ;;
  x0 <- as_float (xll s) ;;
  let x := nd_map (fun v => v + x0) x in
  s <- get ;;
  y0 <- as_float (yll s) ;;
  let y := nd_map (fun v => v + y0) y in
  s <- get ;;
  xo <- as_float (xll s) ;;
  yo <- as_float (yll s) ;;
  lift (rotate x y (rotation s) xo yo).

Definition both_x_msg : string :=
  "Both xul and xll entered. Please enter either xul, yul or xll, yll.".

Definition both_y_msg : string :=
  "Both yul and yll entered. Please enter either xul, yul or xll, yll.".

Definition is_some {A} (o : option A) : bool :=
  match o with Some _ => true | None => false end.

Definition is_none {A} (o : option A) : bool := negb (is_some o).

Definition __setattr__ (key : string) (value : pyval) : M unit :=
  reset <-
    (if String.eqb key "delr" then
       a <- lift (atleast_1d value) ;;
       object_setattr "delr" (PSeq a) ;; ret true
     else if String.eqb key "delc" then
       a <- lift (atleast_1d value) ;;
       object_setattr "delc" (PSeq a) ;; ret true
     else if String.eqb key "xul" then
       v <- lift (py_float value) ;; object_setattr "xul" (PFloat v) ;; ret true
     else if String.eqb key "yul" then
       v <- lift (py_float value) ;; object_setattr "yul" (PFloat v) ;; ret true
     else if String.eqb key "xll" then
       v <- lift (py_float value) ;; object_setattr "xll" (PFloat v) ;; ret true
     else if String.eqb key "yll" then
       v <- lift (py_float value) ;; object_setattr "yll" (PFloat v) ;; ret true
     else if String.eqb key "length_multiplier" then
       v <- lift (py_float value) ;;
       object_setattr "length_multiplier" (PFloat v) ;;
       s <- get ;;
       set_origin (xul s) (yul s) (xll s) (yll s) ;; ret true
     else if String.eqb key "rotation" then
       v <- lift (py_float value) ;;
       (if Req_dec_T v 0 then ret tt else emit (Warn rotation_warning)) ;;
       v <- lift (py_float value) ;;
       object_setattr "rotation" (PFloat v) ;;
       s <- get ;;
       set_origin (xul s) (yul s) (xll s) (yll s) ;; ret true
     else if String.eqb key "lenuni" then
       v <- lift (py_int value) ;; object_setattr "lenuni" (PInt v) ;; ret true
     else if String.eqb key "units" then
       value <- match value with
                | PStr u => ret (lower u)
                | _ => raise (AttributeError "lower")
                end ;;
       s <- get ;;
       (if existsb (String.eqb value) (supported_units s) then ret tt
        else raise AssertionError) ;;
       object_setattr "_units" (PStr value) ;; ret true
     else if String.eqb key "proj4_str" then
       object_setattr "_proj4_str" value ;;
       object_setattr "_units" PNone ;;
       object_setattr "_epsg" PNone ;; ret true
     else if String.eqb key "epsg" then
       object_setattr "_epsg" value ;;
       object_setattr "_units" PNone ;;
       s <- get ;;
       p <- lift (getproj4 (_epsg s)) ;;
       object_setattr "_proj4_str" (of_opt_str p) ;; ret true
     else
       object_setattr key value ;; ret false) ;;
  if reset : bool then _reset else ret tt.

Definition set_spatialreference (xul' yul' xll' yll' : option R) (rotation' : R)
  : M unit :=
  (if is_some xul' && is_some xll' then raise (ValueError both_x_msg) else ret tt) ;;
  (if is_some yul' && is_some yll' then raise (ValueError both_y_msg) else ret tt) ;;
  (if Req_dec_T rotation' 0 then ret tt else emit (Warn rotation_warning)) ;;
  ul <-
    (if is_none xul' && is_none yul' && is_none xll' && is_none yll' then
       __setattr__ "origin_loc" (PStr "ul") ;;
       s <- get ;;
       ret (Some 0, Some (add_reduce (delc s)))
     else if is_some xll' then
       __setattr__ "origin_loc" (PStr "ll") ;; ret (xul', yul')
     else
       __setattr__ "origin_loc" (PStr "ul") ;; ret (xul', yul')) ;;
  __setattr__ "rotation" (PFloat rotation') ;;
  set_origin (fst ul) (snd ul) xll' yll'.

Definition spacing_msg : string :=
  "delr and delcs must be an array or sequences equal in length to the number of rows/columns.".

Definition no_spacing_msg : string :=
  "Warning: no grid spacing or lower-left corner supplied. Setting the offset with xul, yul requires arguments for delr and delc. Origin will be set to zero.".

(** [isinstance(v, float) or isinstance(v, int)]; a [bool] is an [int]. *)
Definition is_number (v : pyval) : bool :=
  match v with
  | PFloat _ | PInt _ | PBool _ => true
  | _ => false
  end.

Definition __init__ (delr' delc' : pyval) (lenuni' : Z)
    (xul' yul' xll' yll' : option R) (rotation' : R)
    (proj4_str' : option string) (epsg' : option Z) (units' : option string)
    (length_multiplier' : option R) : M unit :=
  (if is_number delr' then raise (TypeError spacing_msg) else ret tt) ;;
  (if is_number delc' then raise (TypeError spacing_msg) else ret tt) ;;
  a <- lift (atleast_1d delc') ;;
  __setattr__ "delc" (PSeq a) ;;
  a <- lift (atleast_1d delr') ;;
  __setattr__ "delr" (PSeq a) ;;
  s <- get ;;
  corners <-
    (if (Reqb (add_reduce (delr s)) 0 || Reqb (add_reduce (delc s)) 0)
        && (is_none xll' || is_none yll')
     then emit (Print no_spacing_msg) ;; ret (None, None, Some 0, Some 0)
     else ret (xul', yul', xll', yll')) ;;
  __setattr__ "lenuni" (PInt lenuni') ;;
  __setattr__ "_proj4_str" (of_opt_str proj4_str') ;;
  __setattr__ "_epsg" (of_opt_int epsg') ;;
  (if is_some epsg' then
     s <- get ;;
     p <- lift (getproj4 (_epsg s)) ;;
     __setattr__ "_proj4_str" (of_opt_str p)
   else ret tt) ;;
  __setattr__ "supported_units" (PStrs ["feet"; "meters"]) ;;
  __setattr__ "_units" (of_opt_str units') ;;
  __setattr__ "_length_multiplier" (of_opt_float length_multiplier') ;;
  _reset ;;
  match corners with
  | (xul1, yul1, xll1, yll1) =>
      set_spatialreference xul1 yul1 xll1 yll1 rotation'
  end.

(** ** Cached grids *)

(** [np.meshgrid(x, y)]: two arrays of shape [(len(y), len(x))]. *)
Definition meshgrid (x y : list R) : ndarray * ndarray :=
  (mk_nd [length y; length x] (flat_map (fun _ => x) y),
   mk_nd [length y; length x] (flat_map (fun v => repeat v (length x)) y)).

(** The argument [self._xgrid] of a call that starts with [x.copy()]. *)
Definition as_array (o : option ndarray) : M ndarray :=
  match o with
  | Some a => ret a
  | None => raise (AttributeError "copy")
  end.

Definition _set_xycentergrid : M unit :=
  s <- get ;;
  object_setattr "_xcentergrid" (PNd (fst (meshgrid (xcenter s) (ycenter s)))) ;;
  object_setattr "_ycentergrid" (PNd (snd (meshgrid (xcenter s) (ycenter s)))) ;;
  s <- get ;;
  x <- as_array (_xcentergrid s) ;;
  y <- as_array (_ycentergrid s) ;;
  xy <- transform x y ;;
  object_setattr "_xcentergrid" (PNd (fst xy)) ;;
  object_setattr "_ycentergrid" (PNd (snd xy)).

Definition _set_xygrid : M unit :=
  s <- get ;;
  object_setattr "_xgrid" (PNd (fst (meshgrid (xedge s) (yedge s)))) ;;
  object_setattr "_ygrid" (PNd (snd (meshgrid (xedge s) (yedge s)))) ;;
  s <- get ;;
  x <- as_array (_xgrid s) ;;
  y <- as_array (_ygrid s) ;;
  xy <- transform x y ;;
  object_setattr "_xgrid" (PNd (fst xy)) ;;
  object_setattr "_ygrid" (PNd (snd xy)).

Definition xgrid : M (option ndarray) :=
  s <- get ;;
  (if is_none (_xgrid s) then _set_xygrid else ret tt) ;;
  s <- get ;; ret (_xgrid s).

Definition ygrid : M (option ndarray) :=
  s <- get ;;
  (if is_none (_ygrid s) then _set_xygrid else ret tt) ;;
  s <- get ;; ret (_ygrid s).

Definition ycentergrid : M (option ndarray) :=
  s <- get ;;
  (if is_none (_ycentergrid s) then _set_xycentergrid else ret tt) ;;
  s <- get ;; ret (_ycentergrid s).

Definition xcentergrid : M (option ndarray) :=
  s <- get ;;
  (if is_none (_xcentergrid s) then _set_xycentergrid else ret tt) ;;
  s <- get ;; ret (_xcentergrid s).

(** Indexing a two-dimensional array with indices from zero: [a[i]],
    [a[:, j]] and [a[i, j]]. *)
Definition subscript_msg : string := "'NoneType' object is not subscriptable".

Definition nd_row (o : option ndarray) (i : nat) : result (list R) :=
  match o with
  | None => Raise (TypeError subscript_msg)
  | Some a =>
      match shape a with
      | [n; m] =>
          if (i <? n)%nat then Ok (firstn m (skipn (i * m) (data a)))
          else Raise IndexError
      | _ => Raise OutOfModel
      end
  end.

Definition nd_col (o : option ndarray) (j : nat) : result (list R) :=
  match o with
  | None => Raise (TypeError subscript_msg)
  | Some a =>
      match shape a with
      | [n; m] =>
          if (j <? m)%nat
          then Ok (map (fun i => nth (i * m + j) (data a) 0) (seq 0 n))
          else Raise IndexError
      | _ => Raise OutOfModel
      end
  end.

Definition nd_at (o : option ndarray) (i j : nat) : result R :=
  match o with
  | None => Raise (TypeError subscript_msg)
  | Some a =>
      match shape a with
      | [n; m] =>
          if (i <? n)%nat && (j <? m)%nat then Ok (nth (i * m + j) (data a) 0)
          else Raise IndexError
      | _ => Raise OutOfModel
      end
  end.

(** [a.argmin()] on a one-dimensional array: the first index of the least
    entry. *)
Fixpoint argmin_from (best : R) (besti i : nat) (l : list R) : nat :=
  match l with
  | [] => besti
  | v :: t =>
      if Rlt_dec v best then argmin_from v i (S i) t
      else argmin_from best besti (S i) t
  end.

Definition argmin (l : list R) : result nat :=
  match l with
  | [] => Raise (ValueError "attempt to get argmin of an empty sequence")
  | v :: t => Ok (argmin_from v 0 1 t)
  end.

(** [get_rc] for one query point: the branch of [np.isscalar(x)]. *)
Definition get_rc (x y : R) : M (nat * nat) :=
  xg <- xcentergrid ;;
  row0 <- lift (nd_row xg 0) ;;
  c <- lift (argmin (map (fun v => Rabs (v - x)) row0)) ;;
  yg <- ycentergrid ;;
  col0 <- lift (nd_col yg 0) ;;
  r <- lift (argmin (map (fun v => Rabs (v - y)) col0)) ;;
  ret (r, c).


(** The five corners of cell [(i, j)], closed, from the edge grids. *)
Definition cell_vertices (xg yg : option ndarray) (i j : nat)
  : result (list (R * R)) :=
  let pt (i j : nat) : result (R * R) :=
    rbind (nd_at xg i j) (fun x => rbind (nd_at yg i j) (fun y => Ok (x, y))) in
  rbind (pt i j) (fun p0 =>
  rbind (pt (i + 1)%nat j) (fun p1 =>
  rbind (pt (i + 1)%nat (j + 1)%nat) (fun p2 =>
  rbind (pt i (j + 1)%nat) (fun p3 =>
  rbind (pt i j) (fun p4 =>
  Ok [p0; p1; p2; p3; p4]))))).

Definition get_vertices (i j : nat) : M (list (R * R)) :=
  xg <- xgrid ;;
  yg <- ygrid ;;
  lift (cell_vertices xg yg i j).

Fixpoint collect {A B} (f : A -> result B) (l : list A) : result (list B) :=
  match l with
  | [] => Ok []
  | a :: t => rbind (f a) (fun b => rbind (collect f t) (fun bs => Ok (b :: bs)))
  end.



(** [m.argmin(axis=0)] for a two-dimensional array given by its rows, with
    [n] columns: for each column the first row of its least entry. *)
Definition argmin_axis0 (rows : list (list R)) (n : nat) : result (list nat) :=
  if (n =? 0)%nat
  then Raise (ValueError "attempt to get argmin of an empty sequence")
  else collect (fun k => argmin (map (fun row => nth k row 0) rows)) (seq 0 n).

(** The other branch of [get_rc], for sequences of query coordinates; [ys]
    as long as [xs]. [xcp.transpose()] has one row per column center, each
    repeated [len(x)] times. *)
Definition get_rc_seq (xs ys : list R) : M (list nat * list nat) :=
  xg <- xcentergrid ;;
  row0 <- lift (nd_row xg 0) ;;
  let xcp_t := map (fun v => repeat v (length xs)) row0 in
  yg <- ycentergrid ;;
  col0 <- lift (nd_col yg 0) ;;
  let ycp_t := map (fun v => repeat v (length xs)) col0 in
  c <- lift (argmin_axis0
               (map (fun row => map2 (fun a b => Rabs (a - b)) row xs) xcp_t)
               (length xs)) ;;
  (if (length ys =? length xs)%nat then ret tt else raise OutOfModel) ;;
  r <- lift (argmin_axis0
               (map (fun row => map2 (fun a b => Rabs (a - b)) row ys) ycp_t)
               (length xs)) ;;
  ret (r, c).

(** ** Notions used by the statements on construction *)

(** The corner [set_spatialreference] makes authoritative, and the upper-left
    corner it passes to [set_origin]. *)
Definition resolved_origin (xu yu xl yl : option R) : string :=
  if is_none xu && is_none yu && is_none xl && is_none yl then "ul"
  else if is_some xl then "ll" else "ul".

Definition resolved_ul (s : SpatialReference) (xu yu xl yl : option R)
  : option R * option R :=
  if is_none xu && is_none yu && is_none xl && is_none yl
  then (Some 0, Some (add_reduce (delc s)))
  else (xu, yu).

(** The test of [__init__] for the fallback to the origin. *)
Definition degenerate (dr dc : list R) (xl yl : option R) : bool :=
  (Reqb (add_reduce dr) 0 || Reqb (add_reduce dc) 0)
  && (is_none xl || is_none yl).

(** The CRS text [__init__] stores: the one given, or the registry's when a
    code is given. *)
Definition init_crs (p : option string) (code : option Z)
  : result (option string) :=
  match code with
  | None => Ok p
  | Some _ => getproj4 code
  end.

(** The instance when [__init__] reaches [set_spatialreference]. *)
Definition pre_state (dr dc : list R) (l : Z) (p : option string)
    (code : option Z) (u : option string) (lmo : option R)
    (s : SpatialReference) : SpatialReference :=
  mkSR dr dc l p code ["feet"; "meters"] u lmo
       (xul s) (yul s) (xll s) (yll s) (rotation s) (origin_loc s)
       None None None None None (__dict__ s).

Definition rotation_warnings (rot : R) : list event :=
  if Req_dec_T rot 0 then [] else [Warn rotation_warning; Warn rotation_warning].

(** ** Notions used by the statements *)

(** The value a method returns, or the exception it raises. *)
Definition value {A} (x : result A * SpatialReference * list event) : result A :=
  fst (fst x).

Definition final {A} (x : result A * SpatialReference * list event)
  : SpatialReference := snd (fst x).

Definition output {A} (x : result A * SpatialReference * list event)
  : list event := snd x.

(** The instance with its five caches invalidated. *)
Definition cleared (s : SpatialReference) : SpatialReference :=
  set__vertices None (set__xcentergrid None (set__ycentergrid None
    (set__ygrid None (set__xgrid None s)))).

(** What the unit and multiplier getters read. *)
Definition cfg (s : SpatialReference)
  : Z * option string * list string * option string * option R :=
  (lenuni s, _proj4_str s, supported_units s, _units s, _length_multiplier s).

Definition of_cfg (c : Z * option string * list string * option string * option R)
  : SpatialReference :=
  match c with
  | (l, p, sup, u, lm) =>
      set_lenuni l (set__proj4_str p (set_supported_units sup
        (set__units u (set__length_multiplier lm fresh))))
  end.

(** A getter is quiet when, on every instance with the unit settings [c], it
    returns one and the same result, prints nothing, and writes at most the
    cached EPSG code. *)
Definition quiet {A} (c : Z * option string * list string * option string * option R)
    (m : M A) : Prop :=
  exists r, forall t, cfg t = c -> exists e, m t = (r, set__epsg e t, []).

(** The instance [set_origin] leaves behind when the multiplier is [lm]:
    the authoritative corner (a missing coordinate counts as zero), the other
    corner derived from it, and every cache invalidated. *)
Definition origin_ul (xu yu lm : R) (s : SpatialReference) : SpatialReference :=
  cleared
    (set_yll (Some (yu - cos (theta s) * nth 0 (yedge s) 0 * lm))
       (set_xll (Some (xu - sin (theta s) * nth 0 (yedge s) 0 * lm))
          (set_yul (Some yu) (set_xul (Some xu) s)))).

Definition origin_ll (xl yl lm : R) (s : SpatialReference) : SpatialReference :=
  cleared
    (set_yul (Some (yl + cos (theta s) * nth 0 (yedge s) 0 * lm))
       (set_xul (Some (xl + sin (theta s) * nth 0 (yedge s) 0 * lm))
          (set_yll (Some yl) (set_xll (Some xl) s)))).

Definition anchored (a b c d : option R) (lm : R) (s : SpatialReference)
  : SpatialReference :=
  if String.eqb (origin_loc s) "ll" then origin_ll (or_zero c) (or_zero d) lm s
  else if String.eqb (origin_loc s) "ul" then origin_ul (or_zero a) (or_zero b) lm s
  else cleared s.

(** The sum of the first [i] spacings: the [i]-th cumulative sum. *)
Definition psum (l : list R) (i : nat) : R := add_reduce (firstn i l).

(** The conversion table of the specification, from the model's length unit
    to the reference unit. *)
Definition conversion (model reference : string) : R :=
  if String.eqb model "undefined" then 1
  else if String.eqb model reference then 1
  else if String.eqb model "feet" && String.eqb reference "meters" then 0.3048
  else if String.eqb model "meters" && String.eqb reference "feet" then 1 / 0.3048
  else if String.eqb model "centimeters" && String.eqb reference "meters" then 0.01
  else if String.eqb model "centimeters" && String.eqb reference "feet" then 1 / 30.48
  else 1.

(** The first two steps of [transform], on arrays. *)
Definition scale (lm : R) (a : ndarray) : ndarray := nd_map (fun v => v * lm) a.

Definition translate (o : R) (a : ndarray) : ndarray := nd_map (fun v => v + o) a.

(** The five caches of derived grids. *)
Definition caches (s : SpatialReference) :=
  (_xgrid s, _ygrid s, _ycentergrid s, _xcentergrid s, _vertices s).

Definition stale (s : SpatialReference) : Prop :=
  caches s = (None, None, None, None, None).

(** The arrays [transform] returns for two arrays of one shape. *)
Definition transformed_x (lm xo yo rot : R) (x y : ndarray) : ndarray :=
  mk_nd (shape x)
        (map2 (fun a b => rotate_x (a * lm + xo) (b * lm + yo) rot xo yo)
              (data x) (data y)).

Definition transformed_y (lm xo yo rot : R) (x y : ndarray) : ndarray :=
  mk_nd (shape x)
        (map2 (fun a b => rotate_y (a * lm + xo) (b * lm + yo) rot xo yo)
              (data x) (data y)).

(** [k] is the first index below [n] at which [f] is least. *)
Definition is_argmin (f : nat -> R) (n k : nat) : Prop :=
  (k < n)%nat /\
  (forall j, (j < n)%nat -> f k <= f j) /\
  (forall j, (j < k)%nat -> f k < f j).

(** The real-world x of the cell centers of row 0, and the real-world y of
    the cell centers of column 0: the two slices [get_rc] compares with. *)
Definition row0_x (s : SpatialReference) (lm xo yo : R) (j : nat) : R :=
  rotate_x (nth j (xcenter s) 0 * lm + xo) (nth 0 (ycenter s) 0 * lm + yo)
           (rotation s) xo yo.

Definition col0_y (s : SpatialReference) (lm xo yo : R) (i : nat) : R :=
  rotate_y (nth 0 (xcenter s) 0 * lm + xo) (nth i (ycenter s) 0 * lm + yo)
           (rotation s) xo yo.

(** ** Extent and grid lines *)

(** [min(a, b, c, d)] and [max(a, b, c, d)]: the first of the least, and of
    the greatest, arguments. *)
Definition py_min (a : R) (l : list R) : R :=
  fold_left (fun m v => if Rlt_dec v m then v else m) l a.

Definition py_max (a : R) (l : list R) : R :=
  fold_left (fun m v => if Rlt_dec m v then v else m) l a.

(** The value of an array of one entry, as [transform] returns for two
    numbers. *)
Definition item (a : ndarray) : R := nth 0 (data a) 0.

(** [self.transform(x, y)] for two numbers. *)
Definition transform_point (x y : R) : M (R * R) :=
  xy <- transform (scalar x) (scalar y) ;;
  ret (item (fst xy), item (snd xy)).

(** [get_extent]: [(xmin, xmax, ymin, ymax)] over the four transformed corners.
    [a[-1]] is the last entry; the edge arrays are never empty. *)
Definition get_extent : M (R * R * R * R) :=
  s <- get ;;
  let x0 := nth 0 (xedge s) 0 in
  s <- get ;;
  let x1 := last (xedge s) 0 in
  s <- get ;;
  let y0 := nth 0 (yedge s) 0 in
  s <- get ;;
  let y1 := last (yedge s) 0 in
  p0 <- transform_point x0 y0 ;;
  p1 <- transform_point x1 y0 ;;
  p2 <- transform_point x1 y1 ;;
  p3 <- transform_point x0 y1 ;;
  ret (py_min (fst p0) [fst p1; fst p2; fst p3],
       py_max (fst p0) [fst p1; fst p2; fst p3],
       py_min (snd p0) [snd p1; snd p2; snd p3],
       py_max (snd p0) [snd p1; snd p2; snd p3]).

(** [bounds]: the extent in the order [(xmin, ymin, xmax, ymax)]. *)
Definition bounds : M (R * R * R * R) :=
  e <- get_extent ;;
  match e with
  | (xmin, xmax, ymin, ymax) => ret (xmin, ymin, xmax, ymax)
  end.

(** A [for] loop that appends one result per element. *)
Fixpoint for_each {A B} (f : A -> M B) (l : list A) : M (list B) :=
  match l with
  | [] => ret []
  | a :: t => b <- f a ;; bs <- for_each f t ;; ret (b :: bs)
  end.

(** [get_grid_lines]: the [ncol + 1] lines across the rows, then the
    [nrow + 1] lines across the columns, each as its two end points. *)
Definition get_grid_lines : M (list ((R * R) * (R * R))) :=
  s <- get ;;
  let xmin := nth 0 (xedge s) 0 in
  s <- get ;;
  let xmax := last (xedge s) 0 in
  s <- get ;;
  let ymin := last (yedge s) 0 in
  s <- get ;;
  let ymax := nth 0 (yedge s) 0 in
  s <- get ;;
  vertical <-
    for_each (fun j =>
                s <- get ;;
                let x0 := nth j (xedge s) 0 in
                p0 <- transform_point x0 ymin ;;
                p1 <- transform_point x0 ymax ;;
                ret (p0, p1))
             (seq 0 (ncol s + 1)) ;;
  s <- get ;;
  horizontal <-
    for_each (fun i =>
                s <- get ;;
                let y0 := nth i (yedge s) 0 in
                p0 <- transform_point xmin y0 ;;
                p1 <- transform_point xmax y0 ;;
                ret (p0, p1))
             (seq 0 (nrow s + 1)) ;;
  ret (vertical ++ horizontal).

(** ** Notions on the caches *)

(** A method keeps the caches empty, and a method always leaves them empty,
    whether it returns or raises. *)
Definition keeps_stale {A} (m : M A) : Prop :=
  forall s, stale s -> stale (final (m s)).

Definition makes_stale {A} (m : M A) : Prop :=
  forall s, stale (final (m s)).

(** ** Notions on the grids *)

(** The real-world position of the node in row [i] and column [j] of the
    edge grids, and of the center of cell [(i, j)], for a multiplier [lm] and
    a lower-left corner [(xo, yo)]. *)
Definition node_x (s : SpatialReference) (lm xo yo : R) (i j : nat) : R :=
  rotate_x (nth j (xedge s) 0 * lm + xo) (nth i (yedge s) 0 * lm + yo)
           (rotation s) xo yo.

Definition node_y (s : SpatialReference) (lm xo yo : R) (i j : nat) : R :=
  rotate_y (nth j (xedge s) 0 * lm + xo) (nth i (yedge s) 0 * lm + yo)
           (rotation s) xo yo.

Definition center_x (s : SpatialReference) (lm xo yo : R) (i j : nat) : R :=
  rotate_x (nth j (xcenter s) 0 * lm + xo) (nth i (ycenter s) 0 * lm + yo)
           (rotation s) xo yo.

Definition center_y (s : SpatialReference) (lm xo yo : R) (i j : nat) : R :=
  rotate_y (nth j (xcenter s) 0 * lm + xo) (nth i (ycenter s) 0 * lm + yo)
           (rotation s) xo yo.

(** The closed ring of the five corners of cell [(i, j)], as [get_vertices]
    lists them. *)
Definition ring (s : SpatialReference) (lm xo yo : R) (i j : nat)
  : list (R * R) :=
  [(node_x s lm xo yo i j, node_y s lm xo yo i j);
   (node_x s lm xo yo (S i) j, node_y s lm xo yo (S i) j);
   (node_x s lm xo yo (S i) (S j), node_y s lm xo yo (S i) (S j));
   (node_x s lm xo yo i (S j), node_y s lm xo yo i (S j));
   (node_x s lm xo yo i j, node_y s lm xo yo i j)].

(** The squared distance of two points. *)
Definition dist2 (p q : R * R) : R :=
  (fst p - fst q) ^ 2 + (snd p - snd q) ^ 2.

(** The frame as [set_origin] resolves it, up to the cached EPSG code. *)
Definition in_frame (s : SpatialReference) (lm : R) (t : SpatialReference) : Prop :=
  t = s \/
  exists e, t = set__epsg e (anchored (xul s) (yul s) (xll s) (yll s) lm s).

(** The node of the edge grids in row [i] and column [j], as a point. *)
Definition node (s : SpatialReference) (lm xo yo : R) (i j : nat) : R * R :=
  (node_x s lm xo yo i j, node_y s lm xo yo i j).

(** A frame with two columns and no rows, for the examples. *)
Definition no_rows : SpatialReference :=
  mkSR [10; 10] [] 2%Z None None ["feet"; "meters"] None (Some 1)
       (Some 0) (Some 0) (Some 0) (Some 0) 0 "ul"
       None None None None None [].

(** ** Notions on units *)

(** The unit a CRS text names, as [_parse_units_from_proj4] reads it. *)
Definition units_of_text (t : string) : option string :=
  if contains "units=m" t then Some "meters"
  else if contains "units=ft" t || contains "units=us-ft" t
          || contains "to_meters:0.3048" t then Some "feet"
  else None.

Definition or_meters (o : option string) : string :=
  match o with Some u => u | None => "meters" end.

(** ** Comparison, attribute dictionary and [reset] *)

(** [a != b] for two attributes that hold a float or [None], and for two
    that hold a string or [None]. *)
Definition opt_float_ne (a b : option R) : bool :=
  match a, b with
  | Some x, Some y => negb (Reqb x y)
  | None, None => false
  | _, _ => true
  end.

Definition opt_str_ne (a b : option string) : bool :=
  match a, b with
  | Some x, Some y => negb (String.eqb x y)
  | None, None => false
  | _, _ => true
  end.

(** [self == other] for [other] another object: [None] when it is no
    [SpatialReference], else the instance. The [proj4_str] getter runs on
    [other], then on [self], and may write either; it neither prints nor
    warns, so the result is the verdict with the two instances. *)
Definition __eq__ (other : option SpatialReference) (self : SpatialReference)
  : result bool * SpatialReference * option SpatialReference :=
  match other with
  | None => (Ok false, self, None)
  | Some o =>
      if opt_float_ne (xul o) (xul self) then (Ok false, self, Some o)
      else if opt_float_ne (yul o) (yul self) then (Ok false, self, Some o)
      else if negb (Reqb (rotation o) (rotation self)) then (Ok false, self, Some o)
      else
        match proj4_str o with
        | (Raise e, o1, _) => (Raise e, self, Some o1)
        | (Ok po, o1, _) =>
            match proj4_str self with
            | (Raise e, s1, _) => (Raise e, s1, Some o1)
            | (Ok ps, s1, _) =>
                if opt_str_ne po ps then (Ok false, s1, Some o1)
                else (Ok true, s1, Some o1)
            end
        end
  end.

Definition verdict (x : result bool * SpatialReference * option SpatialReference)
  : result bool := fst (fst x).

(** The [attribute_dict] property. *)
Definition attribute_dict : M (list (string * pyval)) :=
  s <- get ;;
  p <- proj4_str ;;
  ret [("xul", of_opt_float (xul s)); ("yul", of_opt_float (yul s));
       ("rotation", PFloat (rotation s)); ("proj4_str", of_opt_str p)].

(** [reset] with keyword arguments: one assignment per keyword, in their
    order. *)
Fixpoint reset (kwargs : list (string * pyval)) : M unit :=
  match kwargs with
  | [] => ret tt
  | (key, value) :: t => __setattr__ key value ;; reset t
  end.

(** The keys [__setattr__] ends with a reset for, and the names of the
    caches. *)
Definition reset_keys : list string :=
  ["delr"; "delc"; "xul"; "yul"; "xll"; "yll"; "length_multiplier"; "rotation";
   "lenuni"; "units"; "proj4_str"; "epsg"].

Definition cache_names : list string :=
  ["_xgrid"; "_ygrid"; "_ycentergrid"; "_xcentergrid"; "_vertices"].

(** A branch of [__setattr__] that asks for the reset whenever it returns. *)
Definition asks_reset (m : M bool) : Prop :=
  forall s r s' l, m s = (Ok r, s', l) -> r = true.

(** ** Text: the methods of [str] the readers use *)

(** [c.isspace()] on ASCII text. *)
Definition is_space (c : ascii) : bool :=
  let n := nat_of_ascii c in
  ((9 <=? n)%nat && (n <=? 13)%nat) || ((28 <=? n)%nat && (n <=? 32)%nat).

Fixpoint lstrip (s : string) : string :=
  match s with
  | EmptyString => EmptyString
  | String c t => if is_space c then lstrip t else s
  end.

Fixpoint rstrip (s : string) : string :=
  match s with
  | EmptyString => EmptyString
  | String c t =>
      match rstrip t with
      | EmptyString => if is_space c then EmptyString else String c EmptyString
      | t' => String c t'
      end
  end.

(** [s.strip()]. *)
Definition strip (s : string) : string := rstrip (lstrip s).

(** [s.split(sep)] for a separator of one character: one more part than
    there are separators. *)
Fixpoint split_on (sep : ascii) (s : string) : list string :=
  match s with
  | EmptyString => [EmptyString]
  | String c t =>
      if Ascii.eqb c sep then EmptyString :: split_on sep t
      else match split_on sep t with
           | w :: ws => String c w :: ws
           | [] => [String c EmptyString]
           end
  end.

(** [s.split()]: the words between runs of white space. *)
Fixpoint split_ws (s : string) : list string :=
  match s with
  | EmptyString => []
  | String c t =>
      if is_space c then split_ws t
      else match t with
           | EmptyString => [String c EmptyString]
           | String c' _ =>
               if is_space c' then String c EmptyString :: split_ws t
               else match split_ws t with
                    | w :: ws => String c w :: ws
                    | [] => [String c EmptyString]
                    end
           end
  end.

(** [s.replace(x, '')] for one character [x]. *)
Fixpoint remove_char (x : ascii) (s : string) : string :=
  match s with
  | EmptyString => EmptyString
  | String c t =>
      if Ascii.eqb c x then remove_char x t else String c (remove_char x t)
  end.

(** [sep.join(l)]. *)
Fixpoint join (sep : string) (l : list string) : string :=
  match l with
  | [] => EmptyString
  | [w] => w
  | w :: t => (w ++ sep ++ join sep t)%string
  end.

(** [s.startswith(x)] for one character [x]. *)
Definition startswith (x : ascii) (s : string) : bool :=
  match s with
  | String c _ => Ascii.eqb c x
  | EmptyString => false
  end.

(** [l[i]] on a list of strings. *)
Definition item_at (l : list string) (i : nat) : result string :=
  match nth_error l i with
  | Some w => Ok w
  | None => Raise IndexError
  end.

(** ** Dictionaries of attributes *)

Definition dict : Type := list (string * pyval).

Definition dict_get (k : string) (d : dict) : option pyval :=
  match find (fun kv => String.eqb (fst kv) k) d with
  | Some kv => Some (snd kv)
  | None => None
  end.

Definition has_key (k : string) (d : dict) : bool :=
  existsb (fun kv => String.eqb (fst kv) k) d.

(** [d[k] = v]: the value is replaced where the key is, a new key goes to the
    end. *)
Fixpoint dict_set (k : string) (v : pyval) (d : dict) : dict :=
  match d with
  | [] => [(k, v)]
  | (k', v') :: t =>
      if String.eqb k' k then (k, v) :: t else (k', v') :: dict_set k v t
  end.

Definition dict_del (k : string) (d : dict) : dict :=
  filter (fun kv => negb (String.eqb (fst kv) k)) d.

Definition keys (d : dict) : list string := map fst d.

(** The class attribute [defaults]. *)
Definition defaults : dict :=
  [("xul", PNone); ("yul", PNone); ("rotation", PFloat 0);
   ("proj4_str", PNone); ("units", PNone); ("lenuni", PInt 2);
   ("length_multiplier", PNone)].

(** ** Readers

    What the readers take from their host: the conversions [float(text)]
    and [int(text)] of the interpreter, the lines of a file, each with its
    line end (a file that cannot be opened raises), [os.path.exists],
    [os.path.split(p)[0]] and [os.path.join]. *)
Record platform : Type := mk_platform {
  float_of : string -> result R;
  int_of : string -> result Z;
  open_file : string -> result (list string);
  exists_file : string -> bool;
  dirname : string -> string;
  path_join : string -> string -> string
}.

Variable host : platform.

(** The header of a name file: the parts between [;] of its leading lines
    that start with [#]. *)
Fixpoint header_items (lines : list string) : list string :=
  match lines with
  | [] => []
  | line :: rest =>
      if negb (startswith "#" line) then []
      else split_on ";" (remove_char "#" (strip line)) ++ header_items rest
  end.

(** [float(item.split(':')[1])] and the like. *)
Definition after_colon (item : string) : result string :=
  item_at (split_on ":" item) 1.

(** One turn of the loop over the header items: the dictionary after it and
    what it warned, or the exception that leaves the loop. The first five
    kinds of item swallow every exception of their conversion. *)
Definition item_step (d : dict) (item : string) : result dict * list event :=
  let li := lower item in
  if contains "xul" li then
    match rbind (after_colon item) (float_of host) with
    | Ok v => (Ok (dict_set "xul" (PFloat v) d), [])
    | Raise _ => (Ok d, [])
    end
  else if contains "yul" li then
    match rbind (after_colon item) (float_of host) with
    | Ok v => (Ok (dict_set "yul" (PFloat v) d), [])
    | Raise _ => (Ok d, [])
    end
  else if contains "rotation" li then
    match rbind (after_colon item) (float_of host) with
    | Ok v => (Ok (dict_set "rotation" (PFloat v) d),
               if Reqb v 0 then [] else [Warn rotation_warning])
    | Raise _ => (Ok d, [])
    end
  else if contains "proj4_str" li then
    (Ok (dict_set "proj4_str"
           (PStr (strip (join ":" (tl (split_on ":" item))))) d), [])
  else if contains "start" li then
    match after_colon item with
    | Ok t => (Ok (dict_set "start_datetime" (PStr (strip t)) d), [])
    | Raise _ => (Ok d, [])
    end
  else if contains "units" li then
    (rbind (after_colon item) (fun t =>
       Ok (dict_set "units" (PStr (strip t)) d)), [])
  else if contains "lenuni" li then
    (rbind (after_colon item) (fun t =>
     rbind (int_of host (strip t)) (fun z =>
       Ok (dict_set "lenuni" (PInt z) d))), [])
  else if contains "length_multiplier" li then
    (rbind (after_colon item) (fun t =>
     rbind (float_of host (strip t)) (fun v =>
       Ok (dict_set "length_multiplier" (PFloat v) d))), [])
  else (Ok d, []).

Fixpoint items_loop (d : dict) (items : list string)
  : result dict * list event :=
  match items with
  | [] => (Ok d, [])
  | item :: rest =>
      match item_step d item with
      | (Ok d', l1) =>
          match items_loop d' rest with
          | (r, l2) => (r, l1 ++ l2)
          end
      | (Raise e, l1) => (Raise e, l1)
      end
  end.

(** [attribs_from_namfile_header(namefile)]: [None] for no name file. *)
Definition attribs_from_namfile_header (namefile : option string)
  : result (option dict) * list event :=
  match namefile with
  | None => (Ok None, [])
  | Some path =>
      match open_file host path with
      | Raise e => (Raise e, [])
      | Ok lines =>
          match items_loop defaults (header_items lines) with
          | (r, l) => (rmap Some r, l)
          end
      end
  end.

(** ** Construction from keyword arguments *)

(** The parameters of [__init__]. *)
Definition init_params : list string :=
  ["delr"; "delc"; "lenuni"; "xul"; "yul"; "xll"; "yll"; "rotation";
   "proj4_str"; "epsg"; "units"; "length_multiplier"].

Definition kw (k : string) (default : pyval) (d : dict) : pyval :=
  match dict_get k d with Some v => v | None => default end.

(** The call of the class with the dictionary [d] as keyword arguments, on
    the new instance: a keyword that is no
    parameter is a [TypeError]; a value of a type the typed constructor
    cannot take is outside the model. *)
Definition construct (d : dict) : M unit :=
  if negb (forallb (fun k => existsb (String.eqb k) init_params) (keys d))
  then raise (TypeError "__init__() got an unexpected keyword argument")
  else
    lenuni' <- lift (match kw "lenuni" (PInt 2) d with
                     | PInt z => Ok z
                     | _ => Raise OutOfModel
                     end) ;;
    xul' <- lift (opt_float (kw "xul" PNone d)) ;;
    yul' <- lift (opt_float (kw "yul" PNone d)) ;;
    xll' <- lift (opt_float (kw "xll" PNone d)) ;;
    yll' <- lift (opt_float (kw "yll" PNone d)) ;;
    rotation' <- lift (match kw "rotation" (PFloat 0) d with
                       | PFloat r => Ok r
                       | PInt z => Ok (IZR z)
                       | _ => Raise OutOfModel
                       end) ;;
    proj4_str' <- lift (opt_str (kw "proj4_str" PNone d)) ;;
    epsg' <- lift (match kw "epsg" PNone d with
                   | PNone => Ok None
                   | PInt z => Ok (Some z)
                   | _ => Raise OutOfModel
                   end) ;;
    units' <- lift (opt_str (kw "units" PNone d)) ;;
    lm' <- lift (opt_float (kw "length_multiplier" PNone d)) ;;
    __init__ (kw "delr" (PSeq []) d) (kw "delc" (PSeq []) d) lenuni'
             xul' yul' xll' yll' rotation' proj4_str' epsg' units' lm'.

(** [from_namfile(namefile)], on the new instance. The [pop] of
    [start_datetime] swallows its exception, also that of a missing
    dictionary; a missing dictionary then fails the call of the class. *)
Definition from_namfile (namefile : option string) : M unit :=
  fun s =>
    match attribs_from_namfile_header namefile with
    | (Raise e, l) => (Raise e, s, l)
    | (Ok None, l) =>
        (Raise (TypeError "argument after ** must be a mapping, not NoneType"),
         s, l)
    | (Ok (Some attribs), l) =>
        match construct (dict_del "start_datetime" attribs) s with
        | (r, s', l') => (r, s', l ++ l')
        end
    end.

(** ** The reference file of a USGS model archive *)

(** How a reader ends: with a value, with one of the exceptions above, or
    with a plain [Exception] and its message. *)
Inductive outcome (A : Type) : Type :=
| Returns (a : A)
| Raises (e : exn)
| RaisesException (msg : string).
#[global] Arguments Returns {A} a.
#[global] Arguments Raises {A} e.
#[global] Arguments RaisesException {A} msg.

(** One turn of the loop over the lines of the reference file. *)
Definition reference_line (d : dict) (line : string) : result dict :=
  match strip line with
  | EmptyString => Raise IndexError
  | String c _ =>
      if negb (Ascii.eqb c "#") then
        match split_ws (hd EmptyString (split_on "#" (strip line))) with
        | k :: w :: ws => Ok (dict_set (lower k) (PStr (join " " (w :: ws))) d)
        | _ => Ok d
        end
      else Ok d
  end.

Fixpoint reference_lines (d : dict) (lines : list string) : result dict :=
  match lines with
  | [] => Ok d
  | line :: rest =>
      rbind (reference_line d line) (fun d' => reference_lines d' rest)
  end.

(** [float(v)] on a value of the dictionary. *)
Definition float_value (v : pyval) : result R :=
  match v with
  | PFloat r => Ok r
  | PInt z => Ok (IZR z)
  | PStr t => float_of host t
  | PNone =>
      Raise (TypeError
               "float() argument must be a string or a number, not 'NoneType'")
  | _ => Raise OutOfModel
  end.

(** [d[k] = float(d[k])]. *)
Definition set_float (k : string) (d : dict) : result dict :=
  match dict_get k d with
  | None => Raise KeyError
  | Some v => rbind (float_value v) (fun r => Ok (dict_set k (PFloat r) d))
  end.

(** The text of the model's length unit, turned into its code. *)
Definition lenuni_of_units (d : dict) : result dict :=
  match dict_get "length_units" d with
  | None => Ok d
  | Some (PStr t) =>
      match find (fun kv => String.eqb (fst kv) t) lenuni_values with
      | Some kv => Ok (dict_set "lenuni" (PInt (snd kv)) d)
      | None => Raise KeyError
      end
  | Some (PNone | PBool _ | PInt _ | PFloat _) => Raise KeyError
  | Some _ => Raise OutOfModel
  end.

(** The start date and time, put together under [start_datetime]. *)
Definition set_start_datetime (d : dict) : result dict :=
  match dict_get "start_date" d with
  | None => Ok d
  | Some sd =>
      let d1 := dict_del "start_date" d in
      match dict_get "start_time" d1 with
      | None => Ok (dict_set "start_datetime" sd d1)
      | Some st =>
          match sd, st with
          | PStr a, PStr b =>
              Ok (dict_set "start_datetime" (PStr (a ++ " " ++ b))
                    (dict_del "start_time" d1))
          | _, _ => Raise OutOfModel
          end
      end
  end.

(** [str(e)] for the exceptions [int] raises. *)
Definition str_of_exn (e : exn) : string :=
  match e with
  | TypeError m | ValueError m => m
  | _ => EmptyString
  end.

Definition epsg_msg : string :=
  "error reading epsg code from file:" ++ String "010" EmptyString.

(** The EPSG code as an integer; the CRS text of the file only when the
    file has no code. *)
Definition set_crs (d : dict) : outcome dict :=
  if has_key "epsg" d then
    match dict_get "epsg" d with
    | Some (PStr t) =>
        match int_of host t with
        | Ok z => Returns (dict_set "epsg" (PInt z) d)
        | Raise e => RaisesException (epsg_msg ++ str_of_exn e)
        end
    | Some (PInt z) => Returns (dict_set "epsg" (PInt z) d)
    | _ => Raises OutOfModel
    end
  else if has_key "proj4" d then
    match dict_get "proj4" d with
    | Some v => Returns (dict_set "proj4_str" v d)
    | None => Raises KeyError
    end
  else Returns d.

(** The items the reader keeps at its end. *)
Definition kept (kv : string * pyval) : bool :=
  existsb (String.eqb (lower (fst kv))) (keys defaults)
  || String.eqb (lower (fst kv)) "epsg".

(** [read_usgs_model_reference_file(reffile)]. *)
Definition read_usgs_model_reference_file (reffile : string)
  : outcome (option dict) :=
  let d := dict_del "proj4_str" defaults in
  if exists_file host reffile then
    match open_file host reffile with
    | Raise e => Raises e
    | Ok lines =>
        match
          rbind (reference_lines d lines) (fun d =>
          rbind (set_float "xul" d) (fun d =>
          rbind (set_float "yul" d) (fun d =>
          rbind (set_float "rotation" d) (fun d =>
          rbind (lenuni_of_units d) set_start_datetime))))
        with
        | Raise e => Raises e
        | Ok d =>
            match set_crs d with
            | Returns d' => Returns (Some (filter kept d'))
            | Raises e => Raises e
            | RaisesException m => RaisesException m
            end
        end
    end
  else Returns None.

(** ** [load] *)

(** [load(namefile, reffile)]; the warnings are those of the header. *)
Definition load (namefile : option string) (reffile : string)
  : outcome dict * list event :=
  match namefile with
  | None =>
      (Raises (TypeError
                 "expected str, bytes or os.PathLike object, not NoneType"), [])
  | Some nf =>
      match read_usgs_model_reference_file
              (path_join host (dirname host nf) reffile) with
      | Returns (Some d) => (Returns d, [])
      | Raises e => (Raises e, [])
      | RaisesException m => (RaisesException m, [])
      | Returns None =>
          match attribs_from_namfile_header namefile with
          | (Ok (Some d), l) => (Returns d, l)
          | (Ok None, l) => (Returns defaults, l)
          | (Raise e, l) => (Raises e, l)
          end
      end
  end.

(** ** Grid specification files *)

(** [f.readline()]: the next line, or the empty text at the end of the
    file. *)
Definition readline (f : list string) : string * list string :=
  match f with
  | [] => (EmptyString, [])
  | line :: rest => (line, rest)
  end.

(** The spacings one token stands for: [n*v] is [v], [n] times, and [v] is
    read only if [n] is positive. *)
Definition spacing_token (r : string) : result (list R) :=
  if contains "*" r then
    rbind (rbind (item_at (split_on "*" r) 0) (int_of host)) (fun n =>
      if (0 <? n)%Z then
        rbind (rbind (item_at (split_on "*" r) 1) (float_of host)) (fun v =>
          Ok (repeat v (Z.to_nat n)))
      else Ok [])
  else rbind (float_of host r) (fun v => Ok [v]).

Fixpoint spacing_tokens (raw : list string) : result (list R) :=
  match raw with
  | [] => Ok []
  | r :: rest =>
      rbind (spacing_token r) (fun vs =>
      rbind (spacing_tokens rest) (fun ws => Ok (vs ++ ws)))
  end.

(** The loop [while j < n] over the lines of the file, with the spacings
    read so far and their counter; [None] when the turns allowed are used
    up. *)
Fixpoint read_spacings (fuel : nat) (n : Z) (acc : list R) (j : Z)
    (f : list string) : option (result (list R * list string)) :=
  match fuel with
  | O => None
  | S fuel' =>
      if (j <? n)%Z then
        let (line, f') := readline f in
        match spacing_tokens (split_ws (strip line)) with
        | Raise e => Some (Raise e)
        | Ok vs =>
            read_spacings fuel' n (acc ++ vs) (j + Z.of_nat (length vs)) f'
        end
      else Some (Ok (acc, f))
  end.

(** The two header lines of a grid specification file. *)
Definition gridspec_header (f : list string)
  : result (Z * Z * R * R * R * list string) :=
  let (l1, f1) := readline f in
  let raw := split_ws (strip l1) in
  rbind (rbind (item_at raw 0) (int_of host)) (fun nrow =>
  rbind (rbind (item_at raw 1) (int_of host)) (fun ncol =>
  let (l2, f2) := readline f1 in
  let raw := split_ws (strip l2) in
  rbind (rbind (item_at raw 0) (float_of host)) (fun xul' =>
  rbind (rbind (item_at raw 1) (float_of host)) (fun yul' =>
  rbind (rbind (item_at raw 2) (float_of host)) (fun rot =>
  Ok (nrow, ncol, xul', yul', rot, f2)))))).

(** [from_gridspec(gridspec_file, lenuni)], on the new instance; [None] when
    the turns allowed to its loops are used up. *)
Definition from_gridspec (fuel : nat) (gridspec_file : string) (lenuni' : Z)
  : SpatialReference -> option (result unit * SpatialReference * list event) :=
  fun s =>
    match rbind (open_file host gridspec_file) gridspec_header with
    | Raise e => Some (Raise e, s, [])
    | Ok (nrow, ncol, xul', yul', rot, f) =>
        match read_spacings fuel ncol [] 0 f with
        | None => None
        | Some (Raise e) => Some (Raise e, s, [])
        | Some (Ok (delr', f')) =>
            match read_spacings fuel nrow [] 0 f' with
            | None => None
            | Some (Raise e) => Some (Raise e, s, [])
            | Some (Ok (delc', _)) =>
                Some (__init__ (PSeq delr') (PSeq delc') lenuni'
                        (Some xul') (Some yul') None None rot
                        None None None None s)
            end
        end
    end.

(** ** Files for the examples

    A directory with a name file, a reference file and a grid specification
    file, and the conversions of the numbers they hold. *)
Definition nl : string := String "010" EmptyString.

Definition line (t : string) : string := (t ++ nl)%string.

Definition sample_files (path : string) : result (list string) :=
  if String.eqb path "model.nam" then
    Ok [line "# xul:100; yul:200"; line "LIST 2 model.list"]
  else if String.eqb path "usgs.model.reference" then
    Ok [line "# reference"; line "xul 100"; line "yul 200"; line "epsg 2";
        line "proj4 +proj=utm"; line "length_multiplier 10";
        line "start_date 1/1/1970"]
  else if String.eqb path "blank.reference" then
    Ok [line "xul 100"; line "yul 200"; nl]
  else if String.eqb path "grid.spc" then
    Ok [line "2 2"; line "0 20 0"; line "2*10 10"; line "10 10"]
  else if String.eqb path "short.spc" then
    Ok [line "2 2"; line "0 20 0"]
  else Raise IOError.

Definition sample_exists (path : string) : bool :=
  match sample_files path with
  | Ok _ => true
  | Raise _ => false
  end.

Definition sample_float (t : string) : result R :=
  if String.eqb (strip t) "0" then Ok 0
  else if String.eqb (strip t) "10" then Ok 10
  else if String.eqb (strip t) "20" then Ok 20
  else if String.eqb (strip t) "100" then Ok 100
  else if String.eqb (strip t) "200" then Ok 200
  else Raise (ValueError "could not convert string to float").

Definition sample_int (t : string) : result Z :=
  if String.eqb (strip t) "2" then Ok 2%Z
  else Raise (ValueError "invalid literal for int() with base 10").

Definition sample_dirname (path : string) : string := EmptyString.

Definition sample_join (a b : string) : string :=
  if String.eqb a EmptyString then b else (a ++ "/" ++ b)%string.

Definition sample_host : platform :=
  mk_platform sample_float sample_int sample_files sample_exists
    sample_dirname sample_join.

(** ** Notions on the readers *)

(** The entries the header reader can produce: a key of [defaults] or
    [start_datetime], with a value of the type the constructor expects. *)
Definition header_entry (kv : string * pyval) : bool :=
  let v := snd kv in
  if existsb (String.eqb (fst kv)) ["xul"; "yul"; "length_multiplier"] then
    match v with PNone | PFloat _ => true | _ => false end
  else if String.eqb (fst kv) "rotation" then
    match v with PFloat _ => true | _ => false end
  else if existsb (String.eqb (fst kv)) ["proj4_str"; "units"] then
    match v with PNone | PStr _ => true | _ => false end
  else if String.eqb (fst kv) "lenuni" then
    match v with PInt _ => true | _ => false end
  else if String.eqb (fst kv) "start_datetime" then
    match v with PStr _ => true | _ => false end
  else false.

Definition header_dict (d : dict) : Prop :=
  forallb header_entry d = true /\
  (keys d = keys defaults \/ keys d = keys defaults ++ ["start_datetime"]).

(** The line of a reference file gives a value to the key [k]: its text
    before the first [#] has two words or more, and the first one is [k] up
    to case. *)
Definition names (k : string) (line : string) : bool :=
  match split_ws (hd EmptyString (split_on "#" (strip line))) with
  | k' :: _ :: _ => String.eqb (lower k') k
  | _ => false
  end.

(** ** Facts on arrays *)

Lemma eqb_shape_refl s : eqb_shape s s = true.
Proof.
  induction s as [|n s IH]; simpl; [reflexivity|].
  now rewrite Nat.eqb_refl, IH.
Qed.

Lemma map2_length {A B C} (f : A -> B -> C) l m :
  length l = length m -> length (map2 f l m) = length l.
Proof.
  intros H. unfold map2. rewrite length_map, length_combine, <- H.
  apply Nat.min_id.
Qed.

Lemma map2_map_l {A A' B C} (f : A' -> B -> C) (g : A -> A') l m :
  map2 f (map g l) m = map2 (fun a b => f (g a) b) l m.
Proof.
  unfold map2. revert m; induction l as [|a l IH]; intros [|b m]; simpl; auto.
  now rewrite IH.
Qed.

Lemma map2_map_r {A B B' C} (f : A -> B' -> C) (g : B -> B') l m :
  map2 f l (map g m) = map2 (fun a b => f a (g b)) l m.
Proof.
  unfold map2. revert m; induction l as [|a l IH]; intros [|b m]; simpl; auto.
  now rewrite IH.
Qed.

Lemma map2_ext {A B C} (f g : A -> B -> C) l m :
  (forall a b, f a b = g a b) -> map2 f l m = map2 g l m.
Proof.
  intros H. unfold map2. apply map_ext. intros [a b]; apply H.
Qed.

Lemma map2_map2 {A B C D E} (h : C -> D -> E) (f : A -> B -> C) (g : A -> B -> D) l m :
  map2 h (map2 f l m) (map2 g l m) = map2 (fun a b => h (f a b) (g a b)) l m.
Proof.
  unfold map2. revert m; induction l as [|a l IH]; intros [|b m]; simpl; auto.
  now rewrite IH.
Qed.

Lemma map2_fst {A B} (l : list A) (m : list B) :
  length l = length m -> map2 (fun a _ => a) l m = l.
Proof.
  unfold map2. revert m; induction l as [|a l IH]; intros [|b m] H;
    simpl in *; try discriminate; auto.
  f_equal. apply IH. now injection H.
Qed.

Lemma map2_snd {A B} (l : list A) (m : list B) :
  length l = length m -> map2 (fun _ b => b) l m = m.
Proof.
  unfold map2. revert m; induction l as [|a l IH]; intros [|b m] H;
    simpl in *; try discriminate; auto.
  f_equal. apply IH. now injection H.
Qed.

Lemma rotate_ok (x y : ndarray) theta xo yo :
  shape x = shape y ->
  rotate x y theta xo yo =
  Ok (mk_nd (shape x) (map2 (fun a b => rotate_x a b theta xo yo) (data x) (data y)),
      mk_nd (shape x) (map2 (fun a b => rotate_y a b theta xo yo) (data x) (data y))).
Proof.
  intros Hs. unfold rotate, nd_zip, nd_map; simpl.
  rewrite <- Hs, eqb_shape_refl; simpl.
  rewrite !map_map, !map2_map_l, !map2_map_r.
  reflexivity.
Qed.

Lemma rotate_point_inverse x y theta xo yo :
  rotate_x (rotate_x x y theta xo yo) (rotate_y x y theta xo yo) (- theta) xo yo = x /\
  rotate_y (rotate_x x y theta xo yo) (rotate_y x y theta xo yo) (- theta) xo yo = y.
Proof.
  unfold rotate_x, rotate_y.
  replace (- theta * PI / 180) with (- (theta * PI / 180)) by lra.
  rewrite cos_neg, sin_neg.
  pose proof (sin2_cos2 (theta * PI / 180)) as H. unfold Rsqr in H.
  set (c := cos (theta * PI / 180)) in *.
  set (s := sin (theta * PI / 180)) in *.
  split.
  - replace (xo + c * (xo + c * (x - xo) - s * (y - yo) - xo)
             - - s * (yo + s * (x - xo) + c * (y - yo) - yo))
      with (xo + (s * s + c * c) * (x - xo)) by ring.
    rewrite H; ring.
  - replace (yo + - s * (xo + c * (x - xo) - s * (y - yo) - xo)
             + c * (yo + s * (x - xo) + c * (y - yo) - yo))
      with (yo + (s * s + c * c) * (y - yo)) by ring.
    rewrite H; ring.
Qed.

Lemma deg90 : 90 * PI / 180 = PI / 2.
Proof. lra. Qed.

(** C6. Rotating by [theta] degrees about an origin and then by [- theta]
    about the same origin gives every array of points back, exactly, and a
    positive angle turns counter-clockwise: a quarter turn takes the point
    one unit to the right of the origin to the point one unit above it. *)
Theorem rotate_inverse (x y : ndarray) (theta xo yo : R) :
  wf_nd x -> wf_nd y -> shape x = shape y ->
  (exists x' y',
      rotate x y theta xo yo = Ok (x', y') /\
      rotate x' y' (- theta) xo yo = Ok (x, y)) /\
  rotate (scalar (xo + 1)) (scalar yo) 90 xo yo = Ok (scalar xo, scalar (yo + 1)).
Proof.
  intros Hx Hy Hs. split.
  - assert (Hlen : length (data x) = length (data y)).
    { unfold wf_nd in *. now rewrite Hx, Hy, Hs. }
    eexists; eexists. split; [apply rotate_ok; exact Hs|].
    rewrite rotate_ok by reflexivity. simpl.
    rewrite !map2_map2.
    rewrite (map2_ext (fun a b => rotate_x _ _ _ _ _) (fun a _ => a))
      by (intros; apply rotate_point_inverse).
    rewrite (map2_ext (fun a b => rotate_y _ _ _ _ _) (fun _ b => b))
      by (intros; apply rotate_point_inverse).
    rewrite map2_fst, map2_snd by exact Hlen.
    destruct x, y; simpl in *; subst; reflexivity.
  - rewrite rotate_ok by reflexivity. unfold scalar, map2; simpl.
    unfold rotate_x, rotate_y. rewrite deg90, cos_PI2, sin_PI2.
    replace (xo + 0 * (xo + 1 - xo) - 1 * (yo - yo)) with xo by ring.
    replace (yo + 1 * (xo + 1 - xo) + 0 * (yo - yo)) with (yo + 1) by ring.
    reflexivity.
Qed.

(** ** Edges and centers *)

Lemma fold_left_Rplus l acc : fold_left Rplus l acc = acc + fold_left Rplus l 0.
Proof.
  revert acc; induction l as [|v l IH]; intros acc; simpl; [ring|].
  rewrite (IH (acc + v)), (IH (0 + v)). ring.
Qed.

Lemma psum_0 l : psum l 0 = 0.
Proof. reflexivity. Qed.

Lemma psum_S l i :
  (i < length l)%nat -> psum l (S i) = psum l i + nth i l 0.
Proof.
  unfold psum, add_reduce. revert i; induction l as [|v l IH]; intros i Hi;
    simpl in *; [lia|].
  destruct i as [|i]; simpl.
  - ring.
  - rewrite fold_left_Rplus, (fold_left_Rplus (firstn i l) (0 + v)).
    rewrite IH by lia. ring.
Qed.

Lemma psum_all l : psum l (length l) = add_reduce l.
Proof. unfold psum. now rewrite firstn_all. Qed.

Lemma psum_cons v l i : psum (v :: l) (S i) = v + psum l i.
Proof.
  unfold psum, add_reduce. simpl. rewrite fold_left_Rplus. ring.
Qed.

Lemma accumulate_from_length acc l : length (accumulate_from acc l) = length l.
Proof. revert acc; induction l; intros; simpl; auto. Qed.

Lemma add_accumulate_length l : length (add_accumulate l) = length l.
Proof. destruct l; simpl; auto. now rewrite accumulate_from_length. Qed.

Lemma accumulate_from_nth acc l i :
  (i < length l)%nat -> nth i (accumulate_from acc l) 0 = acc + psum l (S i).
Proof.
  revert acc i; induction l as [|v l IH]; intros acc i Hi; simpl in *; [lia|].
  destruct i as [|i].
  - unfold psum, add_reduce; simpl. ring.
  - rewrite IH by lia. rewrite (psum_cons v l (S i)). ring.
Qed.

Lemma add_accumulate_nth l i :
  (i < length l)%nat -> nth i (add_accumulate l) 0 = psum l (S i).
Proof.
  destruct l as [|v l]; simpl; [lia|]. intros Hi.
  destruct i as [|i].
  - unfold psum, add_reduce; simpl. ring.
  - rewrite accumulate_from_nth by lia. now rewrite psum_cons.
Qed.

Lemma map2_nth {A B C} (f : A -> B -> C) l m i da db dc :
  (i < length l)%nat -> (i < length m)%nat ->
  nth i (map2 f l m) dc = f (nth i l da) (nth i m db).
Proof.
  unfold map2. revert m i; induction l as [|a l IH]; intros [|b m] i Hl Hm;
    simpl in *; try lia.
  destruct i; [reflexivity|]. apply IH; lia.
Qed.

Lemma nth_map_scale c l i : nth i (map (fun v => c * v) l) 0 = c * nth i l 0.
Proof.
  revert i; induction l as [|v l IH]; intros [|i]; simpl; auto; ring.
Qed.

Lemma nth_map_from L l i :
  (i < length l)%nat -> nth i (map (fun v => L - v) l) 0 = L - nth i l 0.
Proof.
  revert i; induction l as [|v l IH]; intros [|i] Hi; simpl in *; try lia; auto.
  apply IH; lia.
Qed.

Lemma xcenter_length s : length (get_xcenter_array s) = ncol s.
Proof.
  unfold get_xcenter_array, ncol.
  rewrite map2_length; rewrite ?add_accumulate_length, ?length_map; reflexivity.
Qed.

Lemma ycenter_length s : length (get_ycenter_array s) = nrow s.
Proof.
  unfold get_ycenter_array, nrow. rewrite length_map.
  rewrite map2_length; rewrite ?add_accumulate_length, ?length_map; reflexivity.
Qed.

Lemma xcenter_nth s i :
  (i < ncol s)%nat ->
  nth i (get_xcenter_array s) 0 = psum (delr s) (S i) - 0.5 * nth i (delr s) 0.
Proof.
  unfold ncol, get_xcenter_array. intros Hi.
  rewrite (map2_nth _ _ _ _ 0 0);
    rewrite ?add_accumulate_length, ?length_map; auto.
  rewrite add_accumulate_nth by auto.
  now rewrite nth_map_scale.
Qed.

Lemma ycenter_nth s i :
  (i < nrow s)%nat ->
  nth i (get_ycenter_array s) 0 =
  add_reduce (delc s) - (psum (delc s) (S i) - 0.5 * nth i (delc s) 0).
Proof.
  unfold nrow, get_ycenter_array. intros Hi.
  cbv zeta.
  rewrite nth_map_from
    by (rewrite map2_length; rewrite ?add_accumulate_length, ?length_map; auto).
  rewrite (map2_nth _ _ _ _ 0 0);
    rewrite ?add_accumulate_length, ?length_map; auto.
  rewrite add_accumulate_nth by auto.
  now rewrite nth_map_scale.
Qed.

Lemma xedge_nth s i :
  (i <= ncol s)%nat -> nth i (get_xedge_array s) 0 = psum (delr s) i.
Proof.
  unfold ncol, get_xedge_array. intros Hi. destruct i as [|i]; simpl.
  - reflexivity.
  - apply add_accumulate_nth. lia.
Qed.

Lemma yedge_nth s i :
  (i <= nrow s)%nat ->
  nth i (get_yedge_array s) 0 = add_reduce (delc s) - psum (delc s) i.
Proof.
  unfold nrow, get_yedge_array. intros Hi.
  destruct i as [|i]; simpl.
  - rewrite psum_0. ring.
  - rewrite nth_map_from by (rewrite add_accumulate_length; lia).
    rewrite add_accumulate_nth by lia. reflexivity.
Qed.

Lemma nth_positive l i :
  Forall (fun v => 0 < v) l -> (i < length l)%nat -> 0 < nth i l 0.
Proof.
  intros H Hi. rewrite Forall_forall in H. apply H. now apply nth_In.
Qed.

(** C7. For spacing vectors with positive entries: the column edges are 0
    followed by the cumulative sums of [delr], [ncol + 1] of them, and column
    center [i] is the cumulative sum through [i] minus half of entry [i]; the
    row edges run from the total length of [delc] down to 0, row center [i]
    is the total minus the cumulative sum plus half the spacing, and on both
    axes center [i] lies strictly between edge [i] and edge [i + 1]. *)
Theorem edges_and_centers (s : SpatialReference) :
  Forall (fun v => 0 < v) (delr s) ->
  Forall (fun v => 0 < v) (delc s) ->
  (get_xedge_array s = 0 :: add_accumulate (delr s) /\
   length (get_xedge_array s) = S (ncol s) /\
   length (get_yedge_array s) = S (nrow s) /\
   nth 0 (get_yedge_array s) 0 = add_reduce (delc s) /\
   nth (nrow s) (get_yedge_array s) 0 = 0) /\
  (forall i, (i < ncol s)%nat ->
     nth i (add_accumulate (delr s)) 0 = psum (delr s) (S i) /\
     nth i (get_xcenter_array s) 0 = psum (delr s) (S i) - 0.5 * nth i (delr s) 0 /\
     nth i (get_xedge_array s) 0 < nth i (get_xcenter_array s) 0
       < nth (S i) (get_xedge_array s) 0) /\
  (forall i, (i < nrow s)%nat ->
     nth i (get_yedge_array s) 0 = add_reduce (delc s) - psum (delc s) i /\
     nth i (get_ycenter_array s) 0 =
       add_reduce (delc s) - psum (delc s) (S i) + 0.5 * nth i (delc s) 0 /\
     nth (S i) (get_yedge_array s) 0 < nth i (get_ycenter_array s) 0
       < nth i (get_yedge_array s) 0).
Proof.
  intros Hr Hc. split; [|split].
  - split; [reflexivity|]. split; [|split; [|split]].
    + unfold get_xedge_array, ncol. simpl. now rewrite add_accumulate_length.
    + unfold get_yedge_array, nrow. simpl.
      now rewrite length_map, add_accumulate_length.
    + reflexivity.
    + rewrite yedge_nth by lia. unfold nrow. rewrite psum_all. ring.
  - intros i Hi. pose proof (nth_positive _ i Hr Hi) as Hp.
    rewrite add_accumulate_nth by exact Hi.
    rewrite xcenter_nth, !xedge_nth by (unfold ncol in *; lia).
    rewrite (psum_S _ i Hi). repeat split; lra.
  - intros i Hi. pose proof (nth_positive _ i Hc Hi) as Hp.
    rewrite ycenter_nth, !yedge_nth by (unfold nrow in *; lia).
    rewrite (psum_S _ i Hi). repeat split; lra.
Qed.

(** ** The monad laws the proofs step with *)

Lemma bind_ret {A B} (a : A) (f : A -> M B) s : bind (ret a) f s = f a s.
Proof. unfold bind, ret. destruct (f a s) as [[r s2] l2]. reflexivity. Qed.

Lemma bind_get {B} (f : SpatialReference -> M B) s : bind get f s = f s s.
Proof. unfold bind, get. destruct (f s s) as [[r s2] l2]. reflexivity. Qed.

Lemma bind_lift_ok {A B} (a : A) (f : A -> M B) s : bind (lift (Ok a)) f s = f a s.
Proof. apply bind_ret. Qed.

Lemma bind_run {A B} (m : M A) (f : A -> M B) s a s1 :
  m s = (Ok a, s1, []) -> bind m f s = f a s1.
Proof.
  intros H. unfold bind. rewrite H. destruct (f a s1) as [[r s2] l2]. reflexivity.
Qed.

Lemma bind_run_log {A B} (m : M A) (f : A -> M B) s a s1 l1 r s2 l2 :
  m s = (Ok a, s1, l1) -> f a s1 = (r, s2, l2) -> bind m f s = (r, s2, l1 ++ l2).
Proof. intros H1 H2. unfold bind. rewrite H1, H2. reflexivity. Qed.

Lemma bind_raise {A B} (m : M A) (f : A -> M B) s e s1 l1 :
  m s = (Raise e, s1, l1) -> bind m f s = (Raise e, s1, l1).
Proof. intros H. unfold bind. rewrite H. reflexivity. Qed.

Lemma bind_assoc {A B C} (m : M A) (f : A -> M B) (g : B -> M C) s :
  bind (bind m f) g s = bind m (fun a => bind (f a) g) s.
Proof.
  unfold bind. destruct (m s) as [[[a|e] s1] l1]; [|reflexivity].
  destruct (f a s1) as [[[b|e] s2] l2]; [|reflexivity].
  destruct (g b s2) as [[r s3] l3]. now rewrite app_assoc.
Qed.

Lemma epsg_eta s : set__epsg (_epsg s) s = s.
Proof. destruct s; reflexivity. Qed.

Ltac fields :=
  cbv [delr delc lenuni _proj4_str _epsg supported_units _units
       _length_multiplier xul yul xll yll rotation origin_loc _xgrid _ygrid
       _ycentergrid _xcentergrid _vertices __dict__
       set_delr set_delc set_lenuni set__proj4_str set__epsg
       set_supported_units set__units set__length_multiplier set_xul set_yul
       set_xll set_yll set_rotation set_origin_loc set__xgrid set__ygrid
       set__ycentergrid set__xcentergrid set__vertices set___dict__ cleared
       as_float theta yedge get_yedge_array origin_ul origin_ll].

Ltac fields_in H :=
  cbv [delr delc lenuni _proj4_str _epsg supported_units _units
       _length_multiplier xul yul xll yll rotation origin_loc _xgrid _ygrid
       _ycentergrid _xcentergrid _vertices __dict__
       set_delr set_delc set_lenuni set__proj4_str set__epsg
       set_supported_units set__units set__length_multiplier set_xul set_yul
       set_xll set_yll set_rotation set_origin_loc set__xgrid set__ygrid
       set__ycentergrid set__xcentergrid set__vertices set___dict__ cleared
       as_float theta yedge get_yedge_array origin_ul origin_ll] in H.

Ltac norm := repeat first [rewrite bind_assoc | rewrite bind_ret | rewrite bind_get].

(** ** Quiet getters *)

Lemma cfg_of_cfg c : cfg (of_cfg c) = c.
Proof. destruct c as [[[[l p] sup] u] lm]. reflexivity. Qed.

Lemma quiet_ret {A} c (a : A) : quiet c (ret a).
Proof. exists (Ok a). intros t _. exists (_epsg t). now rewrite epsg_eta. Qed.

Lemma quiet_raise {A} c e : quiet c (@raise A e).
Proof. exists (Raise e). intros t _. exists (_epsg t). now rewrite epsg_eta. Qed.

Lemma quiet_lift {A} c (r : result A) : quiet c (lift r).
Proof. exists r. intros t _. exists (_epsg t). now rewrite epsg_eta. Qed.

Lemma quiet_bind {A B} c (m : M A) (f : A -> M B) :
  quiet c m -> (forall a, quiet c (f a)) -> quiet c (bind m f).
Proof.
  intros [[a|e] Hm] Hf.
  - destruct (Hf a) as [r Hr]. exists r. intros t Ht.
    destruct (Hm t Ht) as [e1 H1].
    destruct (Hr (set__epsg e1 t)) as [e2 H2]; [exact Ht|].
    exists e2. rewrite (bind_run _ _ _ _ _ H1). exact H2.
  - exists (Raise e). intros t Ht. destruct (Hm t Ht) as [e1 H1].
    exists e1. now rewrite (bind_raise _ _ _ _ _ _ H1).
Qed.

Lemma quiet_get {B} c (f : SpatialReference -> M B) :
  (forall s t, cfg s = c -> cfg t = c -> f s = f t) ->
  (forall s, cfg s = c -> quiet c (f s)) ->
  quiet c (bind get f).
Proof.
  intros Heq Hq. destruct (Hq (of_cfg c) (cfg_of_cfg c)) as [r Hr].
  exists r. intros t Ht. rewrite bind_get.
  rewrite (Heq t (of_cfg c) Ht (cfg_of_cfg c)). now apply Hr.
Qed.

Lemma quiet_try {A} c (m h : M A) : quiet c m -> quiet c h -> quiet c (try_except m h).
Proof.
  intros [[a|e] Hm] [r Hh].
  - exists (Ok a). intros t Ht. destruct (Hm t Ht) as [e1 H1].
    exists e1. unfold try_except. now rewrite H1.
  - exists r. intros t Ht. destruct (Hm t Ht) as [e1 H1].
    destruct (Hh (set__epsg e1 t)) as [e2 H2]; [exact Ht|].
    exists e2. unfold try_except. rewrite H1, H2. reflexivity.
Qed.

Lemma quiet_set_epsg c code : quiet c (object_setattr "_epsg" (PInt code)).
Proof. exists (Ok tt). intros t _. exists (Some code). reflexivity. Qed.

Lemma cfg_fields s t :
  cfg s = cfg t ->
  lenuni s = lenuni t /\ _proj4_str s = _proj4_str t /\
  supported_units s = supported_units t /\ _units s = _units t /\
  _length_multiplier s = _length_multiplier t.
Proof. unfold cfg. intros H. injection H as H1 H2 H3 H4 H5. auto. Qed.

Ltac same_cfg :=
  let s := fresh "s" in let t := fresh "t" in
  let Hs := fresh "Hs" in let Ht := fresh "Ht" in
  intros s t Hs Ht; rewrite <- Ht in Hs;
  apply cfg_fields in Hs; destruct Hs as (H1 & H2 & H3 & H4 & H5);
  try rewrite H1; try rewrite H2; try rewrite H3; try rewrite H4; try rewrite H5;
  reflexivity.

Lemma quiet_str_method c o name : quiet c (str_method o name).
Proof. destruct o; [apply quiet_ret | apply quiet_raise]. Qed.

Lemma quiet_proj4_str c : quiet c proj4_str.
Proof.
  unfold proj4_str. apply quiet_get; [same_cfg|].
  intros s _. destruct (_proj4_str s) as [p|]; [|apply quiet_ret].
  destruct (contains "epsg" (lower p)); [|apply quiet_ret].
  apply quiet_bind; [apply quiet_lift|]. intros code.
  apply quiet_bind; [apply quiet_set_epsg|]. intros _. apply quiet_ret.
Qed.

Lemma quiet_if {A} c (b : bool) (m1 m2 : M A) :
  quiet c m1 -> quiet c m2 -> quiet c (if b then m1 else m2).
Proof. destruct b; auto. Qed.

Lemma quiet_parse_units c : quiet c _parse_units_from_proj4.
Proof.
  unfold _parse_units_from_proj4. apply quiet_try; [|apply quiet_ret].
  apply quiet_bind; [apply quiet_proj4_str|]. intros p.
  apply quiet_bind; [apply quiet_str_method|]. intros p'.
  apply quiet_bind.
  - apply quiet_if.
    + apply quiet_bind; [apply quiet_proj4_str|]. intros q.
      apply quiet_bind; [apply quiet_str_method|]. intros q'. apply quiet_lift.
    + apply quiet_bind; [apply quiet_proj4_str|]. intros q. apply quiet_str_method.
  - intros proj_str. repeat apply quiet_if; apply quiet_ret.
Qed.

Lemma quiet_units c : quiet c units.
Proof.
  unfold units. apply quiet_get; [same_cfg|]. intros s _.
  apply quiet_bind.
  - destruct (_units s); [apply quiet_ret | apply quiet_parse_units].
  - intros u. apply quiet_get; [same_cfg|]. intros s' _.
    apply quiet_if; [apply quiet_ret | apply quiet_raise].
Qed.

Lemma quiet_model_length_units c : quiet c model_length_units.
Proof.
  unfold model_length_units. apply quiet_get; [same_cfg|]. intros s _.
  destruct (find _ _); [apply quiet_ret | apply quiet_raise].
Qed.

Lemma quiet_length_multiplier c : quiet c length_multiplier.
Proof.
  unfold length_multiplier. apply quiet_get; [same_cfg|]. intros s _.
  destruct (_length_multiplier s); [apply quiet_ret|].
  repeat first
    [ apply quiet_ret
    | apply quiet_if
    | apply quiet_bind; [first [apply quiet_model_length_units | apply quiet_units]|];
      intros ? ].
Qed.

(** Where the multiplier getter returns [lm], it does so on every instance
    with the same unit settings, and writes at most the cached EPSG code. *)
Lemma multiplier_at s lm :
  value (length_multiplier s) = Ok (Some lm) ->
  forall t, cfg t = cfg s ->
  exists e, length_multiplier_operand t = (Ok lm, set__epsg e t, []).
Proof.
  intros Hv t Ht. destruct (quiet_length_multiplier (cfg s)) as [r Hr].
  destruct (Hr s eq_refl) as [e0 H0]. rewrite H0 in Hv. unfold value in Hv. simpl in Hv. subst r.
  destruct (Hr t Ht) as [e He]. exists e.
  unfold length_multiplier_operand. rewrite (bind_run _ _ _ _ _ He). reflexivity.
Qed.

(** ** The length multiplier *)

Lemma quiet_at {A} (m : M A) s :
  (forall c, quiet c m) ->
  forall t, cfg t = cfg s -> exists e, m t = (value (m s), set__epsg e t, []).
Proof.
  intros Hq t Ht. destruct (Hq (cfg s)) as [r Hr].
  destruct (Hr s eq_refl) as [e0 H0]. rewrite H0. unfold value; simpl.
  now apply Hr.
Qed.

Lemma multiplier_same s t :
  cfg t = cfg s -> value (length_multiplier t) = value (length_multiplier s).
Proof.
  intros Ht. destruct (quiet_at length_multiplier s quiet_length_multiplier t Ht)
    as [e He].
  now rewrite He.
Qed.

Lemma units_supported s u :
  value (units s) = Ok u -> In u (supported_units s).
Proof.
  unfold units. rewrite bind_get.
  assert (Hq : quiet (cfg s)
                 (match _units s with
                  | Some u0 => ret (Some (lower u0))
                  | None => _parse_units_from_proj4
                  end)).
  { destruct (_units s); [apply quiet_ret | apply quiet_parse_units]. }
  destruct Hq as [r Hr]. destruct (Hr s eq_refl) as [e He].
  destruct r as [o|x].
  - rewrite (bind_run _ _ _ _ _ He), bind_get. destruct s; fields.
    match goal with |- context [existsb ?f ?l] => destruct (existsb f l) eqn:E end.
    + unfold value; simpl. intros H; injection H as <-.
      apply existsb_exists in E as (v & Hin & Hv).
      apply String.eqb_eq in Hv. now subst.
    + unfold value; simpl. discriminate.
  - rewrite (bind_raise _ _ _ _ _ _ He). unfold value; simpl. discriminate.
Qed.

Lemma explicit_multiplier s m :
  _length_multiplier s = Some m -> value (length_multiplier s) = Ok (Some m).
Proof.
  intros H. unfold length_multiplier. rewrite bind_get, H. reflexivity.
Qed.

Lemma model_units_run s mu :
  In (lenuni s, mu) lenuni_text -> model_length_units s = (Ok mu, s, []).
Proof.
  intros H. unfold model_length_units. rewrite bind_get.
  simpl in H. destruct H as [H|[H|[H|[H|[]]]]]; injection H as H <-;
    rewrite <- H; reflexivity.
Qed.

Lemma derived_multiplier s mu u :
  _length_multiplier s = None ->
  In (lenuni s, mu) lenuni_text ->
  In u ["feet"; "meters"] ->
  (mu <> "undefined" -> value (units s) = Ok u) ->
  value (length_multiplier s) = Ok (Some (conversion mu u)).
Proof.
  intros Hn Hmu Hu Hunits. unfold length_multiplier. rewrite bind_get, Hn.
  pose proof (model_units_run s mu Hmu) as Hrun.
  assert (Hcases : mu = "undefined" \/ mu = "feet" \/ mu = "meters"
                   \/ mu = "centimeters").
  { simpl in Hmu. destruct Hmu as [H|[H|[H|[H|[]]]]]; injection H as _ <-; auto. }
  destruct Hcases as [->|Hcases].
  - repeat (rewrite (bind_run _ _ _ _ _ Hrun); cbn [String.eqb Ascii.eqb Bool.eqb]).
    reflexivity.
  - assert (Hv : value (units s) = Ok u).
    { apply Hunits. destruct Hcases as [->|[->| ->]]; discriminate. }
    assert (Hs : forall t, t = s -> cfg t = cfg s) by (now intros t ->).
    simpl in Hu.
    destruct Hcases as [->|[->| ->]]; destruct Hu as [<-|[<-|[]]];
      repeat (rewrite (bind_run _ _ _ _ _ Hrun); cbn [String.eqb Ascii.eqb Bool.eqb]);
      repeat (match goal with
              | |- context [bind units _ ?T] =>
                  let e := fresh "e" in
                  let He := fresh "He" in
                  destruct (quiet_at units s quiet_units T eq_refl) as [e He];
                  rewrite Hv in He;
                  rewrite (bind_run _ _ _ _ _ He); clear He
              end; cbn [String.eqb Ascii.eqb Bool.eqb]);
      unfold value, ret, conversion; cbn [String.eqb Ascii.eqb Bool.eqb andb fst];
      reflexivity.
Qed.

(** C9. An explicit multiplier always wins; otherwise the multiplier comes
    from the model's length unit and the resolved reference unit by the
    fixed table, so that model units feet with reference units meters give
    0.3048. *)
Theorem length_multiplier_precedence (s : SpatialReference) :
  (forall m, _length_multiplier s = Some m ->
             value (length_multiplier s) = Ok (Some m)) /\
  (_length_multiplier s = None ->
   supported_units s = ["feet"; "meters"] ->
   forall mu, In (lenuni s, mu) lenuni_text ->
     (mu = "undefined" -> value (length_multiplier s) = Ok (Some 1)) /\
     (forall u, value (units s) = Ok u ->
                value (length_multiplier s) = Ok (Some (conversion mu u)))) /\
  (conversion "feet" "meters" = 0.3048 /\
   conversion "meters" "feet" = 1 / 0.3048 /\
   conversion "centimeters" "meters" = 0.01 /\
   conversion "centimeters" "feet" = 1 / 30.48 /\
   conversion "feet" "feet" = 1 /\
   conversion "meters" "meters" = 1 /\
   forall u, conversion "undefined" u = 1) /\
  (_length_multiplier s = None -> lenuni s = 1%Z ->
   value (units s) = Ok "meters" ->
   value (length_multiplier s) = Ok (Some 0.3048)).
Proof.
  split; [|split; [|split]].
  - intros m. apply explicit_multiplier.
  - intros Hn Hsup mu Hmu. split.
    + intros ->. apply (derived_multiplier s "undefined" "feet"); simpl; auto.
      intros H; now elim H.
    + intros u Hu. apply derived_multiplier; auto.
      rewrite <- Hsup. now apply units_supported.
  - repeat split.
  - intros Hn Hl Hu.
    apply (derived_multiplier s "feet" "meters"); simpl; auto.
    rewrite Hl. auto.
Qed.

(** ** Running the setters *)

Lemma reset_run s : _reset s = (Ok tt, cleared s, []).
Proof. reflexivity. Qed.

Lemma corner_xul v s :
  setattr_corner "xul" (PFloat v) s = (Ok tt, cleared (set_xul (Some v) s), []).
Proof. reflexivity. Qed.

Lemma corner_yul v s :
  setattr_corner "yul" (PFloat v) s = (Ok tt, cleared (set_yul (Some v) s), []).
Proof. reflexivity. Qed.

Lemma corner_xll v s :
  setattr_corner "xll" (PFloat v) s = (Ok tt, cleared (set_xll (Some v) s), []).
Proof. reflexivity. Qed.

Lemma corner_yll v s :
  setattr_corner "yll" (PFloat v) s = (Ok tt, cleared (set_yll (Some v) s), []).
Proof. reflexivity. Qed.

Ltac corner_step :=
  first [ rewrite (bind_run _ _ _ _ _ (corner_xul _ _))
        | rewrite (bind_run _ _ _ _ _ (corner_yul _ _))
        | rewrite (bind_run _ _ _ _ _ (corner_xll _ _))
        | rewrite (bind_run _ _ _ _ _ (corner_yll _ _)) ].

Ltac lm_step H :=
  match goal with
  | |- context [bind length_multiplier_operand _ ?T] =>
      let e := fresh "e" in
      let He := fresh "He" in
      destruct (multiplier_at _ _ H T eq_refl) as [e He];
      rewrite (bind_run _ _ _ _ _ He); clear He
  end.

Lemma set_origin_ul s a b c d lm :
  origin_loc s = "ul" ->
  value (length_multiplier s) = Ok (Some lm) ->
  exists e, set_origin a b c d s
            = (Ok tt, set__epsg e (origin_ul (or_zero a) (or_zero b) lm s), []).
Proof.
  intros Hloc Hlm. destruct s. fields_in Hloc. subst. unfold set_origin.
  rewrite bind_get. fields. cbn [String.eqb Ascii.eqb Bool.eqb].
  rewrite bind_ret, bind_get. fields. cbn [String.eqb Ascii.eqb Bool.eqb].
  norm. corner_step. fields. norm. corner_step. fields. norm.
  lm_step Hlm. fields. norm. corner_step. fields. norm.
  lm_step Hlm. fields. norm. corner_step. fields.
  exists e0. rewrite reset_run. fields. reflexivity.
Qed.

Lemma set_origin_ll s a b c d lm :
  origin_loc s = "ll" ->
  value (length_multiplier s) = Ok (Some lm) ->
  exists e, set_origin a b c d s
            = (Ok tt, set__epsg e (origin_ll (or_zero c) (or_zero d) lm s), []).
Proof.
  intros Hloc Hlm. destruct s. fields_in Hloc. subst. unfold set_origin.
  rewrite bind_get. fields. cbn [String.eqb Ascii.eqb Bool.eqb].
  norm. corner_step. fields. norm. corner_step. fields. norm.
  lm_step Hlm. fields. norm. corner_step. fields. norm.
  lm_step Hlm. fields. norm. corner_step. fields. norm.
  cbn [String.eqb Ascii.eqb Bool.eqb]. norm.
  exists e0. rewrite reset_run. fields. reflexivity.
Qed.

Lemma set_origin_other s a b c d :
  String.eqb (origin_loc s) "ll" = false ->
  String.eqb (origin_loc s) "ul" = false ->
  set_origin a b c d s = (Ok tt, cleared s, []).
Proof.
  intros H1 H2. unfold set_origin.
  rewrite bind_get, H1. norm. rewrite H2. norm. apply reset_run.
Qed.

Lemma set_origin_run s a b c d lm :
  value (length_multiplier s) = Ok (Some lm) ->
  exists e, set_origin a b c d s
            = (Ok tt, set__epsg e (anchored a b c d lm s), []).
Proof.
  intros Hlm. unfold anchored.
  destruct (String.eqb (origin_loc s) "ll") eqn:E1.
  - apply String.eqb_eq in E1. now apply set_origin_ll.
  - destruct (String.eqb (origin_loc s) "ul") eqn:E2.
    + apply String.eqb_eq in E2. now apply set_origin_ul.
    + exists (_epsg s). rewrite set_origin_other by assumption.
      destruct s; reflexivity.
Qed.

Lemma lift_run {A} (r : result A) s : lift r s = (r, s, []).
Proof. reflexivity. Qed.

(** [transform] is [set_origin], then the scaling, the translation by the
    lower-left corner and the rotation about it. *)
Lemma transform_run s x y lm xo yo :
  value (length_multiplier s) = Ok (Some lm) ->
  xll (anchored (xul s) (yul s) (xll s) (yll s) lm s) = Some xo ->
  yll (anchored (xul s) (yul s) (xll s) (yll s) lm s) = Some yo ->
  exists e,
    transform x y s =
    (rotate (nd_map (fun v => v + xo) (nd_map (fun v => v * lm) x))
            (nd_map (fun v => v + yo) (nd_map (fun v => v * lm) y))
            (rotation s) xo yo,
     set__epsg e (anchored (xul s) (yul s) (xll s) (yll s) lm s), []).
Proof.
  intros Hlm Hx Hy. unfold transform. norm.
  destruct (set_origin_run s (xul s) (yul s) (xll s) (yll s) lm Hlm) as [e0 He0].
  rewrite (bind_run _ _ _ _ _ He0). clear He0. norm.
  unfold anchored in *. destruct s.
  fields. fields_in Hx. fields_in Hy.
  destruct (String.eqb origin_loc0 "ll");
    [|destruct (String.eqb origin_loc0 "ul")];
    fields; fields_in Hx; fields_in Hy;
    lm_step Hlm; norm; lm_step Hlm; norm; fields;
    try (injection Hx as Hx; injection Hy as Hy); subst;
    norm; fields; norm; fields; norm;
    exists e1; rewrite lift_run; reflexivity.
Qed.

(** ** The transform *)

Lemma deg0 : 0 * PI / 180 = 0.
Proof. lra. Qed.

Lemma anchored_ll_corner s a b c d lm :
  origin_loc s = "ll" ->
  xll (anchored a b c d lm s) = Some (or_zero c) /\
  yll (anchored a b c d lm s) = Some (or_zero d) /\
  xul (anchored a b c d lm s)
    = Some (or_zero c + sin (theta s) * add_reduce (delc s) * lm) /\
  yul (anchored a b c d lm s)
    = Some (or_zero d + cos (theta s) * add_reduce (delc s) * lm).
Proof. intros H. unfold anchored. rewrite H. repeat split. Qed.

Lemma anchored_ul_corner s a b c d lm :
  origin_loc s = "ul" ->
  xul (anchored a b c d lm s) = Some (or_zero a) /\
  yul (anchored a b c d lm s) = Some (or_zero b) /\
  xll (anchored a b c d lm s)
    = Some (or_zero a - sin (theta s) * add_reduce (delc s) * lm) /\
  yll (anchored a b c d lm s)
    = Some (or_zero b - cos (theta s) * add_reduce (delc s) * lm).
Proof. intros H. unfold anchored. rewrite H. repeat split. Qed.

Lemma anchored_keeps s a b c d lm :
  cfg (anchored a b c d lm s) = cfg s /\
  rotation (anchored a b c d lm s) = rotation s /\
  origin_loc (anchored a b c d lm s) = origin_loc s /\
  delr (anchored a b c d lm s) = delr s /\
  delc (anchored a b c d lm s) = delc s /\
  cleared (anchored a b c d lm s) = anchored a b c d lm s.
Proof.
  destruct s. unfold anchored, cfg. fields.
  destruct (String.eqb origin_loc0 "ll");
    [|destruct (String.eqb origin_loc0 "ul")]; fields; repeat split.
Qed.

Ltac projs :=
  cbn [delr delc lenuni _proj4_str _epsg supported_units _units
       _length_multiplier xul yul xll yll rotation origin_loc _xgrid _ygrid
       _ycentergrid _xcentergrid _vertices __dict__
       set_delr set_delc set_lenuni set__proj4_str set__epsg
       set_supported_units set__units set__length_multiplier set_xul set_yul
       set_xll set_yll set_rotation set_origin_loc set__xgrid set__ygrid
       set__ycentergrid set__xcentergrid set__vertices set___dict__ cleared
       value final output fst snd].

Lemma rotate_zero x y xo yo :
  wf_nd x -> wf_nd y -> shape x = shape y ->
  rotate (translate xo x) (translate yo y) 0 xo yo
  = Ok (translate xo x, translate yo y).
Proof.
  intros Hx Hy Hs.
  assert (Hlen : length (data x) = length (data y)).
  { unfold wf_nd in *. now rewrite Hx, Hy, Hs. }
  rewrite rotate_ok by exact Hs. unfold translate, nd_map; simpl.
  rewrite (map2_ext _ (fun a _ => a)).
  2:{ intros a b. unfold rotate_x. rewrite deg0, cos_0, sin_0. ring. }
  rewrite (map2_ext (fun a b => rotate_y a b 0 xo yo) (fun _ b => b)).
  2:{ intros a b. unfold rotate_y. rewrite deg0, cos_0, sin_0. ring. }
  rewrite map2_fst, map2_snd by (rewrite !length_map; exact Hlen).
  now rewrite <- Hs.
Qed.

Lemma scale_one a : scale 1 a = a.
Proof.
  unfold scale, nd_map. destruct a as [sh d]; simpl. f_equal.
  rewrite <- (map_id d) at 2. apply map_ext. intros v; ring.
Qed.

(** C1. [transform] scales both coordinates by the length multiplier, then
    adds the lower-left corner, then rotates counter-clockwise by the
    rotation angle about that corner, on arrays of any shape; with rotation 0
    and multiplier 1 the result is exactly [(x + xll, y + yll)]. The corner is
    the frame's lower-left corner as [set_origin] resolves it at the start of
    the call: the stored one when the lower-left corner is authoritative. *)
Theorem transform_scale_translate_rotate (s : SpatialReference)
    (x y : ndarray) (lm : R) :
  origin_loc s = "ul" \/ origin_loc s = "ll" ->
  value (length_multiplier s) = Ok (Some lm) ->
  wf_nd x -> wf_nd y -> shape x = shape y ->
  exists xo yo x' y',
    value (transform x y s) = Ok (x', y') /\
    output (transform x y s) = [] /\
    xll (final (transform x y s)) = Some xo /\
    yll (final (transform x y s)) = Some yo /\
    rotation (final (transform x y s)) = rotation s /\
    rotate (translate xo (scale lm x)) (translate yo (scale lm y))
           (rotation s) xo yo = Ok (x', y') /\
    shape x' = shape x /\ shape y' = shape y /\
    (origin_loc s = "ll" -> xo = or_zero (xll s) /\ yo = or_zero (yll s)) /\
    (rotation s = 0 -> lm = 1 -> x' = translate xo x /\ y' = translate yo y).
Proof.
  intros Ho Hlm Hx Hy Hs.
  set (A := anchored (xul s) (yul s) (xll s) (yll s) lm s).
  assert (Hc : exists xo yo, xll A = Some xo /\ yll A = Some yo /\
             (origin_loc s = "ll" -> xo = or_zero (xll s) /\ yo = or_zero (yll s))).
  { destruct Ho as [Ho|Ho].
    - destruct (anchored_ul_corner s (xul s) (yul s) (xll s) (yll s) lm Ho)
        as (_ & _ & H1 & H2).
      do 2 eexists. split; [exact H1|]. split; [exact H2|].
      rewrite Ho. discriminate.
    - destruct (anchored_ll_corner s (xul s) (yul s) (xll s) (yll s) lm Ho)
        as (H1 & H2 & _).
      do 2 eexists. split; [exact H1|]. split; [exact H2|]. auto. }
  destruct Hc as (xo & yo & Hxo & Hyo & Hll).
  destruct (transform_run s x y lm xo yo Hlm Hxo Hyo) as [e He].
  destruct (anchored_keeps s (xul s) (yul s) (xll s) (yll s) lm)
    as (_ & Hrot & _).
  fold A in Hrot, He.
  assert (Hr : rotate (translate xo (scale lm x)) (translate yo (scale lm y))
                 (rotation s) xo yo
               = Ok (mk_nd (shape x)
                       (map2 (fun a b => rotate_x a b (rotation s) xo yo)
                             (data (translate xo (scale lm x)))
                             (data (translate yo (scale lm y)))),
                     mk_nd (shape x)
                       (map2 (fun a b => rotate_y a b (rotation s) xo yo)
                             (data (translate xo (scale lm x)))
                             (data (translate yo (scale lm y)))))).
  { now rewrite rotate_ok by exact Hs. }
  exists xo, yo. do 2 eexists. rewrite He. projs.
  split; [exact Hr|]. split; [reflexivity|].
  split; [exact Hxo|]. split; [exact Hyo|]. split; [exact Hrot|].
  split; [exact Hr|]. split; [reflexivity|].
  split; [simpl; now rewrite Hs|]. split; [exact Hll|].
  intros H0 H1. subst lm. rewrite H0 in Hr |- *. rewrite !scale_one in *.
  rewrite (rotate_zero x y xo yo Hx Hy Hs) in Hr.
  injection Hr as Hr1 Hr2.
  unfold translate, nd_map; cbn [data shape].
  split; [rewrite <- Hr1 | rewrite <- Hr2]; f_equal; auto.
Qed.

(** ** Anchor consistency *)

Lemma corner_roundtrip rot L lm xo yo :
  rotate_x (0 * lm + xo) (L * lm + yo) rot xo yo
    = xo + sin (- rot * PI / 180) * L * lm /\
  rotate_y (0 * lm + xo) (L * lm + yo) rot xo yo
    = yo + cos (- rot * PI / 180) * L * lm.
Proof.
  unfold rotate_x, rotate_y.
  replace (- rot * PI / 180) with (- (rot * PI / 180)) by lra.
  rewrite sin_neg, cos_neg. split; ring.
Qed.

Lemma cfg_epsg e s : cfg (set__epsg e s) = cfg s.
Proof. reflexivity. Qed.

Lemma anchored_idem s a b c d lm e :
  origin_loc s = "ul" \/ origin_loc s = "ll" ->
  anchored (xul (set__epsg e (anchored a b c d lm s)))
           (yul (set__epsg e (anchored a b c d lm s)))
           (xll (set__epsg e (anchored a b c d lm s)))
           (yll (set__epsg e (anchored a b c d lm s))) lm
           (set__epsg e (anchored a b c d lm s))
  = set__epsg e (anchored a b c d lm s).
Proof.
  intros Ho. destruct s. fields_in Ho.
  destruct Ho as [-> | ->]; unfold anchored; fields;
    cbn [String.eqb Ascii.eqb Bool.eqb]; fields;
    cbn [String.eqb Ascii.eqb Bool.eqb]; cbv [or_zero]; reflexivity.
Qed.

Lemma rotate_scalar x y rot xo yo :
  rotate (scalar x) (scalar y) rot xo yo
  = Ok (scalar (rotate_x x y rot xo yo), scalar (rotate_y x y rot xo yo)).
Proof. now rewrite rotate_ok. Qed.

(** C2. After [set_origin] has recomputed the complementary corner, the
    transform of the model-space point (0, total length of [delc]), the
    grid's upper-left corner, is the frame's upper-left corner: the
    authoritative one when the origin is the upper left, the derived one
    when the origin is the lower left. *)
Theorem anchor_consistency (s : SpatialReference) (lm : R) :
  origin_loc s = "ul" \/ origin_loc s = "ll" ->
  value (length_multiplier s) = Ok (Some lm) ->
  exists xu yu,
    value (set_origin (xul s) (yul s) (xll s) (yll s) s) = Ok tt /\
    xul (final (set_origin (xul s) (yul s) (xll s) (yll s) s)) = Some xu /\
    yul (final (set_origin (xul s) (yul s) (xll s) (yll s) s)) = Some yu /\
    value (transform (scalar 0) (scalar (add_reduce (delc s)))
             (final (set_origin (xul s) (yul s) (xll s) (yll s) s)))
      = Ok (scalar xu, scalar yu) /\
    (origin_loc s = "ul" -> xu = or_zero (xul s) /\ yu = or_zero (yul s)) /\
    (origin_loc s = "ll" ->
       xll (final (set_origin (xul s) (yul s) (xll s) (yll s) s))
         = Some (or_zero (xll s)) /\
       yll (final (set_origin (xul s) (yul s) (xll s) (yll s) s))
         = Some (or_zero (yll s))).
Proof.
  intros Ho Hlm.
  destruct (set_origin_run s (xul s) (yul s) (xll s) (yll s) lm Hlm) as [e He].
  rewrite He. unfold final, value; cbn [fst snd].
  set (A := anchored (xul s) (yul s) (xll s) (yll s) lm s) in *.
  destruct (anchored_keeps s (xul s) (yul s) (xll s) (yll s) lm)
    as (Hcfg & Hrot & Hloc & _ & Hdelc & _).
  fold A in Hcfg, Hrot, Hloc, Hdelc.
  assert (Hlm1 : fst (fst (length_multiplier (set__epsg e A))) = Ok (Some lm)).
  { change (value (length_multiplier (set__epsg e A)) = Ok (Some lm)).
    rewrite (multiplier_same s); [exact Hlm|]. now rewrite cfg_epsg. }
  pose proof (anchored_idem s (xul s) (yul s) (xll s) (yll s) lm e Ho) as Hid.
  fold A in Hid.
  assert (Hcorners :
    exists xu yu xo yo,
      xul A = Some xu /\ yul A = Some yu /\ xll A = Some xo /\ yll A = Some yo /\
      xu = xo + sin (theta s) * add_reduce (delc s) * lm /\
      yu = yo + cos (theta s) * add_reduce (delc s) * lm /\
      (origin_loc s = "ul" -> xu = or_zero (xul s) /\ yu = or_zero (yul s)) /\
      (origin_loc s = "ll" -> xo = or_zero (xll s) /\ yo = or_zero (yll s))).
  { destruct Ho as [Ho|Ho].
    - destruct (anchored_ul_corner s (xul s) (yul s) (xll s) (yll s) lm Ho)
        as (H1 & H2 & H3 & H4).
      do 4 eexists. split; [exact H1|]. split; [exact H2|].
      split; [exact H3|]. split; [exact H4|].
      split; [ring|]. split; [ring|]. split; [auto|].
      rewrite Ho; discriminate.
    - destruct (anchored_ll_corner s (xul s) (yul s) (xll s) (yll s) lm Ho)
        as (H1 & H2 & H3 & H4).
      do 4 eexists. split; [exact H3|]. split; [exact H4|].
      split; [exact H1|]. split; [exact H2|].
      split; [ring|]. split; [ring|]. split; [|auto].
      rewrite Ho; discriminate. }
  destruct Hcorners as (xu & yu & xo & yo & Hxu & Hyu & Hxo & Hyo & Ex & Ey & Hul & Hll).
  destruct (transform_run (set__epsg e A) (scalar 0)
              (scalar (add_reduce (delc s))) lm xo yo Hlm1) as [e' He'].
  { rewrite Hid. exact Hxo. }
  { rewrite Hid. exact Hyo. }
  exists xu, yu. rewrite He'. cbn [fst snd].
  split; [reflexivity|]. split; [exact Hxu|]. split; [exact Hyu|].
  split.
  - unfold nd_map, scalar; cbn [shape data map].
    change (rotate (scalar (0 * lm + xo)) (scalar (add_reduce (delc s) * lm + yo))
              (rotation (set__epsg e A)) xo yo = Ok (scalar xu, scalar yu)).
    rewrite rotate_scalar.
    change (rotation (set__epsg e A)) with (rotation A). rewrite Hrot.
    destruct (corner_roundtrip (rotation s) (add_reduce (delc s)) lm xo yo)
      as [Rx Ry].
    rewrite Rx, Ry. fold (theta s). now rewrite <- Ex, <- Ey.
  - split; [exact Hul|]. intros H. destruct (Hll H) as [-> ->]. auto.
Qed.

(** ** The unstructured constructor *)

(** C10. For every input the constructor of the unstructured frame raises
    [AttributeError] at the assignment of [epsg], a property without a
    setter, before [length_multiplier] is assigned and before any assertion
    on the topology is evaluated: on a new object only the seven attributes
    assigned before it and [_proj4_str] have been written. *)
Theorem unstructured_init_raises
    (xc yc verts : ndarray) (iverts : list (list Z)) (ncpl : list Z)
    (layered : bool) (lenuni' : Z) (proj4_str' : option string)
    (epsg' : option Z) (units' : option string) (length_multiplier' : R)
    (s : SpatialReference) :
  value (Unstructured.__init__ getproj4 xc yc verts iverts ncpl layered lenuni'
           proj4_str' epsg' units' length_multiplier' s)
    = Raise (AttributeError "epsg") /\
  output (Unstructured.__init__ getproj4 xc yc verts iverts ncpl layered lenuni'
            proj4_str' epsg' units' length_multiplier' s) = [] /\
  final (Unstructured.__init__ getproj4 xc yc verts iverts ncpl layered lenuni'
           proj4_str' epsg' units' length_multiplier' fresh)
    = set__proj4_str proj4_str'
        (set_lenuni lenuni'
           (set___dict__
              [("layered", PBool layered); ("ncpl", PSeq (map IZR ncpl));
               ("iverts", PIverts iverts); ("verts", PNd verts);
               ("yc", PNd yc); ("xc", PNd xc)] fresh)) /\
  existsb (String.eqb "epsg") properties = true /\
  existsb (String.eqb "length_multiplier") properties = true.
Proof.
  destruct proj4_str'; repeat split.
Qed.

(** ** Mutation through [__setattr__] *)

Lemma setattr_corner_agrees key value :
  In key ["xul"; "yul"; "xll"; "yll"] ->
  forall s, __setattr__ key value s = setattr_corner key value s.
Proof.
  intros Hk s. simpl in Hk.
  destruct Hk as [<-|[<-|[<-|[<-|[]]]]];
    unfold __setattr__, setattr_corner; cbn [String.eqb Ascii.eqb Bool.eqb];
    rewrite !bind_assoc; unfold bind;
    destruct (lift (py_float value) s) as [[[v|e] s1] l1]; try reflexivity;
    destruct (object_setattr _ (PFloat v) s1) as [[[[]|e] s2] l2]; try reflexivity;
    cbn [ret]; destruct (_reset s2) as [[r3 s3] l3]; cbn [app];
    now rewrite ?app_nil_r.
Qed.

Lemma setattr_rotation_run s r lm :
  value (length_multiplier s) = Ok (Some lm) ->
  exists e,
    __setattr__ "rotation" (PFloat r) s
    = (Ok tt,
       set__epsg e (anchored (xul s) (yul s) (xll s) (yll s) lm (set_rotation r s)),
       if Req_dec_T r 0 then [] else [Warn rotation_warning]).
Proof.
  intros Hlm.
  assert (Hlm' : value (length_multiplier (set_rotation r s)) = Ok (Some lm)).
  { rewrite (multiplier_same s); [exact Hlm | reflexivity]. }
  destruct (set_origin_run (set_rotation r s) (xul s) (yul s) (xll s) (yll s)
              lm Hlm') as [e He].
  destruct (anchored_keeps (set_rotation r s) (xul s) (yul s) (xll s) (yll s) lm)
    as (_ & _ & _ & _ & _ & Hclr).
  exists e. unfold __setattr__. cbn [String.eqb Ascii.eqb Bool.eqb].
  cbn [py_float]. norm. rewrite bind_lift_ok. norm.
  set (A := anchored (xul s) (yul s) (xll s) (yll s) lm (set_rotation r s)) in *.
  match goal with
  | |- bind ?first ?rest s = _ =>
      assert (Hrest : rest tt s = (Ok tt, set__epsg e A, []))
  end.
  { norm. rewrite bind_lift_ok. norm.
    rewrite (bind_run _ _ _ _ _ (eq_refl : object_setattr "rotation" (PFloat r) s
                                           = (Ok tt, set_rotation r s, []))).
    norm.
    change (xul (set_rotation r s)) with (xul s).
    change (yul (set_rotation r s)) with (yul s).
    change (xll (set_rotation r s)) with (xll s).
    change (yll (set_rotation r s)) with (yll s).
    rewrite (bind_run _ _ _ _ _ He). norm. rewrite reset_run.
    change (cleared (set__epsg e A)) with (set__epsg e (cleared A)).
    now rewrite Hclr. }
  destruct (Req_dec_T r 0).
  - rewrite bind_ret. exact Hrest.
  - unfold bind at 1. unfold emit. rewrite Hrest. reflexivity.
Qed.


Lemma setattr_units_unsupported s u :
  ~ In (lower u) (supported_units s) ->
  __setattr__ "units" (PStr u) s = (Raise AssertionError, s, []).
Proof.
  intros Hin. unfold __setattr__. cbn [String.eqb Ascii.eqb Bool.eqb].
  norm.
  assert (E : existsb (String.eqb (lower u)) (supported_units s) = false).
  { apply not_true_is_false. intros E. apply existsb_exists in E as (v & H1 & H2).
    apply String.eqb_eq in H2. subst. contradiction. }
  rewrite E. reflexivity.
Qed.

Lemma setattr_length_multiplier_raises s v :
  __setattr__ "length_multiplier" (PFloat v) s
  = (Raise (AttributeError "length_multiplier"), s, []).
Proof. reflexivity. Qed.

(** ** Rebuilding the cached grids *)

Lemma transform_value lm xo yo rot x y :
  shape x = shape y ->
  rotate (translate xo (scale lm x)) (translate yo (scale lm y)) rot xo yo
  = Ok (transformed_x lm xo yo rot x y, transformed_y lm xo yo rot x y).
Proof.
  intros Hs. rewrite rotate_ok by exact Hs.
  unfold translate, scale, nd_map, transformed_x, transformed_y. cbn [shape data].
  now rewrite !map_map, !map2_map_l, !map2_map_r.
Qed.

Lemma anchored_cleared a b c d lm s :
  anchored a b c d lm (cleared s) = anchored a b c d lm s.
Proof.
  destruct s. unfold anchored. fields.
  destruct (String.eqb origin_loc0 "ll");
    [|destruct (String.eqb origin_loc0 "ul")]; reflexivity.
Qed.

Lemma anchored_grids a b c d lm gx gy s :
  anchored a b c d lm (set__ygrid gy (set__xgrid gx s)) = anchored a b c d lm s.
Proof.
  rewrite <- anchored_cleared, <- (anchored_cleared a b c d lm s). reflexivity.
Qed.

Lemma anchored_centergrids a b c d lm gx gy s :
  anchored a b c d lm (set__ycentergrid gy (set__xcentergrid gx s))
  = anchored a b c d lm s.
Proof.
  rewrite <- anchored_cleared, <- (anchored_cleared a b c d lm s). reflexivity.
Qed.

Lemma set_xycentergrid_run s lm xo yo :
  value (length_multiplier s) = Ok (Some lm) ->
  xll (anchored (xul s) (yul s) (xll s) (yll s) lm s) = Some xo ->
  yll (anchored (xul s) (yul s) (xll s) (yll s) lm s) = Some yo ->
  exists e,
    _set_xycentergrid s
    = (Ok tt,
       set__ycentergrid
         (Some (transformed_y lm xo yo (rotation s)
                  (fst (meshgrid (xcenter s) (ycenter s)))
                  (snd (meshgrid (xcenter s) (ycenter s)))))
         (set__xcentergrid
            (Some (transformed_x lm xo yo (rotation s)
                     (fst (meshgrid (xcenter s) (ycenter s)))
                     (snd (meshgrid (xcenter s) (ycenter s)))))
            (set__epsg e (anchored (xul s) (yul s) (xll s) (yll s) lm s))),
       []).
Proof.
  intros Hlm Hx Hy. unfold _set_xycentergrid. norm.
  set (X := fst (meshgrid (xcenter s) (ycenter s))).
  set (Y := snd (meshgrid (xcenter s) (ycenter s))).
  rewrite (bind_run _ _ _ _ _
             (eq_refl : object_setattr "_xcentergrid" (PNd X) s
                        = (Ok tt, set__xcentergrid (Some X) s, []))).
  rewrite (bind_run _ _ _ _ _
             (eq_refl : object_setattr "_ycentergrid" (PNd Y)
                          (set__xcentergrid (Some X) s)
                        = (Ok tt, set__ycentergrid (Some Y)
                                    (set__xcentergrid (Some X) s), []))).
  norm.
  set (s2 := set__ycentergrid (Some Y) (set__xcentergrid (Some X) s)).
  change (_xcentergrid s2) with (Some X). change (_ycentergrid s2) with (Some Y).
  cbn [as_array]. norm.
  assert (Hlm2 : value (length_multiplier s2) = Ok (Some lm)).
  { rewrite (multiplier_same s); [exact Hlm | reflexivity]. }
  assert (HA : anchored (xul s2) (yul s2) (xll s2) (yll s2) lm s2
               = anchored (xul s) (yul s) (xll s) (yll s) lm s).
  { apply anchored_centergrids. }
  destruct (transform_run s2 X Y lm xo yo Hlm2) as [e He].
  { now rewrite HA. }
  { now rewrite HA. }
  rewrite HA in He. change (rotation s2) with (rotation s) in He.
  change (rotate (translate xo (scale lm X)) (translate yo (scale lm Y))
            (rotation s) xo yo) with
    (rotate (nd_map (fun v => v + xo) (nd_map (fun v => v * lm) X))
            (nd_map (fun v => v + yo) (nd_map (fun v => v * lm) Y))
            (rotation s) xo yo) in *.
  pose proof (transform_value lm xo yo (rotation s) X Y eq_refl) as Hv.
  unfold translate, scale in Hv. rewrite Hv in He.
  exists e. rewrite (bind_run _ _ _ _ _ He). cbn [fst snd].
  set (A := anchored (xul s) (yul s) (xll s) (yll s) lm s).
  rewrite (bind_run _ _ _ _ _
             (eq_refl : object_setattr "_xcentergrid"
                          (PNd (transformed_x lm xo yo (rotation s) X Y))
                          (set__epsg e A)
                        = (Ok tt, set__xcentergrid
                                    (Some (transformed_x lm xo yo (rotation s) X Y))
                                    (set__epsg e A), []))).
  reflexivity.
Qed.

Lemma set_xygrid_run s lm xo yo :
  value (length_multiplier s) = Ok (Some lm) ->
  xll (anchored (xul s) (yul s) (xll s) (yll s) lm s) = Some xo ->
  yll (anchored (xul s) (yul s) (xll s) (yll s) lm s) = Some yo ->
  exists e,
    _set_xygrid s
    = (Ok tt,
       set__ygrid
         (Some (transformed_y lm xo yo (rotation s)
                  (fst (meshgrid (xedge s) (yedge s)))
                  (snd (meshgrid (xedge s) (yedge s)))))
         (set__xgrid
            (Some (transformed_x lm xo yo (rotation s)
                     (fst (meshgrid (xedge s) (yedge s)))
                     (snd (meshgrid (xedge s) (yedge s)))))
            (set__epsg e (anchored (xul s) (yul s) (xll s) (yll s) lm s))),
       []).
Proof.
  intros Hlm Hx Hy. unfold _set_xygrid. norm.
  set (X := fst (meshgrid (xedge s) (yedge s))).
  set (Y := snd (meshgrid (xedge s) (yedge s))).
  rewrite (bind_run _ _ _ _ _
             (eq_refl : object_setattr "_xgrid" (PNd X) s
                        = (Ok tt, set__xgrid (Some X) s, []))).
  rewrite (bind_run _ _ _ _ _
             (eq_refl : object_setattr "_ygrid" (PNd Y)
                          (set__xgrid (Some X) s)
                        = (Ok tt, set__ygrid (Some Y)
                                    (set__xgrid (Some X) s), []))).
  norm.
  set (s2 := set__ygrid (Some Y) (set__xgrid (Some X) s)).
  change (_xgrid s2) with (Some X). change (_ygrid s2) with (Some Y).
  cbn [as_array]. norm.
  assert (Hlm2 : value (length_multiplier s2) = Ok (Some lm)).
  { rewrite (multiplier_same s); [exact Hlm | reflexivity]. }
  assert (HA : anchored (xul s2) (yul s2) (xll s2) (yll s2) lm s2
               = anchored (xul s) (yul s) (xll s) (yll s) lm s).
  { apply anchored_grids. }
  destruct (transform_run s2 X Y lm xo yo Hlm2) as [e He].
  { now rewrite HA. }
  { now rewrite HA. }
  rewrite HA in He. change (rotation s2) with (rotation s) in He.
  change (rotate (translate xo (scale lm X)) (translate yo (scale lm Y))
            (rotation s) xo yo) with
    (rotate (nd_map (fun v => v + xo) (nd_map (fun v => v * lm) X))
            (nd_map (fun v => v + yo) (nd_map (fun v => v * lm) Y))
            (rotation s) xo yo) in *.
  pose proof (transform_value lm xo yo (rotation s) X Y eq_refl) as Hv.
  unfold translate, scale in Hv. rewrite Hv in He.
  exists e. rewrite (bind_run _ _ _ _ _ He). cbn [fst snd].
  set (A := anchored (xul s) (yul s) (xll s) (yll s) lm s).
  rewrite (bind_run _ _ _ _ _
             (eq_refl : object_setattr "_xgrid"
                          (PNd (transformed_x lm xo yo (rotation s) X Y))
                          (set__epsg e A)
                        = (Ok tt, set__xgrid
                                    (Some (transformed_x lm xo yo (rotation s) X Y))
                                    (set__epsg e A), []))).
  reflexivity.
Qed.

Lemma stale_cleared s : stale (cleared s).
Proof. reflexivity. Qed.

Lemma stale_fields s :
  stale s ->
  _xgrid s = None /\ _ygrid s = None /\ _ycentergrid s = None /\
  _xcentergrid s = None /\ _vertices s = None.
Proof. unfold stale, caches. intros H. injection H as -> -> -> -> ->. auto. Qed.


Lemma xgrid_rebuild s lm xo yo :
  _xgrid s = None ->
  value (length_multiplier s) = Ok (Some lm) ->
  xll (anchored (xul s) (yul s) (xll s) (yll s) lm s) = Some xo ->
  yll (anchored (xul s) (yul s) (xll s) (yll s) lm s) = Some yo ->
  exists e,
    xgrid s
    = (Ok (Some (transformed_x lm xo yo (rotation s)
                   (fst (meshgrid (xedge s) (yedge s)))
                   (snd (meshgrid (xedge s) (yedge s))))),
       set__ygrid
         (Some (transformed_y lm xo yo (rotation s)
                  (fst (meshgrid (xedge s) (yedge s)))
                  (snd (meshgrid (xedge s) (yedge s)))))
         (set__xgrid
            (Some (transformed_x lm xo yo (rotation s)
                     (fst (meshgrid (xedge s) (yedge s)))
                     (snd (meshgrid (xedge s) (yedge s)))))
            (set__epsg e (anchored (xul s) (yul s) (xll s) (yll s) lm s))),
       []).
Proof.
  intros Hn Hlm Hx Hy.
  destruct (set_xygrid_run s lm xo yo Hlm Hx Hy) as [e He].
  exists e. unfold xgrid. rewrite bind_get, Hn. cbn [is_none is_some negb].
  rewrite (bind_run _ _ _ _ _ He). rewrite bind_get. reflexivity.
Qed.

Lemma xcentergrid_rebuild s lm xo yo :
  _xcentergrid s = None ->
  value (length_multiplier s) = Ok (Some lm) ->
  xll (anchored (xul s) (yul s) (xll s) (yll s) lm s) = Some xo ->
  yll (anchored (xul s) (yul s) (xll s) (yll s) lm s) = Some yo ->
  exists e,
    xcentergrid s
    = (Ok (Some (transformed_x lm xo yo (rotation s)
                   (fst (meshgrid (xcenter s) (ycenter s)))
                   (snd (meshgrid (xcenter s) (ycenter s))))),
       set__ycentergrid
         (Some (transformed_y lm xo yo (rotation s)
                  (fst (meshgrid (xcenter s) (ycenter s)))
                  (snd (meshgrid (xcenter s) (ycenter s)))))
         (set__xcentergrid
            (Some (transformed_x lm xo yo (rotation s)
                     (fst (meshgrid (xcenter s) (ycenter s)))
                     (snd (meshgrid (xcenter s) (ycenter s)))))
            (set__epsg e (anchored (xul s) (yul s) (xll s) (yll s) lm s))),
       []).
Proof.
  intros Hn Hlm Hx Hy.
  destruct (set_xycentergrid_run s lm xo yo Hlm Hx Hy) as [e He].
  exists e. unfold xcentergrid. rewrite bind_get, Hn. cbn [is_none is_some negb].
  rewrite (bind_run _ _ _ _ _ He). rewrite bind_get. reflexivity.
Qed.

Lemma stale_anchored a b c d lm s e : stale (set__epsg e (anchored a b c d lm s)).
Proof.
  destruct (anchored_keeps s a b c d lm) as (_ & _ & _ & _ & _ & H).
  rewrite <- H. reflexivity.
Qed.


(** ** The nearest-cell lookup *)

Lemma argmin_from_spec t : forall best besti i,
  (besti < i)%nat ->
  (argmin_from best besti i t = besti /\
   forall j, (j < length t)%nat -> best <= nth j t 0) \/
  ((i <= argmin_from best besti i t < i + length t)%nat /\
   nth (argmin_from best besti i t - i) t 0 < best /\
   (forall j, (j < length t)%nat ->
      nth (argmin_from best besti i t - i) t 0 <= nth j t 0) /\
   (forall j, (j < argmin_from best besti i t - i)%nat ->
      nth (argmin_from best besti i t - i) t 0 < nth j t 0)).
Proof.
  induction t as [|v t IH]; intros best besti i Hi; simpl.
  - left. split; [reflexivity|]. intros j Hj; lia.
  - destruct (Rlt_dec v best) as [Hlt|Hge].
    + right. destruct (IH v i (S i) (Nat.lt_succ_diag_r i))
        as [[Hk Hall]|(Hk & Hm & Hall & Hfirst)].
      * rewrite Hk, Nat.sub_diag. split; [lia|]. split; [exact Hlt|].
        split.
        -- intros [|j] Hj; [lra | apply Hall; lia].
        -- intros j Hj; lia.
      * set (k := argmin_from v i (S i) t) in *.
        replace (k - i)%nat with (S (k - S i)) by lia.
        split; [lia|]. split; [simpl; lra|]. split.
        -- intros [|j] Hj; simpl; [lra | apply Hall; lia].
        -- intros [|j] Hj; simpl; [lra | apply Hfirst; lia].
    + assert (Hbi : (besti < S i)%nat) by lia.
      destruct (IH best besti (S i) Hbi)
        as [[Hk Hall]|(Hk & Hm & Hall & Hfirst)].
      * left. split; [exact Hk|].
        intros [|j] Hj; [lra | apply Hall; lia].
      * right. set (k := argmin_from best besti (S i) t) in *.
        replace (k - i)%nat with (S (k - S i)) by lia.
        split; [lia|]. split; [simpl; lra|]. split.
        -- intros [|j] Hj; simpl; [lra | apply Hall; lia].
        -- intros [|j] Hj; simpl; [lra | apply Hfirst; lia].
Qed.

Lemma argmin_spec l :
  (0 < length l)%nat ->
  exists k, argmin l = Ok k /\ is_argmin (fun j => nth j l 0) (length l) k.
Proof.
  destruct l as [|v t]; simpl; [lia|]. intros _.
  eexists. split; [reflexivity|].
  destruct (argmin_from_spec t v 0%nat 1%nat Nat.lt_0_1)
    as [[Hk Hall]|(Hk & Hm & Hall & Hfirst)].
  - rewrite Hk. split; [lia|]. split.
    + intros [|j] Hj; [lra | apply Hall; lia].
    + intros j Hj; lia.
  - set (k := argmin_from v 0 1 t) in *.
    assert (Ek : k = S (k - 1)) by lia.
    rewrite Ek. split; [lia|]. split.
    + intros [|j] Hj; simpl; [lra | apply Hall; lia].
    + intros [|j] Hj; simpl; [lra | apply Hfirst; lia].
Qed.

Lemma map2_app {A B C} (f : A -> B -> C) l1 l2 m1 m2 :
  length l1 = length m1 ->
  map2 f (l1 ++ l2) (m1 ++ m2) = map2 f l1 m1 ++ map2 f l2 m2.
Proof.
  unfold map2. revert m1; induction l1 as [|a l1 IH]; intros [|b m1] H;
    simpl in *; try discriminate; auto.
  f_equal. apply IH. now injection H.
Qed.

Lemma map2_repeat {A B C} (f : A -> B -> C) l v :
  map2 f l (repeat v (length l)) = map (fun a => f a v) l.
Proof.
  unfold map2. induction l as [|a l IH]; simpl; auto. now rewrite IH.
Qed.

Lemma meshgrid_zip {C} (f : R -> R -> C) (xc yc : list R) :
  map2 f (flat_map (fun _ => xc) yc)
         (flat_map (fun v => repeat v (length xc)) yc)
  = flat_map (fun v => map (fun a => f a v) xc) yc.
Proof.
  induction yc as [|v yc IH]; simpl; [reflexivity|].
  rewrite map2_app by (now rewrite repeat_length).
  now rewrite map2_repeat, IH.
Qed.

Lemma nth_map_in {A B} (g : A -> B) l i da db :
  (i < length l)%nat -> nth i (map g l) db = g (nth i l da).
Proof.
  revert i; induction l as [|a l IH]; intros [|i] Hi; simpl in *; try lia; auto.
  apply IH; lia.
Qed.

Lemma nth_blocks {C} (f : R -> R -> C) (xc yc : list R) (d : C) i j :
  (i < length yc)%nat -> (j < length xc)%nat ->
  nth (i * length xc + j) (flat_map (fun v => map (fun a => f a v) xc) yc) d
  = f (nth j xc 0) (nth i yc 0).
Proof.
  revert i; induction yc as [|v yc IH]; intros i Hi Hj; simpl in *; [lia|].
  destruct i as [|i]; simpl.
  - rewrite app_nth1 by (now rewrite length_map).
    now rewrite (nth_map_in (fun a => f a v) xc j 0 d).
  - rewrite app_nth2 by (rewrite length_map; lia).
    rewrite length_map.
    replace (length xc + i * length xc + j - length xc)%nat
      with (i * length xc + j)%nat by lia.
    apply IH; lia.
Qed.

Lemma first_row {C} (f : R -> R -> C) (xc yc : list R) :
  (0 < length yc)%nat ->
  firstn (length xc) (flat_map (fun v => map (fun a => f a v) xc) yc)
  = map (fun a => f a (nth 0 yc 0)) xc.
Proof.
  destruct yc as [|v yc]; simpl; [lia|]. intros _.
  rewrite <- (length_map (fun a => f a v) xc) at 1.
  now rewrite firstn_app, Nat.sub_diag, firstn_all, firstn_O, app_nil_r.
Qed.

Lemma first_column (f : R -> R -> R) (xc yc : list R) :
  (0 < length xc)%nat ->
  map (fun i => nth (i * length xc + 0)
                    (flat_map (fun v => map (fun a => f a v) xc) yc) 0)
      (seq 0 (length yc))
  = map (fun b => f (nth 0 xc 0) b) yc.
Proof.
  intros Hx. apply (nth_ext _ _ 0 0).
  - now rewrite !length_map, length_seq.
  - intros i Hi. rewrite length_map, length_seq in Hi.
    rewrite (nth_map_in _ _ _ 0%nat) by (now rewrite length_seq).
    rewrite seq_nth by exact Hi. simpl (0 + i)%nat.
    rewrite nth_blocks by assumption.
    now rewrite (nth_map_in (fun b => f (nth 0 xc 0) b) yc i 0 0).
Qed.

Lemma is_argmin_ext (f g : nat -> R) n k :
  (forall j, (j < n)%nat -> f j = g j) -> is_argmin f n k -> is_argmin g n k.
Proof.
  intros E (Hk & Hall & Hfirst). split; [exact Hk|]. split.
  - intros j Hj. rewrite <- !E by assumption. now apply Hall.
  - intros j Hj. rewrite <- !E by lia. now apply Hfirst.
Qed.

Lemma argmin_of_slice (g : R -> R) (l : list R) (q : R) :
  (0 < length l)%nat ->
  exists k, argmin (map (fun v => Rabs (v - q)) (map g l)) = Ok k /\
            is_argmin (fun j => Rabs (g (nth j l 0) - q)) (length l) k.
Proof.
  intros Hl.
  destruct (argmin_spec (map (fun v => Rabs (v - q)) (map g l))) as (k & Hk & Hm).
  { now rewrite !length_map. }
  exists k. split; [exact Hk|]. rewrite !length_map in Hm.
  apply (is_argmin_ext _ _ _ _ (fun j Hj => eq_trans
           (nth_map_in (fun v => Rabs (v - q)) (map g l) j (g 0) 0
              (eq_ind_r (fun n => (j < n)%nat) Hj (length_map g l)))
           (f_equal (fun v => Rabs (v - q)) (nth_map_in g l j 0 (g 0) Hj))) Hm).
Qed.

Lemma row0_of_grid s lm xo yo :
  (0 < nrow s)%nat ->
  nd_row (Some (transformed_x lm xo yo (rotation s)
                  (fst (meshgrid (xcenter s) (ycenter s)))
                  (snd (meshgrid (xcenter s) (ycenter s))))) 0
  = Ok (map (fun a => rotate_x (a * lm + xo) (nth 0 (ycenter s) 0 * lm + yo)
                               (rotation s) xo yo) (xcenter s)).
Proof.
  intros Hn. unfold nd_row, transformed_x, meshgrid. cbn [shape data fst snd].
  unfold ycenter, xcenter in *. rewrite ycenter_length.
  destruct (Nat.ltb_spec 0 (nrow s)) as [_|H]; [|lia].
  cbn [Nat.mul skipn]. rewrite meshgrid_zip.
  rewrite first_row by (rewrite ycenter_length; exact Hn). reflexivity.
Qed.

Lemma col0_of_grid s lm xo yo :
  (0 < ncol s)%nat ->
  nd_col (Some (transformed_y lm xo yo (rotation s)
                  (fst (meshgrid (xcenter s) (ycenter s)))
                  (snd (meshgrid (xcenter s) (ycenter s))))) 0
  = Ok (map (fun b => rotate_y (nth 0 (xcenter s) 0 * lm + xo) (b * lm + yo)
                               (rotation s) xo yo) (ycenter s)).
Proof.
  intros Hn. unfold nd_col, transformed_y, meshgrid. cbn [shape data fst snd].
  unfold ycenter, xcenter in *. rewrite meshgrid_zip.
  destruct (Nat.ltb_spec 0 (length (get_xcenter_array s))) as [_|H];
    [|rewrite xcenter_length in H; lia].
  rewrite first_column by (rewrite xcenter_length; exact Hn). reflexivity.
Qed.

(** What [get_rc] returns on a frame whose center grids are not cached. *)
Lemma get_rc_run s lm xo yo x y :
  _xcentergrid s = None ->
  value (length_multiplier s) = Ok (Some lm) ->
  xll (anchored (xul s) (yul s) (xll s) (yll s) lm s) = Some xo ->
  yll (anchored (xul s) (yul s) (xll s) (yll s) lm s) = Some yo ->
  (0 < nrow s)%nat -> (0 < ncol s)%nat ->
  exists r c e,
    get_rc x y s
    = (Ok (r, c),
       set__ycentergrid
         (Some (transformed_y lm xo yo (rotation s)
                  (fst (meshgrid (xcenter s) (ycenter s)))
                  (snd (meshgrid (xcenter s) (ycenter s)))))
         (set__xcentergrid
            (Some (transformed_x lm xo yo (rotation s)
                     (fst (meshgrid (xcenter s) (ycenter s)))
                     (snd (meshgrid (xcenter s) (ycenter s)))))
            (set__epsg e (anchored (xul s) (yul s) (xll s) (yll s) lm s))),
       []) /\
    is_argmin (fun j => Rabs (row0_x s lm xo yo j - x)) (ncol s) c /\
    is_argmin (fun i => Rabs (col0_y s lm xo yo i - y)) (nrow s) r.
Proof.
  intros Hn Hlm Hx Hy Hr Hc.
  destruct (xcentergrid_rebuild s lm xo yo Hn Hlm Hx Hy) as [e He].
  destruct (argmin_of_slice
              (fun a => rotate_x (a * lm + xo) (nth 0 (ycenter s) 0 * lm + yo)
                                 (rotation s) xo yo) (xcenter s) x)
    as (c & Hc1 & Hc2).
  { unfold xcenter. now rewrite xcenter_length. }
  destruct (argmin_of_slice
              (fun b => rotate_y (nth 0 (xcenter s) 0 * lm + xo) (b * lm + yo)
                                 (rotation s) xo yo) (ycenter s) y)
    as (r & Hr1 & Hr2).
  { unfold ycenter. now rewrite ycenter_length. }
  exists r, c, e. split; [|split].
  - unfold get_rc. rewrite (bind_run _ _ _ _ _ He).
    rewrite (row0_of_grid s lm xo yo Hr), bind_lift_ok.
    rewrite Hc1, bind_lift_ok.
    unfold ycentergrid. norm.
    match goal with
    | |- context [is_none (_ycentergrid ?T)] =>
        change (_ycentergrid T)
          with (Some (transformed_y lm xo yo (rotation s)
                        (fst (meshgrid (xcenter s) (ycenter s)))
                        (snd (meshgrid (xcenter s) (ycenter s)))))
    end.
    cbn [is_none is_some negb]. norm.
    match goal with
    | |- context [nd_col (_ycentergrid ?T) 0] =>
        change (_ycentergrid T)
          with (Some (transformed_y lm xo yo (rotation s)
                        (fst (meshgrid (xcenter s) (ycenter s)))
                        (snd (meshgrid (xcenter s) (ycenter s)))))
    end.
    rewrite (col0_of_grid s lm xo yo Hc), bind_lift_ok.
    rewrite Hr1, bind_lift_ok. reflexivity.
  - unfold xcenter in Hc2. rewrite xcenter_length in Hc2. exact Hc2.
  - unfold ycenter in Hr2. rewrite ycenter_length in Hr2. exact Hr2.
Qed.

Lemma deg180 : 180 * PI / 180 = PI.
Proof. lra. Qed.

Lemma slices_unrotated s lm xo yo k :
  rotation s = 0 ->
  row0_x s lm xo yo k = nth k (xcenter s) 0 * lm + xo /\
  col0_y s lm xo yo k = nth k (ycenter s) 0 * lm + yo.
Proof.
  intros H. unfold row0_x, col0_y, rotate_x, rotate_y.
  rewrite H, deg0, cos_0, sin_0. split; ring.
Qed.

Lemma slices_half_turn s lm xo yo k :
  rotation s = 180 ->
  row0_x s lm xo yo k = xo - nth k (xcenter s) 0 * lm /\
  col0_y s lm xo yo k = yo - nth k (ycenter s) 0 * lm.
Proof.
  intros H. unfold row0_x, col0_y, rotate_x, rotate_y.
  rewrite H, deg180, cos_PI, sin_PI. split; ring.
Qed.

Lemma is_argmin_unique f n k k' : is_argmin f n k -> is_argmin f n k' -> k = k'.
Proof.
  intros (Hk & Hall & Hfirst) (Hk' & Hall' & Hfirst').
  destruct (Nat.lt_trichotomy k k') as [H|[H|H]]; [|exact H|].
  - specialize (Hfirst' k H). specialize (Hall k' Hk'). lra.
  - specialize (Hfirst k' H). specialize (Hall' k Hk). lra.
Qed.

(** C3, as the code has it, for a scalar query point. On a frame with at
    least one row and one column whose center grids are not cached,
    [get_rc] returns the first column
    that minimizes the distance from the query x to the real-world x of the
    cell centers of row 0, and the first row that minimizes the distance
    from the query y to the real-world y of the cell centers of column 0:
    slices of the scaled, translated and rotated center grids. The rotation
    is not undone; with rotation 0 the slices are the centers scaled by the
    multiplier and offset by the lower-left corner. *)
Theorem nearest_cell_lookup (s : SpatialReference) (lm x y : R) :
  origin_loc s = "ul" \/ origin_loc s = "ll" ->
  _xcentergrid s = None ->
  value (length_multiplier s) = Ok (Some lm) ->
  (0 < nrow s)%nat -> (0 < ncol s)%nat ->
  exists xo yo r c,
    value (get_rc x y s) = Ok (r, c) /\
    xll (final (get_rc x y s)) = Some xo /\
    yll (final (get_rc x y s)) = Some yo /\
    is_argmin (fun j => Rabs (row0_x s lm xo yo j - x)) (ncol s) c /\
    is_argmin (fun i => Rabs (col0_y s lm xo yo i - y)) (nrow s) r /\
    (rotation s = 0 ->
     forall k, row0_x s lm xo yo k = nth k (xcenter s) 0 * lm + xo /\
               col0_y s lm xo yo k = nth k (ycenter s) 0 * lm + yo).
Proof.
  intros Ho Hn Hlm Hr Hc.
  assert (Hxy : exists xo yo,
             xll (anchored (xul s) (yul s) (xll s) (yll s) lm s) = Some xo /\
             yll (anchored (xul s) (yul s) (xll s) (yll s) lm s) = Some yo).
  { destruct Ho as [Ho|Ho].
    - destruct (anchored_ul_corner s (xul s) (yul s) (xll s) (yll s) lm Ho)
        as (_ & _ & H1 & H2). eauto.
    - destruct (anchored_ll_corner s (xul s) (yul s) (xll s) (yll s) lm Ho)
        as (H1 & H2 & _). eauto. }
  destruct Hxy as (xo & yo & Hxo & Hyo).
  destruct (get_rc_run s lm xo yo x y Hn Hlm Hxo Hyo Hr Hc)
    as (r & c & e & Hrun & Hc' & Hr').
  exists xo, yo, r, c. rewrite Hrun. unfold value, final; cbn [fst snd].
  split; [reflexivity|]. split; [exact Hxo|]. split; [exact Hyo|].
  split; [exact Hc'|]. split; [exact Hr'|].
  intros H0 k. now apply slices_unrotated.
Qed.

(** ** The lookup of a sequence of points *)

Lemma collect_spec {A B} (f : A -> result B) (P : A -> B -> Prop) (l : list A)
    (da : A) (db : B) :
  (forall a, In a l -> exists b, f a = Ok b /\ P a b) ->
  exists bs, collect f l = Ok bs /\ length bs = length l /\
             forall k, (k < length l)%nat -> P (nth k l da) (nth k bs db).
Proof.
  induction l as [|a l IH]; intros H; simpl.
  - exists []. split; [reflexivity|]. split; [reflexivity|]. intros k Hk; lia.
  - destruct (H a (or_introl eq_refl)) as (b & Hb & Pb).
    destruct IH as (bs & Hbs & Hlen & Hnth).
    { intros a' Ha'. apply H. now right. }
    exists (b :: bs). rewrite Hb, Hbs. simpl.
    split; [reflexivity|]. split; [now rewrite Hlen|].
    intros [|k] Hk; [exact Pb | apply Hnth; lia].
Qed.

Lemma nth_repeat_in (v d : R) n k : (k < n)%nat -> nth k (repeat v n) d = v.
Proof.
  revert k; induction n as [|n IH]; intros [|k] Hk; simpl; try lia; auto.
  apply IH; lia.
Qed.

Lemma column_of_differences (slice qs : list R) k :
  (k < length qs)%nat ->
  map (fun row => nth k row 0)
      (map (fun row => map2 (fun a b => Rabs (a - b)) row qs)
           (map (fun v => repeat v (length qs)) slice))
  = map (fun v => Rabs (v - nth k qs 0)) slice.
Proof.
  intros Hk. rewrite !map_map. apply map_ext. intros v.
  rewrite (map2_nth _ _ _ _ 0 0) by (rewrite ?repeat_length; exact Hk).
  now rewrite nth_repeat_in.
Qed.

Lemma argmin_axis0_slices (g : R -> R) (l qs : list R) :
  (0 < length l)%nat -> (0 < length qs)%nat ->
  exists ks,
    argmin_axis0
      (map (fun row => map2 (fun a b => Rabs (a - b)) row qs)
           (map (fun v => repeat v (length qs)) (map g l)))
      (length qs) = Ok ks /\
    length ks = length qs /\
    forall k, (k < length qs)%nat ->
      is_argmin (fun j => Rabs (g (nth j l 0) - nth k qs 0)) (length l)
                (nth k ks 0%nat).
Proof.
  intros Hl Hq. unfold argmin_axis0.
  destruct (Nat.eqb_spec (length qs) 0) as [E|_]; [lia|].
  destruct (collect_spec
              (fun k => argmin
                 (map (fun row => nth k row 0)
                    (map (fun row => map2 (fun a b => Rabs (a - b)) row qs)
                       (map (fun v => repeat v (length qs)) (map g l)))))
              (fun k c => is_argmin (fun j => Rabs (g (nth j l 0) - nth k qs 0))
                            (length l) c)
              (seq 0 (length qs)) 0%nat 0%nat)
    as (ks & Hks & Hlen & Hnth).
  { intros k Hk. apply in_seq in Hk.
    rewrite column_of_differences by lia.
    apply argmin_of_slice. exact Hl. }
  exists ks. split; [exact Hks|]. rewrite length_seq in Hlen, Hnth.
  split; [exact Hlen|]. intros k Hk.
  specialize (Hnth k Hk). rewrite seq_nth in Hnth by exact Hk. exact Hnth.
Qed.

(** The sequence branch looks every point up as the scalar branch does. *)
Lemma get_rc_seq_run s lm xo yo xs ys :
  _xcentergrid s = None ->
  value (length_multiplier s) = Ok (Some lm) ->
  xll (anchored (xul s) (yul s) (xll s) (yll s) lm s) = Some xo ->
  yll (anchored (xul s) (yul s) (xll s) (yll s) lm s) = Some yo ->
  (0 < nrow s)%nat -> (0 < ncol s)%nat ->
  (0 < length xs)%nat -> length ys = length xs ->
  exists rs cs,
    value (get_rc_seq xs ys s) = Ok (rs, cs) /\
    length rs = length xs /\ length cs = length xs /\
    forall k, (k < length xs)%nat ->
      value (get_rc (nth k xs 0) (nth k ys 0) s)
      = Ok (nth k rs 0%nat, nth k cs 0%nat).
Proof.
  intros Hn Hlm Hx Hy Hr Hc Hxs Hys.
  destruct (xcentergrid_rebuild s lm xo yo Hn Hlm Hx Hy) as [e He].
  destruct (argmin_axis0_slices
              (fun a => rotate_x (a * lm + xo) (nth 0 (ycenter s) 0 * lm + yo)
                                 (rotation s) xo yo) (xcenter s) xs)
    as (cs & Hcs & Lcs & Pcs); [unfold xcenter; now rewrite xcenter_length | exact Hxs |].
  destruct (argmin_axis0_slices
              (fun b => rotate_y (nth 0 (xcenter s) 0 * lm + xo) (b * lm + yo)
                                 (rotation s) xo yo) (ycenter s) ys)
    as (rs & Hrs & Lrs & Prs);
    [unfold ycenter; now rewrite ycenter_length | now rewrite Hys |].
  rewrite Hys in Hrs, Lrs, Prs.
  exists rs, cs. split; [|split; [exact Lrs|split; [exact Lcs|]]].
  - unfold get_rc_seq. rewrite (bind_run _ _ _ _ _ He).
    rewrite (row0_of_grid s lm xo yo Hr), bind_lift_ok.
    unfold ycentergrid. norm.
    match goal with
    | |- context [is_none (_ycentergrid ?T)] =>
        change (_ycentergrid T)
          with (Some (transformed_y lm xo yo (rotation s)
                        (fst (meshgrid (xcenter s) (ycenter s)))
                        (snd (meshgrid (xcenter s) (ycenter s)))))
    end.
    cbn [is_none is_some negb]. norm.
    match goal with
    | |- context [nd_col (_ycentergrid ?T) 0] =>
        change (_ycentergrid T)
          with (Some (transformed_y lm xo yo (rotation s)
                        (fst (meshgrid (xcenter s) (ycenter s)))
                        (snd (meshgrid (xcenter s) (ycenter s)))))
    end.
    rewrite (col0_of_grid s lm xo yo Hc), bind_lift_ok.
    rewrite Hcs, bind_lift_ok. rewrite Hys, Nat.eqb_refl. norm.
    rewrite Hrs, bind_lift_ok. reflexivity.
  - intros k Hk.
    destruct (get_rc_run s lm xo yo (nth k xs 0) (nth k ys 0) Hn Hlm Hx Hy Hr Hc)
      as (r & c & e' & Hrun & Hc' & Hr').
    rewrite Hrun. unfold value; cbn [fst].
    specialize (Pcs k Hk). specialize (Prs k Hk).
    unfold xcenter in Pcs. rewrite xcenter_length in Pcs.
    unfold ycenter in Prs. rewrite ycenter_length in Prs.
    now rewrite (is_argmin_unique _ _ _ _ Hc' Pcs),
                (is_argmin_unique _ _ _ _ Hr' Prs).
Qed.

(** ** Resolving the anchor *)

Lemma anchored_twice t a b c d a' b' c' d' lm e :
  origin_loc t = "ul" \/ origin_loc t = "ll" ->
  anchored a b c d lm (set__epsg e (anchored a' b' c' d' lm t))
  = set__epsg e (anchored a b c d lm t).
Proof.
  intros Ho. destruct t. fields_in Ho.
  destruct Ho as [-> | ->]; unfold anchored; fields;
    cbn [String.eqb Ascii.eqb Bool.eqb]; fields;
    cbn [String.eqb Ascii.eqb Bool.eqb]; reflexivity.
Qed.

Lemma resolved_origin_cases xu yu xl yl :
  resolved_origin xu yu xl yl = "ul" \/ resolved_origin xu yu xl yl = "ll".
Proof.
  unfold resolved_origin.
  destruct (is_none xu && is_none yu && is_none xl && is_none yl); auto.
  destruct (is_some xl); auto.
Qed.

Lemma set_spatialreference_both_x s xu yu xl yl rot :
  is_some xu && is_some xl = true ->
  set_spatialreference xu yu xl yl rot s = (Raise (ValueError both_x_msg), s, []).
Proof. intros H. unfold set_spatialreference. rewrite H. reflexivity. Qed.

Lemma set_spatialreference_both_y s xu yu xl yl rot :
  is_some xu && is_some xl = false ->
  is_some yu && is_some yl = true ->
  set_spatialreference xu yu xl yl rot s = (Raise (ValueError both_y_msg), s, []).
Proof.
  intros H1 H2. unfold set_spatialreference. rewrite H1, H2. reflexivity.
Qed.

Lemma set_spatialreference_run s xu yu xl yl rot lm :
  value (length_multiplier s) = Ok (Some lm) ->
  is_some xu && is_some xl = false ->
  is_some yu && is_some yl = false ->
  exists e,
    set_spatialreference xu yu xl yl rot s
    = (Ok tt,
       set__epsg e
         (anchored (fst (resolved_ul s xu yu xl yl))
                   (snd (resolved_ul s xu yu xl yl)) xl yl lm
                   (set_rotation rot
                      (set_origin_loc (resolved_origin xu yu xl yl) s))),
       rotation_warnings rot).
Proof.
  intros Hlm Hx Hy.
  set (loc := resolved_origin xu yu xl yl).
  set (s1 := set_origin_loc loc s).
  assert (Hlm1 : value (length_multiplier s1) = Ok (Some lm)).
  { rewrite (multiplier_same s); [exact Hlm | reflexivity]. }
  destruct (setattr_rotation_run s1 rot lm Hlm1) as [e1 He1].
  set (A1 := anchored (xul s1) (yul s1) (xll s1) (yll s1) lm (set_rotation rot s1))
    in *.
  assert (Hlm2 : value (length_multiplier (set__epsg e1 A1)) = Ok (Some lm)).
  { rewrite (multiplier_same s); [exact Hlm|].
    destruct (anchored_keeps (set_rotation rot s1) (xul s1) (yul s1) (xll s1)
                (yll s1) lm) as (Hc & _).
    fold A1 in Hc. rewrite cfg_epsg, Hc. reflexivity. }
  destruct (set_origin_run (set__epsg e1 A1)
              (fst (resolved_ul s xu yu xl yl)) (snd (resolved_ul s xu yu xl yl))
              xl yl lm Hlm2) as [e2 He2].
  unfold A1 in He2. rewrite anchored_twice in He2
    by (apply resolved_origin_cases).
  exists e2.
  assert (Hmain :
    (ul <- (if is_none xu && is_none yu && is_none xl && is_none yl
            then __setattr__ "origin_loc" (PStr "ul") ;;
                 s0 <- get ;; ret (Some 0, Some (add_reduce (delc s0)))
            else if is_some xl
                 then __setattr__ "origin_loc" (PStr "ll") ;; ret (xu, yu)
                 else __setattr__ "origin_loc" (PStr "ul") ;; ret (xu, yu)) ;;
     __setattr__ "rotation" (PFloat rot) ;;
     set_origin (fst ul) (snd ul) xl yl)%py s
    = (Ok tt,
       set__epsg e2
         (anchored (fst (resolved_ul s xu yu xl yl))
                   (snd (resolved_ul s xu yu xl yl)) xl yl lm
                   (set_rotation rot s1)),
       (if Req_dec_T rot 0 then [] else [Warn rotation_warning]) ++ [])).
  { assert (Hstep : forall l0,
      __setattr__ "origin_loc" (PStr l0) s = (Ok tt, set_origin_loc l0 s, []))
      by reflexivity.
    unfold loc, s1, resolved_origin, resolved_ul in *.
    destruct (is_none xu && is_none yu && is_none xl && is_none yl);
      [|destruct (is_some xl)];
      rewrite bind_assoc, (bind_run _ _ _ _ _ (Hstep _)); norm;
      apply (bind_run_log _ _ _ _ _ _ _ _ _ He1); exact He2. }
  unfold set_spatialreference. rewrite Hx, Hy. norm.
  unfold rotation_warnings.
  destruct (Req_dec_T rot 0).
  - rewrite bind_ret. exact Hmain.
  - unfold bind at 1. unfold emit. fold s1. rewrite Hmain. reflexivity.
Qed.

(** ** The constructor *)

Lemma setattr_delc dc s :
  __setattr__ "delc" (PSeq dc) s = (Ok tt, cleared (set_delc dc s), []).
Proof. reflexivity. Qed.

Lemma setattr_delr dr s :
  __setattr__ "delr" (PSeq dr) s = (Ok tt, cleared (set_delr dr s), []).
Proof. reflexivity. Qed.

Lemma setattr_lenuni l s :
  __setattr__ "lenuni" (PInt l) s = (Ok tt, cleared (set_lenuni l s), []).
Proof. reflexivity. Qed.

Lemma setattr_proj4 p s :
  __setattr__ "_proj4_str" (of_opt_str p) s = (Ok tt, set__proj4_str p s, []).
Proof. destruct p; reflexivity. Qed.

Lemma setattr_epsg c s :
  __setattr__ "_epsg" (of_opt_int c) s = (Ok tt, set__epsg c s, []).
Proof. destruct c; reflexivity. Qed.

Lemma setattr_supported l s :
  __setattr__ "supported_units" (PStrs l) s = (Ok tt, set_supported_units l s, []).
Proof. reflexivity. Qed.

Lemma setattr_units_private u s :
  __setattr__ "_units" (of_opt_str u) s = (Ok tt, set__units u s, []).
Proof. destruct u; reflexivity. Qed.

Lemma setattr_multiplier_private m s :
  __setattr__ "_length_multiplier" (of_opt_float m) s
  = (Ok tt, set__length_multiplier m s, []).
Proof. destruct m; reflexivity. Qed.

Lemma bind_emit {B} ev (f : unit -> M B) s :
  bind (emit ev) f s
  = (value (f tt s), final (f tt s), ev :: output (f tt s)).
Proof.
  unfold bind, emit, value, final, output.
  destruct (f tt s) as [[r s2] l2]. reflexivity.
Qed.

(** The constructor, for spacings given as sequences: the assignments up to
    [set_spatialreference], then [set_spatialreference] on the corners the
    degenerate-spacing test leaves. *)
Lemma init_run dr dc l xu yu xl yl rot p code u lmo s p1 :
  init_crs p code = Ok p1 ->
  __init__ (PSeq dr) (PSeq dc) l xu yu xl yl rot p code u lmo s
  = if degenerate dr dc xl yl then
      (value (set_spatialreference None None (Some 0) (Some 0) rot
                (pre_state dr dc l p1 code u lmo s)),
       final (set_spatialreference None None (Some 0) (Some 0) rot
                (pre_state dr dc l p1 code u lmo s)),
       Print no_spacing_msg
         :: output (set_spatialreference None None (Some 0) (Some 0) rot
                      (pre_state dr dc l p1 code u lmo s)))
    else
      set_spatialreference xu yu xl yl rot (pre_state dr dc l p1 code u lmo s).
Proof.
  intros Hcrs. destruct s. unfold __init__, pre_state. cbn [is_number atleast_1d].
  norm. rewrite !bind_lift_ok.
  rewrite (bind_run _ _ _ _ _ (setattr_delc _ _)); fields.
  rewrite bind_lift_ok.
  rewrite (bind_run _ _ _ _ _ (setattr_delr _ _)); fields.
  norm. fields. fold (degenerate dr dc xl yl).
  assert (Hrest : forall c : option R * option R * option R * option R,
    (let '(xul1, yul1, xll1, yll1) := c in
     set_spatialreference xul1 yul1 xll1 yll1 rot
       (mkSR dr dc l p1 code ["feet"; "meters"] u lmo xul0 yul0 xll0 yll0
             rotation0 origin_loc0 None None None None None __dict__0))
    = (__setattr__ "lenuni" (PInt l) ;;
       __setattr__ "_proj4_str" (of_opt_str p) ;;
       __setattr__ "_epsg" (of_opt_int code) ;;
       (if is_some code
        then s <- get ;; p0 <- lift (getproj4 (_epsg s)) ;;
             __setattr__ "_proj4_str" (of_opt_str p0)
        else ret tt) ;;
       __setattr__ "supported_units" (PStrs ["feet"; "meters"]) ;;
       __setattr__ "_units" (of_opt_str u) ;;
       __setattr__ "_length_multiplier" (of_opt_float lmo) ;;
       _reset ;;
       (let '(xul1, yul1, xll1, yll1) := c in
        set_spatialreference xul1 yul1 xll1 yll1 rot))%py
      (mkSR dr dc lenuni0 _proj4_str0 _epsg0 supported_units0 _units0
            _length_multiplier0 xul0 yul0 xll0 yll0 rotation0 origin_loc0
            None None None None None __dict__0)).
  { intros [[[c1 c2] c3] c4].
    rewrite (bind_run _ _ _ _ _ (setattr_lenuni _ _)); fields.
    rewrite (bind_run _ _ _ _ _ (setattr_proj4 _ _)); fields.
    rewrite (bind_run _ _ _ _ _ (setattr_epsg _ _)); fields.
    unfold init_crs in Hcrs. destruct code as [c|]; cbn [is_some].
    - norm. fields. rewrite Hcrs, bind_lift_ok.
      rewrite (bind_run _ _ _ _ _ (setattr_proj4 _ _)); fields.
      rewrite (bind_run _ _ _ _ _ (setattr_supported _ _)); fields.
      rewrite (bind_run _ _ _ _ _ (setattr_units_private _ _)); fields.
      rewrite (bind_run _ _ _ _ _ (setattr_multiplier_private _ _)); fields.
      rewrite (bind_run _ _ _ _ _ (reset_run _)); fields. reflexivity.
    - injection Hcrs as <-. norm.
      rewrite (bind_run _ _ _ _ _ (setattr_supported _ _)); fields.
      rewrite (bind_run _ _ _ _ _ (setattr_units_private _ _)); fields.
      rewrite (bind_run _ _ _ _ _ (setattr_multiplier_private _ _)); fields.
      rewrite (bind_run _ _ _ _ _ (reset_run _)); fields. reflexivity. }
  destruct (degenerate dr dc xl yl).
  - rewrite bind_assoc, bind_emit, bind_ret.
    match goal with
    | |- (value ?X, _, _) = _ =>
        assert (HX : X = set_spatialreference None None (Some 0) (Some 0) rot
                           (mkSR dr dc l p1 code ["feet"; "meters"] u lmo xul0
                                 yul0 xll0 yll0 rotation0 origin_loc0
                                 None None None None None __dict__0))
          by (symmetry; exact (Hrest (None, None, Some 0, Some 0)));
        rewrite HX
    end.
    reflexivity.
  - rewrite bind_ret. symmetry. exact (Hrest (xu, yu, xl, yl)).
Qed.

Lemma Reqb_true a b : Reqb a b = true <-> a = b.
Proof. unfold Reqb. destruct (Req_dec_T a b); split; auto; discriminate. Qed.

Lemma is_none_true {A} (o : option A) : is_none o = true <-> o = None.
Proof. destruct o; cbn; split; auto; discriminate. Qed.

Lemma degenerate_iff dr dc xl yl :
  degenerate dr dc xl yl = true <->
  (add_reduce dr = 0 \/ add_reduce dc = 0) /\ (xl = None \/ yl = None).
Proof.
  unfold degenerate.
  rewrite andb_true_iff, !orb_true_iff, !Reqb_true, !is_none_true. tauto.
Qed.

Lemma no_print_in_warnings rot : ~ In (Print no_spacing_msg) (rotation_warnings rot).
Proof.
  unfold rotation_warnings. destruct (Req_dec_T rot 0); simpl; [tauto|].
  intros [H|[H|[]]]; discriminate.
Qed.

(** The output of [set_spatialreference] never holds a printed line. *)
Lemma set_spatialreference_output s xu yu xl yl rot lm :
  value (length_multiplier s) = Ok (Some lm) ->
  ~ In (Print no_spacing_msg) (output (set_spatialreference xu yu xl yl rot s)).
Proof.
  intros Hlm.
  destruct (is_some xu && is_some xl) eqn:Hx.
  - rewrite set_spatialreference_both_x by exact Hx. simpl. tauto.
  - destruct (is_some yu && is_some yl) eqn:Hy.
    + rewrite set_spatialreference_both_y by assumption. simpl. tauto.
    + destruct (set_spatialreference_run s xu yu xl yl rot lm Hlm Hx Hy) as [e He].
      rewrite He. apply no_print_in_warnings.
Qed.

(** C8, as the code has it. [set_spatialreference] with both [xul] and
    [xll], or with both [yul] and [yll], raises [ValueError] and leaves the
    instance untouched; with at most one corner coordinate per axis it
    returns. The constructor, given sequences of spacings and a CRS it can
    resolve, does the same after its attribute assignments, unless a spacing
    sums to zero and [xll] or [yll] is missing: then it replaces the corners
    by the lower-left origin first and returns, whatever corners were
    supplied. *)
Theorem ambiguous_anchor (s : SpatialReference) (xu yu xl yl : option R)
    (rot : R) :
  (is_some xu && is_some xl = true ->
   set_spatialreference xu yu xl yl rot s
   = (Raise (ValueError both_x_msg), s, [])) /\
  (is_some xu && is_some xl = false -> is_some yu && is_some yl = true ->
   set_spatialreference xu yu xl yl rot s
   = (Raise (ValueError both_y_msg), s, [])) /\
  (forall lm, value (length_multiplier s) = Ok (Some lm) ->
   is_some xu && is_some xl = false -> is_some yu && is_some yl = false ->
   value (set_spatialreference xu yu xl yl rot s) = Ok tt) /\
  (forall dr dc l p code u lmo p1,
   init_crs p code = Ok p1 ->
   (degenerate dr dc xl yl = false ->
    (is_some xu && is_some xl = true ->
     __init__ (PSeq dr) (PSeq dc) l xu yu xl yl rot p code u lmo s
     = (Raise (ValueError both_x_msg), pre_state dr dc l p1 code u lmo s, [])) /\
    (is_some xu && is_some xl = false -> is_some yu && is_some yl = true ->
     __init__ (PSeq dr) (PSeq dc) l xu yu xl yl rot p code u lmo s
     = (Raise (ValueError both_y_msg), pre_state dr dc l p1 code u lmo s, [])) /\
    (forall lm,
     value (length_multiplier (pre_state dr dc l p1 code u lmo s)) = Ok (Some lm) ->
     is_some xu && is_some xl = false -> is_some yu && is_some yl = false ->
     value (__init__ (PSeq dr) (PSeq dc) l xu yu xl yl rot p code u lmo s)
     = Ok tt)) /\
   (degenerate dr dc xl yl = true ->
    forall lm,
    value (length_multiplier (pre_state dr dc l p1 code u lmo s)) = Ok (Some lm) ->
    value (__init__ (PSeq dr) (PSeq dc) l xu yu xl yl rot p code u lmo s)
    = Ok tt)).
Proof.
  split; [|split; [|split]].
  - apply set_spatialreference_both_x.
  - apply set_spatialreference_both_y.
  - intros lm Hlm Hx Hy.
    destruct (set_spatialreference_run s xu yu xl yl rot lm Hlm Hx Hy) as [e He].
    now rewrite He.
  - intros dr dc l p code u lmo p1 Hcrs. split.
    + intros Hd. rewrite (init_run _ _ _ _ _ _ _ _ _ _ _ _ _ _ Hcrs), Hd.
      split; [|split].
      * apply set_spatialreference_both_x.
      * apply set_spatialreference_both_y.
      * intros lm Hlm Hx Hy.
        destruct (set_spatialreference_run _ xu yu xl yl rot lm Hlm Hx Hy)
          as [e He].
        now rewrite He.
    + intros Hd lm Hlm. rewrite (init_run _ _ _ _ _ _ _ _ _ _ _ _ _ _ Hcrs), Hd.
      destruct (set_spatialreference_run _ None None (Some 0) (Some 0) rot lm Hlm
                  eq_refl eq_refl) as [e He].
      now rewrite He.
Qed.

(** The frame the fallback leaves. *)
Lemma init_fallback dr dc l xu yu xl yl rot p code u lmo s p1 lm :
  init_crs p code = Ok p1 ->
  value (length_multiplier (pre_state dr dc l p1 code u lmo s)) = Ok (Some lm) ->
  degenerate dr dc xl yl = true ->
  exists e,
    __init__ (PSeq dr) (PSeq dc) l xu yu xl yl rot p code u lmo s
    = (Ok tt,
       set__epsg e
         (anchored None None (Some 0) (Some 0) lm
            (set_rotation rot
               (set_origin_loc "ll" (pre_state dr dc l p1 code u lmo s)))),
       Print no_spacing_msg :: rotation_warnings rot).
Proof.
  intros Hcrs Hlm Hd. rewrite (init_run _ _ _ _ _ _ _ _ _ _ _ _ _ _ Hcrs), Hd.
  destruct (set_spatialreference_run _ None None (Some 0) (Some 0) rot lm Hlm
              eq_refl eq_refl) as [e He].
  exists e. rewrite He. reflexivity.
Qed.

Lemma init_regular dr dc l xu yu xl yl rot p code u lmo s p1 lm :
  init_crs p code = Ok p1 ->
  value (length_multiplier (pre_state dr dc l p1 code u lmo s)) = Ok (Some lm) ->
  degenerate dr dc xl yl = false ->
  is_some xu && is_some xl = false -> is_some yu && is_some yl = false ->
  exists e,
    __init__ (PSeq dr) (PSeq dc) l xu yu xl yl rot p code u lmo s
    = (Ok tt,
       set__epsg e
         (anchored (fst (resolved_ul (pre_state dr dc l p1 code u lmo s)
                           xu yu xl yl))
                   (snd (resolved_ul (pre_state dr dc l p1 code u lmo s)
                           xu yu xl yl)) xl yl lm
            (set_rotation rot
               (set_origin_loc (resolved_origin xu yu xl yl)
                  (pre_state dr dc l p1 code u lmo s)))),
       rotation_warnings rot).
Proof.
  intros Hcrs Hlm Hd Hx Hy.
  rewrite (init_run _ _ _ _ _ _ _ _ _ _ _ _ _ _ Hcrs), Hd.
  exact (set_spatialreference_run _ xu yu xl yl rot lm Hlm Hx Hy).
Qed.

Lemma value_triple {A} (r : result A) s l : value (r, s, l) = r.
Proof. reflexivity. Qed.

Lemma final_triple {A} (r : result A) s l : final (r, s, l) = s.
Proof. reflexivity. Qed.

Lemma epsg_keeps e s :
  xul (set__epsg e s) = xul s /\ yul (set__epsg e s) = yul s /\
  xll (set__epsg e s) = xll s /\ yll (set__epsg e s) = yll s /\
  origin_loc (set__epsg e s) = origin_loc s.
Proof. repeat split. Qed.

(** C5, as the code has it. Given sequences of spacings, a CRS it can
    resolve and a multiplier that resolves, the constructor falls back
    exactly when one of the two spacing vectors sums to zero and [xll] or
    [yll] is missing: it then prints the diagnostic, anchors the frame at the
    lower-left corner (0, 0) and ends as if no corner but that one had been
    passed. Otherwise it prints nothing, and when no [xll] is passed the
    upper-left inputs are honored ([xul] = 0 and [yul] = the total length of
    [delc] when no corner coordinate is passed at all). *)
Theorem degenerate_fallback (dr dc : list R) (l : Z) (xu yu xl yl : option R)
    (rot : R) (p : option string) (code : option Z) (u : option string)
    (lmo : option R) (s : SpatialReference) (p1 : option string) (lm : R) :
  init_crs p code = Ok p1 ->
  value (length_multiplier (pre_state dr dc l p1 code u lmo s)) = Ok (Some lm) ->
  (degenerate dr dc xl yl = true <->
   (add_reduce dr = 0 \/ add_reduce dc = 0) /\ (xl = None \/ yl = None)) /\
  (degenerate dr dc xl yl = true <->
   In (Print no_spacing_msg)
      (output (__init__ (PSeq dr) (PSeq dc) l xu yu xl yl rot p code u lmo s))) /\
  (degenerate dr dc xl yl = true ->
   value (__init__ (PSeq dr) (PSeq dc) l xu yu xl yl rot p code u lmo s) = Ok tt /\
   origin_loc (final (__init__ (PSeq dr) (PSeq dc) l xu yu xl yl rot p code u
                        lmo s)) = "ll" /\
   xll (final (__init__ (PSeq dr) (PSeq dc) l xu yu xl yl rot p code u lmo s))
     = Some 0 /\
   yll (final (__init__ (PSeq dr) (PSeq dc) l xu yu xl yl rot p code u lmo s))
     = Some 0 /\
   final (__init__ (PSeq dr) (PSeq dc) l xu yu xl yl rot p code u lmo s)
     = final (__init__ (PSeq dr) (PSeq dc) l None None (Some 0) (Some 0) rot
                p code u lmo s)) /\
  (degenerate dr dc xl yl = false -> xl = None ->
   is_some yu && is_some yl = false ->
   value (__init__ (PSeq dr) (PSeq dc) l xu yu xl yl rot p code u lmo s) = Ok tt /\
   origin_loc (final (__init__ (PSeq dr) (PSeq dc) l xu yu xl yl rot p code u
                        lmo s)) = "ul" /\
   xul (final (__init__ (PSeq dr) (PSeq dc) l xu yu xl yl rot p code u lmo s))
     = Some (or_zero (fst (resolved_ul (pre_state dr dc l p1 code u lmo s)
                             xu yu xl yl))) /\
   yul (final (__init__ (PSeq dr) (PSeq dc) l xu yu xl yl rot p code u lmo s))
     = Some (or_zero (snd (resolved_ul (pre_state dr dc l p1 code u lmo s)
                             xu yu xl yl))) /\
   (forall v, xu = Some v ->
      xul (final (__init__ (PSeq dr) (PSeq dc) l xu yu xl yl rot p code u lmo s))
      = Some v) /\
   (forall v, yu = Some v ->
      yul (final (__init__ (PSeq dr) (PSeq dc) l xu yu xl yl rot p code u lmo s))
      = Some v)).
Proof.
  intros Hcrs Hlm. split; [apply degenerate_iff|]. split; [|split].
  - rewrite (init_run _ _ _ _ _ _ _ _ _ _ _ _ _ _ Hcrs).
    destruct (degenerate dr dc xl yl); split; intros H; try discriminate; auto.
    + cbn [output snd]. now left.
    + exfalso. revert H. now apply (set_spatialreference_output _ _ _ _ _ _ lm).
  - intros Hd.
    destruct (init_fallback dr dc l xu yu xl yl rot p code u lmo s p1 lm
                Hcrs Hlm Hd) as [e He].
    assert (Hsame :
      final (__init__ (PSeq dr) (PSeq dc) l xu yu xl yl rot p code u lmo s)
      = final (__init__ (PSeq dr) (PSeq dc) l None None (Some 0) (Some 0) rot
                 p code u lmo s)).
    { rewrite !(init_run _ _ _ _ _ _ _ _ _ _ _ _ _ _ Hcrs), Hd.
      replace (degenerate dr dc (Some 0) (Some 0)) with false
        by (unfold degenerate; cbn; now rewrite andb_false_r).
      reflexivity. }
    rewrite <- Hsame. clear Hsame. rewrite He. clear He.
    rewrite value_triple, !final_triple.
    destruct (epsg_keeps e
                (anchored None None (Some 0) (Some 0) lm
                   (set_rotation rot
                      (set_origin_loc "ll" (pre_state dr dc l p1 code u lmo s)))))
      as (_ & _ & E1 & E2 & E3).
    rewrite E1, E2, E3. clear E1 E2 E3.
    destruct (anchored_ll_corner
                (set_rotation rot
                   (set_origin_loc "ll" (pre_state dr dc l p1 code u lmo s)))
                None None (Some 0) (Some 0) lm eq_refl)
      as (H1 & H2 & _).
    destruct (anchored_keeps
                (set_rotation rot
                   (set_origin_loc "ll" (pre_state dr dc l p1 code u lmo s)))
                None None (Some 0) (Some 0) lm)
      as (_ & _ & H3 & _).
    rewrite H1, H2, H3.
    split; [reflexivity|]. split; [reflexivity|]. split; [reflexivity|].
    split; reflexivity.
  - intros Hd -> Hy.
    assert (Hx : is_some xu && is_some (@None R) = false) by apply andb_false_r.
    destruct (init_regular dr dc l xu yu None yl rot p code u lmo s p1 lm
                Hcrs Hlm Hd Hx Hy) as [e He].
    rewrite He. clear He.
    assert (Ho : resolved_origin xu yu None yl = "ul").
    { unfold resolved_origin. cbn [is_some is_none negb].
      now destruct (is_none xu && is_none yu && true && is_none yl). }
    rewrite Ho.
    rewrite value_triple, !final_triple.
    match goal with
    | |- context [set__epsg e ?A] =>
        destruct (epsg_keeps e A) as (E1 & E2 & _ & _ & E3)
    end.
    rewrite E1, E2, E3. clear E1 E2 E3.
    match goal with
    | |- context [anchored ?a ?b None yl lm ?F] =>
        destruct (anchored_ul_corner F a b None yl lm eq_refl) as (H1 & H2 & _);
        destruct (anchored_keeps F a b None yl lm) as (_ & _ & H3 & _)
    end.
    rewrite H1, H2, H3.
    split; [reflexivity|]. split; [reflexivity|]. split; [reflexivity|].
    split; [reflexivity|]. split.
    + intros v ->. reflexivity.
    + intros v ->. unfold resolved_ul. cbn [is_none is_some negb].
      rewrite andb_false_r. reflexivity.
Qed.

Lemma fallback_frame_delc rot loc dr dc l p code u lmo s :
  delc (set_rotation rot (set_origin_loc loc (pre_state dr dc l p code u lmo s)))
  = dc.
Proof. reflexivity. Qed.

(** ** More on the rotation primitive *)

Lemma rotate_point_compose x y t1 t2 xo yo :
  rotate_x (rotate_x x y t1 xo yo) (rotate_y x y t1 xo yo) t2 xo yo
    = rotate_x x y (t1 + t2) xo yo /\
  rotate_y (rotate_x x y t1 xo yo) (rotate_y x y t1 xo yo) t2 xo yo
    = rotate_y x y (t1 + t2) xo yo.
Proof.
  unfold rotate_x, rotate_y.
  replace ((t1 + t2) * PI / 180) with (t1 * PI / 180 + t2 * PI / 180) by lra.
  rewrite cos_plus, sin_plus. split; ring.
Qed.

Lemma rotate_point_distance x1 y1 x2 y2 t xo yo :
  (rotate_x x1 y1 t xo yo - rotate_x x2 y2 t xo yo) ^ 2
  + (rotate_y x1 y1 t xo yo - rotate_y x2 y2 t xo yo) ^ 2
  = (x1 - x2) ^ 2 + (y1 - y2) ^ 2.
Proof.
  unfold rotate_x, rotate_y.
  pose proof (sin2_cos2 (t * PI / 180)) as H. unfold Rsqr in H.
  set (c := cos (t * PI / 180)) in *. set (n := sin (t * PI / 180)) in *.
  replace ((xo + c * (x1 - xo) - n * (y1 - yo) - (xo + c * (x2 - xo) - n * (y2 - yo))) ^ 2
           + (yo + n * (x1 - xo) + c * (y1 - yo) - (yo + n * (x2 - xo) + c * (y2 - yo))) ^ 2)
    with ((n * n + c * c) * ((x1 - x2) ^ 2 + (y1 - y2) ^ 2)) by ring.
  rewrite H. ring.
Qed.

(** X1. Two rotations about one pivot compose to the rotation by the sum of
    the angles; in particular a full turn changes nothing. *)
Theorem rotate_compose (x y : ndarray) (t1 t2 xo yo : R) :
  shape x = shape y ->
  exists x1 y1,
    rotate x y t1 xo yo = Ok (x1, y1) /\
    rotate x1 y1 t2 xo yo = rotate x y (t1 + t2) xo yo /\
    rotate x y (t1 + 360) xo yo = rotate x y t1 xo yo.
Proof.
  intros Hs. rewrite !(rotate_ok x y) by exact Hs.
  eexists; eexists. split; [reflexivity|]. split.
  - rewrite rotate_ok by reflexivity. cbn [shape data].
    rewrite !map2_map2. do 2 f_equal; f_equal; apply map2_ext; intros a b;
      apply rotate_point_compose.
  - do 2 f_equal; f_equal; apply map2_ext; intros a b;
      unfold rotate_x, rotate_y;
      replace ((t1 + 360) * PI / 180) with (t1 * PI / 180 + 2 * PI) by lra;
      rewrite cos_plus, sin_plus, cos_2PI, sin_2PI; ring.
Qed.

(** X2. A rotation keeps every distance: between any two points of the
    arrays, and so between a point and the pivot, which stays where it is. *)
Theorem rotate_isometry (x y : ndarray) (t xo yo : R) :
  shape x = shape y -> length (data x) = length (data y) ->
  exists x1 y1,
    rotate x y t xo yo = Ok (x1, y1) /\
    (forall i j, (i < length (data x))%nat -> (j < length (data x))%nat ->
       (nth i (data x1) 0 - nth j (data x1) 0) ^ 2
       + (nth i (data y1) 0 - nth j (data y1) 0) ^ 2
       = (nth i (data x) 0 - nth j (data x) 0) ^ 2
         + (nth i (data y) 0 - nth j (data y) 0) ^ 2) /\
    (forall i, (i < length (data x))%nat ->
       (nth i (data x1) 0 - xo) ^ 2 + (nth i (data y1) 0 - yo) ^ 2
       = (nth i (data x) 0 - xo) ^ 2 + (nth i (data y) 0 - yo) ^ 2) /\
    rotate (scalar xo) (scalar yo) t xo yo = Ok (scalar xo, scalar yo).
Proof.
  intros Hs Hl. rewrite rotate_ok by exact Hs.
  eexists; eexists. split; [reflexivity|]. cbn [data]. split; [|split].
  - intros i j Hi Hj.
    rewrite !(map2_nth _ _ _ _ 0 0) by (rewrite <- ?Hl; assumption).
    apply rotate_point_distance.
  - intros i Hi.
    rewrite !(map2_nth _ _ _ _ 0 0) by (rewrite <- ?Hl; assumption).
    pose proof (rotate_point_distance (nth i (data x) 0) (nth i (data y) 0)
                  xo yo t xo yo) as H.
    replace (rotate_x xo yo t xo yo) with xo in H by (unfold rotate_x; ring).
    replace (rotate_y xo yo t xo yo) with yo in H by (unfold rotate_y; ring).
    exact H.
  - rewrite rotate_scalar. unfold rotate_x, rotate_y, scalar.
    do 3 f_equal; f_equal; ring.
Qed.

(** ** The transform as a map of the plane *)

Lemma lower_left_known s lm :
  origin_loc s = "ul" \/ origin_loc s = "ll" ->
  exists xo yo,
    xll (anchored (xul s) (yul s) (xll s) (yll s) lm s) = Some xo /\
    yll (anchored (xul s) (yul s) (xll s) (yll s) lm s) = Some yo.
Proof.
  intros [Ho|Ho].
  - destruct (anchored_ul_corner s (xul s) (yul s) (xll s) (yll s) lm Ho)
      as (_ & _ & H1 & H2). eauto.
  - destruct (anchored_ll_corner s (xul s) (yul s) (xll s) (yll s) lm Ho)
      as (H1 & H2 & _). eauto.
Qed.

Lemma transform_ok s x y lm xo yo :
  value (length_multiplier s) = Ok (Some lm) ->
  xll (anchored (xul s) (yul s) (xll s) (yll s) lm s) = Some xo ->
  yll (anchored (xul s) (yul s) (xll s) (yll s) lm s) = Some yo ->
  shape x = shape y ->
  exists e,
    transform x y s
    = (Ok (transformed_x lm xo yo (rotation s) x y,
           transformed_y lm xo yo (rotation s) x y),
       set__epsg e (anchored (xul s) (yul s) (xll s) (yll s) lm s), []).
Proof.
  intros Hlm Hx Hy Hs.
  destruct (transform_run s x y lm xo yo Hlm Hx Hy) as [e He].
  exists e. rewrite He. f_equal. f_equal.
  exact (transform_value lm xo yo (rotation s) x y Hs).
Qed.

(** X3. The transform is a similarity of the plane: it multiplies every
    distance between two points by the length multiplier, and it sends the
    origin of model space to the lower-left corner of the frame. *)
Theorem transform_similarity (s : SpatialReference) (x y : ndarray) (lm : R) :
  origin_loc s = "ul" \/ origin_loc s = "ll" ->
  value (length_multiplier s) = Ok (Some lm) ->
  shape x = shape y -> length (data x) = length (data y) ->
  exists x' y' xo yo,
    value (transform x y s) = Ok (x', y') /\
    (forall i j, (i < length (data x))%nat -> (j < length (data x))%nat ->
       (nth i (data x') 0 - nth j (data x') 0) ^ 2
       + (nth i (data y') 0 - nth j (data y') 0) ^ 2
       = lm ^ 2 * ((nth i (data x) 0 - nth j (data x) 0) ^ 2
                   + (nth i (data y) 0 - nth j (data y) 0) ^ 2)) /\
    xll (final (transform x y s)) = Some xo /\
    yll (final (transform x y s)) = Some yo /\
    value (transform (scalar 0) (scalar 0) s) = Ok (scalar xo, scalar yo).
Proof.
  intros Ho Hlm Hs Hl.
  destruct (lower_left_known s lm Ho) as (xo & yo & Hxo & Hyo).
  destruct (transform_ok s x y lm xo yo Hlm Hxo Hyo Hs) as [e He].
  destruct (transform_ok s (scalar 0) (scalar 0) lm xo yo Hlm Hxo Hyo eq_refl)
    as [e0 He0].
  exists (transformed_x lm xo yo (rotation s) x y),
         (transformed_y lm xo yo (rotation s) x y), xo, yo.
  rewrite He, He0, !value_triple, !final_triple.
  split; [reflexivity|]. split; [|split; [exact Hxo|split; [exact Hyo|]]].
  - intros i j Hi Hj. unfold transformed_x, transformed_y. cbn [data].
    rewrite !(map2_nth _ _ _ _ 0 0) by (rewrite <- ?Hl; assumption).
    rewrite rotate_point_distance. ring.
  - unfold transformed_x, transformed_y, scalar, map2. cbn.
    unfold rotate_x, rotate_y. do 3 f_equal; f_equal; ring.
Qed.

(** ** What empties the caches *)

Lemma final_bind_ok {A B} (m : M A) (f : A -> M B) s a :
  value (m s) = Ok a -> final (bind m f s) = final (f a (final (m s))).
Proof.
  unfold bind, value, final. destruct (m s) as [[r s1] l1]. cbn [fst snd].
  intros ->. destruct (f a s1) as [[r2 s2] l2]. reflexivity.
Qed.

Lemma final_bind_raise {A B} (m : M A) (f : A -> M B) s e :
  value (m s) = Raise e -> final (bind m f s) = final (m s).
Proof.
  unfold bind, value, final. destruct (m s) as [[r s1] l1]. cbn [fst snd].
  intros ->. reflexivity.
Qed.

Lemma keeps_bind {A B} (m : M A) (f : A -> M B) :
  keeps_stale m -> (forall a, keeps_stale (f a)) -> keeps_stale (bind m f).
Proof.
  intros Hm Hf s Hs. destruct (value (m s)) as [a|e] eqn:E.
  - rewrite (final_bind_ok _ _ _ _ E). apply Hf, Hm, Hs.
  - rewrite (final_bind_raise _ _ _ _ E). apply Hm, Hs.
Qed.

Lemma makes_bind {A B} (m : M A) (f : A -> M B) :
  makes_stale m -> (forall a, keeps_stale (f a)) -> makes_stale (bind m f).
Proof.
  intros Hm Hf s. destruct (value (m s)) as [a|e] eqn:E.
  - rewrite (final_bind_ok _ _ _ _ E). apply Hf, Hm.
  - rewrite (final_bind_raise _ _ _ _ E). apply Hm.
Qed.

Lemma makes_keeps {A} (m : M A) : makes_stale m -> keeps_stale m.
Proof. intros H s _. apply H. Qed.

Lemma makes_after {A B} (m : M A) (f : A -> M B) :
  keeps_stale m ->
  (forall s e, value (m s) = Raise e -> stale (final (m s))) ->
  (forall a, makes_stale (f a)) -> makes_stale (bind m f).
Proof.
  intros Hk Hr Hf s. destruct (value (m s)) as [a|e] eqn:E.
  - rewrite (final_bind_ok _ _ _ _ E). apply Hf.
  - rewrite (final_bind_raise _ _ _ _ E). exact (Hr s e E).
Qed.

Lemma keeps_ret {A} (a : A) : keeps_stale (ret a).
Proof. intros s H. exact H. Qed.

Lemma keeps_lift {A} (r : result A) : keeps_stale (lift r).
Proof. intros s H. exact H. Qed.

Lemma keeps_get {B} (f : SpatialReference -> M B) :
  (forall s, keeps_stale (f s)) -> keeps_stale (bind get f).
Proof. intros H s Hs. rewrite bind_get. apply H, Hs. Qed.

Lemma makes_get {B} (f : SpatialReference -> M B) :
  (forall s, makes_stale (f s)) -> makes_stale (bind get f).
Proof. intros H s. rewrite bind_get. apply H. Qed.

Lemma keeps_as_float o : keeps_stale (as_float o).
Proof. destruct o; intros s H; exact H. Qed.

Lemma stale_epsg e s : stale s -> stale (set__epsg e s).
Proof. intros H. exact H. Qed.

Lemma keeps_quiet {A} (m : M A) : (forall c, quiet c m) -> keeps_stale m.
Proof.
  intros H s Hs. destruct (quiet_at m s H s eq_refl) as [e He].
  rewrite He, final_triple. exact Hs.
Qed.

Lemma keeps_multiplier : keeps_stale length_multiplier_operand.
Proof.
  apply keeps_bind; [apply keeps_quiet, quiet_length_multiplier|].
  intros a. apply keeps_as_float.
Qed.

Lemma makes_reset : makes_stale _reset.
Proof. intros s. rewrite reset_run, final_triple. apply stale_cleared. Qed.

Lemma makes_corner key v :
  In key ["xul"; "yul"; "xll"; "yll"] -> makes_stale (setattr_corner key (PFloat v)).
Proof.
  intros H s. simpl in H.
  destruct H as [<-|[<-|[<-|[<-|[]]]]];
    [rewrite corner_xul | rewrite corner_yul | rewrite corner_xll | rewrite corner_yll];
    rewrite final_triple; apply stale_cleared.
Qed.

Ltac corner_key := simpl; tauto.

Lemma makes_set_origin a b c d : makes_stale (set_origin a b c d).
Proof.
  unfold set_origin. apply makes_get. intros s.
  assert (Hbranch : forall (cond : bool) (m : M unit),
             makes_stale m ->
             keeps_stale (if cond then m else ret tt) /\
             forall t e, value ((if cond then m else ret tt) t) = Raise e ->
                         stale (final ((if cond then m else ret tt) t))).
  { intros [|] m Hm; split.
    - apply makes_keeps, Hm.
    - intros t e _. apply Hm.
    - apply keeps_ret.
    - intros t e H. discriminate H. }
  match goal with
  | |- makes_stale (bind (if ?c then ?m else _) _) =>
      destruct (Hbranch c m) as [K1 R1]
  end.
  { apply makes_bind; [apply makes_corner; corner_key|]. intros _.
    apply keeps_bind; [apply makes_keeps, makes_corner; corner_key|]. intros _.
    apply keeps_get. intros s1.
    apply keeps_bind; [apply keeps_as_float|]. intros x0.
    apply keeps_bind; [apply keeps_multiplier|]. intros lm.
    apply keeps_bind; [apply makes_keeps, makes_corner; corner_key|]. intros _.
    apply keeps_get. intros s2.
    apply keeps_bind; [apply keeps_as_float|]. intros y0.
    apply keeps_bind; [apply keeps_multiplier|]. intros lm2.
    apply makes_keeps, makes_corner; corner_key. }
  apply (makes_after _ _ K1 R1). intros _.
  apply makes_get. intros s1.
  match goal with
  | |- makes_stale (bind (if ?c then ?m else _) _) =>
      destruct (Hbranch c m) as [K2 R2]
  end.
  { apply makes_bind; [apply makes_corner; corner_key|]. intros _.
    apply keeps_bind; [apply makes_keeps, makes_corner; corner_key|]. intros _.
    apply keeps_get. intros s2.
    apply keeps_bind; [apply keeps_as_float|]. intros x0.
    apply keeps_bind; [apply keeps_multiplier|]. intros lm.
    apply keeps_bind; [apply makes_keeps, makes_corner; corner_key|]. intros _.
    apply keeps_get. intros s3.
    apply keeps_bind; [apply keeps_as_float|]. intros y0.
    apply keeps_bind; [apply keeps_multiplier|]. intros lm2.
    apply makes_keeps, makes_corner; corner_key. }
  apply (makes_after _ _ K2 R2). intros _. apply makes_reset.
Qed.

Lemma makes_transform x y : makes_stale (transform x y).
Proof.
  unfold transform. apply makes_get. intros s.
  apply makes_bind; [apply makes_set_origin|]. intros _.
  apply keeps_bind; [apply keeps_multiplier|]. intros lm.
  apply keeps_bind; [apply keeps_multiplier|]. intros lm2.
  apply keeps_get. intros s1.
  apply keeps_bind; [apply keeps_as_float|]. intros x0.
  apply keeps_get. intros s2.
  apply keeps_bind; [apply keeps_as_float|]. intros y0.
  apply keeps_get. intros s3.
  apply keeps_bind; [apply keeps_as_float|]. intros xo.
  apply keeps_bind; [apply keeps_as_float|]. intros yo.
  apply keeps_lift.
Qed.

Lemma makes_transform_point x y : makes_stale (transform_point x y).
Proof.
  unfold transform_point. apply makes_bind; [apply makes_transform|].
  intros a. apply keeps_ret.
Qed.

Lemma makes_get_extent : makes_stale get_extent.
Proof.
  unfold get_extent. do 4 (apply makes_get; intros ?).
  apply makes_bind; [apply makes_transform_point|]. intros p0.
  apply keeps_bind; [apply makes_keeps, makes_transform_point|]. intros p1.
  apply keeps_bind; [apply makes_keeps, makes_transform_point|]. intros p2.
  apply keeps_bind; [apply makes_keeps, makes_transform_point|]. intros p3.
  apply keeps_ret.
Qed.

Lemma keeps_for_each {A B} (f : A -> M B) l :
  (forall a, keeps_stale (f a)) -> keeps_stale (for_each f l).
Proof.
  intros H. induction l as [|a l IH]; simpl; [apply keeps_ret|].
  apply keeps_bind; [apply H|]. intros b.
  apply keeps_bind; [exact IH|]. intros bs. apply keeps_ret.
Qed.

Lemma makes_for_each {A B} (f : A -> M B) a l :
  (forall a, makes_stale (f a)) -> makes_stale (for_each f (a :: l)).
Proof.
  intros H. simpl. apply makes_bind; [apply H|]. intros b.
  apply keeps_bind; [apply keeps_for_each; intros a'; apply makes_keeps, H|].
  intros bs. apply keeps_ret.
Qed.

Lemma makes_get_grid_lines : makes_stale get_grid_lines.
Proof.
  unfold get_grid_lines. do 5 (apply makes_get; intros ?).
  rewrite Nat.add_1_r. cbn [seq].
  apply makes_bind.
  - apply makes_for_each. intros j. apply makes_get. intros t.
    apply makes_bind; [apply makes_transform_point|]. intros p0.
    apply keeps_bind; [apply makes_keeps, makes_transform_point|]. intros p1.
    apply keeps_ret.
  - intros v. apply keeps_get. intros t.
    apply keeps_bind; [|intros h; apply keeps_ret].
    apply keeps_for_each. intros i. apply keeps_get. intros t'.
    apply keeps_bind; [apply makes_keeps, makes_transform_point|]. intros p0.
    apply keeps_bind; [apply makes_keeps, makes_transform_point|]. intros p1.
    apply keeps_ret.
Qed.

(** X4. Resolving the anchor empties the five caches, and so does every
    method that transforms coordinates: [set_origin], [transform],
    [get_extent], [bounds] and [get_grid_lines] leave all five caches at
    [None], whatever they held before and whether the call returns or
    raises. *)
Theorem transform_empties_caches (s : SpatialReference) (x y : ndarray)
    (a b c d : option R) :
  stale (final (set_origin a b c d s)) /\
  stale (final (transform x y s)) /\
  stale (final (get_extent s)) /\
  stale (final (bounds s)) /\
  stale (final (get_grid_lines s)).
Proof.
  split; [apply makes_set_origin|].
  split; [apply makes_transform|].
  split; [apply makes_get_extent|].
  split; [|apply makes_get_grid_lines].
  unfold bounds. apply makes_bind; [apply makes_get_extent|].
  intros [[[xmin xmax] ymin] ymax]. apply keeps_ret.
Qed.

(** ** The cached grids *)

Lemma cached_xgrid s g : _xgrid s = Some g -> xgrid s = (Ok (Some g), s, []).
Proof.
  intros H. unfold xgrid. rewrite bind_get, H. cbn [is_none is_some negb].
  now rewrite bind_ret, bind_get, H.
Qed.

Lemma cached_ygrid s g : _ygrid s = Some g -> ygrid s = (Ok (Some g), s, []).
Proof.
  intros H. unfold ygrid. rewrite bind_get, H. cbn [is_none is_some negb].
  now rewrite bind_ret, bind_get, H.
Qed.

Lemma cached_xcentergrid s g :
  _xcentergrid s = Some g -> xcentergrid s = (Ok (Some g), s, []).
Proof.
  intros H. unfold xcentergrid. rewrite bind_get, H. cbn [is_none is_some negb].
  now rewrite bind_ret, bind_get, H.
Qed.

Lemma cached_ycentergrid s g :
  _ycentergrid s = Some g -> ycentergrid s = (Ok (Some g), s, []).
Proof.
  intros H. unfold ycentergrid. rewrite bind_get, H. cbn [is_none is_some negb].
  now rewrite bind_ret, bind_get, H.
Qed.

Lemma transformed_x_at lm xo yo rot (xc yc : list R) i j :
  (i < length yc)%nat -> (j < length xc)%nat ->
  nd_at (Some (transformed_x lm xo yo rot (fst (meshgrid xc yc))
                 (snd (meshgrid xc yc)))) i j
  = Ok (rotate_x (nth j xc 0 * lm + xo) (nth i yc 0 * lm + yo) rot xo yo).
Proof.
  intros Hi Hj. unfold nd_at, transformed_x, meshgrid. cbn [fst snd shape data].
  apply Nat.ltb_lt in Hi as Hi'. apply Nat.ltb_lt in Hj as Hj'.
  rewrite Hi', Hj'. cbn [andb]. f_equal.
  rewrite meshgrid_zip.
  exact (nth_blocks (fun a b => rotate_x (a * lm + xo) (b * lm + yo) rot xo yo)
           xc yc 0 i j Hi Hj).
Qed.

Lemma transformed_y_at lm xo yo rot (xc yc : list R) i j :
  (i < length yc)%nat -> (j < length xc)%nat ->
  nd_at (Some (transformed_y lm xo yo rot (fst (meshgrid xc yc))
                 (snd (meshgrid xc yc)))) i j
  = Ok (rotate_y (nth j xc 0 * lm + xo) (nth i yc 0 * lm + yo) rot xo yo).
Proof.
  intros Hi Hj. unfold nd_at, transformed_y, meshgrid. cbn [fst snd shape data].
  apply Nat.ltb_lt in Hi as Hi'. apply Nat.ltb_lt in Hj as Hj'.
  rewrite Hi', Hj'. cbn [andb]. f_equal.
  rewrite meshgrid_zip.
  exact (nth_blocks (fun a b => rotate_y (a * lm + xo) (b * lm + yo) rot xo yo)
           xc yc 0 i j Hi Hj).
Qed.

Lemma transformed_outside (g : ndarray) n m i j :
  shape g = [n; m] -> (n <= i)%nat \/ (m <= j)%nat ->
  nd_at (Some g) i j = Raise IndexError.
Proof.
  intros Hs H. unfold nd_at. rewrite Hs.
  destruct H as [H|H]; apply Nat.ltb_ge in H; rewrite H;
    [reflexivity | now rewrite andb_false_r].
Qed.

Lemma xedge_length s : length (xedge s) = S (ncol s).
Proof.
  unfold xedge, get_xedge_array, ncol. cbn [app length].
  now rewrite add_accumulate_length.
Qed.

Lemma yedge_length s : length (yedge s) = S (nrow s).
Proof.
  unfold yedge, get_yedge_array, nrow. cbn [app length].
  now rewrite length_map, add_accumulate_length.
Qed.

Lemma nodes_unrotated s lm xo yo i j :
  rotation s = 0 -> (i <= nrow s)%nat -> (j <= ncol s)%nat ->
  node_x s lm xo yo i j = xo + lm * psum (delr s) j /\
  node_y s lm xo yo i j = yo + lm * (add_reduce (delc s) - psum (delc s) i).
Proof.
  intros H Hi Hj. unfold node_x, node_y, rotate_x, rotate_y, xedge, yedge.
  rewrite H, deg0, cos_0, sin_0, (xedge_nth s j Hj), (yedge_nth s i Hi).
  split; ring.
Qed.

(** X5. The edge grids. On a frame whose edge grids are not cached, [xgrid]
    rebuilds both grids and [ygrid] then reads its cache; each grid has
    [nrow + 1] rows and [ncol + 1] columns, entry [(i, j)] is the transformed
    node (x edge [j], y edge [i]), and an index beyond the last row or
    column raises [IndexError]. With rotation 0 the node is the lower-left
    corner plus the multiplier times the cumulative spacings. *)
Theorem edge_grid_nodes (s : SpatialReference) (lm : R) :
  origin_loc s = "ul" \/ origin_loc s = "ll" ->
  _xgrid s = None ->
  value (length_multiplier s) = Ok (Some lm) ->
  exists xo yo gx gy,
    value (xgrid s) = Ok (Some gx) /\
    ygrid (final (xgrid s)) = (Ok (Some gy), final (xgrid s), []) /\
    xll (final (xgrid s)) = Some xo /\ yll (final (xgrid s)) = Some yo /\
    shape gx = [S (nrow s); S (ncol s)] /\
    shape gy = [S (nrow s); S (ncol s)] /\
    (forall i j, (i <= nrow s)%nat -> (j <= ncol s)%nat ->
       nd_at (Some gx) i j = Ok (node_x s lm xo yo i j) /\
       nd_at (Some gy) i j = Ok (node_y s lm xo yo i j)) /\
    (forall i j, (nrow s < i)%nat \/ (ncol s < j)%nat ->
       nd_at (Some gx) i j = Raise IndexError /\
       nd_at (Some gy) i j = Raise IndexError) /\
    (rotation s = 0 ->
     forall i j, (i <= nrow s)%nat -> (j <= ncol s)%nat ->
       node_x s lm xo yo i j = xo + lm * psum (delr s) j /\
       node_y s lm xo yo i j
       = yo + lm * (add_reduce (delc s) - psum (delc s) i)).
Proof.
  intros Ho Hn Hlm.
  destruct (lower_left_known s lm Ho) as (xo & yo & Hxo & Hyo).
  destruct (xgrid_rebuild s lm xo yo Hn Hlm Hxo Hyo) as [e He].
  exists xo, yo. do 2 eexists. rewrite He, value_triple, final_triple.
  split; [reflexivity|].
  split; [apply cached_ygrid; reflexivity|].
  split; [exact Hxo|]. split; [exact Hyo|].
  assert (Hsh : [length (yedge s); length (xedge s)] = [S (nrow s); S (ncol s)])
    by now rewrite xedge_length, yedge_length.
  split; [exact Hsh|]. split; [exact Hsh|].
  split; [|split].
  - intros i j Hi Hj. split.
    + apply transformed_x_at; rewrite ?xedge_length, ?yedge_length; lia.
    + apply transformed_y_at; rewrite ?xedge_length, ?yedge_length; lia.
  - intros i j H. split;
      (eapply transformed_outside; [exact Hsh | lia]).
  - intros H0 i j Hi Hj. now apply nodes_unrotated.
Qed.

Lemma center_between_edges s j :
  (j < ncol s)%nat ->
  2 * nth j (xcenter s) 0 = nth j (xedge s) 0 + nth (S j) (xedge s) 0.
Proof.
  intros Hj. unfold xcenter, xedge.
  rewrite (xcenter_nth s j Hj), (xedge_nth s j), (xedge_nth s (S j)) by lia.
  rewrite (psum_S (delr s) j Hj). lra.
Qed.

Lemma center_between_rows s i :
  (i < nrow s)%nat ->
  2 * nth i (ycenter s) 0 = nth i (yedge s) 0 + nth (S i) (yedge s) 0.
Proof.
  intros Hi. unfold ycenter, yedge.
  rewrite (ycenter_nth s i Hi), (yedge_nth s i), (yedge_nth s (S i)) by lia.
  rewrite (psum_S (delc s) i Hi). lra.
Qed.

Lemma center_is_centroid s lm xo yo i j :
  (i < nrow s)%nat -> (j < ncol s)%nat ->
  4 * center_x s lm xo yo i j
  = node_x s lm xo yo i j + node_x s lm xo yo (S i) j
    + node_x s lm xo yo (S i) (S j) + node_x s lm xo yo i (S j) /\
  4 * center_y s lm xo yo i j
  = node_y s lm xo yo i j + node_y s lm xo yo (S i) j
    + node_y s lm xo yo (S i) (S j) + node_y s lm xo yo i (S j).
Proof.
  intros Hi Hj.
  pose proof (center_between_edges s j Hj) as Hx.
  pose proof (center_between_rows s i Hi) as Hy.
  unfold center_x, center_y, node_x, node_y, rotate_x, rotate_y.
  set (c := cos (rotation s * PI / 180)). set (n := sin (rotation s * PI / 180)).
  set (a := nth j (xcenter s) 0) in *. set (b := nth i (ycenter s) 0) in *.
  set (a0 := nth j (xedge s) 0) in *. set (a1 := nth (S j) (xedge s) 0) in *.
  set (b0 := nth i (yedge s) 0) in *. set (b1 := nth (S i) (yedge s) 0) in *.
  split.
  - replace (4 * (xo + c * (a * lm + xo - xo) - n * (b * lm + yo - yo)))
      with (4 * xo + 2 * c * lm * (2 * a) - 2 * n * lm * (2 * b)) by ring.
    rewrite Hx, Hy. ring.
  - replace (4 * (yo + n * (a * lm + xo - xo) + c * (b * lm + yo - yo)))
      with (4 * yo + 2 * n * lm * (2 * a) + 2 * c * lm * (2 * b)) by ring.
    rewrite Hx, Hy. ring.
Qed.

(** X6. The center grids. On a frame whose center grids are not cached,
    [xcentergrid] rebuilds both grids and [ycentergrid] then reads its
    cache; each grid has [nrow] rows and [ncol] columns, entry [(i, j)] is
    the transformed center of cell [(i, j)], which is the centroid of the
    four nodes of the edge grids around it, and an index beyond the last
    row or column raises [IndexError]. *)
Theorem center_grid_cells (s : SpatialReference) (lm : R) :
  origin_loc s = "ul" \/ origin_loc s = "ll" ->
  _xcentergrid s = None ->
  value (length_multiplier s) = Ok (Some lm) ->
  exists xo yo gx gy,
    value (xcentergrid s) = Ok (Some gx) /\
    ycentergrid (final (xcentergrid s))
      = (Ok (Some gy), final (xcentergrid s), []) /\
    xll (final (xcentergrid s)) = Some xo /\
    yll (final (xcentergrid s)) = Some yo /\
    shape gx = [nrow s; ncol s] /\ shape gy = [nrow s; ncol s] /\
    (forall i j, (i < nrow s)%nat -> (j < ncol s)%nat ->
       nd_at (Some gx) i j = Ok (center_x s lm xo yo i j) /\
       nd_at (Some gy) i j = Ok (center_y s lm xo yo i j) /\
       4 * center_x s lm xo yo i j
       = node_x s lm xo yo i j + node_x s lm xo yo (S i) j
         + node_x s lm xo yo (S i) (S j) + node_x s lm xo yo i (S j) /\
       4 * center_y s lm xo yo i j
       = node_y s lm xo yo i j + node_y s lm xo yo (S i) j
         + node_y s lm xo yo (S i) (S j) + node_y s lm xo yo i (S j)) /\
    (forall i j, (nrow s <= i)%nat \/ (ncol s <= j)%nat ->
       nd_at (Some gx) i j = Raise IndexError /\
       nd_at (Some gy) i j = Raise IndexError).
Proof.
  intros Ho Hn Hlm.
  destruct (lower_left_known s lm Ho) as (xo & yo & Hxo & Hyo).
  destruct (xcentergrid_rebuild s lm xo yo Hn Hlm Hxo Hyo) as [e He].
  exists xo, yo. do 2 eexists. rewrite He, value_triple, final_triple.
  split; [reflexivity|].
  split; [apply cached_ycentergrid; reflexivity|].
  split; [exact Hxo|]. split; [exact Hyo|].
  assert (Hsh : [length (ycenter s); length (xcenter s)] = [nrow s; ncol s]).
  { unfold xcenter, ycenter. now rewrite xcenter_length, ycenter_length. }
  split; [exact Hsh|]. split; [exact Hsh|].
  split.
  - intros i j Hi Hj.
    split; [|split; [|apply center_is_centroid; assumption]].
    + apply transformed_x_at; unfold xcenter, ycenter;
        rewrite ?xcenter_length, ?ycenter_length; assumption.
    + apply transformed_y_at; unfold xcenter, ycenter;
        rewrite ?xcenter_length, ?ycenter_length; assumption.
  - intros i j H. split;
      (eapply transformed_outside; [exact Hsh | lia]).
Qed.

Lemma edges_evict s lm :
  origin_loc s = "ul" \/ origin_loc s = "ll" ->
  value (length_multiplier s) = Ok (Some lm) ->
  _xgrid s = None ->
  exists t,
    final (xgrid s) = t /\
    is_some (_xgrid t) = true /\ is_some (_ygrid t) = true /\
    _xcentergrid t = None /\ _ycentergrid t = None /\ _vertices t = None /\
    cfg t = cfg s /\ origin_loc t = origin_loc s.
Proof.
  intros Ho Hlm Hn.
  destruct (lower_left_known s lm Ho) as (xo & yo & Hxo & Hyo).
  destruct (xgrid_rebuild s lm xo yo Hn Hlm Hxo Hyo) as [e He].
  rewrite He, final_triple. eexists. split; [reflexivity|].
  destruct (stale_fields _ (stale_anchored (xul s) (yul s) (xll s) (yll s) lm s e))
    as (_ & _ & H3 & H4 & H5).
  destruct (anchored_keeps s (xul s) (yul s) (xll s) (yll s) lm)
    as (Hc & _ & Hl & _).
  repeat split; assumption.
Qed.

Lemma centers_evict s lm :
  origin_loc s = "ul" \/ origin_loc s = "ll" ->
  value (length_multiplier s) = Ok (Some lm) ->
  _xcentergrid s = None ->
  exists t,
    final (xcentergrid s) = t /\
    is_some (_xcentergrid t) = true /\ is_some (_ycentergrid t) = true /\
    _xgrid t = None /\ _ygrid t = None /\ _vertices t = None /\
    cfg t = cfg s /\ origin_loc t = origin_loc s.
Proof.
  intros Ho Hlm Hn.
  destruct (lower_left_known s lm Ho) as (xo & yo & Hxo & Hyo).
  destruct (xcentergrid_rebuild s lm xo yo Hn Hlm Hxo Hyo) as [e He].
  rewrite He, final_triple. eexists. split; [reflexivity|].
  destruct (stale_fields _ (stale_anchored (xul s) (yul s) (xll s) (yll s) lm s e))
    as (H1 & H2 & _ & _ & H5).
  destruct (anchored_keeps s (xul s) (yul s) (xll s) (yll s) lm)
    as (Hc & _ & Hl & _).
  repeat split; assumption.
Qed.

(** X7. The edge grids and the center grids evict each other. A rebuild of
    the edge grids leaves the center grids and the vertices at [None], a
    rebuild of the center grids leaves the edge grids and the vertices at
    [None], whatever the caches held before; so after [xgrid] and then
    [xcentergrid] the edge grids are gone again. *)
Theorem grids_evict_each_other (s : SpatialReference) (lm : R) :
  origin_loc s = "ul" \/ origin_loc s = "ll" ->
  value (length_multiplier s) = Ok (Some lm) ->
  (_xgrid s = None ->
   is_some (_xgrid (final (xgrid s))) = true /\
   is_some (_ygrid (final (xgrid s))) = true /\
   _xcentergrid (final (xgrid s)) = None /\
   _ycentergrid (final (xgrid s)) = None /\
   _vertices (final (xgrid s)) = None) /\
  (_xcentergrid s = None ->
   is_some (_xcentergrid (final (xcentergrid s))) = true /\
   is_some (_ycentergrid (final (xcentergrid s))) = true /\
   _xgrid (final (xcentergrid s)) = None /\
   _ygrid (final (xcentergrid s)) = None /\
   _vertices (final (xcentergrid s)) = None) /\
  (_xgrid s = None ->
   _xgrid (final (xcentergrid (final (xgrid s)))) = None /\
   _ygrid (final (xcentergrid (final (xgrid s)))) = None).
Proof.
  intros Ho Hlm. split; [|split].
  - intros Hn.
    destruct (edges_evict s lm Ho Hlm Hn) as (t & -> & H1 & H2 & H3 & H4 & H5 & _).
    repeat split; assumption.
  - intros Hn.
    destruct (centers_evict s lm Ho Hlm Hn) as (t & -> & H1 & H2 & H3 & H4 & H5 & _).
    repeat split; assumption.
  - intros Hn.
    destruct (edges_evict s lm Ho Hlm Hn)
      as (t & -> & _ & _ & H3 & _ & _ & Hc & Hl).
    assert (Ho' : origin_loc t = "ul" \/ origin_loc t = "ll") by now rewrite Hl.
    assert (Hlm' : value (length_multiplier t) = Ok (Some lm))
      by now rewrite (multiplier_same s t Hc).
    destruct (centers_evict t lm Ho' Hlm' H3)
      as (u & -> & _ & _ & H1 & H2 & _).
    split; assumption.
Qed.

(** ** Cell vertices *)

Lemma cell_vertices_outside gx gy n m i j :
  shape gx = [n; m] -> shape gy = [n; m] ->
  (n <= i + 1)%nat \/ (m <= j + 1)%nat ->
  cell_vertices (Some gx) (Some gy) i j = Raise IndexError.
Proof.
  intros Hx Hy H. unfold cell_vertices, nd_at. rewrite Hx, Hy.
  destruct (i <? n)%nat eqn:E1; destruct (j <? m)%nat eqn:E2;
    cbn [andb rbind]; try reflexivity.
  destruct (i + 1 <? n)%nat eqn:E3; cbn [andb rbind]; try reflexivity.
  destruct (j + 1 <? m)%nat eqn:E4; cbn [andb rbind]; try reflexivity.
  apply Nat.ltb_lt in E3, E4. lia.
Qed.

Lemma cell_vertices_inside s lm xo yo i j :
  (i < nrow s)%nat -> (j < ncol s)%nat ->
  cell_vertices
    (Some (transformed_x lm xo yo (rotation s)
             (fst (meshgrid (xedge s) (yedge s)))
             (snd (meshgrid (xedge s) (yedge s)))))
    (Some (transformed_y lm xo yo (rotation s)
             (fst (meshgrid (xedge s) (yedge s)))
             (snd (meshgrid (xedge s) (yedge s))))) i j
  = Ok (ring s lm xo yo i j).
Proof.
  intros Hi Hj. unfold cell_vertices.
  rewrite !transformed_x_at, !transformed_y_at
    by (rewrite ?xedge_length, ?yedge_length; lia).
  cbn [rbind]. rewrite !Nat.add_1_r. reflexivity.
Qed.

Lemma get_vertices_run s lm xo yo i j :
  _xgrid s = None ->
  value (length_multiplier s) = Ok (Some lm) ->
  xll (anchored (xul s) (yul s) (xll s) (yll s) lm s) = Some xo ->
  yll (anchored (xul s) (yul s) (xll s) (yll s) lm s) = Some yo ->
  value (get_vertices i j s)
  = cell_vertices
      (Some (transformed_x lm xo yo (rotation s)
               (fst (meshgrid (xedge s) (yedge s)))
               (snd (meshgrid (xedge s) (yedge s)))))
      (Some (transformed_y lm xo yo (rotation s)
               (fst (meshgrid (xedge s) (yedge s)))
               (snd (meshgrid (xedge s) (yedge s))))) i j.
Proof.
  intros Hn Hlm Hx Hy.
  destruct (xgrid_rebuild s lm xo yo Hn Hlm Hx Hy) as [e He].
  unfold get_vertices. rewrite (bind_run _ _ _ _ _ He).
  match goal with
  | |- context [bind ygrid _ ?T] =>
      rewrite (bind_run _ _ T _ _ (cached_ygrid T _ eq_refl))
  end.
  reflexivity.
Qed.

Lemma side_along_row s lm xo yo i j :
  (i <= nrow s)%nat -> (j < ncol s)%nat ->
  dist2 (node_x s lm xo yo i j, node_y s lm xo yo i j)
        (node_x s lm xo yo i (S j), node_y s lm xo yo i (S j))
  = (lm * nth j (delr s) 0) ^ 2.
Proof.
  intros Hi Hj. unfold dist2, node_x, node_y. cbn [fst snd].
  rewrite rotate_point_distance. unfold xedge.
  rewrite (xedge_nth s j), (xedge_nth s (S j)) by lia.
  rewrite (psum_S (delr s) j Hj). ring.
Qed.

Lemma side_along_column s lm xo yo i j :
  (i < nrow s)%nat -> (j <= ncol s)%nat ->
  dist2 (node_x s lm xo yo i j, node_y s lm xo yo i j)
        (node_x s lm xo yo (S i) j, node_y s lm xo yo (S i) j)
  = (lm * nth i (delc s) 0) ^ 2.
Proof.
  intros Hi Hj. unfold dist2, node_x, node_y. cbn [fst snd].
  rewrite rotate_point_distance. unfold yedge.
  rewrite (yedge_nth s i), (yedge_nth s (S i)) by lia.
  rewrite (psum_S (delc s) i Hi). ring.
Qed.

(** X8. The vertices of one cell. On a frame whose edge grids are not
    cached, [get_vertices(i, j)] for a cell of the grid returns the closed
    ring of its four corner nodes, starting and ending at the node of row
    [i] and column [j]; the sides of the ring along the row have length
    multiplier times [delr[j]] and those along the column multiplier times
    [delc[i]], whatever the rotation. For a row or column index past the
    grid it raises [IndexError]. *)
Theorem cell_ring (s : SpatialReference) (lm : R) (i j : nat) :
  origin_loc s = "ul" \/ origin_loc s = "ll" ->
  _xgrid s = None ->
  value (length_multiplier s) = Ok (Some lm) ->
  exists xo yo,
    xll (final (get_vertices i j s)) = Some xo /\
    yll (final (get_vertices i j s)) = Some yo /\
    ((i < nrow s)%nat -> (j < ncol s)%nat ->
     value (get_vertices i j s) = Ok (ring s lm xo yo i j) /\
     nth 4 (ring s lm xo yo i j) (0, 0) = nth 0 (ring s lm xo yo i j) (0, 0) /\
     dist2 (nth 0 (ring s lm xo yo i j) (0, 0)) (nth 1 (ring s lm xo yo i j) (0, 0))
       = (lm * nth i (delc s) 0) ^ 2 /\
     dist2 (nth 1 (ring s lm xo yo i j) (0, 0)) (nth 2 (ring s lm xo yo i j) (0, 0))
       = (lm * nth j (delr s) 0) ^ 2 /\
     dist2 (nth 2 (ring s lm xo yo i j) (0, 0)) (nth 3 (ring s lm xo yo i j) (0, 0))
       = (lm * nth i (delc s) 0) ^ 2 /\
     dist2 (nth 3 (ring s lm xo yo i j) (0, 0)) (nth 4 (ring s lm xo yo i j) (0, 0))
       = (lm * nth j (delr s) 0) ^ 2) /\
    ((nrow s <= i)%nat \/ (ncol s <= j)%nat ->
     value (get_vertices i j s) = Raise IndexError).
Proof.
  intros Ho Hn Hlm.
  destruct (lower_left_known s lm Ho) as (xo & yo & Hxo & Hyo).
  exists xo, yo.
  pose proof (get_vertices_run s lm xo yo i j Hn Hlm Hxo Hyo) as Hv.
  destruct (xgrid_rebuild s lm xo yo Hn Hlm Hxo Hyo) as [e He].
  assert (Hf : exists r, get_vertices i j s
                 = (r, set__ygrid
                         (Some (transformed_y lm xo yo (rotation s)
                                  (fst (meshgrid (xedge s) (yedge s)))
                                  (snd (meshgrid (xedge s) (yedge s)))))
                         (set__xgrid
                            (Some (transformed_x lm xo yo (rotation s)
                                     (fst (meshgrid (xedge s) (yedge s)))
                                     (snd (meshgrid (xedge s) (yedge s)))))
                            (set__epsg e (anchored (xul s) (yul s) (xll s) (yll s)
                                            lm s))), [])).
  { unfold get_vertices. rewrite (bind_run _ _ _ _ _ He).
    match goal with
    | |- context [bind ygrid _ ?T] =>
        rewrite (bind_run _ _ T _ _ (cached_ygrid T _ eq_refl))
    end.
    eexists. reflexivity. }
  destruct Hf as [r Hf].
  split; [rewrite Hf, final_triple; exact Hxo|].
  split; [rewrite Hf, final_triple; exact Hyo|].
  split.
  - intros Hi Hj. rewrite Hv, (cell_vertices_inside s lm xo yo i j Hi Hj).
    split; [reflexivity|]. split; [reflexivity|]. cbn [ring nth].
    split; [apply side_along_column; lia|].
    split.
    { rewrite <- (side_along_row s lm xo yo (S i) j) by lia.
      unfold dist2. cbn [fst snd]. ring. }
    split.
    { rewrite <- (side_along_column s lm xo yo i (S j)) by lia.
      unfold dist2. cbn [fst snd]. ring. }
    rewrite <- (side_along_row s lm xo yo i j) by lia.
    unfold dist2. cbn [fst snd]. ring.
  - intros H. rewrite Hv.
    apply (cell_vertices_outside _ _ (length (yedge s)) (length (xedge s)));
      try reflexivity.
    rewrite xedge_length, yedge_length. lia.
Qed.





(** ** Extent and grid lines *)

Lemma epsg_twice e e' s : set__epsg e' (set__epsg e s) = set__epsg e' s.
Proof. reflexivity. Qed.

Lemma item_transformed lm xo yo rot x y :
  item (transformed_x lm xo yo rot (scalar x) (scalar y))
    = rotate_x (x * lm + xo) (y * lm + yo) rot xo yo /\
  item (transformed_y lm xo yo rot (scalar x) (scalar y))
    = rotate_y (x * lm + xo) (y * lm + yo) rot xo yo.
Proof. split; reflexivity. Qed.

Lemma transform_point_frame s lm xo yo x y t :
  origin_loc s = "ul" \/ origin_loc s = "ll" ->
  value (length_multiplier s) = Ok (Some lm) ->
  xll (anchored (xul s) (yul s) (xll s) (yll s) lm s) = Some xo ->
  yll (anchored (xul s) (yul s) (xll s) (yll s) lm s) = Some yo ->
  in_frame s lm t ->
  exists e,
    transform_point x y t
    = (Ok (rotate_x (x * lm + xo) (y * lm + yo) (rotation s) xo yo,
           rotate_y (x * lm + xo) (y * lm + yo) (rotation s) xo yo),
       set__epsg e (anchored (xul s) (yul s) (xll s) (yll s) lm s), []).
Proof.
  intros Ho Hlm Hxo Hyo [->|[e ->]].
  - destruct (transform_ok s (scalar x) (scalar y) lm xo yo Hlm Hxo Hyo eq_refl)
      as [e He].
    exists e. unfold transform_point. rewrite (bind_run _ _ _ _ _ He).
    reflexivity.
  - set (A := anchored (xul s) (yul s) (xll s) (yll s) lm s) in *.
    destruct (anchored_keeps s (xul s) (yul s) (xll s) (yll s) lm)
      as (Hc & Hrot & Hl & _). fold A in Hc, Hrot, Hl.
    pose proof (anchored_idem s (xul s) (yul s) (xll s) (yll s) lm e Ho) as Hi.
    fold A in Hi.
    assert (Hlm' : value (length_multiplier (set__epsg e A)) = Ok (Some lm)).
    { rewrite (multiplier_same s); [exact Hlm|]. rewrite cfg_epsg. exact Hc. }
    destruct (transform_ok (set__epsg e A) (scalar x) (scalar y) lm xo yo Hlm')
      as [e' He]; try reflexivity.
    { rewrite Hi. exact Hxo. }
    { rewrite Hi. exact Hyo. }
    rewrite Hi in He. exists e'. unfold transform_point.
    rewrite (bind_run _ _ _ _ _ He). rewrite epsg_twice.
    change (rotation (set__epsg e A)) with (rotation A). rewrite Hrot.
    reflexivity.
Qed.

Lemma in_frame_resolved s lm e :
  in_frame s lm (set__epsg e (anchored (xul s) (yul s) (xll s) (yll s) lm s)).
Proof. right. exists e. reflexivity. Qed.

Lemma in_frame_keeps s lm t :
  in_frame s lm t -> delr t = delr s /\ delc t = delc s.
Proof.
  intros [->|[e ->]]; [split; reflexivity|].
  destruct (anchored_keeps s (xul s) (yul s) (xll s) (yll s) lm)
    as (_ & _ & _ & Hr & Hc & _).
  split; [exact Hr | exact Hc].
Qed.

Lemma last_is_nth (l : list R) (v : R) :
  last (v :: l) 0 = nth (length l) (v :: l) 0.
Proof.
  revert v. induction l as [|w l IH]; intros v; [reflexivity|].
  change (last (v :: w :: l) 0) with (last (w :: l) 0). rewrite IH. reflexivity.
Qed.

Lemma last_xedge s : last (xedge s) 0 = nth (ncol s) (xedge s) 0.
Proof.
  unfold xedge, get_xedge_array, ncol. cbn [app].
  rewrite last_is_nth. now rewrite add_accumulate_length.
Qed.

Lemma last_yedge s : last (yedge s) 0 = nth (nrow s) (yedge s) 0.
Proof.
  unfold yedge, get_yedge_array, nrow. cbn [app].
  rewrite last_is_nth. now rewrite length_map, add_accumulate_length.
Qed.

Lemma get_extent_run s lm xo yo :
  origin_loc s = "ul" \/ origin_loc s = "ll" ->
  value (length_multiplier s) = Ok (Some lm) ->
  xll (anchored (xul s) (yul s) (xll s) (yll s) lm s) = Some xo ->
  yll (anchored (xul s) (yul s) (xll s) (yll s) lm s) = Some yo ->
  exists e,
    get_extent s
    = (Ok (py_min (node_x s lm xo yo 0 0)
             [node_x s lm xo yo 0 (ncol s); node_x s lm xo yo (nrow s) (ncol s);
              node_x s lm xo yo (nrow s) 0],
           py_max (node_x s lm xo yo 0 0)
             [node_x s lm xo yo 0 (ncol s); node_x s lm xo yo (nrow s) (ncol s);
              node_x s lm xo yo (nrow s) 0],
           py_min (node_y s lm xo yo 0 0)
             [node_y s lm xo yo 0 (ncol s); node_y s lm xo yo (nrow s) (ncol s);
              node_y s lm xo yo (nrow s) 0],
           py_max (node_y s lm xo yo 0 0)
             [node_y s lm xo yo 0 (ncol s); node_y s lm xo yo (nrow s) (ncol s);
              node_y s lm xo yo (nrow s) 0]),
       set__epsg e (anchored (xul s) (yul s) (xll s) (yll s) lm s), []).
Proof.
  intros Ho Hlm Hxo Hyo. unfold get_extent. rewrite !bind_get.
  rewrite last_xedge, last_yedge.
  destruct (transform_point_frame s lm xo yo (nth 0 (xedge s) 0) (nth 0 (yedge s) 0)
              s Ho Hlm Hxo Hyo (or_introl eq_refl)) as [e0 H0].
  rewrite (bind_run _ _ _ _ _ H0).
  destruct (transform_point_frame s lm xo yo (nth (ncol s) (xedge s) 0)
              (nth 0 (yedge s) 0) _ Ho Hlm Hxo Hyo (in_frame_resolved s lm e0))
    as [e1 H1].
  rewrite (bind_run _ _ _ _ _ H1).
  destruct (transform_point_frame s lm xo yo (nth (ncol s) (xedge s) 0)
              (nth (nrow s) (yedge s) 0) _ Ho Hlm Hxo Hyo (in_frame_resolved s lm e1))
    as [e2 H2].
  rewrite (bind_run _ _ _ _ _ H2).
  destruct (transform_point_frame s lm xo yo (nth 0 (xedge s) 0)
              (nth (nrow s) (yedge s) 0) _ Ho Hlm Hxo Hyo (in_frame_resolved s lm e2))
    as [e3 H3].
  rewrite (bind_run _ _ _ _ _ H3).
  exists e3. reflexivity.
Qed.

Ltac destruct_minmax :=
  repeat (match goal with
          | |- context [Rlt_dec ?u ?v] =>
              lazymatch u with
              | context [Rlt_dec] => fail
              | _ => lazymatch v with
                     | context [Rlt_dec] => fail
                     | _ => destruct (Rlt_dec u v)
                     end
              end
          end; cbv iota).

Lemma py_min_spec a b c d :
  py_min a [b; c; d] <= a /\ py_min a [b; c; d] <= b /\
  py_min a [b; c; d] <= c /\ py_min a [b; c; d] <= d /\
  In (py_min a [b; c; d]) [a; b; c; d].
Proof.
  unfold py_min. cbn [fold_left].
  destruct_minmax;
    (split; [lra|]; split; [lra|]; split; [lra|]; split; [lra|]);
    cbn [In]; auto 6.
Qed.

Lemma py_max_spec a b c d :
  a <= py_max a [b; c; d] /\ b <= py_max a [b; c; d] /\
  c <= py_max a [b; c; d] /\ d <= py_max a [b; c; d] /\
  In (py_max a [b; c; d]) [a; b; c; d].
Proof.
  unfold py_max. cbn [fold_left].
  destruct_minmax;
    (split; [lra|]; split; [lra|]; split; [lra|]; split; [lra|]);
    cbn [In]; auto 6.
Qed.

(** An affine function on a rectangle lies between its values at the four
    corners. *)
Lemma affine_on_box k0 k1 k2 a b A B lo hi :
  0 <= a <= A -> 0 <= b <= B ->
  lo <= k0 + k1 * 0 + k2 * B <= hi ->
  lo <= k0 + k1 * A + k2 * B <= hi ->
  lo <= k0 + k1 * A + k2 * 0 <= hi ->
  lo <= k0 + k1 * 0 + k2 * 0 <= hi ->
  lo <= k0 + k1 * a + k2 * b <= hi.
Proof.
  intros Ha Hb H1 H2 H3 H4.
  assert (Hx : k1 * 0 <= k1 * a <= k1 * A \/ k1 * A <= k1 * a <= k1 * 0).
  { destruct (Rle_dec 0 k1); [left | right]; nra. }
  assert (Hy : k2 * 0 <= k2 * b <= k2 * B \/ k2 * B <= k2 * b <= k2 * 0).
  { destruct (Rle_dec 0 k2); [left | right]; nra. }
  destruct Hx, Hy; lra.
Qed.

Lemma psum_nonneg l i : Forall (fun v => 0 <= v) l -> 0 <= psum l i.
Proof.
  intros H. revert i. induction H as [|v l Hv Hl IH]; intros i.
  - unfold psum. now rewrite firstn_nil; cbn; lra.
  - destruct i as [|i]; [rewrite psum_0; lra|].
    rewrite psum_cons. specialize (IH i). lra.
Qed.

Lemma psum_le_total l i :
  Forall (fun v => 0 <= v) l -> psum l i <= add_reduce l.
Proof.
  intros H. revert i. induction H as [|v l Hv Hl IH]; intros i.
  - unfold psum. rewrite firstn_nil. lra.
  - destruct i as [|i].
    + rewrite psum_0, <- psum_all. cbn [length]. rewrite psum_cons.
      pose proof (psum_nonneg l (length l) Hl). lra.
    + rewrite psum_cons, <- psum_all. cbn [length]. rewrite psum_cons, psum_all.
      specialize (IH i). lra.
Qed.

Lemma xedge_in_range s j :
  Forall (fun v => 0 <= v) (delr s) -> (j <= ncol s)%nat ->
  0 <= nth j (xedge s) 0 <= add_reduce (delr s).
Proof.
  intros H Hj. unfold xedge. rewrite (xedge_nth s j Hj).
  split; [apply psum_nonneg | apply psum_le_total]; exact H.
Qed.

Lemma yedge_in_range s i :
  Forall (fun v => 0 <= v) (delc s) -> (i <= nrow s)%nat ->
  0 <= nth i (yedge s) 0 <= add_reduce (delc s).
Proof.
  intros H Hi. unfold yedge. rewrite (yedge_nth s i Hi).
  pose proof (psum_nonneg (delc s) i H). pose proof (psum_le_total (delc s) i H).
  lra.
Qed.

Lemma corner_edges s :
  nth 0 (xedge s) 0 = 0 /\ nth (ncol s) (xedge s) 0 = add_reduce (delr s) /\
  nth 0 (yedge s) 0 = add_reduce (delc s) /\ nth (nrow s) (yedge s) 0 = 0.
Proof.
  unfold xedge, yedge.
  rewrite (xedge_nth s 0), (xedge_nth s (ncol s)), (yedge_nth s 0),
    (yedge_nth s (nrow s)) by lia.
  unfold ncol, nrow. rewrite !psum_all, !psum_0. repeat split; lra.
Qed.

(** X10. The extent holds the whole grid. For spacings that are not
    negative, [get_extent] returns [(xmin, xmax, ymin, ymax)] with
    [xmin <= xmax] and [ymin <= ymax], every node of the edge grids lies in
    that box, whatever the rotation and the multiplier, and [bounds] returns
    the same four numbers in the order [(xmin, ymin, xmax, ymax)]. *)
Theorem extent_holds_grid (s : SpatialReference) (lm : R) :
  origin_loc s = "ul" \/ origin_loc s = "ll" ->
  value (length_multiplier s) = Ok (Some lm) ->
  Forall (fun v => 0 <= v) (delr s) ->
  Forall (fun v => 0 <= v) (delc s) ->
  exists xo yo xmin xmax ymin ymax,
    value (get_extent s) = Ok (xmin, xmax, ymin, ymax) /\
    value (bounds s) = Ok (xmin, ymin, xmax, ymax) /\
    xll (final (get_extent s)) = Some xo /\
    yll (final (get_extent s)) = Some yo /\
    xmin <= xmax /\ ymin <= ymax /\
    forall i j, (i <= nrow s)%nat -> (j <= ncol s)%nat ->
      xmin <= node_x s lm xo yo i j <= xmax /\
      ymin <= node_y s lm xo yo i j <= ymax.
Proof.
  intros Ho Hlm Hr Hc.
  destruct (lower_left_known s lm Ho) as (xo & yo & Hxo & Hyo).
  destruct (get_extent_run s lm xo yo Ho Hlm Hxo Hyo) as [e He].
  exists xo, yo. do 4 eexists.
  unfold bounds. rewrite (bind_run _ _ _ _ _ He), He, !value_triple, final_triple.
  split; [reflexivity|]. split; [reflexivity|].
  split; [exact Hxo|]. split; [exact Hyo|].
  match goal with
  | |- py_min ?a [?b; ?c; ?d] <= _ /\ py_min ?a' [?b'; ?c'; ?d'] <= _ /\ _ =>
      destruct (py_min_spec a b c d) as (M1 & M2 & M3 & M4 & _);
      destruct (py_max_spec a b c d) as (N1 & N2 & N3 & N4 & _);
      destruct (py_min_spec a' b' c' d') as (P1 & P2 & P3 & P4 & _);
      destruct (py_max_spec a' b' c' d') as (Q1 & Q2 & Q3 & Q4 & _)
  end.
  split; [lra|]. split; [lra|].
  intros i j Hi Hj.
  pose proof (xedge_in_range s j Hr Hj) as Ha.
  pose proof (yedge_in_range s i Hc Hi) as Hb.
  destruct (corner_edges s) as (E1 & E2 & E3 & E4).
  unfold node_x, node_y, rotate_x, rotate_y in *.
  rewrite E1, E2, E3, E4 in *.
  set (c := cos (rotation s * PI / 180)) in *.
  set (n := sin (rotation s * PI / 180)) in *.
  set (a := nth j (xedge s) 0) in *. set (b := nth i (yedge s) 0) in *.
  set (A := add_reduce (delr s)) in *. set (B := add_reduce (delc s)) in *.
  split.
  - replace (xo + c * (a * lm + xo - xo) - n * (b * lm + yo - yo))
      with (xo + (c * lm) * a + (- n * lm) * b) by ring.
    apply (affine_on_box xo (c * lm) (- n * lm) a b A B); try assumption; split; lra.
  - replace (yo + n * (a * lm + xo - xo) + c * (b * lm + yo - yo))
      with (yo + (n * lm) * a + (c * lm) * b) by ring.
    apply (affine_on_box yo (n * lm) (c * lm) a b A B); try assumption; split; lra.
Qed.

Lemma py_min_is a b c d m :
  m <= a -> m <= b -> m <= c -> m <= d -> In m [a; b; c; d] ->
  py_min a [b; c; d] = m.
Proof.
  intros Ha Hb Hc Hd Hin.
  destruct (py_min_spec a b c d) as (M1 & M2 & M3 & M4 & M5).
  cbn [In] in Hin, M5.
  destruct Hin as [<-|[<-|[<-|[<-|[]]]]];
    destruct M5 as [E|[E|[E|[E|[]]]]]; lra.
Qed.

Lemma py_max_is a b c d m :
  a <= m -> b <= m -> c <= m -> d <= m -> In m [a; b; c; d] ->
  py_max a [b; c; d] = m.
Proof.
  intros Ha Hb Hc Hd Hin.
  destruct (py_max_spec a b c d) as (M1 & M2 & M3 & M4 & M5).
  cbn [In] in Hin, M5.
  destruct Hin as [<-|[<-|[<-|[<-|[]]]]];
    destruct M5 as [E|[E|[E|[E|[]]]]]; lra.
Qed.

(** X11. The extent of an unrotated frame. With rotation 0, a multiplier
    that is not negative and spacing sums that are not negative, the extent
    is the rectangle from the lower-left corner [(xll, yll)] to
    [(xll + lm * sum(delr), yll + lm * sum(delc))]; for a frame anchored at
    its upper-left corner the left and top sides are at [xul] and [yul]. *)
Theorem extent_unrotated (s : SpatialReference) (lm : R) :
  origin_loc s = "ul" \/ origin_loc s = "ll" ->
  value (length_multiplier s) = Ok (Some lm) ->
  rotation s = 0 -> 0 <= lm ->
  0 <= add_reduce (delr s) -> 0 <= add_reduce (delc s) ->
  exists xo yo,
    xll (final (get_extent s)) = Some xo /\
    yll (final (get_extent s)) = Some yo /\
    value (get_extent s)
      = Ok (xo, xo + lm * add_reduce (delr s), yo, yo + lm * add_reduce (delc s)) /\
    value (bounds s)
      = Ok (xo, yo, xo + lm * add_reduce (delr s), yo + lm * add_reduce (delc s)) /\
    (origin_loc s = "ul" ->
     xo = or_zero (xul s) /\ yo + lm * add_reduce (delc s) = or_zero (yul s)) /\
    (origin_loc s = "ll" -> xo = or_zero (xll s) /\ yo = or_zero (yll s)).
Proof.
  intros Ho Hlm H0 Hpos Hr Hc.
  destruct (lower_left_known s lm Ho) as (xo & yo & Hxo & Hyo).
  destruct (get_extent_run s lm xo yo Ho Hlm Hxo Hyo) as [e He].
  exists xo, yo.
  unfold bounds. rewrite (bind_run _ _ _ _ _ He), He, !value_triple, final_triple.
  split; [exact Hxo|]. split; [exact Hyo|].
  destruct (nodes_unrotated s lm xo yo 0 0 H0) as [X00 Y00]; try lia.
  destruct (nodes_unrotated s lm xo yo 0 (ncol s) H0) as [X01 Y01]; try lia.
  destruct (nodes_unrotated s lm xo yo (nrow s) (ncol s) H0) as [X11 Y11]; try lia.
  destruct (nodes_unrotated s lm xo yo (nrow s) 0 H0) as [X10 Y10]; try lia.
  rewrite X00, X01, X11, X10, Y00, Y01, Y11, Y10.
  unfold ncol, nrow. rewrite !psum_all, !psum_0.
  assert (0 <= lm * add_reduce (delr s)) by nra.
  assert (0 <= lm * add_reduce (delc s)) by nra.
  assert (E1 : py_min (xo + lm * 0)
                 [xo + lm * add_reduce (delr s); xo + lm * add_reduce (delr s);
                  xo + lm * 0] = xo)
    by (apply py_min_is; cbn [In]; try lra; left; lra).
  assert (E2 : py_max (xo + lm * 0)
                 [xo + lm * add_reduce (delr s); xo + lm * add_reduce (delr s);
                  xo + lm * 0] = xo + lm * add_reduce (delr s))
    by (apply py_max_is; cbn [In]; try lra; right; left; lra).
  assert (E3 : py_min (yo + lm * (add_reduce (delc s) - 0))
                 [yo + lm * (add_reduce (delc s) - 0);
                  yo + lm * (add_reduce (delc s) - add_reduce (delc s));
                  yo + lm * (add_reduce (delc s) - add_reduce (delc s))] = yo)
    by (apply py_min_is; cbn [In]; try lra; right; right; left; lra).
  assert (E4 : py_max (yo + lm * (add_reduce (delc s) - 0))
                 [yo + lm * (add_reduce (delc s) - 0);
                  yo + lm * (add_reduce (delc s) - add_reduce (delc s));
                  yo + lm * (add_reduce (delc s) - add_reduce (delc s))]
               = yo + lm * add_reduce (delc s))
    by (apply py_max_is; cbn [In]; try lra; left; lra).
  rewrite E1, E2, E3, E4.
  split; [reflexivity|]. split; [reflexivity|]. split.
  - intros Hu.
    destruct (anchored_ul_corner s (xul s) (yul s) (xll s) (yll s) lm Hu)
      as (_ & _ & K1 & K2).
    rewrite Hxo in K1. rewrite Hyo in K2. injection K1 as ->. injection K2 as ->.
    unfold theta. rewrite H0.
    replace (- 0 * PI / 180) with 0 by lra. rewrite sin_0, cos_0. split; ring.
  - intros Hl.
    destruct (anchored_ll_corner s (xul s) (yul s) (xll s) (yll s) lm Hl)
      as (K1 & K2 & _).
    rewrite Hxo in K1. rewrite Hyo in K2. injection K1 as ->. injection K2 as ->.
    split; reflexivity.
Qed.

Lemma for_each_run {A B} (f : A -> M B) (g : A -> B) s lm l :
  (forall a t, in_frame s lm t ->
     exists e, f a t
               = (Ok (g a),
                  set__epsg e (anchored (xul s) (yul s) (xll s) (yll s) lm s), [])) ->
  forall t, in_frame s lm t ->
  exists t', in_frame s lm t' /\ for_each f l t = (Ok (map g l), t', []).
Proof.
  intros Hf. induction l as [|a l IH]; intros t Ht.
  - exists t. split; [exact Ht | reflexivity].
  - destruct (Hf a t Ht) as [e He].
    destruct (IH _ (in_frame_resolved s lm e)) as (t' & Ht' & Hrun).
    exists t'. split; [exact Ht'|].
    cbn [for_each map]. rewrite (bind_run _ _ _ _ _ He).
    rewrite (bind_run _ _ _ _ _ Hrun). reflexivity.
Qed.

Lemma in_frame_edges s lm t :
  in_frame s lm t ->
  xedge t = xedge s /\ yedge t = yedge s /\ ncol t = ncol s /\ nrow t = nrow s.
Proof.
  intros H. destruct (in_frame_keeps s lm t H) as [Hr Hc].
  unfold xedge, yedge, get_xedge_array, get_yedge_array, ncol, nrow.
  rewrite Hr, Hc. repeat split.
Qed.

Lemma get_grid_lines_run s lm xo yo :
  origin_loc s = "ul" \/ origin_loc s = "ll" ->
  value (length_multiplier s) = Ok (Some lm) ->
  xll (anchored (xul s) (yul s) (xll s) (yll s) lm s) = Some xo ->
  yll (anchored (xul s) (yul s) (xll s) (yll s) lm s) = Some yo ->
  exists t,
    in_frame s lm t /\
    get_grid_lines s
    = (Ok (map (fun j => (node s lm xo yo (nrow s) j, node s lm xo yo 0 j))
               (seq 0 (ncol s + 1))
           ++ map (fun i => (node s lm xo yo i 0, node s lm xo yo i (ncol s)))
                  (seq 0 (nrow s + 1))),
       t, []).
Proof.
  intros Ho Hlm Hxo Hyo. unfold get_grid_lines. rewrite !bind_get.
  rewrite last_xedge, last_yedge.
  destruct (for_each_run
              (fun j => s0 <- get ;;
                        p0 <- transform_point (nth j (xedge s0) 0)
                                (nth (nrow s) (yedge s) 0) ;;
                        p1 <- transform_point (nth j (xedge s0) 0)
                                (nth 0 (yedge s) 0) ;;
                        ret (p0, p1))
              (fun j => (node s lm xo yo (nrow s) j, node s lm xo yo 0 j))
              s lm (seq 0 (ncol s + 1))) with (t := s)
    as (t1 & Ht1 & Hv).
  { intros j t Ht. rewrite bind_get.
    destruct (in_frame_edges s lm t Ht) as (-> & _).
    destruct (transform_point_frame s lm xo yo (nth j (xedge s) 0)
                (nth (nrow s) (yedge s) 0) t Ho Hlm Hxo Hyo Ht) as [e0 H0].
    rewrite (bind_run _ _ _ _ _ H0).
    destruct (transform_point_frame s lm xo yo (nth j (xedge s) 0)
                (nth 0 (yedge s) 0) _ Ho Hlm Hxo Hyo (in_frame_resolved s lm e0))
      as [e1 H1].
    rewrite (bind_run _ _ _ _ _ H1). exists e1. reflexivity. }
  { left. reflexivity. }
  rewrite (bind_run _ _ _ _ _ Hv). rewrite bind_get.
  destruct (in_frame_edges s lm t1 Ht1) as (_ & _ & _ & ->).
  destruct (for_each_run
              (fun i => s0 <- get ;;
                        p0 <- transform_point (nth 0 (xedge s) 0)
                                (nth i (yedge s0) 0) ;;
                        p1 <- transform_point (nth (ncol s) (xedge s) 0)
                                (nth i (yedge s0) 0) ;;
                        ret (p0, p1))
              (fun i => (node s lm xo yo i 0, node s lm xo yo i (ncol s)))
              s lm (seq 0 (nrow s + 1))) with (t := t1)
    as (t2 & Ht2 & Hh).
  { intros i t Ht. rewrite bind_get.
    destruct (in_frame_edges s lm t Ht) as (_ & -> & _).
    destruct (transform_point_frame s lm xo yo (nth 0 (xedge s) 0)
                (nth i (yedge s) 0) t Ho Hlm Hxo Hyo Ht) as [e0 H0].
    rewrite (bind_run _ _ _ _ _ H0).
    destruct (transform_point_frame s lm xo yo (nth (ncol s) (xedge s) 0)
                (nth i (yedge s) 0) _ Ho Hlm Hxo Hyo (in_frame_resolved s lm e0))
      as [e1 H1].
    rewrite (bind_run _ _ _ _ _ H1). exists e1. reflexivity. }
  { exact Ht1. }
  rewrite (bind_run _ _ _ _ _ Hh). exists t2. split; [exact Ht2 | reflexivity].
Qed.

(** X12. The grid lines. [get_grid_lines] returns [ncol + nrow + 2]
    segments: first, for every column edge [j], the segment from the node in
    the last row to the node in row 0; then, for every row edge [i], the
    segment from the node in column 0 to the node in the last column. The
    segments of the first kind have length multiplier times [sum(delc)],
    those of the second kind multiplier times [sum(delr)], whatever the
    rotation. *)
Theorem grid_lines (s : SpatialReference) (lm : R) :
  origin_loc s = "ul" \/ origin_loc s = "ll" ->
  value (length_multiplier s) = Ok (Some lm) ->
  exists xo yo lines,
    value (get_grid_lines s) = Ok lines /\
    xll (anchored (xul s) (yul s) (xll s) (yll s) lm s) = Some xo /\
    yll (anchored (xul s) (yul s) (xll s) (yll s) lm s) = Some yo /\
    length lines = (ncol s + nrow s + 2)%nat /\
    (forall j, (j <= ncol s)%nat ->
       nth j lines ((0, 0), (0, 0))
         = (node s lm xo yo (nrow s) j, node s lm xo yo 0 j) /\
       dist2 (node s lm xo yo (nrow s) j) (node s lm xo yo 0 j)
         = (lm * add_reduce (delc s)) ^ 2) /\
    (forall i, (i <= nrow s)%nat ->
       nth (ncol s + 1 + i) lines ((0, 0), (0, 0))
         = (node s lm xo yo i 0, node s lm xo yo i (ncol s)) /\
       dist2 (node s lm xo yo i 0) (node s lm xo yo i (ncol s))
         = (lm * add_reduce (delr s)) ^ 2).
Proof.
  intros Ho Hlm.
  destruct (lower_left_known s lm Ho) as (xo & yo & Hxo & Hyo).
  destruct (get_grid_lines_run s lm xo yo Ho Hlm Hxo Hyo) as (t & Ht & Hrun).
  exists xo, yo. eexists. rewrite Hrun, value_triple.
  split; [reflexivity|]. split; [exact Hxo|]. split; [exact Hyo|].
  destruct (corner_edges s) as (E1 & E2 & E3 & E4).
  split; [|split].
  - rewrite length_app, !length_map, !length_seq. lia.
  - intros j Hj. split.
    + rewrite app_nth1 by (rewrite length_map, length_seq; lia).
      rewrite (nth_map_in _ (seq 0 (ncol s + 1)) j 0%nat)
        by (rewrite length_seq; lia).
      rewrite seq_nth by lia. reflexivity.
    + unfold dist2, node, node_x, node_y. cbn [fst snd].
      rewrite rotate_point_distance, E3, E4. ring.
  - intros i Hi. split.
    + rewrite app_nth2 by (rewrite length_map, length_seq; lia).
      rewrite length_map, length_seq.
      replace (ncol s + 1 + i - (ncol s + 1))%nat with i by lia.
      rewrite (nth_map_in _ (seq 0 (nrow s + 1)) i 0%nat)
        by (rewrite length_seq; lia).
      rewrite seq_nth by lia. reflexivity.
    + unfold dist2, node, node_x, node_y. cbn [fst snd].
      rewrite rotate_point_distance, E1, E2. ring.
Qed.

(** ** The lookup at cell centers, and on grids without cells *)

Lemma psum_mono l i j :
  Forall (fun v => 0 < v) l -> (i <= j)%nat -> (j <= length l)%nat ->
  psum l i <= psum l j.
Proof.
  intros H Hij Hj. induction Hij as [|j Hij IH]; [lra|].
  rewrite psum_S by lia.
  pose proof (nth_positive l j H ltac:(lia)). specialize (IH ltac:(lia)). lra.
Qed.

Lemma xcenter_increasing s i j :
  Forall (fun v => 0 < v) (delr s) -> (i < j)%nat -> (j < ncol s)%nat ->
  nth i (xcenter s) 0 < nth j (xcenter s) 0.
Proof.
  intros H Hij Hj. unfold xcenter.
  rewrite (xcenter_nth s i), (xcenter_nth s j) by lia.
  rewrite (psum_S (delr s) j) by exact Hj.
  pose proof (nth_positive (delr s) i H ltac:(unfold ncol in *; lia)).
  pose proof (nth_positive (delr s) j H ltac:(unfold ncol in *; lia)).
  pose proof (psum_mono (delr s) (S i) j H ltac:(lia) ltac:(unfold ncol in *; lia)).
  lra.
Qed.

Lemma ycenter_decreasing s i j :
  Forall (fun v => 0 < v) (delc s) -> (i < j)%nat -> (j < nrow s)%nat ->
  nth j (ycenter s) 0 < nth i (ycenter s) 0.
Proof.
  intros H Hij Hj. unfold ycenter.
  rewrite (ycenter_nth s i), (ycenter_nth s j) by lia.
  rewrite (psum_S (delc s) j) by exact Hj.
  pose proof (nth_positive (delc s) i H ltac:(unfold nrow in *; lia)).
  pose proof (nth_positive (delc s) j H ltac:(unfold nrow in *; lia)).
  pose proof (psum_mono (delc s) (S i) j H ltac:(lia) ltac:(unfold nrow in *; lia)).
  lra.
Qed.

Lemma is_argmin_at_zero (f : nat -> R) n k :
  (k < n)%nat -> f k = 0 -> (forall j, (j < n)%nat -> 0 <= f j) ->
  (forall j, (j < k)%nat -> f j <> 0) ->
  is_argmin f n k.
Proof.
  intros Hk H0 Hpos Hne. split; [exact Hk|]. split.
  - intros j Hj. rewrite H0. apply Hpos, Hj.
  - intros j Hj. rewrite H0.
    pose proof (Hpos j ltac:(lia)). pose proof (Hne j Hj). lra.
Qed.

(** X13. Looking up a cell center finds its cell when the frame is not
    rotated. With rotation 0, a multiplier other than zero and positive
    spacings, [get_rc] at the real-world center of cell [(i, j)], as the
    center grids give it, returns [(i, j)]. *)
Theorem lookup_of_center (s : SpatialReference) (lm : R) (i j : nat) :
  origin_loc s = "ul" \/ origin_loc s = "ll" ->
  _xcentergrid s = None ->
  value (length_multiplier s) = Ok (Some lm) ->
  rotation s = 0 -> lm <> 0 ->
  Forall (fun v => 0 < v) (delr s) -> Forall (fun v => 0 < v) (delc s) ->
  (i < nrow s)%nat -> (j < ncol s)%nat ->
  exists xo yo,
    xll (final (get_rc (center_x s lm xo yo i j) (center_y s lm xo yo i j) s))
      = Some xo /\
    yll (final (get_rc (center_x s lm xo yo i j) (center_y s lm xo yo i j) s))
      = Some yo /\
    center_x s lm xo yo i j = nth j (xcenter s) 0 * lm + xo /\
    center_y s lm xo yo i j = nth i (ycenter s) 0 * lm + yo /\
    value (get_rc (center_x s lm xo yo i j) (center_y s lm xo yo i j) s)
      = Ok (i, j).
Proof.
  intros Ho Hn Hlm H0 Hnz Hr Hc Hi Hj.
  destruct (lower_left_known s lm Ho) as (xo & yo & Hxo & Hyo).
  exists xo, yo.
  assert (Ex : center_x s lm xo yo i j = nth j (xcenter s) 0 * lm + xo).
  { unfold center_x, rotate_x. rewrite H0, deg0, cos_0, sin_0. ring. }
  assert (Ey : center_y s lm xo yo i j = nth i (ycenter s) 0 * lm + yo).
  { unfold center_y, rotate_y. rewrite H0, deg0, cos_0, sin_0. ring. }
  destruct (get_rc_run s lm xo yo (center_x s lm xo yo i j)
              (center_y s lm xo yo i j) Hn Hlm Hxo Hyo) as (r & c & e & Hrun & Hc' & Hr');
    try lia.
  rewrite Hrun, value_triple, final_triple.
  split; [exact Hxo|]. split; [exact Hyo|]. split; [exact Ex|]. split; [exact Ey|].
  assert (Ec : c = j).
  { apply (is_argmin_unique _ _ _ _ Hc').
    apply is_argmin_at_zero; [exact Hj | | |].
    - destruct (slices_unrotated s lm xo yo j H0) as [-> _]. rewrite Ex.
      replace (nth j (xcenter s) 0 * lm + xo - (nth j (xcenter s) 0 * lm + xo))
        with 0 by ring. apply Rabs_R0.
    - intros k _. apply Rabs_pos.
    - intros k Hk. destruct (slices_unrotated s lm xo yo k H0) as [-> _]. rewrite Ex.
      pose proof (xcenter_increasing s k j Hr Hk Hj) as Hlt.
      apply Rabs_no_R0. intros E.
      assert (E' : (nth k (xcenter s) 0 - nth j (xcenter s) 0) * lm = 0) by lra.
      apply Rmult_integral in E'. destruct E'; lra. }
  assert (Er : r = i).
  { apply (is_argmin_unique _ _ _ _ Hr').
    apply is_argmin_at_zero; [exact Hi | | |].
    - destruct (slices_unrotated s lm xo yo i H0) as [_ ->]. rewrite Ey.
      replace (nth i (ycenter s) 0 * lm + yo - (nth i (ycenter s) 0 * lm + yo))
        with 0 by ring. apply Rabs_R0.
    - intros k _. apply Rabs_pos.
    - intros k Hk. destruct (slices_unrotated s lm xo yo k H0) as [_ ->]. rewrite Ey.
      pose proof (ycenter_decreasing s k i Hc Hk Hi) as Hlt.
      apply Rabs_no_R0. intros E.
      assert (E' : (nth k (ycenter s) 0 - nth i (ycenter s) 0) * lm = 0) by lra.
      apply Rmult_integral in E'. destruct E'; lra. }
  now rewrite Ec, Er.
Qed.

Lemma bind_lift_raise {A B} (e : exn) (f : A -> M B) s :
  bind (lift (Raise e)) f s = (Raise e, s, []).
Proof. reflexivity. Qed.

Lemma length_zero_nil {A} (l : list A) : length l = 0%nat -> l = [].
Proof. destruct l; [reflexivity | discriminate]. Qed.

(** X14. The lookup on a grid without cells. On a frame without rows
    [get_rc] raises [IndexError], from the read of row 0 of the center grid;
    on a frame with rows but without columns it raises [ValueError], from
    the [argmin] of an empty row. *)
Theorem lookup_without_cells (s : SpatialReference) (lm x y : R) :
  origin_loc s = "ul" \/ origin_loc s = "ll" ->
  _xcentergrid s = None ->
  value (length_multiplier s) = Ok (Some lm) ->
  (nrow s = 0%nat -> value (get_rc x y s) = Raise IndexError) /\
  ((0 < nrow s)%nat -> ncol s = 0%nat ->
   value (get_rc x y s)
   = Raise (ValueError "attempt to get argmin of an empty sequence")).
Proof.
  intros Ho Hn Hlm.
  destruct (lower_left_known s lm Ho) as (xo & yo & Hxo & Hyo).
  destruct (xcentergrid_rebuild s lm xo yo Hn Hlm Hxo Hyo) as [e He].
  split.
  - intros H0. unfold get_rc. rewrite (bind_run _ _ _ _ _ He).
    assert (E : nd_row (Some (transformed_x lm xo yo (rotation s)
                                (fst (meshgrid (xcenter s) (ycenter s)))
                                (snd (meshgrid (xcenter s) (ycenter s))))) 0
                = Raise IndexError).
    { unfold nd_row, transformed_x, meshgrid. cbn [fst snd shape].
      unfold ycenter. rewrite ycenter_length, H0. reflexivity. }
    rewrite E, bind_lift_raise. reflexivity.
  - intros Hr H0. unfold get_rc. rewrite (bind_run _ _ _ _ _ He).
    rewrite (row0_of_grid s lm xo yo Hr), bind_lift_ok.
    assert (E : xcenter s = []).
    { apply length_zero_nil. unfold xcenter. now rewrite xcenter_length. }
    rewrite E. cbn [map argmin]. rewrite bind_lift_raise. reflexivity.
Qed.

(** X15. The lookup of a sequence of points. On a frame with cells whose
    center grids are not cached, [get_rc] for sequences [xs] and [ys] of one
    length, not empty, returns two sequences of that length, and the entries
    at position [k] are the row and column the lookup of the single point
    [(xs[k], ys[k])] returns; for empty sequences it raises [ValueError]. *)
Theorem lookup_of_sequences (s : SpatialReference) (lm : R) :
  origin_loc s = "ul" \/ origin_loc s = "ll" ->
  _xcentergrid s = None ->
  value (length_multiplier s) = Ok (Some lm) ->
  (0 < nrow s)%nat -> (0 < ncol s)%nat ->
  (forall xs ys, (0 < length xs)%nat -> length ys = length xs ->
   exists rs cs,
     value (get_rc_seq xs ys s) = Ok (rs, cs) /\
     length rs = length xs /\ length cs = length xs /\
     forall k, (k < length xs)%nat ->
       value (get_rc (nth k xs 0) (nth k ys 0) s)
       = Ok (nth k rs 0%nat, nth k cs 0%nat)) /\
  value (get_rc_seq [] [] s)
  = Raise (ValueError "attempt to get argmin of an empty sequence").
Proof.
  intros Ho Hn Hlm Hr Hc.
  destruct (lower_left_known s lm Ho) as (xo & yo & Hxo & Hyo).
  split.
  - intros xs ys Hxs Hys.
    exact (get_rc_seq_run s lm xo yo xs ys Hn Hlm Hxo Hyo Hr Hc Hxs Hys).
  - destruct (xcentergrid_rebuild s lm xo yo Hn Hlm Hxo Hyo) as [e He].
    unfold get_rc_seq. rewrite (bind_run _ _ _ _ _ He).
    rewrite (row0_of_grid s lm xo yo Hr), bind_lift_ok.
    match goal with
    | |- context [bind ycentergrid _ ?T] =>
        rewrite (bind_run _ _ T _ _ (cached_ycentergrid T _ eq_refl))
    end.
    rewrite (col0_of_grid s lm xo yo Hc), bind_lift_ok.
    cbn [length argmin_axis0 Nat.eqb]. rewrite bind_lift_raise. reflexivity.
Qed.

(** ** The reference units *)

Lemma try_returns {A} (m : M A) (a : A) s :
  exists r, value (try_except m (ret a) s) = Ok r.
Proof.
  unfold try_except, value. destruct (m s) as [[[x|e] s1] l1]; cbn; eauto.
Qed.

Lemma parse_units_run s :
  exists o e, _parse_units_from_proj4 s = (Ok o, set__epsg e s, []).
Proof.
  destruct (quiet_at _parse_units_from_proj4 s quiet_parse_units s eq_refl)
    as [e He].
  destruct (try_returns
              (p <- proj4_str ;;
               p <- str_method p "upper" ;;
               proj_str <-
                 (if contains "EPSG" (upper p) then
                    q <- proj4_str ;;
                    q <- str_method q "Proj" ;;
                    lift (pyproj_srs q)
                  else
                    q <- proj4_str ;;
                    str_method q "__contains__") ;;
               if contains "units=m" proj_str then ret (Some "meters")
               else if contains "units=ft" proj_str
                       || contains "units=us-ft" proj_str
                       || contains "to_meters:0.3048" proj_str then ret (Some "feet")
               else ret None) None s) as [o Ho].
  fold _parse_units_from_proj4 in Ho. rewrite Ho in He. eauto.
Qed.

Lemma units_run s :
  exists o e,
    value (_parse_units_from_proj4 s) = Ok o /\
    units s
    = ((if existsb
             (String.eqb (match _units s with
                          | Some u => lower u
                          | None => or_meters o
                          end)) (supported_units s)
        then Ok (match _units s with
                 | Some u => lower u
                 | None => or_meters o
                 end)
        else Raise AssertionError),
       set__epsg e s, []).
Proof.
  destruct (parse_units_run s) as (o & e & Hp).
  unfold units. rewrite bind_get. destruct (_units s) as [u|] eqn:Hu.
  - exists o, (_epsg s). split; [now rewrite Hp|].
    rewrite bind_ret, bind_get, epsg_eta.
    destruct (existsb _ _); reflexivity.
  - exists o, e. split; [now rewrite Hp|].
    rewrite (bind_run _ _ _ _ _ Hp), bind_get.
    change (supported_units (set__epsg e s)) with (supported_units s).
    unfold or_meters. destruct (existsb _ _); reflexivity.
Qed.

Lemma existsb_in (u : string) (l : list string) :
  In u l -> existsb (String.eqb u) l = true.
Proof.
  intros H. apply existsb_exists. exists u. split; [exact H | apply String.eqb_refl].
Qed.

Lemma proj4_none s : _proj4_str s = None -> proj4_str s = (Ok None, s, []).
Proof. intros H. unfold proj4_str. now rewrite bind_get, H. Qed.

Lemma proj4_plain s p :
  _proj4_str s = Some p -> contains "epsg" (lower p) = false ->
  proj4_str s = (Ok (Some p), s, []).
Proof. intros H Hc. unfold proj4_str. now rewrite bind_get, H, Hc. Qed.

Lemma parse_units_none s :
  _proj4_str s = None -> value (_parse_units_from_proj4 s) = Ok None.
Proof.
  intros H. unfold _parse_units_from_proj4, try_except.
  rewrite (bind_run _ _ _ _ _ (proj4_none s H)). reflexivity.
Qed.

(** Upper-casing finds [EPSG] where lower-casing finds [epsg]. *)
Lemma fold_case_table :
  forallb (fun n =>
             forallb (fun Xx =>
                        Bool.eqb (Ascii.eqb (fst Xx) (upper_ascii (ascii_of_nat n)))
                                 (Ascii.eqb (snd Xx) (lower_ascii (ascii_of_nat n))))
                     [("E", "e"); ("P", "p"); ("S", "s"); ("G", "g")]%char)
          (seq 0 256) = true.
Proof. vm_compute. reflexivity. Qed.

Lemma fold_case (X x c : ascii) (b : bool) :
  In (X, x) [("E", "e"); ("P", "p"); ("S", "s"); ("G", "g")]%char ->
  (if ascii_dec X (upper_ascii c) then b else false)
  = (if ascii_dec x (lower_ascii c) then b else false).
Proof.
  intros H.
  pose proof fold_case_table as T. rewrite forallb_forall in T.
  specialize (T (nat_of_ascii c)). rewrite ascii_nat_embedding in T.
  assert (Hc : In (nat_of_ascii c) (seq 0 256)).
  { apply in_seq. pose proof (nat_ascii_bounded c). lia. }
  specialize (T Hc). rewrite forallb_forall in T. specialize (T _ H).
  cbn [fst snd] in T. apply Bool.eqb_prop in T.
  destruct (ascii_dec X (upper_ascii c)) as [E|E];
    destruct (ascii_dec x (lower_ascii c)) as [F|F]; try reflexivity.
  - apply Ascii.eqb_eq in E. rewrite E in T. symmetry in T.
    apply Ascii.eqb_eq in T. contradiction.
  - apply Ascii.eqb_eq in F. rewrite F in T.
    apply Ascii.eqb_eq in T. contradiction.
Qed.

Lemma prefix_fold_case h :
  String.prefix "EPSG" (upper h) = String.prefix "epsg" (lower h).
Proof.
  destruct h as [|c1 [|c2 [|c3 [|c4 h]]]];
    cbn [upper lower str_map String.prefix]; try reflexivity.
  - rewrite (fold_case "E" "e" c1) by (cbn; tauto). reflexivity.
  - rewrite (fold_case "E" "e" c1) by (cbn; tauto).
    destruct (ascii_dec "e" (lower_ascii c1)); [|reflexivity].
    rewrite (fold_case "P" "p" c2) by (cbn; tauto). reflexivity.
  - rewrite (fold_case "E" "e" c1) by (cbn; tauto).
    destruct (ascii_dec "e" (lower_ascii c1)); [|reflexivity].
    rewrite (fold_case "P" "p" c2) by (cbn; tauto).
    destruct (ascii_dec "p" (lower_ascii c2)); [|reflexivity].
    rewrite (fold_case "S" "s" c3) by (cbn; tauto). reflexivity.
  - rewrite (fold_case "E" "e" c1) by (cbn; tauto).
    destruct (ascii_dec "e" (lower_ascii c1)); [|reflexivity].
    rewrite (fold_case "P" "p" c2) by (cbn; tauto).
    destruct (ascii_dec "p" (lower_ascii c2)); [|reflexivity].
    rewrite (fold_case "S" "s" c3) by (cbn; tauto).
    destruct (ascii_dec "s" (lower_ascii c3)); [|reflexivity].
    rewrite (fold_case "G" "g" c4) by (cbn; tauto).
    destruct (ascii_dec "g" (lower_ascii c4)); [|reflexivity].
    destruct (lower h), (upper h); reflexivity.
Qed.

Lemma contains_fold_case h : contains "EPSG" (upper h) = contains "epsg" (lower h).
Proof.
  induction h as [|c h IH].
  - reflexivity.
  - change (upper (String c h)) with (String (upper_ascii c) (upper h)).
    change (lower (String c h)) with (String (lower_ascii c) (lower h)).
    cbn [contains].
    change (String (upper_ascii c) (upper h)) with (upper (String c h)).
    change (String (lower_ascii c) (lower h)) with (lower (String c h)).
    now rewrite prefix_fold_case, IH.
Qed.

Lemma parse_units_plain s p :
  _proj4_str s = Some p -> contains "epsg" (lower p) = false ->
  value (_parse_units_from_proj4 s) = Ok (units_of_text p).
Proof.
  intros H Hc. unfold _parse_units_from_proj4, try_except.
  pose proof (proj4_plain s p H Hc) as Hp.
  rewrite (bind_run _ _ _ _ _ Hp). cbn [str_method]. rewrite bind_ret.
  rewrite contains_fold_case, Hc.
  rewrite bind_assoc, (bind_run _ _ _ _ _ Hp). cbn [str_method]. rewrite bind_ret.
  unfold units_of_text.
  destruct (contains "units=m" p); [reflexivity|].
  destruct (contains "units=ft" p || contains "units=us-ft" p
            || contains "to_meters:0.3048" p); reflexivity.
Qed.

Lemma contains_cons n c t : contains n t = true -> contains n (String c t) = true.
Proof. intros H. cbn [contains]. rewrite H. apply orb_true_r. Qed.

Lemma proj4_coded s p code :
  _proj4_str s = Some p -> contains "epsg" (lower p) = true ->
  epsg_of_proj4 p = Ok code ->
  proj4_str s
  = (Ok (Some (if negb (contains "init" (lower p)) then ("+init=" ++ p)%string
               else p)),
     set__epsg (Some code) s, []).
Proof.
  intros H Hc He. unfold proj4_str. rewrite bind_get, H, Hc, He, bind_lift_ok.
  rewrite (bind_run _ _ _ _ _
             (eq_refl : object_setattr "_epsg" (PInt code) s
                        = (Ok tt, set__epsg (Some code) s, []))).
  reflexivity.
Qed.

Lemma coded_mentions_epsg p :
  contains "epsg" (lower p) = true ->
  contains "EPSG"
    (upper (if negb (contains "init" (lower p)) then ("+init=" ++ p)%string else p))
  = true.
Proof.
  intros Hc. rewrite contains_fold_case.
  destruct (negb (contains "init" (lower p))); [|exact Hc].
  change (lower ("+init=" ++ p))
    with (String (lower_ascii "+") (String (lower_ascii "i")
           (String (lower_ascii "n") (String (lower_ascii "i")
             (String (lower_ascii "t") (String (lower_ascii "=") (lower p))))))).
  do 6 apply contains_cons. exact Hc.
Qed.

Lemma parse_units_coded s p code :
  _proj4_str s = Some p -> contains "epsg" (lower p) = true ->
  epsg_of_proj4 p = Ok code ->
  value (_parse_units_from_proj4 s)
  = Ok (match pyproj_srs (if negb (contains "init" (lower p))
                          then ("+init=" ++ p)%string else p) with
        | Ok t => units_of_text t
        | Raise _ => None
        end).
Proof.
  intros H Hc He. unfold _parse_units_from_proj4, try_except.
  pose proof (proj4_coded s p code H Hc He) as Hp.
  pose proof (proj4_coded (set__epsg (Some code) s) p code H Hc He) as Hp'.
  rewrite epsg_twice in Hp'.
  set (q := if negb (contains "init" (lower p)) then ("+init=" ++ p)%string else p)
    in *.
  rewrite (bind_run _ _ _ _ _ Hp). cbn [str_method]. rewrite bind_ret.
  unfold q at 1. rewrite (coded_mentions_epsg p Hc). fold q.
  rewrite !bind_assoc, (bind_run _ _ _ _ _ Hp'). cbn [str_method].
  rewrite ?bind_assoc, bind_ret. unfold units_of_text.
  destruct (pyproj_srs q) as [t|e].
  - rewrite bind_lift_ok.
    destruct (contains "units=m" t); [reflexivity|].
    destruct (contains "units=ft" t || contains "units=us-ft" t
              || contains "to_meters:0.3048" t); reflexivity.
  - rewrite bind_lift_raise. reflexivity.
Qed.

Lemma parse_units_uncoded s p e :
  _proj4_str s = Some p -> contains "epsg" (lower p) = true ->
  epsg_of_proj4 p = Raise e ->
  value (_parse_units_from_proj4 s) = Ok None.
Proof.
  intros H Hc He. unfold _parse_units_from_proj4, try_except.
  assert (Hp : proj4_str s = (Raise e, s, [])).
  { unfold proj4_str. now rewrite bind_get, H, Hc, He. }
  rewrite (bind_raise _ _ _ _ _ _ Hp). reflexivity.
Qed.

(** X16. The reference units. The [units] getter returns a member of
    [supported_units] or raises [AssertionError], never another exception,
    and neither prints nor warns. Units given explicitly win, lower-cased;
    otherwise the unit is read from the CRS text, and every failure on that
    way is swallowed and gives meters: no CRS text, a text without a unit,
    an EPSG text whose code cannot be read, or one that [pyproj] rejects.
    A text without [epsg] is read as it stands, an EPSG text through
    [pyproj], prefixed with [+init=] unless it has an [init]. *)
Theorem units_resolution (s : SpatialReference) :
  (forall e, value (units s) = Raise e -> e = AssertionError) /\
  (forall u, value (units s) = Ok u -> In u (supported_units s)) /\
  output (units s) = [] /\
  (forall u, _units s = Some u -> In (lower u) (supported_units s) ->
     value (units s) = Ok (lower u)) /\
  (_units s = None -> supported_units s = ["feet"; "meters"] ->
   (_proj4_str s = None -> value (units s) = Ok "meters") /\
   (forall p, _proj4_str s = Some p -> contains "epsg" (lower p) = false ->
      value (units s) = Ok (or_meters (units_of_text p))) /\
   (forall p code, _proj4_str s = Some p -> contains "epsg" (lower p) = true ->
      epsg_of_proj4 p = Ok code ->
      value (units s)
      = Ok (or_meters
              (match pyproj_srs (if negb (contains "init" (lower p))
                                 then ("+init=" ++ p)%string else p) with
               | Ok t => units_of_text t
               | Raise _ => None
               end))) /\
   (forall p e, _proj4_str s = Some p -> contains "epsg" (lower p) = true ->
      epsg_of_proj4 p = Raise e -> value (units s) = Ok "meters")).
Proof.
  destruct (units_run s) as (o & e & Ho & Hrun).
  rewrite Hrun, value_triple. unfold output; cbn [snd].
  split; [|split; [|split; [reflexivity|split]]].
  - intros x. destruct (existsb _ _); [discriminate|]. now intros [= <-].
  - intros u. destruct (existsb _ _) eqn:E; [|discriminate].
    intros [= <-]. apply existsb_exists in E as (v & Hin & Hv).
    apply String.eqb_eq in Hv. now subst.
  - intros u Hu Hin. rewrite Hu. now rewrite (existsb_in _ _ Hin).
  - intros Hu Hsup. rewrite Hu, Hsup.
    assert (Hfinal : forall o', o = o' ->
               (o' = None \/ o' = Some "meters" \/ o' = Some "feet") ->
               (if existsb (String.eqb (or_meters o)) ["feet"; "meters"]
                then Ok (or_meters o) else Raise AssertionError)
               = Ok (or_meters o')).
    { intros o' -> [->|[->| ->]]; reflexivity. }
    assert (Hcases : forall t, units_of_text t = None \/
                               units_of_text t = Some "meters" \/
                               units_of_text t = Some "feet").
    { intros t. unfold units_of_text. destruct (contains "units=m" t); auto.
      destruct (_ || _); auto. }
    split; [|split; [|split]].
    + intros Hp. rewrite (parse_units_none s Hp) in Ho. injection Ho as <-.
      reflexivity.
    + intros p Hp Hc. rewrite (parse_units_plain s p Hp Hc) in Ho.
      injection Ho as Ho. apply Hfinal; [now symmetry | apply Hcases].
    + intros p code Hp Hc He. rewrite (parse_units_coded s p code Hp Hc He) in Ho.
      injection Ho as Ho. apply Hfinal; [now symmetry|].
      destruct (pyproj_srs _); [apply Hcases | auto].
    + intros p x Hp Hc He. rewrite (parse_units_uncoded s p x Hp Hc He) in Ho.
      injection Ho as <-. reflexivity.
Qed.

(** ** When the multiplier cannot be derived *)

Lemma multiplier_raises_at s e :
  value (length_multiplier s) = Raise e ->
  forall t, cfg t = cfg s ->
  exists e', length_multiplier_operand t = (Raise e, set__epsg e' t, []).
Proof.
  intros Hv t Ht.
  destruct (quiet_at length_multiplier s quiet_length_multiplier t Ht) as [e' He].
  rewrite Hv in He. exists e'. unfold length_multiplier_operand.
  now rewrite (bind_raise _ _ _ _ _ _ He).
Qed.

Ltac lm_raise H :=
  match goal with
  | |- context [bind length_multiplier_operand _ ?T] =>
      let e := fresh "e" in
      let He := fresh "He" in
      destruct (multiplier_raises_at _ _ H T eq_refl) as [e He];
      rewrite (bind_raise _ _ _ _ _ _ He); clear He
  end.

Lemma set_origin_raises s a b c d e :
  origin_loc s = "ul" \/ origin_loc s = "ll" ->
  value (length_multiplier s) = Raise e ->
  exists t, set_origin a b c d s = (Raise e, t, []) /\ cfg t = cfg s.
Proof.
  intros Hloc Hlm. destruct s. fields_in Hloc. unfold set_origin.
  destruct Hloc as [-> | ->].
  - rewrite bind_get. fields. cbn [String.eqb Ascii.eqb Bool.eqb].
    rewrite bind_ret, bind_get. fields. cbn [String.eqb Ascii.eqb Bool.eqb].
    norm. rewrite (bind_run _ _ _ _ _ (corner_xul _ _)). fields. norm.
    rewrite (bind_run _ _ _ _ _ (corner_yul _ _)). fields. norm.
    lm_raise Hlm. eexists. split; [reflexivity|fields; reflexivity].
  - rewrite bind_get. fields. cbn [String.eqb Ascii.eqb Bool.eqb].
    norm. rewrite (bind_run _ _ _ _ _ (corner_xll _ _)). fields. norm.
    rewrite (bind_run _ _ _ _ _ (corner_yll _ _)). fields. norm.
    lm_raise Hlm. eexists. split; [reflexivity|fields; reflexivity].
Qed.

Lemma transform_raises s x y e :
  value (length_multiplier s) = Raise e ->
  value (transform x y s) = Raise e.
Proof.
  intros Hlm. unfold transform. rewrite bind_get.
  destruct (String.eqb (origin_loc s) "ll") eqn:E1;
    [|destruct (String.eqb (origin_loc s) "ul") eqn:E2].
  - apply String.eqb_eq in E1.
    destruct (set_origin_raises s (xul s) (yul s) (xll s) (yll s) e
                (or_intror E1) Hlm) as (t & Ht & _).
    now rewrite (bind_raise _ _ _ _ _ _ Ht).
  - apply String.eqb_eq in E2.
    destruct (set_origin_raises s (xul s) (yul s) (xll s) (yll s) e
                (or_introl E2) Hlm) as (t & Ht & _).
    now rewrite (bind_raise _ _ _ _ _ _ Ht).
  - rewrite (bind_run _ _ _ _ _ (set_origin_other s _ _ _ _ E1 E2)).
    destruct (multiplier_raises_at s e Hlm (cleared s) eq_refl) as [e' He].
    now rewrite (bind_raise _ _ _ _ _ _ He).
Qed.

Lemma unknown_unit_code s :
  ~ In (lenuni s) [0; 1; 2; 3]%Z ->
  model_length_units s = (Raise KeyError, s, []).
Proof.
  intros H. unfold model_length_units. rewrite bind_get.
  unfold lenuni_text, lenuni_values. cbn [map find fst snd].
  cbn [In] in H.
  destruct (Z.eqb_spec 0 (lenuni s)); [tauto|].
  destruct (Z.eqb_spec 1 (lenuni s)); [tauto|].
  destruct (Z.eqb_spec 2 (lenuni s)); [tauto|].
  destruct (Z.eqb_spec 3 (lenuni s)); [tauto|].
  reflexivity.
Qed.

Lemma multiplier_key_error s :
  _length_multiplier s = None -> ~ In (lenuni s) [0; 1; 2; 3]%Z ->
  value (length_multiplier s) = Raise KeyError.
Proof.
  intros Hn Hl. unfold length_multiplier. rewrite bind_get, Hn.
  now rewrite (bind_raise _ _ _ _ _ _ (unknown_unit_code s Hl)).
Qed.

Lemma value_bind_ok {A B} (m : M A) (f : A -> M B) s a s1 l1 :
  m s = (Ok a, s1, l1) -> value (bind m f s) = value (f a s1).
Proof.
  intros H. unfold bind, value. rewrite H.
  destruct (f a s1) as [[r s2] l2]. reflexivity.
Qed.

Lemma value_bind_raise {A B} (m : M A) (f : A -> M B) s e :
  value (m s) = Raise e -> value (bind m f s) = Raise e.
Proof.
  unfold bind, value. destruct (m s) as [[r s1] l1]. cbn [fst].
  intros ->. reflexivity.
Qed.

Lemma setattr_rotation_raises s r e :
  origin_loc s = "ul" \/ origin_loc s = "ll" ->
  value (length_multiplier s) = Raise e ->
  value (__setattr__ "rotation" (PFloat r) s) = Raise e.
Proof.
  intros Ho Hlm.
  assert (Hlm' : value (length_multiplier (set_rotation r s)) = Raise e).
  { rewrite (multiplier_same s); [exact Hlm | reflexivity]. }
  destruct (set_origin_raises (set_rotation r s) (xul s) (yul s) (xll s) (yll s) e
              Ho Hlm') as (t & Ht & _).
  unfold __setattr__. cbn [String.eqb Ascii.eqb Bool.eqb]. cbn [py_float].
  apply value_bind_raise. rewrite bind_lift_ok.
  assert (Hrest : value ((v <- lift (Ok r) ;;
                          object_setattr "rotation" (PFloat v) ;;
                          s0 <- get ;;
                          set_origin (xul s0) (yul s0) (xll s0) (yll s0) ;;
                          ret true)%py s) = Raise e).
  { rewrite bind_lift_ok.
    rewrite (bind_run _ _ _ _ _ (eq_refl : object_setattr "rotation" (PFloat r) s
                                           = (Ok tt, set_rotation r s, []))).
    rewrite bind_get.
    change (xul (set_rotation r s)) with (xul s).
    change (yul (set_rotation r s)) with (yul s).
    change (xll (set_rotation r s)) with (xll s).
    change (yll (set_rotation r s)) with (yll s).
    apply value_bind_raise. now rewrite Ht. }
  destruct (Req_dec_T r 0).
  - rewrite bind_ret. exact Hrest.
  - rewrite (value_bind_ok _ _ _ _ _ _
               (eq_refl : emit (Warn rotation_warning) s = (Ok tt, s, [_]))).
    exact Hrest.
Qed.

Lemma set_spatialreference_raises s xu yu xl yl rot e :
  value (length_multiplier s) = Raise e ->
  is_some xu && is_some xl = false ->
  is_some yu && is_some yl = false ->
  value (set_spatialreference xu yu xl yl rot s) = Raise e.
Proof.
  intros Hlm Hx Hy.
  assert (Hrot : forall loc, loc = "ul" \/ loc = "ll" ->
             value (__setattr__ "rotation" (PFloat rot) (set_origin_loc loc s))
             = Raise e).
  { intros loc Hloc. apply setattr_rotation_raises; [exact Hloc|].
    rewrite (multiplier_same s); [exact Hlm | reflexivity]. }
  assert (Hstep : forall l0,
      __setattr__ "origin_loc" (PStr l0) s = (Ok tt, set_origin_loc l0 s, []))
    by reflexivity.
  assert (Hmain :
    value ((ul <- (if is_none xu && is_none yu && is_none xl && is_none yl
                   then __setattr__ "origin_loc" (PStr "ul") ;;
                        s0 <- get ;; ret (Some 0, Some (add_reduce (delc s0)))
                   else if is_some xl
                        then __setattr__ "origin_loc" (PStr "ll") ;; ret (xu, yu)
                        else __setattr__ "origin_loc" (PStr "ul") ;; ret (xu, yu)) ;;
            __setattr__ "rotation" (PFloat rot) ;;
            set_origin (fst ul) (snd ul) xl yl)%py s) = Raise e).
  { destruct (is_none xu && is_none yu && is_none xl && is_none yl);
      [|destruct (is_some xl)];
      rewrite bind_assoc, (bind_run _ _ _ _ _ (Hstep _)); norm;
      apply value_bind_raise; apply Hrot; auto. }
  unfold set_spatialreference. rewrite Hx, Hy. norm.
  destruct (Req_dec_T rot 0).
  - rewrite bind_ret. exact Hmain.
  - rewrite (value_bind_ok _ _ _ _ _ _
               (eq_refl : emit (Warn rotation_warning) s = (Ok tt, s, [_]))).
    exact Hmain.
Qed.

Lemma init_raises dr dc l xu yu xl yl rot p code u lmo s p1 e :
  init_crs p code = Ok p1 ->
  value (length_multiplier (pre_state dr dc l p1 code u lmo s)) = Raise e ->
  is_some xu && is_some xl = false ->
  is_some yu && is_some yl = false ->
  value (__init__ (PSeq dr) (PSeq dc) l xu yu xl yl rot p code u lmo s) = Raise e.
Proof.
  intros Hcrs Hlm Hx Hy.
  rewrite (init_run dr dc l xu yu xl yl rot p code u lmo s p1 Hcrs).
  destruct (degenerate dr dc xl yl).
  - rewrite value_triple. now apply set_spatialreference_raises.
  - now apply set_spatialreference_raises.
Qed.

(** X17. A length unit code without a name. For a [lenuni] that is none
    of 0, 1, 2, 3 and no explicit multiplier, the lookup of the unit name
    raises [KeyError], and with it the multiplier getter and [transform];
    the constructor raises [KeyError] too, so such a frame cannot be built.
    With an explicit multiplier the same constructor call succeeds. *)
Theorem unknown_lenuni (l : Z) :
  ~ In l [0; 1; 2; 3]%Z ->
  (forall s x y, lenuni s = l -> _length_multiplier s = None ->
     value (model_length_units s) = Raise KeyError /\
     value (length_multiplier s) = Raise KeyError /\
     value (transform x y s) = Raise KeyError) /\
  (forall s dr dc xu yu xl yl rot p code u p1,
     init_crs p code = Ok p1 ->
     is_some xu && is_some xl = false -> is_some yu && is_some yl = false ->
     value (__init__ (PSeq dr) (PSeq dc) l xu yu xl yl rot p code u None s)
     = Raise KeyError /\
     forall m,
       value (__init__ (PSeq dr) (PSeq dc) l xu yu xl yl rot p code u (Some m) s)
       = Ok tt).
Proof.
  intros Hl. split.
  - intros s x y <- Hn.
    pose proof (multiplier_key_error s Hn Hl) as Hk.
    split; [now rewrite (unknown_unit_code s Hl)|].
    split; [exact Hk | now apply transform_raises].
  - intros s dr dc xu yu xl yl rot p code u p1 Hcrs Hx Hy. split.
    + apply (init_raises dr dc l xu yu xl yl rot p code u None s p1);
        try assumption.
      apply multiplier_key_error; [reflexivity | exact Hl].
    + intros m.
      assert (Hm : value (length_multiplier (pre_state dr dc l p1 code u (Some m) s))
                   = Ok (Some m)) by (apply explicit_multiplier; reflexivity).
      destruct (degenerate dr dc xl yl) eqn:D.
      * destruct (init_fallback dr dc l xu yu xl yl rot p code u (Some m) s p1 m
                    Hcrs Hm D) as [e He].
        now rewrite He.
      * destruct (init_regular dr dc l xu yu xl yl rot p code u (Some m) s p1 m
                    Hcrs Hm D Hx Hy) as [e He].
        now rewrite He.
Qed.

(** ** Units that are not supported *)

Lemma existsb_not_in (u : string) (l : list string) :
  ~ In u l -> existsb (String.eqb u) l = false.
Proof.
  intros H. apply not_true_is_false. intros E.
  apply existsb_exists in E as (v & H1 & H2).
  apply String.eqb_eq in H2. subst. contradiction.
Qed.

Lemma units_assertion s u :
  _units s = Some u -> ~ In (lower u) (supported_units s) ->
  value (units s) = Raise AssertionError.
Proof.
  intros Hu Hin. destruct (units_run s) as (o & e & _ & Hrun).
  rewrite Hrun, value_triple, Hu. now rewrite (existsb_not_in _ _ Hin).
Qed.

Lemma units_same s t : cfg t = cfg s -> value (units t) = value (units s).
Proof.
  intros Ht. destruct (quiet_at units s quiet_units t Ht) as [e He].
  now rewrite He.
Qed.

Lemma multiplier_needs_units s e :
  _length_multiplier s = None -> In (lenuni s) [1; 2; 3]%Z ->
  value (units s) = Raise e ->
  value (length_multiplier s) = Raise e.
Proof.
  intros Hn Hl Hu. unfold length_multiplier. rewrite bind_get, Hn.
  assert (Hq : forall t, cfg t = cfg s ->
             exists e', units t = (Raise e, set__epsg e' t, [])).
  { intros t Ht. destruct (quiet_at units s quiet_units t Ht) as [e' He].
    rewrite Hu in He. eauto. }
  cbn [In] in Hl. destruct Hl as [Hl|[Hl|[Hl|[]]]].
  - pose proof (model_units_run s "feet") as Hrun.
    rewrite <- Hl in Hrun. specialize (Hrun ltac:(cbn; tauto)).
    rewrite (bind_run _ _ _ _ _ Hrun). cbn [String.eqb Ascii.eqb Bool.eqb].
    destruct (Hq s eq_refl) as [e' He].
    now rewrite (bind_raise _ _ _ _ _ _ He).
  - pose proof (model_units_run s "meters") as Hrun.
    rewrite <- Hl in Hrun. specialize (Hrun ltac:(cbn; tauto)).
    repeat (rewrite (bind_run _ _ _ _ _ Hrun); cbn [String.eqb Ascii.eqb Bool.eqb]).
    destruct (Hq s eq_refl) as [e' He].
    now rewrite (bind_raise _ _ _ _ _ _ He).
  - pose proof (model_units_run s "centimeters") as Hrun.
    rewrite <- Hl in Hrun. specialize (Hrun ltac:(cbn; tauto)).
    repeat (rewrite (bind_run _ _ _ _ _ Hrun); cbn [String.eqb Ascii.eqb Bool.eqb]).
    destruct (Hq s eq_refl) as [e' He].
    now rewrite (bind_raise _ _ _ _ _ _ He).
Qed.

Lemma multiplier_undefined s :
  _length_multiplier s = None -> lenuni s = 0%Z ->
  value (length_multiplier s) = Ok (Some 1).
Proof.
  intros Hn Hl.
  apply (derived_multiplier s "undefined" "meters" Hn).
  - rewrite Hl. cbn. tauto.
  - cbn. tauto.
  - intros H. now contradiction H.
Qed.

Lemma init_final_cfg dr dc l xu yu xl yl rot p code u lmo s p1 lm :
  init_crs p code = Ok p1 ->
  value (length_multiplier (pre_state dr dc l p1 code u lmo s)) = Ok (Some lm) ->
  is_some xu && is_some xl = false -> is_some yu && is_some yl = false ->
  value (__init__ (PSeq dr) (PSeq dc) l xu yu xl yl rot p code u lmo s) = Ok tt /\
  cfg (final (__init__ (PSeq dr) (PSeq dc) l xu yu xl yl rot p code u lmo s))
  = (l, p1, ["feet"; "meters"], u, lmo).
Proof.
  intros Hcrs Hm Hx Hy. destruct (degenerate dr dc xl yl) eqn:D.
  - destruct (init_fallback dr dc l xu yu xl yl rot p code u lmo s p1 lm
                Hcrs Hm D) as [e He].
    rewrite He, value_triple, final_triple. split; [reflexivity|].
    rewrite cfg_epsg.
    match goal with
    | |- cfg (anchored ?a ?b ?c ?d ?m ?t) = _ =>
        destruct (anchored_keeps t a b c d m) as (-> & _)
    end.
    reflexivity.
  - destruct (init_regular dr dc l xu yu xl yl rot p code u lmo s p1 lm
                Hcrs Hm D Hx Hy) as [e He].
    rewrite He, value_triple, final_triple. split; [reflexivity|].
    rewrite cfg_epsg.
    match goal with
    | |- cfg (anchored ?a ?b ?c ?d ?m ?t) = _ =>
        destruct (anchored_keeps t a b c d m) as (-> & _)
    end.
    reflexivity.
Qed.

(** X18. The constructor does not check the units. Given a unit text [u]
    that is neither feet nor meters in any case, the constructor stores it
    as it is and succeeds whenever it has no need of the units: with
    [lenuni] 0, or with an explicit multiplier. With [lenuni] 1, 2 or 3 and
    no multiplier it raises [AssertionError]. On a frame built with such
    units, reading [units] raises [AssertionError], as does assigning them
    through [__setattr__], which leaves the frame as it was. *)
Theorem units_unchecked (u : string) :
  ~ In (lower u) ["feet"; "meters"] ->
  forall s dr dc xu yu xl yl rot p code p1,
    init_crs p code = Ok p1 ->
    is_some xu && is_some xl = false -> is_some yu && is_some yl = false ->
    (value (__init__ (PSeq dr) (PSeq dc) 0 xu yu xl yl rot p code (Some u) None s)
       = Ok tt /\
     _units (final (__init__ (PSeq dr) (PSeq dc) 0 xu yu xl yl rot p code
                      (Some u) None s)) = Some u /\
     value (units (final (__init__ (PSeq dr) (PSeq dc) 0 xu yu xl yl rot p code
                            (Some u) None s))) = Raise AssertionError /\
     __setattr__ "units" (PStr u)
       (final (__init__ (PSeq dr) (PSeq dc) 0 xu yu xl yl rot p code
                 (Some u) None s))
     = (Raise AssertionError,
        final (__init__ (PSeq dr) (PSeq dc) 0 xu yu xl yl rot p code
                 (Some u) None s), [])) /\
    (forall l, In l [1; 2; 3]%Z ->
       value (__init__ (PSeq dr) (PSeq dc) l xu yu xl yl rot p code (Some u) None s)
       = Raise AssertionError) /\
    (forall l m,
       value (__init__ (PSeq dr) (PSeq dc) l xu yu xl yl rot p code (Some u)
                (Some m) s) = Ok tt).
Proof.
  intros Hu s dr dc xu yu xl yl rot p code p1 Hcrs Hx Hy.
  split; [|split].
  - assert (Hm : value (length_multiplier (pre_state dr dc 0 p1 code (Some u) None s))
                 = Ok (Some 1)) by (apply multiplier_undefined; reflexivity).
    destruct (init_final_cfg dr dc 0%Z xu yu xl yl rot p code (Some u) None s p1 1
                Hcrs Hm Hx Hy) as [Hv Hc].
    set (t := final (__init__ (PSeq dr) (PSeq dc) 0 xu yu xl yl rot p code
                       (Some u) None s)) in *.
    assert (Hf : _units t = Some u /\ supported_units t = ["feet"; "meters"]).
    { unfold cfg in Hc. injection Hc as _ _ H3 H4 _. auto. }
    destruct Hf as [Hut Hst].
    split; [exact Hv|]. split; [exact Hut|]. split.
    + apply (units_assertion t u Hut). now rewrite Hst.
    + apply setattr_units_unsupported. now rewrite Hst.
  - intros l Hl.
    apply (init_raises dr dc l xu yu xl yl rot p code (Some u) None s p1);
      try assumption.
    apply multiplier_needs_units; [reflexivity | exact Hl|].
    apply (units_assertion _ u); [reflexivity | exact Hu].
  - intros l m.
    assert (Hm : value (length_multiplier
                          (pre_state dr dc l p1 code (Some u) (Some m) s))
                 = Ok (Some m)) by (apply explicit_multiplier; reflexivity).
    exact (proj1 (init_final_cfg dr dc l xu yu xl yl rot p code (Some u) (Some m)
                    s p1 m Hcrs Hm Hx Hy)).
Qed.

(** ** Assigning the coordinate reference system *)

Lemma setattr_crs_text p s :
  __setattr__ "proj4_str" (PStr p) s
  = (Ok tt,
     cleared (set__epsg None (set__units None (set__proj4_str (Some p) s))), []).
Proof. reflexivity. Qed.

Lemma setattr_crs_code c s :
  __setattr__ "epsg" (PInt c) s
  = match getproj4 (Some c) with
    | Ok p => (Ok tt,
               cleared (set__proj4_str p (set__units None (set__epsg (Some c) s))),
               [])
    | Raise e => (Raise e, set__units None (set__epsg (Some c) s), [])
    end.
Proof.
  unfold __setattr__. cbn [String.eqb Ascii.eqb Bool.eqb].
  rewrite !bind_assoc.
  rewrite (bind_run _ _ _ _ _ (eq_refl : object_setattr "_epsg" (PInt c) s
                                         = (Ok tt, set__epsg (Some c) s, []))).
  rewrite !bind_assoc.
  rewrite (bind_run _ _ _ _ _
             (eq_refl : object_setattr "_units" PNone (set__epsg (Some c) s)
                        = (Ok tt, set__units None (set__epsg (Some c) s), []))).
  rewrite !bind_assoc, bind_get.
  change (_epsg (set__units None (set__epsg (Some c) s))) with (Some c).
  rewrite !bind_assoc.
  destruct (getproj4 (Some c)) as [p|e].
  - rewrite bind_lift_ok. destruct p as [p|]; reflexivity.
  - rewrite bind_lift_raise. reflexivity.
Qed.

(** X19. Assigning the CRS. Assigning [proj4_str] stores the text, clears
    the explicit units and the EPSG code, and empties the caches; reading
    [proj4_str] then returns the text as given when it does not mention
    epsg, and otherwise the text with [+init=] in front unless it has an
    [init], after caching the code read from it. Assigning [epsg] stores the
    code, clears the explicit units, replaces the CRS text by the one of the
    registry and empties the caches; when the registry fails the exception
    goes through after the code and the units were overwritten, with the
    CRS text and the caches left as they were. *)
Theorem crs_assignment (s : SpatialReference) :
  (forall p,
     __setattr__ "proj4_str" (PStr p) s
     = (Ok tt,
        cleared (set__epsg None (set__units None (set__proj4_str (Some p) s))), []) /\
     (contains "epsg" (lower p) = false ->
      proj4_str (final (__setattr__ "proj4_str" (PStr p) s))
      = (Ok (Some p), final (__setattr__ "proj4_str" (PStr p) s), [])) /\
     (forall code, contains "epsg" (lower p) = true -> epsg_of_proj4 p = Ok code ->
      proj4_str (final (__setattr__ "proj4_str" (PStr p) s))
      = (Ok (Some (if negb (contains "init" (lower p))
                   then ("+init=" ++ p)%string else p)),
         set__epsg (Some code) (final (__setattr__ "proj4_str" (PStr p) s)), []))) /\
  (forall c p, getproj4 (Some c) = Ok p ->
     __setattr__ "epsg" (PInt c) s
     = (Ok tt,
        cleared (set__proj4_str p (set__units None (set__epsg (Some c) s))), []) /\
     value (epsg (final (__setattr__ "epsg" (PInt c) s))) = Ok (Some c) /\
     _proj4_str (final (__setattr__ "epsg" (PInt c) s)) = p) /\
  (forall c e, getproj4 (Some c) = Raise e ->
     __setattr__ "epsg" (PInt c) s
     = (Raise e, set__units None (set__epsg (Some c) s), []) /\
     _proj4_str (final (__setattr__ "epsg" (PInt c) s)) = _proj4_str s /\
     caches (final (__setattr__ "epsg" (PInt c) s)) = caches s).
Proof.
  split; [|split].
  - intros p. rewrite setattr_crs_text, final_triple.
    split; [reflexivity|]. split.
    + intros Hc. apply proj4_plain; [reflexivity | exact Hc].
    + intros code Hc He. apply proj4_coded; [reflexivity | exact Hc | exact He].
  - intros c p Hp. rewrite setattr_crs_code, Hp, final_triple.
    split; [reflexivity|]. split; reflexivity.
  - intros c e He. rewrite setattr_crs_code, He, final_triple.
    split; [reflexivity|]. split; reflexivity.
Qed.

(** ** Comparing two frames *)

Lemma opt_float_ne_false a b : opt_float_ne a b = false <-> a = b.
Proof.
  destruct a as [x|], b as [y|]; cbn [opt_float_ne]; split; intros H;
    try discriminate; try reflexivity.
  - apply negb_false_iff, Reqb_true in H. now subst.
  - injection H as ->. apply negb_false_iff, Reqb_true. reflexivity.
Qed.

Lemma opt_str_ne_false a b : opt_str_ne a b = false <-> a = b.
Proof.
  destruct a as [x|], b as [y|]; cbn [opt_str_ne]; split; intros H;
    try discriminate; try reflexivity.
  - apply negb_false_iff, String.eqb_eq in H. now subst.
  - injection H as ->. apply negb_false_iff, String.eqb_refl.
Qed.

Lemma proj4_as_is s :
  (forall p, _proj4_str s = Some p -> contains "epsg" (lower p) = false) ->
  proj4_str s = (Ok (_proj4_str s), s, []).
Proof.
  intros H. destruct (_proj4_str s) as [p|] eqn:E.
  - apply proj4_plain; [exact E | now apply H].
  - now apply proj4_none.
Qed.

Lemma eq_plain a b :
  (forall p, _proj4_str a = Some p -> contains "epsg" (lower p) = false) ->
  (forall p, _proj4_str b = Some p -> contains "epsg" (lower p) = false) ->
  verdict (__eq__ (Some b) a)
  = Ok (negb (opt_float_ne (xul b) (xul a)) && negb (opt_float_ne (yul b) (yul a))
        && Reqb (rotation b) (rotation a)
        && negb (opt_str_ne (_proj4_str b) (_proj4_str a))).
Proof.
  intros Ha Hb. unfold __eq__, verdict.
  rewrite (proj4_as_is a Ha), (proj4_as_is b Hb).
  destruct (opt_float_ne (xul b) (xul a)); [reflexivity|].
  destruct (opt_float_ne (yul b) (yul a)); [reflexivity|].
  destruct (Reqb (rotation b) (rotation a)); [|reflexivity].
  destruct (opt_str_ne (_proj4_str b) (_proj4_str a)); reflexivity.
Qed.

Lemma eq_plain_true a b :
  (forall p, _proj4_str a = Some p -> contains "epsg" (lower p) = false) ->
  (forall p, _proj4_str b = Some p -> contains "epsg" (lower p) = false) ->
  (verdict (__eq__ (Some b) a) = Ok true <->
   xul b = xul a /\ yul b = yul a /\ rotation b = rotation a /\
   _proj4_str b = _proj4_str a).
Proof.
  intros Ha Hb. rewrite (eq_plain a b Ha Hb). split.
  - intros H. injection H as H.
    apply andb_prop in H as [H H4]. apply andb_prop in H as [H H3].
    apply andb_prop in H as [H1 H2].
    apply negb_true_iff, opt_float_ne_false in H1.
    apply negb_true_iff, opt_float_ne_false in H2.
    apply Reqb_true in H3. apply negb_true_iff, opt_str_ne_false in H4.
    auto.
  - intros (H1 & H2 & H3 & H4). f_equal.
    apply opt_float_ne_false in H1. apply opt_float_ne_false in H2.
    apply Reqb_true in H3. apply opt_str_ne_false in H4.
    now rewrite H1, H2, H3, H4.
Qed.

Lemma attribute_dict_plain s :
  (forall p, _proj4_str s = Some p -> contains "epsg" (lower p) = false) ->
  value (attribute_dict s)
  = Ok [("xul", of_opt_float (xul s)); ("yul", of_opt_float (yul s));
        ("rotation", PFloat (rotation s)); ("proj4_str", of_opt_str (_proj4_str s))].
Proof.
  intros H. unfold attribute_dict.
  rewrite bind_get, (bind_run _ _ _ _ _ (proj4_as_is s H)). reflexivity.
Qed.

Lemma of_opt_float_inj a b : of_opt_float a = of_opt_float b -> a = b.
Proof. destruct a, b; cbn; intros H; try discriminate; congruence. Qed.

Lemma of_opt_str_inj a b : of_opt_str a = of_opt_str b -> a = b.
Proof. destruct a, b; cbn; intros H; try discriminate; congruence. Qed.

(** X20. Equality of frames. [==] against an object that is no
    [SpatialReference] is false. For two frames whose CRS texts do not
    mention epsg, [==] returns true exactly when [xul], [yul], [rotation]
    and the CRS text agree, that is, when the two [attribute_dict]s are
    equal; it is symmetric; and it looks at nothing else: a frame compares
    equal to one with other spacings, length unit code, units and
    multiplier. *)
Theorem frames_equal (a b : SpatialReference) :
  verdict (__eq__ None a) = Ok false /\
  ((forall p, _proj4_str a = Some p -> contains "epsg" (lower p) = false) ->
   (forall p, _proj4_str b = Some p -> contains "epsg" (lower p) = false) ->
   (verdict (__eq__ (Some b) a) = Ok true <->
    xul b = xul a /\ yul b = yul a /\ rotation b = rotation a /\
    _proj4_str b = _proj4_str a) /\
   (verdict (__eq__ (Some b) a) = Ok true <->
    value (attribute_dict b) = value (attribute_dict a)) /\
   verdict (__eq__ (Some b) a) = verdict (__eq__ (Some a) b) /\
   forall dr dc l u m,
     verdict (__eq__ (Some (set__length_multiplier m
                              (set__units u (set_lenuni l
                                 (set_delc dc (set_delr dr a)))))) a)
     = Ok true).
Proof.
  split; [reflexivity|]. intros Ha Hb.
  split; [exact (eq_plain_true a b Ha Hb)|]. split; [|split].
  - rewrite (eq_plain_true a b Ha Hb).
    rewrite (attribute_dict_plain a Ha), (attribute_dict_plain b Hb). split.
    + intros (-> & -> & -> & ->). reflexivity.
    + intros H. injection H as H1 H2 H3 H4.
      apply of_opt_float_inj in H1, H2. apply of_opt_str_inj in H4. auto.
  - rewrite (eq_plain a b Ha Hb), (eq_plain b a Hb Ha). f_equal.
    assert (S1 : forall x y, opt_float_ne x y = opt_float_ne y x).
    { intros [x|] [y|]; cbn; try reflexivity. unfold Reqb.
      destruct (Req_dec_T x y), (Req_dec_T y x); try reflexivity; subst; tauto. }
    assert (S2 : forall x y, opt_str_ne x y = opt_str_ne y x).
    { intros [x|] [y|]; cbn; try reflexivity. now rewrite String.eqb_sym. }
    assert (S3 : forall x y, Reqb x y = Reqb y x).
    { intros x y. unfold Reqb.
      destruct (Req_dec_T x y), (Req_dec_T y x); try reflexivity; subst; tauto. }
    now rewrite (S1 (xul b)), (S1 (yul b)), (S3 (rotation b)), (S2 (_proj4_str b)).
  - intros dr dc l u m.
    apply eq_plain_true; [exact Ha | exact Ha |]. repeat split.
Qed.

(** ** Which assignments empty the caches *)

Lemma asks_ret : asks_reset (ret true).
Proof. intros s r s' l H. now injection H as <- _ _. Qed.

Lemma asks_bind {A} (m : M A) (f : A -> M bool) :
  (forall a, asks_reset (f a)) -> asks_reset (bind m f).
Proof.
  intros Hf s r s' l. unfold bind.
  destruct (m s) as [[[a|e] s1] l1]; [|discriminate].
  destruct (f a s1) as [[r2 s2] l2] eqn:E. intros H. injection H as -> _ _.
  exact (Hf a s1 r s2 l2 E).
Qed.

Lemma asks_if {A} (b : bool) (m1 m2 : M A) (f : A -> M bool) :
  (forall a, asks_reset (f a)) -> asks_reset (bind (if b then m1 else m2) f).
Proof. intros H. now apply asks_bind. Qed.

Lemma reset_after (m : M bool) s :
  asks_reset m ->
  value (bind m (fun r => if r : bool then _reset else ret tt) s) = Ok tt ->
  stale (final (bind m (fun r => if r : bool then _reset else ret tt) s)).
Proof.
  intros Hm. unfold bind, value, final.
  destruct (m s) as [[[r|e] s1] l1] eqn:E; cbn [fst snd]; [|discriminate].
  rewrite (Hm s r s1 l1 E). rewrite reset_run. cbn [fst snd]. intros _.
  apply stale_cleared.
Qed.

Lemma setattr_resets key v s :
  In key reset_keys ->
  value (__setattr__ key v s) = Ok tt -> stale (final (__setattr__ key v s)).
Proof.
  intros Hk. unfold reset_keys in Hk. cbn [In] in Hk.
  repeat (destruct Hk as [<-|Hk];
          [unfold __setattr__; cbn [String.eqb Ascii.eqb Bool.eqb];
           apply reset_after;
           repeat first [apply asks_ret | apply asks_bind; intros ?] |]).
  contradiction.
Qed.

Lemma reset_stale kwargs s :
  kwargs <> [] -> Forall (fun kv => In (fst kv) reset_keys) kwargs ->
  value (reset kwargs s) = Ok tt -> stale (final (reset kwargs s)).
Proof.
  revert s. induction kwargs as [|[key v] t IH]; intros s Hne Hall Hv;
    [contradiction|].
  inversion Hall as [|kv t' Hk Ht]; subst. cbn [fst] in Hk.
  cbn [reset] in *.
  destruct (__setattr__ key v s) as [[[[]|e] s1] l1] eqn:E.
  - rewrite (final_bind_ok _ _ _ _ (f_equal value E : value (__setattr__ key v s) = Ok tt)).
    rewrite E, final_triple.
    rewrite (value_bind_ok _ _ _ _ _ _ E) in Hv.
    destruct t as [|kv t].
    + cbn [reset]. pose proof (setattr_resets key v s Hk) as Hs.
      rewrite E, value_triple, final_triple in Hs. exact (Hs eq_refl).
    + apply IH; [discriminate | exact Ht | exact Hv].
  - rewrite (value_bind_raise _ _ _ _ (f_equal value E)) in Hv. discriminate.
Qed.

Lemma other_key_keeps key v s :
  ~ In key reset_keys -> ~ In key cache_names ->
  caches (final (__setattr__ key v s)) = caches s.
Proof.
  intros Hk Hc. unfold reset_keys, cache_names in *. cbn [In] in Hk, Hc.
  unfold __setattr__.
  repeat match goal with
         | |- context [String.eqb key ?k] =>
             destruct (String.eqb_spec key k);
             [exfalso; subst; apply Hk; auto 20|]; cbv iota
         end.
  rewrite !bind_assoc. unfold object_setattr.
  unfold bind at 1.
  destruct (existsb (String.eqb key) properties); [reflexivity|].
  assert (Hstore : forall s', store key v s = Ok s' -> caches s' = caches s).
  { unfold store.
    repeat match goal with
           | |- context [String.eqb key ?k] =>
               destruct (String.eqb_spec key k); [|cbv iota]
           end;
      try (exfalso; subst; apply Hc; auto 20; fail);
      intros s' H; destruct v;
      cbn in H; try discriminate H; injection H as <-; reflexivity. }
  destruct (store key v s) as [s'|e] eqn:E.
  - rewrite bind_ret. cbn. exact (Hstore s' eq_refl).
  - reflexivity.
Qed.

(** X21. Which assignments empty the caches. An assignment to one of
    [delr], [delc], [xul], [yul], [xll], [yll], [length_multiplier],
    [rotation], [lenuni], [units], [proj4_str], [epsg] that returns leaves
    the five caches at [None]; so does [reset] with keyword arguments from
    that list, which assigns them one after the other, when it returns.
    An assignment to any other name, the caches' own names apart, leaves the
    caches as they were, and [reset] without arguments changes nothing. *)
Theorem assignments_and_caches (s : SpatialReference) :
  (forall key v, In key reset_keys ->
     value (__setattr__ key v s) = Ok tt -> stale (final (__setattr__ key v s))) /\
  (forall kwargs, kwargs <> [] ->
     Forall (fun kv => In (fst kv) reset_keys) kwargs ->
     value (reset kwargs s) = Ok tt -> stale (final (reset kwargs s))) /\
  (forall key v, reset [(key, v)] s
                 = (value (__setattr__ key v s), final (__setattr__ key v s),
                    output (__setattr__ key v s))) /\
  (forall key v, ~ In key reset_keys -> ~ In key cache_names ->
     caches (final (__setattr__ key v s)) = caches s) /\
  reset [] s = (Ok tt, s, []).
Proof.
  split; [intros key v; apply setattr_resets|].
  split; [intros kwargs; apply reset_stale|].
  split; [|split; [intros key v; apply other_key_keeps | reflexivity]].
  intros key v. cbn [reset]. unfold bind, value, final, output.
  destruct (__setattr__ key v s) as [[[[]|e] s1] l1]; cbn [fst snd ret];
    [now rewrite app_nil_r | reflexivity].
Qed.

(** ** The constructor: what it refuses, and its default anchor *)

(** X22. Spacings must be sequences. Given a number (a float, an int or a
    bool) for [delr] or for [delc], the constructor raises [TypeError]
    before it writes any attribute and before it prints anything, whatever
    the other arguments are. *)
Theorem spacing_must_be_sequence (delr' delc' : pyval) (l : Z)
    (xu yu xl yl : option R) (rot : R) (p : option string) (code : option Z)
    (u : option string) (lmo : option R) (s : SpatialReference) :
  is_number delr' = true \/ is_number delc' = true ->
  __init__ delr' delc' l xu yu xl yl rot p code u lmo s
  = (Raise (TypeError spacing_msg), s, []).
Proof.
  intros H. unfold __init__.
  destruct (is_number delr') eqn:E1; [reflexivity|].
  destruct H as [H|H]; [discriminate|]. rewrite H. reflexivity.
Qed.

(** X23. The default anchor. Built without any corner from spacings whose
    sums are not zero, the frame is anchored at its upper-left corner at
    [(0, sum(delc))], in model units, not scaled by the multiplier; the
    lower-left corner follows from it by the rotation and the multiplier,
    so with rotation 0 it is [(0, sum(delc) * (1 - lm))], the origin only
    for a multiplier of 1. *)
Theorem default_anchor (dr dc : list R) (l : Z) (rot : R) (p : option string)
    (code : option Z) (u : option string) (lmo : option R)
    (s : SpatialReference) (p1 : option string) (lm : R) :
  init_crs p code = Ok p1 ->
  value (length_multiplier (pre_state dr dc l p1 code u lmo s)) = Ok (Some lm) ->
  add_reduce dr <> 0 -> add_reduce dc <> 0 ->
  value (__init__ (PSeq dr) (PSeq dc) l None None None None rot p code u lmo s)
    = Ok tt /\
  origin_loc (final (__init__ (PSeq dr) (PSeq dc) l None None None None rot p
                       code u lmo s)) = "ul" /\
  xul (final (__init__ (PSeq dr) (PSeq dc) l None None None None rot p code u
                lmo s)) = Some 0 /\
  yul (final (__init__ (PSeq dr) (PSeq dc) l None None None None rot p code u
                lmo s)) = Some (add_reduce dc) /\
  xll (final (__init__ (PSeq dr) (PSeq dc) l None None None None rot p code u
                lmo s))
    = Some (0 - sin (- rot * PI / 180) * add_reduce dc * lm) /\
  yll (final (__init__ (PSeq dr) (PSeq dc) l None None None None rot p code u
                lmo s))
    = Some (add_reduce dc - cos (- rot * PI / 180) * add_reduce dc * lm) /\
  (rot = 0 ->
   0 - sin (- rot * PI / 180) * add_reduce dc * lm = 0 /\
   add_reduce dc - cos (- rot * PI / 180) * add_reduce dc * lm
   = add_reduce dc * (1 - lm)).
Proof.
  intros Hcrs Hlm Hr Hc.
  assert (D : degenerate dr dc None None = false).
  { apply not_true_is_false. intros D. apply degenerate_iff in D as [[D|D] _];
      contradiction. }
  destruct (init_regular dr dc l None None None None rot p code u lmo s p1 lm
              Hcrs Hlm D eq_refl eq_refl) as [e He].
  rewrite He, value_triple, final_triple.
  set (t := set_rotation rot
              (set_origin_loc (resolved_origin None None None None)
                 (pre_state dr dc l p1 code u lmo s))).
  destruct (anchored_ul_corner t
              (fst (resolved_ul (pre_state dr dc l p1 code u lmo s)
                      None None None None))
              (snd (resolved_ul (pre_state dr dc l p1 code u lmo s)
                      None None None None)) None None lm eq_refl)
    as (H1 & H2 & H3 & H4).
  destruct (anchored_keeps t
              (fst (resolved_ul (pre_state dr dc l p1 code u lmo s)
                      None None None None))
              (snd (resolved_ul (pre_state dr dc l p1 code u lmo s)
                      None None None None)) None None lm)
    as (_ & _ & H5 & _).
  destruct (epsg_keeps e
              (anchored
                 (fst (resolved_ul (pre_state dr dc l p1 code u lmo s)
                         None None None None))
                 (snd (resolved_ul (pre_state dr dc l p1 code u lmo s)
                         None None None None)) None None lm t))
    as (K1 & K2 & K3 & K4 & K5).
  split; [reflexivity|].
  split; [rewrite K5, H5; reflexivity|].
  split; [rewrite K1, H1; reflexivity|].
  split; [rewrite K2, H2; reflexivity|].
  split; [rewrite K3, H3; reflexivity|].
  split; [rewrite K4, H4; reflexivity|].
  intros ->. replace (- 0 * PI / 180) with 0 by lra. rewrite sin_0, cos_0.
  split; ring.
Qed.

(** ** The header of a name file *)

Lemma dict_set_keys_in k v d :
  In k (keys d) -> keys (dict_set k v d) = keys d.
Proof.
  induction d as [|[k' v'] t IH]; intros H; [contradiction|].
  cbn [dict_set]. destruct (String.eqb_spec k' k) as [->|Hne]; [reflexivity|].
  cbn [keys map fst] in *. destruct H as [H|H]; [contradiction|].
  f_equal. apply IH, H.
Qed.

Lemma dict_set_keys_new k v d :
  ~ In k (keys d) -> keys (dict_set k v d) = keys d ++ [k].
Proof.
  induction d as [|[k' v'] t IH]; intros H; [reflexivity|].
  cbn [dict_set]. cbn [keys map fst In] in H.
  destruct (String.eqb_spec k' k) as [->|Hne]; [exfalso; apply H; now left|].
  cbn [keys map fst app]. f_equal. apply IH. intros Hin. apply H. now right.
Qed.

Lemma dict_set_forallb (P : string * pyval -> bool) k v d :
  forallb P d = true -> P (k, v) = true -> forallb P (dict_set k v d) = true.
Proof.
  intros Hd Hv. induction d as [|[k' v'] t IH]; [cbn; now rewrite Hv|].
  cbn [forallb] in Hd. apply andb_prop in Hd as [H1 H2].
  cbn [dict_set]. destruct (String.eqb k' k); cbn [forallb].
  - now rewrite Hv, H2.
  - now rewrite H1, IH.
Qed.

Lemma header_dict_set k v d :
  header_dict d -> In k (keys defaults) -> header_entry (k, v) = true ->
  header_dict (dict_set k v d).
Proof.
  intros [Ht Hk] Hin Hv. split; [now apply dict_set_forallb|].
  rewrite dict_set_keys_in; [exact Hk|].
  destruct Hk as [-> | ->]; [exact Hin | apply in_or_app; now left].
Qed.

Lemma header_dict_start v d :
  header_dict d -> header_dict (dict_set "start_datetime" (PStr v) d).
Proof.
  intros [Ht Hk]. split; [now apply dict_set_forallb|].
  destruct Hk as [Hk|Hk].
  - right. rewrite dict_set_keys_new; [now rewrite Hk|].
    rewrite Hk. cbn. intros H.
    repeat (destruct H as [H|H]; [discriminate H|]). contradiction.
  - right. rewrite dict_set_keys_in; [exact Hk|].
    rewrite Hk. apply in_or_app. right. now left.
Qed.

Lemma header_dict_defaults : header_dict defaults.
Proof. split; [reflexivity | now left]. Qed.

Lemma item_step_keeps d item d' l :
  header_dict d -> item_step d item = (Ok d', l) -> header_dict d'.
Proof.
  intros Hd. unfold item_step.
  repeat match goal with
         | |- context [if contains ?n ?h then _ else _] =>
             destruct (contains n h)
         end;
    repeat match goal with
           | |- context [after_colon item] =>
               destruct (after_colon item); cbn [rbind]
           | |- context [float_of host ?t] => destruct (float_of host t); cbn [rbind]
           | |- context [int_of host ?t] => destruct (int_of host t); cbn [rbind]
           end;
    intros H; try discriminate H; injection H as <- _;
    try exact Hd;
    first [ apply header_dict_start; exact Hd
          | apply header_dict_set; [exact Hd | cbn; auto 12 | reflexivity] ].
Qed.

Lemma items_loop_keeps items : forall d d' l,
  header_dict d -> items_loop d items = (Ok d', l) -> header_dict d'.
Proof.
  induction items as [|item rest IH]; intros d d' l Hd H.
  - injection H as <- _. exact Hd.
  - cbn [items_loop] in H.
    destruct (item_step d item) as [[d1|e] l1] eqn:E; [|discriminate].
    destruct (items_loop d1 rest) as [r l2] eqn:E2.
    injection H as -> _. eapply IH; [|exact E2].
    eapply item_step_keeps; [exact Hd | exact E].
Qed.

Lemma header_items_block hdr l rest :
  Forall (fun line => startswith "#" line = true) hdr ->
  startswith "#" l = false ->
  header_items (hdr ++ l :: rest) = header_items hdr.
Proof.
  intros Hh Hl. induction Hh as [|line hdr Hline Hh IH].
  - cbn [app header_items]. now rewrite Hl.
  - cbn [app header_items]. rewrite Hline. cbn [negb]. now rewrite IH.
Qed.

(** X24. The header of a name file. Without a name file the reader returns
    [None]; a file that cannot be opened raises. Only the leading lines that
    start with [#] are read: what follows the first other line is ignored,
    and a file that does not start with [#] gives the defaults, unchanged
    and without a warning. Whatever the header says, the dictionary returned
    has the seven keys of [defaults] in their order, followed by
    [start_datetime] if the header gave one, each with a value of the type
    the constructor expects. *)
Theorem header_of_name_file (path : string) (lines : list string) :
  open_file host path = Ok lines ->
  attribs_from_namfile_header None = (Ok None, []) /\
  (forall p e, open_file host p = Raise e ->
     attribs_from_namfile_header (Some p) = (Raise e, [])) /\
  (lines = [] \/ (exists l rest, lines = l :: rest /\ startswith "#" l = false) ->
   attribs_from_namfile_header (Some path) = (Ok (Some defaults), [])) /\
  (forall hdr l rest p,
     lines = hdr ++ l :: rest ->
     Forall (fun line => startswith "#" line = true) hdr ->
     startswith "#" l = false ->
     open_file host p = Ok hdr ->
     attribs_from_namfile_header (Some path)
     = attribs_from_namfile_header (Some p)) /\
  (forall d l,
     attribs_from_namfile_header (Some path) = (Ok (Some d), l) ->
     header_dict d).
Proof.
  intros Hopen. split; [reflexivity|]. split; [|split; [|split]].
  - intros p e He. unfold attribs_from_namfile_header. now rewrite He.
  - intros H. unfold attribs_from_namfile_header. rewrite Hopen.
    destruct H as [->|(l & rest & -> & Hl)]; [reflexivity|].
    cbn [header_items]. now rewrite Hl.
  - intros hdr l rest p -> Hh Hl Hp. unfold attribs_from_namfile_header.
    now rewrite Hopen, Hp, (header_items_block hdr l rest Hh Hl).
  - intros d l H. unfold attribs_from_namfile_header in H. rewrite Hopen in H.
    destruct (items_loop defaults (header_items lines)) as [[d1|e] l1] eqn:E;
      cbn in H; [|discriminate].
    injection H as <- _.
    exact (items_loop_keeps _ _ _ _ header_dict_defaults E).
Qed.

(** ** A frame from the header of a name file *)

Lemma multiplier_total s :
  supported_units s = ["feet"; "meters"] ->
  (exists lm, value (length_multiplier s) = Ok (Some lm)) \/
  (exists e, value (length_multiplier s) = Raise e).
Proof.
  intros Hsup. destruct (_length_multiplier s) as [m|] eqn:Hm.
  { left. exists m. now apply explicit_multiplier. }
  destruct (in_dec Z.eq_dec (lenuni s) [0; 1; 2; 3]%Z) as [Hin|Hout].
  2:{ right. exists KeyError. now apply multiplier_key_error. }
  cbn [In] in Hin. destruct Hin as [H0|Hin].
  { left. exists 1. apply multiplier_undefined; [exact Hm | now symmetry]. }
  destruct (value (units s)) as [u|e] eqn:Hu.
  - left. pose proof (units_supported s u Hu) as Hin'. rewrite Hsup in Hin'.
    destruct Hin as [H|[H|[H|[]]]].
    + exists (conversion "feet" u).
      apply (derived_multiplier s "feet" u Hm);
        [rewrite <- H; cbn; auto 12 | exact Hin' | auto].
    + exists (conversion "meters" u).
      apply (derived_multiplier s "meters" u Hm);
        [rewrite <- H; cbn; auto 12 | exact Hin' | auto].
    + exists (conversion "centimeters" u).
      apply (derived_multiplier s "centimeters" u Hm);
        [rewrite <- H; cbn; auto 12 | exact Hin' | auto].
  - right. exists e.
    apply multiplier_needs_units; [exact Hm | cbn; auto 12 | exact Hu].
Qed.

Lemma opt_float_of o : opt_float (of_opt_float o) = Ok o.
Proof. destruct o; reflexivity. Qed.

Lemma opt_str_of o : opt_str (of_opt_str o) = Ok o.
Proof. destruct o; reflexivity. Qed.

Lemma header_dict_shape d :
  header_dict d ->
  exists xu yu rot p u z lm,
    dict_del "start_datetime" d
    = [("xul", of_opt_float xu); ("yul", of_opt_float yu); ("rotation", PFloat rot);
       ("proj4_str", of_opt_str p); ("units", of_opt_str u); ("lenuni", PInt z);
       ("length_multiplier", of_opt_float lm)] /\
    dict_get "xul" d = Some (of_opt_float xu) /\
    dict_get "yul" d = Some (of_opt_float yu) /\
    dict_get "rotation" d = Some (PFloat rot).
Proof.
  intros [Ht Hk]. unfold keys, defaults in Hk. cbn [map fst app] in Hk.
  assert (Hf : forall v,
            (match v with PNone | PFloat _ => true | _ => false end) = true ->
                         exists o, v = of_opt_float o).
  { intros [] H; try discriminate H; [exists None | exists (Some r)]; reflexivity. }
  assert (Hs : forall v,
            (match v with PNone | PStr _ => true | _ => false end) = true ->
                         exists o, v = of_opt_str o).
  { intros [] H; try discriminate H; [exists None | exists (Some s)]; reflexivity. }
  destruct d as [|[k1 v1] [|[k2 v2] [|[k3 v3] [|[k4 v4] [|[k5 v5] [|[k6 v6]
                 [|[k7 v7] d]]]]]]];
    try (destruct Hk as [Hk|Hk]; discriminate Hk).
  assert (Hkeys : k1 = "xul" /\ k2 = "yul" /\ k3 = "rotation" /\ k4 = "proj4_str"
                  /\ k5 = "units" /\ k6 = "lenuni" /\ k7 = "length_multiplier"
                  /\ (map fst d = [] \/ map fst d = ["start_datetime"])).
  { cbn [map fst] in Hk.
    destruct Hk as [Hk|Hk]; injection Hk as -> -> -> -> -> -> -> Hd; auto 10. }
  destruct Hkeys as (-> & -> & -> & -> & -> & -> & -> & Hd).
  cbn [forallb] in Ht.
  repeat (apply andb_prop in Ht as [?H Ht]).
  cbn in H, H0, H1, H2, H3, H4, H5.
  destruct (Hf v1 H) as [xu ->]. destruct (Hf v2 H0) as [yu ->].
  destruct v3 as [| | |rot| | | | | |]; try discriminate H1.
  destruct (Hs v4 H2) as [p ->]. destruct (Hs v5 H3) as [u ->].
  destruct v6 as [| |z| | | | | | |]; try discriminate H4.
  destruct (Hf v7 H5) as [lm ->].
  exists xu, yu, rot, p, u, z, lm.
  split; [|repeat split].
  destruct Hd as [Hd|Hd].
  - destruct d; [reflexivity | discriminate Hd].
  - destruct d as [|[k8 v8] [|? ?]]; try discriminate Hd.
    cbn [map fst] in Hd. injection Hd as ->. reflexivity.
Qed.

Lemma construct_header d s xu yu rot p u z lm :
  dict_del "start_datetime" d
  = [("xul", of_opt_float xu); ("yul", of_opt_float yu); ("rotation", PFloat rot);
     ("proj4_str", of_opt_str p); ("units", of_opt_str u); ("lenuni", PInt z);
     ("length_multiplier", of_opt_float lm)] ->
  construct (dict_del "start_datetime" d) s
  = __init__ (PSeq []) (PSeq []) z xu yu None None rot p None u lm s.
Proof.
  intros ->. unfold construct.
  cbn [keys map fst forallb existsb init_params String.eqb Ascii.eqb Bool.eqb
       orb andb negb].
  unfold kw, dict_get.
  cbn [find fst snd String.eqb Ascii.eqb Bool.eqb].
  rewrite !opt_float_of, !opt_str_of.
  cbn [opt_float]. rewrite !bind_lift_ok. reflexivity.
Qed.

Lemma no_spacings_degenerate : degenerate [] [] None None = true.
Proof.
  unfold degenerate, add_reduce. cbn [fold_left is_none is_some negb].
  now rewrite (proj2 (Reqb_true 0 0) eq_refl).
Qed.

Lemma header_dict_of_file path d l :
  attribs_from_namfile_header (Some path) = (Ok (Some d), l) -> header_dict d.
Proof.
  unfold attribs_from_namfile_header.
  destruct (open_file host path) as [lines|e]; [|discriminate].
  destruct (items_loop defaults (header_items lines)) as [[d1|e] l1] eqn:E;
    cbn; intros H; [|discriminate].
  injection H as <- _.
  exact (items_loop_keeps _ _ _ _ header_dict_defaults E).
Qed.

(** The run of [from_namfile] on a header that was read: the constructor on
    empty spacings, so its fallback to the origin. *)
Lemma from_namfile_run path d l s :
  attribs_from_namfile_header (Some path) = (Ok (Some d), l) ->
  exists xu yu rot p u z lmo,
    dict_get "xul" d = Some (of_opt_float xu) /\
    dict_get "yul" d = Some (of_opt_float yu) /\
    dict_get "rotation" d = Some (PFloat rot) /\
    ((exists e, value (from_namfile (Some path) s) = Raise e) \/
     (exists lm e,
        from_namfile (Some path) s
        = (Ok tt,
           set__epsg e
             (anchored None None (Some 0) (Some 0) lm
                (set_rotation rot
                   (set_origin_loc "ll" (pre_state [] [] z p None u lmo s)))),
           l ++ Print no_spacing_msg :: rotation_warnings rot))).
Proof.
  intros Hattr.
  destruct (header_dict_shape d (header_dict_of_file path d l Hattr))
    as (xu & yu & rot & p & u & z & lmo & Hd & Hx & Hy & Hr).
  exists xu, yu, rot, p, u, z, lmo. repeat (split; [assumption|]).
  unfold from_namfile. rewrite Hattr, (construct_header d s _ _ _ _ _ _ _ Hd).
  destruct (multiplier_total (pre_state [] [] z p None u lmo s) eq_refl)
    as [[lm Hlm]|[e He]].
  - right.
    destruct (init_fallback [] [] z xu yu None None rot p None u lmo s p lm
                eq_refl Hlm no_spacings_degenerate) as [e He].
    exists lm, e. now rewrite He.
  - left. exists e.
    pose proof (init_raises [] [] z xu yu None None rot p None u lmo s p e
                  eq_refl He (andb_false_r _) (andb_false_r _)) as H.
    destruct (__init__ (PSeq []) (PSeq []) z xu yu None None rot p None u lmo s)
      as [[r s'] l']. exact H.
Qed.

(** X25. A frame from a name file. Without a name file [from_namfile] raises
    [TypeError], and a file that cannot be opened raises its exception.
    Otherwise the constructor is called with the header's settings and no
    spacings, so when the call returns, the frame has no cells, the
    diagnostic of the fallback was printed, and the frame is anchored at the
    lower-left corner (0, 0) with its upper-left corner there too: whatever
    [xul] and [yul] the header gave are discarded. The rotation of the header
    is kept. *)
Theorem frame_of_name_file (path : string) (d : dict) (l : list event)
    (s : SpatialReference) :
  attribs_from_namfile_header (Some path) = (Ok (Some d), l) ->
  value (from_namfile (Some path) s) = Ok tt ->
  (forall t, exists msg,
     from_namfile None t = (Raise (TypeError msg), t, [])) /\
  (forall p e t, open_file host p = Raise e ->
     from_namfile (Some p) t = (Raise e, t, [])) /\
  delr (final (from_namfile (Some path) s)) = [] /\
  delc (final (from_namfile (Some path) s)) = [] /\
  origin_loc (final (from_namfile (Some path) s)) = "ll" /\
  xll (final (from_namfile (Some path) s)) = Some 0 /\
  yll (final (from_namfile (Some path) s)) = Some 0 /\
  xul (final (from_namfile (Some path) s)) = Some 0 /\
  yul (final (from_namfile (Some path) s)) = Some 0 /\
  dict_get "rotation" d
  = Some (PFloat (rotation (final (from_namfile (Some path) s)))) /\
  In (Print no_spacing_msg) (output (from_namfile (Some path) s)).
Proof.
  intros Hattr Hret.
  split; [intros t; eexists; reflexivity|].
  split.
  { intros p e t He. unfold from_namfile, attribs_from_namfile_header.
    now rewrite He. }
  destruct (from_namfile_run path d l s Hattr)
    as (xu & yu & rot & p & u & z & lmo & _ & _ & Hr & [[e He]|(lm & e & Hrun)]).
  { rewrite Hret in He. discriminate He. }
  rewrite Hrun, final_triple.
  match goal with
  | |- context [set__epsg e ?A] =>
      destruct (epsg_keeps e A) as (E1 & E2 & E3 & E4 & E5)
  end.
  rewrite E1, E2, E3, E4, E5.
  match goal with
  | |- context [anchored ?a ?b ?c ?dd lm ?S] =>
      destruct (anchored_ll_corner S a b c dd lm eq_refl) as (C1 & C2 & C3 & C4);
      destruct (anchored_keeps S a b c dd lm) as (_ & K2 & K3 & K4 & K5 & _)
  end.
  rewrite C1, C2, C3, C4.
  assert (Hdr : forall A, delr (set__epsg e A) = delr A) by reflexivity.
  assert (Hdc : forall A, delc (set__epsg e A) = delc A) by reflexivity.
  assert (Hrot : forall A, rotation (set__epsg e A) = rotation A) by reflexivity.
  rewrite Hdr, Hdc, Hrot, K2, K3, K4, K5.
  repeat split.
  - cbn. f_equal. unfold add_reduce. cbn. ring.
  - cbn. f_equal. unfold add_reduce. cbn. ring.
  - exact Hr.
  - cbn [output snd]. apply in_or_app. right. now left.
Qed.

(** ** The reference file *)

Lemma dict_get_set_same k v d : dict_get k (dict_set k v d) = Some v.
Proof.
  unfold dict_get. induction d as [|[k' v'] t IH]; cbn [dict_set find fst snd].
  - now rewrite String.eqb_refl.
  - destruct (String.eqb k' k) eqn:E; cbn [find fst snd].
    + now rewrite String.eqb_refl.
    + rewrite E. exact IH.
Qed.

Lemma dict_get_set_other k k' v d :
  k <> k' -> dict_get k (dict_set k' v d) = dict_get k d.
Proof.
  intros Hne. unfold dict_get.
  assert (Hk : String.eqb k' k = false).
  { apply String.eqb_neq. congruence. }
  induction d as [|[a b] t IH]; cbn [dict_set find fst snd].
  - now rewrite Hk.
  - destruct (String.eqb_spec a k') as [->|Ha]; cbn [find fst snd].
    + now rewrite Hk.
    + destruct (String.eqb a k); [reflexivity | exact IH].
Qed.

Lemma dict_get_filter (P : string * pyval -> bool) k d :
  (forall v, P (k, v) = true) -> dict_get k (filter P d) = dict_get k d.
Proof.
  intros HP. unfold dict_get.
  induction d as [|[a b] t IH]; [reflexivity|].
  cbn [filter find fst snd].
  destruct (String.eqb_spec a k) as [->|Ha].
  - rewrite HP. cbn [find fst snd]. now rewrite String.eqb_refl.
  - destruct (P (a, b)); cbn [find fst snd]; [|exact IH].
    destruct (String.eqb_spec a k) as [E|_]; [contradiction | exact IH].
Qed.

Lemma dict_get_del_other k k' d :
  k <> k' -> dict_get k (dict_del k' d) = dict_get k d.
Proof.
  intros Hne. unfold dict_del. apply dict_get_filter.
  intros v. cbn [fst]. apply negb_true_iff, String.eqb_neq, Hne.
Qed.

Lemma dict_get_filter_none (P : string * pyval -> bool) k d :
  dict_get k d = None -> dict_get k (filter P d) = None.
Proof.
  unfold dict_get. induction d as [|[a b] t IH]; [reflexivity|].
  cbn [filter find fst snd].
  destruct (String.eqb a k) eqn:E; [discriminate|].
  intros H. destruct (P (a, b)); cbn [find fst snd]; [rewrite E|]; exact (IH H).
Qed.

Lemma has_key_get k d : has_key k d = false <-> dict_get k d = None.
Proof.
  unfold has_key, dict_get.
  induction d as [|[a b] t IH]; [split; reflexivity|].
  cbn [existsb find fst snd]. destruct (String.eqb a k); cbn [orb]; [|exact IH].
  split; discriminate.
Qed.

Lemma keys_filter (P : string * pyval -> bool) k d :
  In k (keys (filter P d)) -> exists v, P (k, v) = true.
Proof.
  unfold keys. intros H. apply in_map_iff in H as ([a b] & <- & Hin).
  apply filter_In in Hin as [_ HP]. now exists b.
Qed.

(** A turn of the loop fails on a blank line only, and writes the key its
    line names only. *)
Lemma reference_line_blank d line :
  strip line = EmptyString -> reference_line d line = Raise IndexError.
Proof. intros H. unfold reference_line. now rewrite H. Qed.

Lemma reference_line_ok d line :
  strip line <> EmptyString -> exists d', reference_line d line = Ok d'.
Proof.
  intros H. unfold reference_line. destruct (strip line) as [|c t]; [congruence|].
  destruct (negb (Ascii.eqb c "#")); [|now exists d].
  destruct (split_ws _) as [|k [|w ws]]; eexists; reflexivity.
Qed.

Lemma reference_line_keeps d line d' k :
  reference_line d line = Ok d' -> names k line = false ->
  dict_get k d' = dict_get k d.
Proof.
  unfold reference_line, names. destruct (strip line) as [|c t]; [discriminate|].
  destruct (negb (Ascii.eqb c "#")).
  2:{ intros H _. now injection H as <-. }
  destruct (split_ws _) as [|k' [|w ws]]; intros H Hn; injection H as <-;
    try reflexivity.
  apply dict_get_set_other. intros ->. now rewrite String.eqb_refl in Hn.
Qed.

Lemma reference_lines_blank lines : forall d,
  Exists (fun line => strip line = EmptyString) lines ->
  reference_lines d lines = Raise IndexError.
Proof.
  induction lines as [|line rest IH]; intros d H; [inversion H|].
  cbn [reference_lines].
  destruct (string_dec (strip line) EmptyString) as [Hb|Hb].
  - now rewrite (reference_line_blank d line Hb).
  - destruct (reference_line_ok d line Hb) as [d' ->]. cbn [rbind].
    apply IH. inversion H; [contradiction | assumption].
Qed.

Lemma reference_lines_ok lines : forall d,
  Forall (fun line => strip line <> EmptyString) lines ->
  exists d', reference_lines d lines = Ok d'.
Proof.
  induction lines as [|line rest IH]; intros d H; [now exists d|].
  inversion H as [|? ? Hb Hrest]; subst.
  cbn [reference_lines]. destruct (reference_line_ok d line Hb) as [d' ->].
  cbn [rbind]. now apply IH.
Qed.

Lemma reference_lines_keeps k lines : forall d d',
  reference_lines d lines = Ok d' ->
  Forall (fun line => names k line = false) lines ->
  dict_get k d' = dict_get k d.
Proof.
  induction lines as [|line rest IH]; intros d d' H Hn.
  - now injection H as <-.
  - inversion Hn as [|? ? Hl Hrest]; subst. cbn [reference_lines] in H.
    destruct (reference_line d line) as [d1|e] eqn:E; [|discriminate].
    cbn [rbind] in H. rewrite (IH _ _ H Hrest).
    exact (reference_line_keeps _ _ _ _ E Hl).
Qed.

(** The steps after the loop: the keys each one leaves alone. *)
Lemma set_float_sets k d d' :
  set_float k d = Ok d' -> exists r, dict_get k d' = Some (PFloat r).
Proof.
  unfold set_float. destruct (dict_get k d) as [v|]; [|discriminate].
  destruct (float_value v) as [r|e]; [|discriminate]. cbn [rbind].
  intros H. injection H as <-. exists r. apply dict_get_set_same.
Qed.

Lemma set_float_keeps k k' d d' :
  set_float k' d = Ok d' -> k <> k' -> dict_get k d' = dict_get k d.
Proof.
  unfold set_float. destruct (dict_get k' d) as [v|]; [|discriminate].
  destruct (float_value v) as [r|e]; [|discriminate]. cbn [rbind].
  intros H Hne. injection H as <-. now apply dict_get_set_other.
Qed.

Lemma set_float_missing k d :
  dict_get k d = Some PNone -> exists msg, set_float k d = Raise (TypeError msg).
Proof. intros H. unfold set_float. rewrite H. eexists. reflexivity. Qed.

Lemma lenuni_of_units_keeps k d d' :
  lenuni_of_units d = Ok d' -> k <> "lenuni" -> dict_get k d' = dict_get k d.
Proof.
  unfold lenuni_of_units. intros H Hne.
  destruct (dict_get "length_units" d) as [[]|]; try discriminate H.
  - destruct (find _ lenuni_values); [|discriminate H].
    injection H as <-. now apply dict_get_set_other.
  - now injection H as <-.
Qed.

Lemma set_start_datetime_keeps k d d' :
  set_start_datetime d = Ok d' ->
  k <> "start_date" -> k <> "start_time" -> k <> "start_datetime" ->
  dict_get k d' = dict_get k d.
Proof.
  unfold set_start_datetime. intros H H1 H2 H3.
  destruct (dict_get "start_date" d) as [sd|]; [|now injection H as <-].
  cbv zeta in H.
  destruct (dict_get "start_time" (dict_del "start_date" d)) as [st|].
  - destruct sd; try discriminate H. destruct st; try discriminate H.
    injection H as <-.
    now rewrite dict_get_set_other, !dict_get_del_other.
  - injection H as <-. now rewrite dict_get_set_other, dict_get_del_other.
Qed.

Lemma set_crs_keeps k d d' :
  set_crs d = Returns d' -> k <> "epsg" -> k <> "proj4_str" ->
  dict_get k d' = dict_get k d.
Proof.
  unfold set_crs. intros H H1 H2. destruct (has_key "epsg" d).
  - destruct (dict_get "epsg" d) as [[]|]; try discriminate H.
    + injection H as <-. now apply dict_get_set_other.
    + destruct (int_of host s); [|discriminate H].
      injection H as <-. now apply dict_get_set_other.
  - destruct (has_key "proj4" d); [|now injection H as <-].
    destruct (dict_get "proj4" d); [|discriminate H].
    injection H as <-. now apply dict_get_set_other.
Qed.

Lemma set_crs_code d d' v :
  set_crs d = Returns d' -> dict_get "epsg" d' = Some v ->
  (exists z, v = PInt z) /\ dict_get "proj4_str" d' = dict_get "proj4_str" d.
Proof.
  unfold set_crs. intros H Hv. destruct (has_key "epsg" d) eqn:Hk.
  - destruct (dict_get "epsg" d) as [[]|]; try discriminate H.
    + injection H as <-. rewrite dict_get_set_same in Hv. injection Hv as <-.
      split; [now exists z | now apply dict_get_set_other].
    + destruct (int_of host s) as [z|]; [|discriminate H].
      injection H as <-. rewrite dict_get_set_same in Hv. injection Hv as <-.
      split; [now exists z | now apply dict_get_set_other].
  - apply has_key_get in Hk. exfalso.
    destruct (has_key "proj4" d).
    + destruct (dict_get "proj4" d); [|discriminate H].
      injection H as <-. rewrite dict_get_set_other in Hv by discriminate.
      congruence.
    + injection H as <-. congruence.
Qed.

Lemma dict_get_filter_out (P : string * pyval -> bool) k d :
  (forall v, P (k, v) = false) -> dict_get k (filter P d) = None.
Proof.
  intros HP. unfold dict_get.
  induction d as [|[a b] t IH]; [reflexivity|].
  cbn [filter]. destruct (P (a, b)) eqn:E; [|exact IH].
  cbn [find fst snd]. destruct (String.eqb_spec a k) as [->|Ha]; [|exact IH].
  rewrite HP in E. discriminate E.
Qed.

Lemma reference_line_names d line d' k :
  reference_line d line = Ok d' -> names k line = true ->
  exists t, dict_get k d' = Some (PStr t).
Proof.
  unfold reference_line, names. destruct (strip line) as [|c t]; [discriminate|].
  destruct (negb (Ascii.eqb c "#")) eqn:Ec.
  - destruct (split_ws _) as [|k' [|w ws]]; intros H Hn; try discriminate Hn.
    injection H as <-. apply String.eqb_eq in Hn as ->.
    eexists. apply dict_get_set_same.
  - apply negb_false_iff, Ascii.eqb_eq in Ec as ->.
    cbn [split_on Ascii.eqb Bool.eqb hd split_ws]. discriminate.
Qed.

Lemma reference_lines_text k lines : forall d d',
  reference_lines d lines = Ok d' ->
  (exists t, dict_get k d = Some (PStr t)) \/
  Exists (fun line => names k line = true) lines ->
  exists t, dict_get k d' = Some (PStr t).
Proof.
  induction lines as [|line rest IH]; intros d d' H Hk.
  - injection H as <-. destruct Hk as [Hk|Hk]; [exact Hk | inversion Hk].
  - cbn [reference_lines] in H.
    destruct (reference_line d line) as [d1|e] eqn:E; [|discriminate].
    cbn [rbind] in H. apply (IH _ _ H).
    destruct (names k line) eqn:En.
    + left. exact (reference_line_names _ _ _ _ E En).
    + rewrite (reference_line_keeps _ _ _ _ E En).
      destruct Hk as [Hk|Hk]; [now left|].
      inversion Hk as [? ? Hb|? ? Hb]; subst; [congruence | now right].
Qed.

(** The steps of the reader, one after the other. *)
Lemma reference_file_steps path d :
  read_usgs_model_reference_file path = Returns (Some d) ->
  exists lines d0 d1 d2 d3 d4 d5 d6,
    exists_file host path = true /\ open_file host path = Ok lines /\
    reference_lines (dict_del "proj4_str" defaults) lines = Ok d0 /\
    set_float "xul" d0 = Ok d1 /\ set_float "yul" d1 = Ok d2 /\
    set_float "rotation" d2 = Ok d3 /\ lenuni_of_units d3 = Ok d4 /\
    set_start_datetime d4 = Ok d5 /\ set_crs d5 = Returns d6 /\
    d = filter kept d6.
Proof.
  unfold read_usgs_model_reference_file. cbv zeta.
  destruct (exists_file host path); [|discriminate].
  destruct (open_file host path) as [lines|e]; [|discriminate].
  destruct (reference_lines _ lines) as [d0|e] eqn:E0; [|discriminate].
  cbn [rbind].
  destruct (set_float "xul" d0) as [d1|e] eqn:E1; [|discriminate]. cbn [rbind].
  destruct (set_float "yul" d1) as [d2|e] eqn:E2; [|discriminate]. cbn [rbind].
  destruct (set_float "rotation" d2) as [d3|e] eqn:E3; [|discriminate].
  cbn [rbind].
  destruct (lenuni_of_units d3) as [d4|e] eqn:E4; [|discriminate]. cbn [rbind].
  destruct (set_start_datetime d4) as [d5|e] eqn:E5; [|discriminate].
  destruct (set_crs d5) as [d6|e|m] eqn:E6; try discriminate.
  intros H. injection H as <-.
  exists lines, d0, d1, d2, d3, d4, d5, d6.
  repeat split; first [assumption | reflexivity].
Qed.

Lemma kept_key k :
  In k ("epsg" :: keys defaults) -> forall v, kept (k, v) = true.
Proof.
  intros H v. cbn in H.
  repeat (destruct H as [<-|H]; [reflexivity|]). contradiction.
Qed.

(** X26. What the reader of the reference file requires. A file that does
    not exist gives [None], and a file that cannot be opened raises. A file
    with a blank line, be it its last one, raises [IndexError]. A file
    without a blank line raises [TypeError] unless one of its lines gives
    [xul], and raises unless one gives [yul] too. *)
Theorem reference_file_required (path : string) (lines : list string) :
  exists_file host path = true -> open_file host path = Ok lines ->
  (forall p, exists_file host p = false ->
     read_usgs_model_reference_file p = Returns None) /\
  (forall p e, exists_file host p = true -> open_file host p = Raise e ->
     read_usgs_model_reference_file p = Raises e) /\
  (Exists (fun line => strip line = EmptyString) lines ->
   read_usgs_model_reference_file path = Raises IndexError) /\
  (Forall (fun line => strip line <> EmptyString) lines ->
   (Forall (fun line => names "xul" line = false) lines ->
    exists msg, read_usgs_model_reference_file path = Raises (TypeError msg)) /\
   (Forall (fun line => names "yul" line = false) lines ->
    exists e, read_usgs_model_reference_file path = Raises e)).
Proof.
  intros Hex Hopen. split; [|split; [|split]].
  - intros p Hp. unfold read_usgs_model_reference_file. now rewrite Hp.
  - intros p e Hp He. unfold read_usgs_model_reference_file. now rewrite Hp, He.
  - intros Hb. unfold read_usgs_model_reference_file. cbv zeta.
    now rewrite Hex, Hopen, (reference_lines_blank lines _ Hb).
  - intros Hnb.
    destruct (reference_lines_ok lines (dict_del "proj4_str" defaults) Hnb)
      as [d0 Hd0].
    unfold read_usgs_model_reference_file. cbv zeta.
    rewrite Hex, Hopen, Hd0. cbn [rbind]. split.
    + intros Hn.
      pose proof (reference_lines_keeps "xul" lines _ _ Hd0 Hn) as Hx.
      destruct (set_float_missing "xul" d0 Hx) as [msg ->].
      now exists msg.
    + intros Hn.
      pose proof (reference_lines_keeps "yul" lines _ _ Hd0 Hn) as Hy.
      destruct (set_float "xul" d0) as [d1|e] eqn:E1; [|now exists e].
      cbn [rbind].
      rewrite <- (set_float_keeps "yul" "xul" d0 d1 E1) in Hy by discriminate.
      destruct (set_float_missing "yul" d1 Hy) as [msg ->].
      eexists. reflexivity.
Qed.

(** X27. What the reader of the reference file returns. In the dictionary
    it returns, [xul], [yul] and [rotation] are floats and every key is one
    of the defaults or [epsg]; so the start date and time of the file are
    never returned. An EPSG code is returned as an integer, and then the
    [proj4] text of the file is not returned. A length multiplier given by
    the file stays the text the file has. *)
Theorem reference_file_result (path : string) (d : dict) :
  read_usgs_model_reference_file path = Returns (Some d) ->
  (exists x, dict_get "xul" d = Some (PFloat x)) /\
  (exists y, dict_get "yul" d = Some (PFloat y)) /\
  (exists r, dict_get "rotation" d = Some (PFloat r)) /\
  (forall k, In k (keys d) -> In (lower k) ("epsg" :: keys defaults)) /\
  dict_get "start_datetime" d = None /\
  (forall v, dict_get "epsg" d = Some v -> exists z, v = PInt z) /\
  (forall lines, open_file host path = Ok lines ->
     (dict_get "epsg" d <> None ->
      Forall (fun line => names "proj4_str" line = false) lines ->
      dict_get "proj4_str" d = None) /\
     (Exists (fun line => names "length_multiplier" line = true) lines ->
      exists t, dict_get "length_multiplier" d = Some (PStr t))).
Proof.
  intros H.
  destruct (reference_file_steps path d H)
    as (lines & d0 & d1 & d2 & d3 & d4 & d5 & d6 & Hex & Hopen & H0 & H1 & H2
        & H3 & H4 & H5 & H6 & ->).
  assert (Hlate : forall k, In k ("epsg" :: keys defaults) ->
            k <> "epsg" -> k <> "proj4_str" -> k <> "lenuni" ->
            dict_get k (filter kept d6) = dict_get k d3).
  { intros k Hk N1 N2 N3.
    rewrite (dict_get_filter kept k d6 (kept_key k Hk)).
    rewrite (set_crs_keeps k d5 d6 H6 N1 N2).
    rewrite (set_start_datetime_keeps k d4 d5 H5).
    - exact (lenuni_of_units_keeps k d3 d4 H4 N3).
    - intros ->. cbn in Hk. repeat (destruct Hk as [Hk|Hk]; [discriminate Hk|]).
      contradiction.
    - intros ->. cbn in Hk. repeat (destruct Hk as [Hk|Hk]; [discriminate Hk|]).
      contradiction.
    - intros ->. cbn in Hk. repeat (destruct Hk as [Hk|Hk]; [discriminate Hk|]).
      contradiction. }
  split; [|split; [|split; [|split; [|split; [|split]]]]].
  - rewrite Hlate; [|cbn; auto 12|discriminate..].
    rewrite (set_float_keeps "xul" "rotation" d2 d3 H3) by discriminate.
    rewrite (set_float_keeps "xul" "yul" d1 d2 H2) by discriminate.
    exact (set_float_sets "xul" d0 d1 H1).
  - rewrite Hlate; [|cbn; auto 12|discriminate..].
    rewrite (set_float_keeps "yul" "rotation" d2 d3 H3) by discriminate.
    exact (set_float_sets "yul" d1 d2 H2).
  - rewrite Hlate; [|cbn; auto 12|discriminate..].
    exact (set_float_sets "rotation" d2 d3 H3).
  - intros k Hk. destruct (keys_filter kept k d6 Hk) as [v Hv].
    unfold kept in Hv. cbn [fst] in Hv. apply orb_true_iff in Hv as [Hv|Hv].
    + right. apply existsb_exists in Hv as (x & Hx & Hv).
      apply String.eqb_eq in Hv. now rewrite Hv.
    + left. apply String.eqb_eq in Hv. now rewrite Hv.
  - apply dict_get_filter_out. reflexivity.
  - intros v Hv.
    rewrite (dict_get_filter kept "epsg" d6 (kept_key "epsg" (or_introl eq_refl)))
      in Hv.
    exact (proj1 (set_crs_code d5 d6 v H6 Hv)).
  - intros lines' Hopen'. rewrite Hopen in Hopen'. injection Hopen' as <-. split.
    + intros Hcode Hn.
      destruct (dict_get "epsg" (filter kept d6)) as [v|] eqn:Hv; [|congruence].
      rewrite (dict_get_filter kept "epsg" d6
                 (kept_key "epsg" (or_introl eq_refl))) in Hv.
      assert (Hp : In "proj4_str" ("epsg" :: keys defaults)) by (cbn; auto 12).
      rewrite (dict_get_filter kept "proj4_str" d6 (kept_key "proj4_str" Hp)).
      rewrite (proj2 (set_crs_code d5 d6 v H6 Hv)).
      rewrite (set_start_datetime_keeps _ d4 d5 H5) by discriminate.
      rewrite (lenuni_of_units_keeps _ d3 d4 H4) by discriminate.
      rewrite (set_float_keeps _ _ d2 d3 H3) by discriminate.
      rewrite (set_float_keeps _ _ d1 d2 H2) by discriminate.
      rewrite (set_float_keeps _ _ d0 d1 H1) by discriminate.
      now rewrite (reference_lines_keeps _ lines _ _ H0 Hn).
    + intros Hn. rewrite Hlate; [|cbn; auto 12|discriminate..].
      rewrite (set_float_keeps _ _ d2 d3 H3) by discriminate.
      rewrite (set_float_keeps _ _ d1 d2 H2) by discriminate.
      rewrite (set_float_keeps _ _ d0 d1 H1) by discriminate.
      exact (reference_lines_text _ lines _ _ H0 (or_intror Hn)).
Qed.

(** ** Loading, and grid specification files *)

(** X28. Where [load] takes its dictionary from. Without a name file it
    raises [TypeError], whatever the reference file. With a name file, the
    reference file next to it decides alone when it exists: its dictionary
    is returned without reading the header, so without a warning, and its
    blank line makes [load] raise [IndexError]. When the reference file does
    not exist, the result is the dictionary of the header, which always has
    the keys of the defaults, and the exceptions of the header reader
    propagate. *)
Theorem load_sources (nf reffile : string) :
  (forall r, exists msg, load None r = (Raises (TypeError msg), [])) /\
  (exists_file host (path_join host (dirname host nf) reffile) = true ->
   (forall lines,
      open_file host (path_join host (dirname host nf) reffile) = Ok lines ->
      Exists (fun line => strip line = EmptyString) lines ->
      load (Some nf) reffile = (Raises IndexError, [])) /\
   (forall d l, load (Some nf) reffile = (Returns d, l) ->
      l = [] /\
      read_usgs_model_reference_file (path_join host (dirname host nf) reffile)
      = Returns (Some d))) /\
  (exists_file host (path_join host (dirname host nf) reffile) = false ->
   (forall d l, load (Some nf) reffile = (Returns d, l) ->
      attribs_from_namfile_header (Some nf) = (Ok (Some d), l) /\
      header_dict d) /\
   (forall e l, attribs_from_namfile_header (Some nf) = (Raise e, l) ->
      load (Some nf) reffile = (Raises e, l))).
Proof.
  split; [intros r; eexists; reflexivity|]. split.
  - intros Hex. split.
    + intros lines Hopen Hb. unfold load, read_usgs_model_reference_file.
      cbv zeta. now rewrite Hex, Hopen, (reference_lines_blank lines _ Hb).
    + intros d l. unfold load.
      destruct (read_usgs_model_reference_file _) as [[d'|]|e|m] eqn:E.
      * intros H. injection H as <- <-. now split.
      * unfold read_usgs_model_reference_file in E. cbv zeta in E.
        rewrite Hex in E. destruct (open_file host _); [|discriminate E].
        destruct (rbind _ _); [|discriminate E].
        destruct (set_crs _); discriminate E.
      * discriminate.
      * discriminate.
  - intros Hex.
    assert (E : read_usgs_model_reference_file
                  (path_join host (dirname host nf) reffile)
                = Returns None).
    { unfold read_usgs_model_reference_file. now rewrite Hex. }
    unfold load. rewrite E. split.
    + intros d l H.
      destruct (attribs_from_namfile_header (Some nf)) as [[[d'|]|e] l'] eqn:Ea.
      * injection H as <- <-. split; [reflexivity|].
        exact (header_dict_of_file nf d' l' Ea).
      * exfalso. unfold attribs_from_namfile_header in Ea.
        destruct (open_file host nf); [|discriminate Ea].
        destruct (items_loop _ _) as [[]]; discriminate Ea.
      * discriminate H.
    + intros e l Ha. now rewrite Ha.
Qed.

Lemma read_spacings_eof fuel : forall n acc j f,
  (j < n)%Z -> Forall (fun line => strip line = EmptyString) f ->
  read_spacings fuel n acc j f = None.
Proof.
  induction fuel as [|fuel IH]; intros n acc j f Hj Hf; [reflexivity|].
  cbn [read_spacings]. rewrite (proj2 (Z.ltb_lt j n) Hj).
  assert (Hstep : forall line rest, strip line = EmptyString ->
            Forall (fun line => strip line = EmptyString) rest ->
            match spacing_tokens (split_ws (strip line)) with
            | Ok vs =>
                read_spacings fuel n (acc ++ vs) (j + Z.of_nat (length vs)) rest
            | Raise e => Some (Raise e)
            end = None).
  { intros line rest Hl Hrest. rewrite Hl. cbn [split_ws spacing_tokens].
    apply IH; [cbn [length Z.of_nat]; lia | exact Hrest]. }
  destruct f as [|line rest]; cbn [readline].
  - apply Hstep; [reflexivity | constructor].
  - inversion Hf; subst. now apply Hstep.
Qed.

Lemma read_spacings_grows fuel : forall n acc j f vs f',
  read_spacings fuel n acc j f = Some (Ok (vs, f')) ->
  j = Z.of_nat (length acc) ->
  (n <= Z.of_nat (length vs))%Z /\ exists more, vs = acc ++ more.
Proof.
  induction fuel as [|fuel IH]; intros n acc j f vs f' H Hj; [discriminate|].
  cbn [read_spacings] in H. destruct (j <? n)%Z eqn:E.
  - destruct (readline f) as [line f1].
    destruct (spacing_tokens (split_ws (strip line))) as [ws|e]; [|discriminate].
    apply IH in H as [Hn [more ->]].
    + split; [exact Hn|]. exists (ws ++ more). now rewrite app_assoc.
    + rewrite length_app, Nat2Z.inj_add. lia.
  - injection H as <- <-. apply Z.ltb_ge in E. split; [lia|].
    exists []. now rewrite app_nil_r.
Qed.

Lemma read_spacings_more fuel : forall fuel' n acc j f r,
  (fuel <= fuel')%nat -> read_spacings fuel n acc j f = Some r ->
  read_spacings fuel' n acc j f = Some r.
Proof.
  induction fuel as [|fuel IH]; intros fuel' n acc j f r Hle H; [discriminate|].
  destruct fuel' as [|fuel']; [lia|]. cbn [read_spacings] in *.
  destruct (j <? n)%Z; [|exact H]. destruct (readline f) as [line f1].
  destruct (spacing_tokens (split_ws (strip line))); [|exact H].
  apply (IH fuel'); [lia | exact H].
Qed.

Lemma read_spacings_line fuel n line f1 vs :
  (0 < n)%Z -> spacing_tokens (split_ws (strip line)) = Ok vs ->
  (n <= Z.of_nat (length vs))%Z ->
  read_spacings (S (S fuel)) n [] 0 (line :: f1) = Some (Ok (vs, f1)).
Proof.
  intros Hn Hv Hlen. cbn [read_spacings readline].
  rewrite (proj2 (Z.ltb_lt 0 n) Hn), Hv. cbn [app].
  now rewrite (proj2 (Z.ltb_ge (0 + Z.of_nat (length vs)) n)) by lia.
Qed.

Lemma anchored_frame e a b c d lm s :
  delr (set__epsg e (anchored a b c d lm s)) = delr s /\
  delc (set__epsg e (anchored a b c d lm s)) = delc s /\
  rotation (set__epsg e (anchored a b c d lm s)) = rotation s /\
  origin_loc (set__epsg e (anchored a b c d lm s)) = origin_loc s /\
  xul (set__epsg e (anchored a b c d lm s)) = xul (anchored a b c d lm s) /\
  yul (set__epsg e (anchored a b c d lm s)) = yul (anchored a b c d lm s) /\
  xll (set__epsg e (anchored a b c d lm s)) = xll (anchored a b c d lm s) /\
  yll (set__epsg e (anchored a b c d lm s)) = yll (anchored a b c d lm s).
Proof.
  destruct (anchored_keeps s a b c d lm) as (_ & K2 & K3 & K4 & K5 & _).
  destruct (epsg_keeps e (anchored a b c d lm s)) as (E1 & E2 & E3 & E4 & E5).
  assert (Hdr : forall A, delr (set__epsg e A) = delr A) by reflexivity.
  assert (Hdc : forall A, delc (set__epsg e A) = delc A) by reflexivity.
  assert (Hrot : forall A, rotation (set__epsg e A) = rotation A) by reflexivity.
  rewrite Hdr, Hdc, Hrot, E5, K2, K3, K4, K5. repeat split; assumption.
Qed.

(** The frame the constructor returns for an upper-left corner. *)
Lemma init_upper_left dr dc l x y rot s s' out :
  __init__ (PSeq dr) (PSeq dc) l (Some x) (Some y) None None rot None None None
           None s = (Ok tt, s', out) ->
  delr s' = dr /\ delc s' = dc /\ rotation s' = rot /\
  (add_reduce dr <> 0 -> add_reduce dc <> 0 ->
   origin_loc s' = "ul" /\ xul s' = Some x /\ yul s' = Some y) /\
  (add_reduce dr = 0 \/ add_reduce dc = 0 ->
   origin_loc s' = "ll" /\ xll s' = Some 0 /\ yll s' = Some 0).
Proof.
  intros H.
  destruct (multiplier_total (pre_state dr dc l None None None None s) eq_refl)
    as [[lm Hlm]|[e He]].
  2:{ pose proof (init_raises dr dc l (Some x) (Some y) None None rot None None
                    None None s None e eq_refl He eq_refl eq_refl) as Hr.
      rewrite H in Hr. discriminate Hr. }
  destruct (degenerate dr dc None None) eqn:D.
  - destruct (init_fallback dr dc l (Some x) (Some y) None None rot None None
                None None s None lm eq_refl Hlm D) as [e He].
    rewrite H in He. injection He as -> _.
    match goal with
    | |- context [anchored ?a ?b ?c ?dd lm ?S] =>
        destruct (anchored_ll_corner S a b c dd lm eq_refl) as (C1 & C2 & _);
        destruct (anchored_frame e a b c dd lm S)
          as (F1 & F2 & F3 & F4 & F5 & F6 & F7 & F8)
    end.
    rewrite F1, F2, F3, F4, F7, F8, C1, C2.
    split; [reflexivity|]. split; [reflexivity|]. split; [reflexivity|]. split.
    + intros Hr Hc. apply degenerate_iff in D as [[D|D] _]; contradiction.
    + intros _. repeat split.
  - destruct (init_regular dr dc l (Some x) (Some y) None None rot None None
                None None s None lm eq_refl Hlm D eq_refl eq_refl) as [e He].
    rewrite H in He. injection He as -> _.
    match goal with
    | |- context [anchored ?a ?b ?c ?dd lm ?S] =>
        destruct (anchored_ul_corner S a b c dd lm eq_refl) as (C1 & C2 & _);
        destruct (anchored_frame e a b c dd lm S)
          as (F1 & F2 & F3 & F4 & F5 & F6 & F7 & F8)
    end.
    rewrite F1, F2, F3, F4, F5, F6, C1, C2.
    split; [reflexivity|]. split; [reflexivity|]. split; [reflexivity|]. split.
    + intros _ _. repeat split.
    + intros Hz. exfalso.
      assert (D' : degenerate dr dc None None = true)
        by (apply degenerate_iff; split; [exact Hz | now left]).
      rewrite D in D'. discriminate D'.
Qed.

Lemma from_gridspec_run fuel path l s lines nrow ncol x y rot f :
  open_file host path = Ok lines ->
  gridspec_header lines = Ok (nrow, ncol, x, y, rot, f) ->
  from_gridspec fuel path l s
  = match read_spacings fuel ncol [] 0 f with
    | None => None
    | Some (Raise e) => Some (Raise e, s, [])
    | Some (Ok (delr', f')) =>
        match read_spacings fuel nrow [] 0 f' with
        | None => None
        | Some (Raise e) => Some (Raise e, s, [])
        | Some (Ok (delc', _)) =>
            Some (__init__ (PSeq delr') (PSeq delc') l (Some x) (Some y) None
                    None rot None None None None s)
        end
    end.
Proof.
  intros Hopen Hhdr. unfold from_gridspec. rewrite Hopen. cbn [rbind].
  rewrite Hhdr. reflexivity.
Qed.

(** X29. A frame from a grid specification file. The counts of the first
    line are not checked against the spacings: the loops read whole lines
    until they have the count or more, so the frame has at least [ncol]
    columns and [nrow] rows, and a line that holds more widths than [ncol]
    is taken whole. A file that ends before the count is reached never
    lets the call return, however many turns its loops are given. When the
    call returns, the rotation is the file's, and so is the upper-left
    corner unless the spacings of a direction sum to zero. *)
Theorem gridspec_frame (path : string) (l : Z) (s : SpatialReference)
    (lines f : list string) (nrow ncol : Z) (x y rot : R) :
  open_file host path = Ok lines ->
  gridspec_header lines = Ok (nrow, ncol, x, y, rot, f) ->
  ((0 < ncol)%Z -> Forall (fun line => strip line = EmptyString) f ->
   forall fuel, from_gridspec fuel path l s = None) /\
  (forall fuel dr f',
     read_spacings fuel ncol [] 0 f = Some (Ok (dr, f')) ->
     (0 < nrow)%Z -> Forall (fun line => strip line = EmptyString) f' ->
     forall fuel', from_gridspec fuel' path l s = None) /\
  (forall fuel fuel' r, (fuel <= fuel')%nat ->
     from_gridspec fuel path l s = Some r ->
     from_gridspec fuel' path l s = Some r) /\
  (forall fuel s' out,
     from_gridspec fuel path l s = Some (Ok tt, s', out) ->
     (ncol <= Z.of_nat (length (delr s')))%Z /\
     (nrow <= Z.of_nat (length (delc s')))%Z /\
     rotation s' = rot /\
     (add_reduce (delr s') <> 0 -> add_reduce (delc s') <> 0 ->
      origin_loc s' = "ul" /\ xul s' = Some x /\ yul s' = Some y) /\
     (forall line f1 vs,
        f = line :: f1 -> spacing_tokens (split_ws (strip line)) = Ok vs ->
        (0 < ncol <= Z.of_nat (length vs))%Z -> delr s' = vs)).
Proof.
  intros Hopen Hhdr.
  pose proof (fun fuel => from_gridspec_run fuel path l s lines nrow ncol x y rot
                            f Hopen Hhdr) as Hrun.
  split; [|split; [|split]].
  - intros Hn Hf fuel. rewrite Hrun.
    now rewrite (read_spacings_eof fuel ncol [] 0 f Hn Hf).
  - intros fuel dr f' Hr Hn Hf fuel'. rewrite Hrun.
    destruct (read_spacings fuel' ncol [] 0 f) as [r|] eqn:E; [|reflexivity].
    pose proof (read_spacings_more _ (Nat.max fuel fuel') _ _ _ _ _
                  (Nat.le_max_l fuel fuel') Hr) as H1.
    pose proof (read_spacings_more _ (Nat.max fuel fuel') _ _ _ _ _
                  (Nat.le_max_r fuel fuel') E) as H2.
    rewrite H1 in H2. injection H2 as <-.
    now rewrite (read_spacings_eof fuel' nrow [] 0 f' Hn Hf).
  - intros fuel fuel' r Hle. rewrite !Hrun.
    destruct (read_spacings fuel ncol [] 0 f) as [[[dr f']|e]|] eqn:E1;
      [| |discriminate].
    + rewrite (read_spacings_more _ fuel' _ _ _ _ _ Hle E1).
      destruct (read_spacings fuel nrow [] 0 f') as [[[dc f'']|e]|] eqn:E2;
        [| |discriminate].
      * now rewrite (read_spacings_more _ fuel' _ _ _ _ _ Hle E2).
      * now rewrite (read_spacings_more _ fuel' _ _ _ _ _ Hle E2).
    + now rewrite (read_spacings_more _ fuel' _ _ _ _ _ Hle E1).
  - intros fuel s' out. rewrite Hrun.
    destruct (read_spacings fuel ncol [] 0 f) as [[[dr f']|e]|] eqn:E1;
      [|discriminate..].
    destruct (read_spacings fuel nrow [] 0 f') as [[[dc f'']|e]|] eqn:E2;
      [|discriminate..].
    intros H. injection H as H.
    destruct (init_upper_left dr dc l x y rot s s' out H)
      as (-> & -> & Hrot & Hul & _).
    destruct (read_spacings_grows _ _ _ _ _ _ _ E1 eq_refl) as [L1 _].
    destruct (read_spacings_grows _ _ _ _ _ _ _ E2 eq_refl) as [L2 _].
    split; [exact L1|]. split; [exact L2|]. split; [exact Hrot|].
    split; [exact Hul|].
    intros line f1 vs -> Hv [Hn Hlen].
    pose proof (read_spacings_line fuel ncol line f1 vs Hn Hv Hlen) as H1.
    pose proof (read_spacings_more _ (Nat.max fuel (S (S fuel))) _ _ _ _ _
                  (Nat.le_max_l _ _) E1) as H2.
    pose proof (read_spacings_more _ (Nat.max fuel (S (S fuel))) _ _ _ _ _
                  (Nat.le_max_r _ _) H1) as H3.
    rewrite H2 in H3. now injection H3 as ->.
Qed.
End Frame.

(** ** Instances of the statements on the two-by-two grid *)

Lemma rotate_inverse_witness :
  exists x' y',
    rotate (scalar 3) (scalar 4) 30 1 2 = Ok (x', y') /\
    rotate x' y' (- 30) 1 2 = Ok (scalar 3, scalar 4).
Proof.
  exact (proj1 (rotate_inverse (scalar 3) (scalar 4) 30 1 2
                  eq_refl eq_refl eq_refl)).
Defined.

Lemma square_grid_positive rot :
  Forall (fun v => 0 < v) (delr (square_grid rot)) /\
  Forall (fun v => 0 < v) (delc (square_grid rot)).
Proof. split; repeat constructor; lra. Qed.

Lemma edges_and_centers_witness :
  nth 0 (get_xedge_array (square_grid 0)) 0
    < nth 0 (get_xcenter_array (square_grid 0)) 0
    < nth 1 (get_xedge_array (square_grid 0)) 0.
Proof.
  refine (proj2 (proj2 (proj1 (proj2
    (edges_and_centers (square_grid 0) _ _)) 0%nat _))).
  all: first [ apply (proj1 (square_grid_positive 0))
             | apply (proj2 (square_grid_positive 0))
             | repeat constructor ].
Defined.

Lemma length_multiplier_precedence_witness :
  value (length_multiplier no_pyproj no_code (square_grid 0)) = Ok (Some 1).
Proof.
  exact (proj1 (length_multiplier_precedence no_pyproj no_code (square_grid 0))
           1 eq_refl).
Defined.

Lemma transform_witness :
  exists x' y',
    value (transform no_pyproj no_code (scalar 5) (scalar 15) (square_grid 0))
    = Ok (x', y').
Proof.
  destruct (transform_scale_translate_rotate no_pyproj no_code (square_grid 0)
              (scalar 5) (scalar 15) 1 (or_introl eq_refl) eq_refl
              eq_refl eq_refl eq_refl)
    as (xo & yo & x' & y' & H & _).
  exists x', y'. exact H.
Defined.

Lemma anchor_consistency_witness :
  exists xu yu,
    value (transform no_pyproj no_code (scalar 0)
             (scalar (add_reduce (delc (square_grid 30))))
             (final (set_origin no_pyproj no_code (Some 0) (Some 20)
                       (Some 0) (Some 0) (square_grid 30))))
    = Ok (scalar xu, scalar yu).
Proof.
  destruct (anchor_consistency no_pyproj no_code (square_grid 30) 1
              (or_introl eq_refl) eq_refl)
    as (xu & yu & _ & _ & _ & H & _).
  exists xu, yu. exact H.
Defined.



Lemma nearest_cell_lookup_witness :
  exists r c,
    value (get_rc no_pyproj no_code 15 15 (square_grid 0)) = Ok (r, c).
Proof.
  destruct (nearest_cell_lookup no_pyproj no_code (square_grid 0) 1 15 15
              (or_introl eq_refl) eq_refl eq_refl
              (Nat.lt_0_succ 1) (Nat.lt_0_succ 1))
    as (xo & yo & r & c & H & _).
  exists r, c. exact H.
Defined.

Lemma square_centers rot :
  xcenter (square_grid rot) = [10 - 0.5 * 10; 10 + 10 - 0.5 * 10] /\
  ycenter (square_grid rot)
  = [0 + 10 + 10 - (10 - 0.5 * 10); 0 + 10 + 10 - (10 + 10 - 0.5 * 10)].
Proof. split; reflexivity. Qed.

Lemma square_lower_left_0 :
  xll (anchored (Some 0) (Some 20) (Some 0) (Some 0) 1 (square_grid 0)) = Some 0 /\
  yll (anchored (Some 0) (Some 20) (Some 0) (Some 0) 1 (square_grid 0)) = Some 0.
Proof.
  destruct (anchored_ul_corner (square_grid 0) (Some 0) (Some 20) (Some 0)
              (Some 0) 1 eq_refl) as (_ & _ & H1 & H2).
  rewrite H1, H2. unfold theta. cbn [rotation square_grid delc or_zero].
  replace (Ropp 0 * PI / 180) with 0 by lra. rewrite sin_0, cos_0.
  unfold add_reduce; cbn [fold_left]. split; f_equal; lra.
Qed.

Lemma square_lower_left_180 :
  xll (anchored (Some 0) (Some 20) (Some 0) (Some 0) 1 (square_grid 180)) = Some 0 /\
  yll (anchored (Some 0) (Some 20) (Some 0) (Some 0) 1 (square_grid 180)) = Some 40.
Proof.
  destruct (anchored_ul_corner (square_grid 180) (Some 0) (Some 20) (Some 0)
              (Some 0) 1 eq_refl) as (_ & _ & H1 & H2).
  rewrite H1, H2. unfold theta. cbn [rotation square_grid delc or_zero].
  replace (Ropp 180 * PI / 180) with (- PI) by lra.
  rewrite sin_neg, cos_neg, sin_PI, cos_PI.
  unfold add_reduce; cbn [fold_left]. split; f_equal; lra.
Qed.

Ltac two_cells :=
  cbv [ncol nrow square_grid delr delc Datatypes.length];
  split; [lia|]; split; intros [|[|j]] Hj; try lia;
  cbn [nth]; unfold Rabs;
  repeat match goal with |- context [Rcase_abs ?v] => destruct (Rcase_abs v) end;
  lra.

(** C3 as stated fails: the same query point on the same grid, anchor and
    multiplier is found in column 1 with rotation 0 and in column 0 with
    rotation 180, where the unrotated column centers 5 and 15 put the query
    x = 15 in column 1. *)
Lemma nearest_cell_counterexample :
  value (get_rc no_pyproj no_code 15 15 (square_grid 0)) = Ok (0%nat, 1%nat) /\
  value (get_rc no_pyproj no_code 15 15 (square_grid 180)) = Ok (0%nat, 0%nat) /\
  is_argmin (fun j => Rabs (nth j (xcenter (square_grid 180)) 0 - 15)) 2 1.
Proof.
  destruct (square_centers 0) as [Ex0 Ey0].
  destruct (square_centers 180) as [Ex1 Ey1].
  split; [|split].
  - destruct square_lower_left_0 as [Hx Hy].
    destruct (get_rc_run no_pyproj no_code (square_grid 0) 1 0 0 15 15
                eq_refl eq_refl Hx Hy (Nat.lt_0_succ 1) (Nat.lt_0_succ 1))
      as (r & c & e & Hrun & Hc & Hr).
    rewrite Hrun. unfold value; cbn [fst].
    apply (is_argmin_ext _ (fun j => Rabs (nth j (xcenter (square_grid 0)) 0 * 1 + 0 - 15)))
      in Hc.
    2:{ intros j _.
        now rewrite (proj1 (slices_unrotated (square_grid 0) 1 0 0 j eq_refl)). }
    apply (is_argmin_ext _ (fun i => Rabs (nth i (ycenter (square_grid 0)) 0 * 1 + 0 - 15)))
      in Hr.
    2:{ intros j _.
        now rewrite (proj2 (slices_unrotated (square_grid 0) 1 0 0 j eq_refl)). }
    rewrite Ex0 in Hc. rewrite Ey0 in Hr.
    assert (Ec : c = 1%nat).
    { apply (is_argmin_unique _ _ _ _ Hc). two_cells. }
    assert (Er : r = 0%nat).
    { apply (is_argmin_unique _ _ _ _ Hr). two_cells. }
    now subst.
  - destruct square_lower_left_180 as [Hx Hy].
    destruct (get_rc_run no_pyproj no_code (square_grid 180) 1 0 40 15 15
                eq_refl eq_refl Hx Hy (Nat.lt_0_succ 1) (Nat.lt_0_succ 1))
      as (r & c & e & Hrun & Hc & Hr).
    rewrite Hrun. unfold value; cbn [fst].
    apply (is_argmin_ext _ (fun j => Rabs (0 - nth j (xcenter (square_grid 180)) 0 * 1 - 15)))
      in Hc.
    2:{ intros j _.
        now rewrite (proj1 (slices_half_turn (square_grid 180) 1 0 40 j eq_refl)). }
    apply (is_argmin_ext _ (fun i => Rabs (40 - nth i (ycenter (square_grid 180)) 0 * 1 - 15)))
      in Hr.
    2:{ intros j _.
        now rewrite (proj2 (slices_half_turn (square_grid 180) 1 0 40 j eq_refl)). }
    rewrite Ex1 in Hc. rewrite Ey1 in Hr.
    assert (Ec : c = 0%nat).
    { apply (is_argmin_unique _ _ _ _ Hc). two_cells. }
    assert (Er : r = 0%nat).
    { apply (is_argmin_unique _ _ _ _ Hr). two_cells. }
    now subst.
  - rewrite Ex1. two_cells.
Qed.

Lemma ambiguous_anchor_witness :
  set_spatialreference no_registry no_pyproj no_code (Some 1) None (Some 2) None 0
    (square_grid 0)
  = (Raise (ValueError both_x_msg), square_grid 0, []).
Proof.
  exact (proj1 (ambiguous_anchor no_registry no_pyproj no_code (square_grid 0)
                  (Some 1) None (Some 2) None 0) eq_refl).
Defined.

Lemma empty_spacing_degenerate xl :
  degenerate [] [] xl None = true /\ degenerate [10] [] None None = true.
Proof.
  unfold degenerate, add_reduce. cbn [fold_left is_none is_some negb].
  rewrite (proj2 (Reqb_true 0 0) eq_refl), !orb_true_r. auto.
Qed.

(** C8 as stated fails: with no spacings the constructor accepts [xul] = 1
    together with [xll] = 2, because the fallback to the origin discards the
    corners before [set_spatialreference] checks them. *)
Lemma ambiguous_anchor_counterexample :
  value (__init__ no_registry no_pyproj no_code (PSeq []) (PSeq []) 2
           (Some 1) None (Some 2) None 0 None None None (Some 1) fresh)
  = Ok tt.
Proof.
  destruct (init_fallback no_registry no_pyproj no_code [] [] 2 (Some 1) None
              (Some 2) None 0 None None None (Some 1) fresh None 1
              eq_refl eq_refl (proj1 (empty_spacing_degenerate (Some 2))))
    as [e He].
  rewrite He. reflexivity.
Qed.

Lemma degenerate_fallback_witness :
  degenerate [10; 10] [10; 10] None None = true <->
  In (Print no_spacing_msg)
     (output (__init__ no_registry no_pyproj no_code (PSeq [10; 10])
                (PSeq [10; 10]) 2 (Some 0) (Some 20) None None 0 None None None
                (Some 1) fresh)).
Proof.
  exact (proj1 (proj2
    (degenerate_fallback no_registry no_pyproj no_code [10; 10] [10; 10] 2
       (Some 0) (Some 20) None None 0 None None None (Some 1) fresh None 1
       eq_refl eq_refl))).
Defined.

(** C5 as stated fails: the row spacings alone sum to zero, the column
    spacing does not, and still the constructor prints the diagnostic and
    discards the upper-left corner (5, 5) it was given. *)
Lemma degenerate_fallback_counterexample :
  add_reduce [10] <> 0 /\
  In (Print no_spacing_msg)
     (output (__init__ no_registry no_pyproj no_code (PSeq [10]) (PSeq []) 2
                (Some 5) (Some 5) None None 0 None None None (Some 1) fresh)) /\
  xul (final (__init__ no_registry no_pyproj no_code (PSeq [10]) (PSeq []) 2
                (Some 5) (Some 5) None None 0 None None None (Some 1) fresh))
  <> Some 5.
Proof.
  split.
  { unfold add_reduce; cbn [fold_left]. lra. }
  destruct (init_fallback no_registry no_pyproj no_code [10] [] 2 (Some 5)
              (Some 5) None None 0 None None None (Some 1) fresh None 1
              eq_refl eq_refl (proj2 (empty_spacing_degenerate None)))
    as [e He].
  rewrite He. split.
  - cbn [output snd]. now left.
  - rewrite final_triple.
    match goal with
    | |- context [set__epsg e ?A] =>
        destruct (epsg_keeps e A) as (E1 & _)
    end.
    rewrite E1. clear E1.
    match goal with
    | |- context [anchored ?a ?b ?c ?d 1 ?F] =>
        destruct (anchored_ll_corner F a b c d 1 eq_refl) as (_ & _ & H1 & _)
    end.
    rewrite H1, fallback_frame_delc.
    unfold add_reduce; cbn [fold_left or_zero].
    intros H. injection H as H. lra.
Qed.

(** ** Instances of the further statements *)

Lemma square_grid_nonnegative rot :
  Forall (fun v => 0 <= v) (delr (square_grid rot)) /\
  Forall (fun v => 0 <= v) (delc (square_grid rot)).
Proof. split; repeat constructor; lra. Qed.

Lemma rotate_compose_witness :
  exists x1 y1,
    rotate (scalar 3) (scalar 4) 30 1 2 = Ok (x1, y1) /\
    rotate x1 y1 60 1 2 = rotate (scalar 3) (scalar 4) (30 + 60) 1 2.
Proof.
  destruct (rotate_compose (scalar 3) (scalar 4) 30 60 1 2 eq_refl)
    as (x1 & y1 & H1 & H2 & _).
  exists x1, y1. split; assumption.
Defined.

Lemma rotate_isometry_witness :
  exists x1 y1,
    rotate (scalar 3) (scalar 4) 30 1 2 = Ok (x1, y1) /\
    (nth 0 (data x1) 0 - 1) ^ 2 + (nth 0 (data y1) 0 - 2) ^ 2
    = (3 - 1) ^ 2 + (4 - 2) ^ 2.
Proof.
  destruct (rotate_isometry (scalar 3) (scalar 4) 30 1 2 eq_refl eq_refl)
    as (x1 & y1 & H1 & _ & H2 & _).
  exists x1, y1. split; [exact H1|]. exact (H2 0%nat (Nat.lt_0_succ 0)).
Defined.

Lemma transform_similarity_witness :
  exists xo yo,
    value (transform no_pyproj no_code (scalar 0) (scalar 0) (square_grid 30))
    = Ok (scalar xo, scalar yo).
Proof.
  destruct (transform_similarity no_pyproj no_code (square_grid 30)
              (scalar 5) (scalar 15) 1 (or_introl eq_refl) eq_refl eq_refl eq_refl)
    as (x' & y' & xo & yo & _ & _ & _ & _ & H).
  exists xo, yo. exact H.
Defined.

Lemma edge_grid_nodes_witness :
  exists gx,
    value (xgrid no_pyproj no_code (square_grid 30)) = Ok (Some gx) /\
    shape gx = [3%nat; 3%nat].
Proof.
  destruct (edge_grid_nodes no_pyproj no_code (square_grid 30) 1
              (or_introl eq_refl) eq_refl eq_refl)
    as (xo & yo & gx & gy & H1 & _ & _ & _ & H2 & _).
  exists gx. split; [exact H1 | exact H2].
Defined.

Lemma center_grid_cells_witness :
  exists gx,
    value (xcentergrid no_pyproj no_code (square_grid 30)) = Ok (Some gx) /\
    shape gx = [2%nat; 2%nat].
Proof.
  destruct (center_grid_cells no_pyproj no_code (square_grid 30) 1
              (or_introl eq_refl) eq_refl eq_refl)
    as (xo & yo & gx & gy & H1 & _ & _ & _ & H2 & _).
  exists gx. split; [exact H1 | exact H2].
Defined.

Lemma grids_evict_each_other_witness :
  _xgrid (final (xcentergrid no_pyproj no_code
                   (final (xgrid no_pyproj no_code (square_grid 30))))) = None.
Proof.
  exact (proj1 (proj2 (proj2
    (grids_evict_each_other no_pyproj no_code (square_grid 30) 1
       (or_introl eq_refl) eq_refl)) eq_refl)).
Defined.

Lemma cell_ring_witness :
  exists xo yo,
    value (get_vertices no_pyproj no_code 1 0 (square_grid 30))
    = Ok (ring (square_grid 30) 1 xo yo 1 0).
Proof.
  destruct (cell_ring no_pyproj no_code (square_grid 30) 1 1 0
              (or_introl eq_refl) eq_refl eq_refl)
    as (xo & yo & _ & _ & H & _).
  exists xo, yo.
  exact (proj1 (H (Nat.lt_succ_diag_r 1) (Nat.lt_0_succ 1))).
Defined.


Lemma extent_holds_grid_witness :
  exists xmin xmax ymin ymax,
    value (get_extent no_pyproj no_code (square_grid 30))
    = Ok (xmin, xmax, ymin, ymax) /\ xmin <= xmax /\ ymin <= ymax.
Proof.
  destruct (extent_holds_grid no_pyproj no_code (square_grid 30) 1
              (or_introl eq_refl) eq_refl
              (proj1 (square_grid_nonnegative 30))
              (proj2 (square_grid_nonnegative 30)))
    as (xo & yo & xmin & xmax & ymin & ymax & H1 & _ & _ & _ & H2 & H3 & _).
  exists xmin, xmax, ymin, ymax. split; [exact H1|]. split; [exact H2 | exact H3].
Defined.

Lemma extent_unrotated_witness :
  exists xo yo,
    value (bounds no_pyproj no_code (square_grid 0))
    = Ok (xo, yo, xo + 1 * add_reduce (delr (square_grid 0)),
          yo + 1 * add_reduce (delc (square_grid 0))).
Proof.
  assert (H10 : 0 <= 1) by lra.
  assert (Hr : 0 <= add_reduce (delr (square_grid 0)))
    by (unfold add_reduce; cbn; lra).
  assert (Hc : 0 <= add_reduce (delc (square_grid 0)))
    by (unfold add_reduce; cbn; lra).
  destruct (extent_unrotated no_pyproj no_code (square_grid 0) 1
              (or_introl eq_refl) eq_refl eq_refl H10 Hr Hc)
    as (xo & yo & _ & _ & _ & H & _).
  exists xo, yo. exact H.
Defined.

Lemma grid_lines_witness :
  exists lines,
    value (get_grid_lines no_pyproj no_code (square_grid 30)) = Ok lines /\
    length lines = 6%nat.
Proof.
  destruct (grid_lines no_pyproj no_code (square_grid 30) 1
              (or_introl eq_refl) eq_refl)
    as (xo & yo & lines & H1 & _ & _ & H2 & _).
  exists lines. split; [exact H1 | exact H2].
Defined.

Lemma lookup_of_center_witness :
  exists xo yo,
    value (get_rc no_pyproj no_code (center_x (square_grid 0) 1 xo yo 1 0)
             (center_y (square_grid 0) 1 xo yo 1 0) (square_grid 0))
    = Ok (1%nat, 0%nat).
Proof.
  destruct (lookup_of_center no_pyproj no_code (square_grid 0) 1 1 0
              (or_introl eq_refl) eq_refl eq_refl eq_refl R1_neq_R0
              (proj1 (square_grid_positive 0)) (proj2 (square_grid_positive 0))
              (Nat.lt_succ_diag_r 1) (Nat.lt_0_succ 1))
    as (xo & yo & _ & _ & _ & _ & H).
  exists xo, yo. exact H.
Defined.

Lemma lookup_without_cells_witness :
  value (get_rc no_pyproj no_code 5 5 no_rows) = Raise IndexError.
Proof.
  exact (proj1 (lookup_without_cells no_pyproj no_code no_rows 1 5 5
                  (or_introl eq_refl) eq_refl eq_refl) eq_refl).
Defined.

Lemma lookup_of_sequences_witness :
  exists rs cs,
    value (get_rc_seq no_pyproj no_code [15; 5] [15; 5] (square_grid 0))
    = Ok (rs, cs) /\
    length rs = 2%nat.
Proof.
  destruct (proj1 (lookup_of_sequences no_pyproj no_code (square_grid 0) 1
                     (or_introl eq_refl) eq_refl eq_refl
                     (Nat.lt_0_succ 1) (Nat.lt_0_succ 1))
              [15; 5] [15; 5] (Nat.lt_0_succ 1) eq_refl)
    as (rs & cs & H1 & H2 & _).
  exists rs, cs. split; [exact H1 | exact H2].
Defined.

Lemma units_resolution_witness :
  value (units no_pyproj no_code (square_grid 0)) = Ok "meters".
Proof.
  exact (proj1 (proj2 (proj2 (proj2 (proj2
    (units_resolution no_pyproj no_code (square_grid 0))))) eq_refl eq_refl)
    eq_refl).
Defined.

Lemma five_is_no_unit_code : ~ In 5%Z [0; 1; 2; 3]%Z.
Proof. cbn. intros [H|[H|[H|[H|[]]]]]; discriminate. Qed.

Lemma unknown_lenuni_witness :
  value (length_multiplier no_pyproj no_code
           (set__length_multiplier None (set_lenuni 5 (square_grid 0))))
  = Raise KeyError.
Proof.
  exact (proj1 (proj2
    (proj1 (unknown_lenuni no_registry no_pyproj no_code 5 five_is_no_unit_code)
       (set__length_multiplier None (set_lenuni 5 (square_grid 0)))
       (scalar 0) (scalar 0) eq_refl eq_refl))).
Defined.

Lemma miles_not_supported : ~ In (lower "miles") ["feet"; "meters"].
Proof. cbn. intros [H|[H|[]]]; discriminate. Qed.

Lemma units_unchecked_witness :
  value (__init__ no_registry no_pyproj no_code (PSeq [10; 10]) (PSeq [10; 10]) 0
           (Some 0) (Some 20) None None 0 None None (Some "miles") None fresh)
  = Ok tt.
Proof.
  exact (proj1 (proj1
    (units_unchecked no_registry no_pyproj no_code "miles" miles_not_supported
       fresh [10; 10] [10; 10] (Some 0) (Some 20) None None 0 None None None
       eq_refl eq_refl eq_refl))).
Defined.

Lemma crs_assignment_witness :
  __setattr__ no_registry no_pyproj no_code "epsg" (PInt 4326) (square_grid 0)
  = (Raise IOError, set__units None (set__epsg (Some 4326%Z) (square_grid 0)), []).
Proof.
  exact (proj1 (proj2 (proj2
    (crs_assignment no_registry no_pyproj no_code (square_grid 0)))
    4326%Z IOError eq_refl)).
Defined.

Lemma square_grid_no_crs rot p :
  _proj4_str (square_grid rot) = Some p -> contains "epsg" (lower p) = false.
Proof. discriminate. Qed.

Lemma frames_equal_witness :
  verdict (__eq__ no_code
             (Some (set__length_multiplier (Some 2)
                      (set__units (Some "feet")
                         (set_lenuni 1 (set_delc [1] (set_delr [1] (square_grid 0)))))))
             (square_grid 0))
  = Ok true.
Proof.
  exact (proj2 (proj2 (proj2 (proj2
    (frames_equal no_code (square_grid 0) (square_grid 0))
    (square_grid_no_crs 0) (square_grid_no_crs 0))))
    [1] [1] 1%Z (Some "feet") (Some 2)).
Defined.

Lemma assignments_and_caches_witness :
  stale (final (__setattr__ no_registry no_pyproj no_code "xul" (PFloat 5)
                  (square_grid 0))).
Proof.
  apply (proj1 (assignments_and_caches no_registry no_pyproj no_code
                  (square_grid 0)) "xul" (PFloat 5)).
  - cbn. tauto.
  - reflexivity.
Defined.

Lemma spacing_must_be_sequence_witness :
  __init__ no_registry no_pyproj no_code (PFloat 10) (PSeq [10; 10]) 2
    None None None None 0 None None None None fresh
  = (Raise (TypeError spacing_msg), fresh, []).
Proof.
  exact (spacing_must_be_sequence no_registry no_pyproj no_code (PFloat 10)
           (PSeq [10; 10]) 2 None None None None 0 None None None None fresh
           (or_introl eq_refl)).
Defined.

Lemma twenty_is_not_zero : add_reduce [10; 10] <> 0.
Proof. unfold add_reduce. cbn. lra. Qed.

Lemma default_anchor_witness :
  yul (final (__init__ no_registry no_pyproj no_code (PSeq [10; 10])
                (PSeq [10; 10]) 2 None None None None 0 None None None (Some 1)
                fresh))
  = Some (add_reduce [10; 10]).
Proof.
  exact (proj1 (proj2 (proj2 (proj2
    (default_anchor no_registry no_pyproj no_code [10; 10] [10; 10] 2 0 None
       None None (Some 1) fresh None 1 eq_refl eq_refl
       twenty_is_not_zero twenty_is_not_zero))))).
Defined.

Lemma sample_header :
  attribs_from_namfile_header sample_host
    (Some "model.nam")
  = (Ok (Some [("xul", PFloat 100); ("yul", PFloat 200); ("rotation", PFloat 0);
               ("proj4_str", PNone); ("units", PNone); ("lenuni", PInt 2);
               ("length_multiplier", PNone)]), []).
Proof. reflexivity. Qed.

Lemma header_of_name_file_witness :
  header_dict
    [("xul", PFloat 100); ("yul", PFloat 200); ("rotation", PFloat 0);
     ("proj4_str", PNone); ("units", PNone); ("lenuni", PInt 2);
     ("length_multiplier", PNone)].
Proof.
  exact (proj2 (proj2 (proj2 (proj2
    (header_of_name_file sample_host "model.nam"
       [line "# xul:100; yul:200"; line "LIST 2 model.list"] eq_refl)))) _ _
    sample_header).
Defined.

Lemma sample_name_file_returns :
  value (from_namfile no_registry no_pyproj no_code sample_host
           (Some "model.nam") fresh) = Ok tt.
Proof.
  unfold from_namfile. rewrite sample_header.
  rewrite (construct_header no_registry no_pyproj no_code
             [("xul", PFloat 100); ("yul", PFloat 200); ("rotation", PFloat 0);
              ("proj4_str", PNone); ("units", PNone); ("lenuni", PInt 2);
              ("length_multiplier", PNone)]
             fresh (Some 100) (Some 200) 0 None None 2 None eq_refl).
  destruct (init_fallback no_registry no_pyproj no_code [] [] 2 (Some 100)
              (Some 200) None None 0 None None None None fresh None 1
              eq_refl eq_refl (no_spacings_degenerate)) as [e He].
  rewrite He. reflexivity.
Qed.

Lemma frame_of_name_file_witness :
  xul (final (from_namfile no_registry no_pyproj no_code sample_host
                (Some "model.nam") fresh)) = Some 0.
Proof.
  exact (proj1 (proj2 (proj2 (proj2 (proj2 (proj2 (proj2 (proj2
    (frame_of_name_file no_registry no_pyproj no_code sample_host "model.nam"
       _ [] fresh sample_header sample_name_file_returns))))))))).
Defined.

Lemma sample_blank_line :
  Exists (fun line => strip line = EmptyString)
    [line "xul 100"; line "yul 200"; nl].
Proof. right. right. left. reflexivity. Qed.

Lemma reference_file_required_witness :
  read_usgs_model_reference_file sample_host "blank.reference" = Raises IndexError.
Proof.
  exact (proj1 (proj2 (proj2
    (reference_file_required sample_host
       "blank.reference" [line "xul 100"; line "yul 200"; nl] eq_refl eq_refl)))
    sample_blank_line).
Defined.

Lemma sample_reference :
  read_usgs_model_reference_file sample_host "usgs.model.reference"
  = Returns (Some [("xul", PFloat 100); ("yul", PFloat 200);
                   ("rotation", PFloat 0); ("units", PNone); ("lenuni", PInt 2);
                   ("length_multiplier", PStr "10"); ("epsg", PInt 2)]).
Proof. reflexivity. Qed.

Lemma reference_file_result_witness :
  dict_get "start_datetime"
    [("xul", PFloat 100); ("yul", PFloat 200); ("rotation", PFloat 0);
     ("units", PNone); ("lenuni", PInt 2); ("length_multiplier", PStr "10");
     ("epsg", PInt 2)] = None.
Proof.
  exact (proj1 (proj2 (proj2 (proj2 (proj2
    (reference_file_result sample_host
       "usgs.model.reference" _ sample_reference)))))).
Defined.

Lemma load_sources_witness :
  load sample_host (Some "model.nam") "blank.reference"
  = (Raises IndexError, []).
Proof.
  exact (proj1 (proj1 (proj2
    (load_sources sample_host "model.nam" "blank.reference")) eq_refl)
    [line "xul 100"; line "yul 200"; nl] eq_refl
    sample_blank_line).
Defined.

Lemma gridspec_frame_witness :
  from_gridspec no_registry no_pyproj no_code sample_host 1000 "short.spc" 0
    fresh = None.
Proof.
  exact (proj1
    (gridspec_frame no_registry no_pyproj no_code sample_host "short.spc" 0
       fresh [line "2 2"; line "0 20 0"] [] 2 2 0 20 0
       eq_refl eq_refl) eq_refl (Forall_nil _) 1000%nat).
Defined.
